(* ===== verification/_CoqProject ===== *)
-Q . S2P
Prelude.v
Models.v
HaInterface.v
Crc.v
DifVif.v
Obis.v
Iec62056.v
Sml.v
SmlValues.v
IecMeters.v
Oms.v
Modbus.v
Config.v
Bridge.v
Inputs.v
Supervisor.v
Victron.v
VictronDetect.v
Api.v
Main.v
