(* ===== verification/Prelude.v ===== *)
(** * energy2mqtt: a verification development of the gateway

  The program (src/src) is a gateway that receives meter telegrams,
  decodes them into a uniform record ([MeteringData]) and hands the
  records to an MQTT bridge.  Its parts, and how they talk:

  - four decoders, each a pure function over bytes or text:
    OMS / wireless M-Bus (metering_oms: CRC block stripping in
    [utils::verifiy_crc], data-link and transport header parsing and
    AES mode 5 in [parse_oms_telegram], DIF/VIF records in
    [div_vif_parser::parse_payload]), SML (metering_sml/parser.rs, a
    TLV walker over a cursor), IEC 62056-21 (metering_62056, text
    lines) and the OBIS helpers they share (obis_utils);
  - a Modbus poller (metering_modbus) that keeps per-device tick
    counters, composes 16-bit registers, scales, maps values and
    evaluates template registers;
  - the dispatch bridge (mqtt/mod.rs): every worker sends a
    [Transmission] over one channel; the bridge publishes records,
    registers subscription callbacks and forwards inbound payloads to
    them in registration order;
  - the configuration holder (config/mod.rs) whose updates broadcast a
    [ConfigChange] that makes the Modbus supervisor abort and respawn
    its hub tasks;
  - the HTTP API (api/mod.rs), whose handlers read and update the
    holder, report the bridge's health and stream the changes over a
    websocket;
  - the Victron integration (metering_victron): one manager per enabled
    configuration, each connecting to the GX devices' own brokers,
    mapping their topics to JSON keys, detecting meters, batteries and
    the VE.Bus system once, then sending a reading every cycle;
  - [main] (main.rs), which starts all of these as tasks and aborts
    them all when one ends.

  Layout of the library (one file per component; _CoqProject lists
  them in dependency order):
  - [Prelude] (this file): the result type of fallible code, with
    Rust's panics as a separate outcome; bytes; number formatting as
    Rust's [format!] does it; hex encoding; the JSON value type; the
    hint database [e2m], the tactic [inv_ok] and the shared lemmas.
  - [Models]: [DeviceType], [DeviceProtocol], [DeviceStatus],
    [Device] with its operations, [TranmissionValueType], [MeteringData]
    and its setters (models/mod.rs, mqtt/mod.rs); [Uuid::new_v4()] and
    [Utc::now()] are arguments.
  - [Crc]: CRC-16/EN-13757 and [verifiy_crc], the per-block CRC check
    and stripping of OMS telegrams (metering_oms/utils.rs).  Theorems:
    the round trip with the sender's framing holds exactly for the body
    lengths [crc_frame_ok] accepts; an accepted telegram is a sequence
    of blocks with correct CRCs; the loop never runs out of fuel.
  - [DifVif]: the DIF handlers, the three VIF tables, the converters and
    [parse_payload] (metering_oms/div_vif_parser.rs).  Theorems: the
    loop refines a record-level reading [decode_records] (little-endian
    and BCD values, scaled by the VIF); DIF coverage; truncated records
    panic; the divergences of the tables (S6, unreachable
    [actuality_duration], type F/G dates, stub handlers).
  - [Obis]: obis_utils/mod.rs ([validate_obis_code],
    [normalize_obis_code], [extract_unit], the description tables) and
    the [&str] operations the text decoders use: [trim] over the UTF-8
    encodings of Unicode's White_Space characters, [split], [find],
    [rfind], [u8::from_str].  Theorems: every [A-B:C.D.E] of [u8]
    values is valid and its own normal form (property 1 of the
    specification); the F part and the unit are not checked.
  - [Iec62056]: the IEC 62056-21 decoder (metering_62056): [str::lines],
    the identification line with the panic of [content[..3]] at a byte
    that is not a character boundary (for strings that are valid UTF-8,
    [utf8_valid]), the OBIS data lines and the data-line loop of
    [parse_iec62056_telegram].  Theorems: the identification line
    exactly (manufacturer repeated in [identification] and [full_id]),
    data lines, scenario S2, nothing after [!] (a BCC) is read.
  - [Sml]: the SML parser (metering_sml/parser.rs) as functions of the
    [SmlParser] state in a state and error monad [M].  Theorems: every
    reader advances the cursor ([advances], proved compositionally with
    the hint database [sml_moves]), hence the message loop terminates;
    round trips of octet strings and integers; type-0 octet strings and
    unsigned values are never read; frames laid out as the
    specification describes are rejected.
  - [SmlValues]: the SML value processing (metering_sml/mod.rs,
    utils.rs, structs.rs, meter_definitions.rs): [handle_sml_message]
    and [process_get_list_response] with meter-type identification and
    field mapping, value formatting and scaling, the CRC-16/CCITT
    check, manufacturer detection and the meter tables.  [f64] is the
    type class [F64] ([decimal_f64] is an exact decimal instance for
    examples); the iteration order of the [HashMap] of meter
    definitions is a parameter, any permutation of the insertion
    order.  Theorems: every value is stored under its raw OBIS
    rendering (no field mapping applies), SML OBIS renderings are not
    valid OBIS codes, the checksum round trip, manufacturer detection
    reports only EMH or Unknown.
  - [Oms]: [parse_oms_telegram] (metering_oms/mod.rs) and the helpers
    of metering_oms/utils.rs; AES-128 is the type class [Aes128] and
    CBC without padding is written out on it, so the theorems hold for
    every block cipher.  Theorems: soundness of an accepted telegram
    (CRC, header, configured sensor, [2F 2F] plaintext under the
    specified IV), manufacturer round trip, filler removal, and the
    panics on long headers, short telegrams and bad keys.

  - [Modbus]: the Modbus poller (metering_modbus/mod.rs) and register
    loader (registers.rs).  [setup_hub] is the part of [start_thread]
    that derives the hub tick and each device's [waits_till_read];
    [tick_device]/[run_ticks] the hub loop for one device;
    [read_device_registers] one read on a network oracle ([Attempt],
    [RegResponse]: connection and per-register outcomes), with [f32]
    as the type class [F32] (laws [F32Laws]: small integers are exact
    and print with [.0]) and [evalexpr] as [ExprEval];
    [read_device_with_retry] the retry loop.  Theorems: the cadence
    (floor, where the specification says ceiling) and its zero-interval
    panic, the schedule invariant, Int32 composition, scenario S5
    (mappings compare with [1.0], so [1] never matches), the retry
    bound (four attempts), templates see only physical registers.

  Fuel.  [verifiy_crc] gets [length + 1] rounds and is proved never to
  run out; [parse_payload] gets [length + 1] rounds and is proved to
  give the same result with any larger bound; the message loop of
  [parse_sml_file] gets [length + 1] rounds and is proved never to run
  out (no reader below it reports [NoFuel], predicate [no_fuel_out])
  and to give the same result with any larger bound.  Every round
  consumes at least one byte.

  - [HaInterface]: the discovery-metadata builder
    (mqtt/ha_interface.rs): [HaComponent::new] and the specialised
    constructors, [HaDiscover::new], and their serde serialization as
    JSON values.  Theorems: the specialised constructors are
    [HaComponent::new] on fixed arguments; the schema of a component's
    JSON; ids are a normal form that merges names differing in case or
    space/underscore.
  - [Config]: the configuration holder (config/mod.rs): the sections
    with their serde defaults and [u16] ports, [load], [save] over a
    file-system model, [update_config], [get_copy],
    [get_config_or_panic!], and the tokio broadcast channel of
    [ConfigChange]s as the list of changes sent plus a cursor per
    receiver.  Theorems: update then read back; [get_copy] is typed by
    the name; loaded ports fit [u16]; [save] never persists (its [{:?}]
    paths carry quotes); a receiver lags exactly beyond 128 changes.
  - [Bridge]: the dispatch bridge (mqtt/mod.rs) and the command handler
    (mqtt/internal_commands.rs): [MqttManager::start_thread] one
    transmission at a time, the callback registry, the event loop, and
    the whole of bridge, mailboxes and command handler as a step
    relation [sys_step].  Theorems by rule induction over [star
    sys_step]: the registry invariant and the connection status stay
    as they start; registration order is dispatch order; a restart
    makes the command handler exit, and a second one panics the event
    loop.
  - [Inputs]: the input managers of the three decoders
    ([Iec62056Manager], [OmsManager], [SmlManager]::start_thread) as
    one record of operations [InputManager] (input topic, handler of
    one message) and one loop [input_run].  Theorems: every manager
    subscribes and then forwards, in order, the records of the
    messages before the first panic (proved once against the record);
    the IEC 62056-21 decoder never panics on ASCII text, so its manager
    forwards every telegram that parses.
  - [Supervisor]: the configuration-change loop of the Modbus
    [start_thread] (and the first wait of the Victron manager) as a
    step function [sup_step] over its phase, its receiver cursor and
    its hub tasks.  Theorems: from [Running], [2k] steps consume [k]
    pending changes and respawn exactly when one concerns [modbus]
    (a refinement of the loop by its effect); lag panics; only an
    [ADD] wakes the first wait; discovery and data topics agree.
  - [Api]: the HTTP API (api/mod.rs): every handler over the shared
    state, the hub handlers split into their read and write sections
    so that two requests can interleave, the websocket forwarder, and
    the route table with actix's method guards and path parameters.
    Theorems: [/health] is always 503; two interleaved hub additions
    lose one; [POST /api/v1/modbus] wakes the supervisor; the
    websocket forwards up to 128 pending changes and closes beyond.
  - [IecMeters]: the IEC 62056-21 meter definitions
    (metering_62056/meter_definitions.rs, structs.rs, and
    [get_meter_type_from_manufacturer] of utils.rs): the two OBIS
    tables as [gmap]s built by their [insert] calls, the lookups by
    manufacturer, the example telegrams and
    [extract_numeric_value] ([f64] parsing is [SmlValues.F64]).
    Theorems: the two lookups agree on every string; the example
    telegrams' protocol modes are the opposite of their comments.
  - [Victron]: metering_victron/mod.rs and utils.rs: [Topic],
    [VictronData] and its topic map ([HashMap] as [gmap]), the event
    loop of one connection ([victron_event]: publish and ConnAck), the
    [read_topic_*] polling, the data task's reading
    ([victron_reading], the [HashMap] iteration order a parameter) and
    [VictronManager] as a step function [vic_step] with its relation
    [vic_rel].  Theorems: the configuration read in [new] is never
    reloaded (an invariant by induction over [star vic_rel]); a serial
    publish sets the portal id; the reading loop equals a declarative
    reading under any iteration order; [read_topic] exactly.
  - [VictronDetect]: [run_initial_detection] (detect.rs) in a state
    and error monad [Det] over the topic map, the requests and the
    transmissions, with the sensor blocks as tables ([SensorSpec]) and
    the GX device as an oracle from topic to payload.  A [Det] action
    that cannot fail is [dsafe]; the hint database [det] and the tactic
    [dstep] step through the binds.  Theorems: a missing, empty or
    non-array Batteries answer panics; the VE.Bus block runs without an
    instance; a run of sensor blocks maps each topic under its json key,
    inserts each component, and sends exactly the subscriptions and
    [R/] read requests of its reads; battery SoC/SoH ids are fixed.
  - [Main]: the tasks of [main] (main.rs), the Victron managers (one
    per enabled entry, each on all entries: [k*k] connections), the
    dirty-save task, the uptime schedule
    (every 10 s) and the supervision loop.

  Bounds.  The configuration broadcast channel is created with
  capacity 100, which tokio rounds up to the next power of two: a
  receiver more than 128 changes behind gets [Err(Lagged)].  The
  theorems about the supervisor and the websocket take at most 128
  pending changes and prove the lag outcome beyond.

  Polling.  [read_topic_*] of the Victron utilities polls 501 times
  with 10 ms sleeps ([READ_POLLS], five seconds): the model takes the
  list of what each poll sees and proves the result is the first
  non-empty payload among the first 501, so no fuel is involved.

  Channels.  The tokio channels are bounded (capacity 10 or 100); a
  send to a full channel waits.  The mailboxes of [Bridge] are
  unbounded: receivers see the same sequence of messages, but the
  waiting of a sender is not modelled.

  Not modelled (see PROJECT.json): the MQTT network and the broker
  clients (requests are a log, their outcome an input; the GX device's
  answers are an oracle), timers (a sleep is a step), the device
  database (channel plumbing), the OMS security-mode structs that no
  code consults, static files and Swagger UI of the HTTP server, the
  YAML text format (a parameter of [load] and [save]), and JSON text
  (serde's parser is a parameter [parse_json]).  Rust's Unicode
  [to_uppercase] and [to_lowercase] are modelled on ASCII.

  Conventions.  A Rust [Vec<u8>] is a [list byte] ([Byte.byte] of the
  Standard Library, read as a number by [u8v]); [usize] indices are
  [nat]; fixed-width integers are [Z] with their wrap-around or their
  overflow panic written out.  Every fallible function returns a
  [res E A]: [ROk] for [Ok], [RErr] for the function's own error enum,
  [RPanic] for a Rust panic (index out of bounds, subtraction
  overflow, [todo!], failed [unwrap], a [&str] slice that is not at a
  character boundary, a division by zero, an explicit [panic!]).  Loops whose bound is not
  structural take a fuel argument; the only outcome that fuel can
  produce is [RPanic NoFuel], and each such loop has a theorem that the
  fuel chosen by its wrapper is enough. *)

From stdpp Require Export base list gmap strings.
From Stdlib Require Export ZArith Lia Strings.Byte Ascii String.

#[global] Open Scope Z_scope.

Create HintDb e2m discriminated.
Create Rewrite HintDb e2m_rw.

(** ** Results of fallible code *)

(** Why a Rust computation aborted.  [NoFuel] is not a Rust panic: it is
    what a fuelled loop returns when its fuel runs out, and the
    termination theorems of each component show it is unreachable. *)
Inductive panic_kind : Type :=
| IndexOutOfBounds
| SubtractOverflow
| Unimplemented
| UnwrapFailed
| ArithmeticOverflow
| LengthMismatch
| StrSliceBoundary
| DivideByZero
| ExplicitPanic
| NoFuel.

Inductive res (E A : Type) : Type :=
| ROk (a : A)
| RErr (e : E)
| RPanic (p : panic_kind).
Arguments ROk {E A} a.
Arguments RErr {E A} e.
Arguments RPanic {E A} p.

(** [?] on [Result]: the computation [c] comes first, so that its type
    is known when the continuation is elaborated. *)
Definition rbind {E A B} (c : res E A) (k : A -> res E B) : res E B :=
  match c with
  | ROk a => k a
  | RErr e => RErr e
  | RPanic p => RPanic p
  end.

Declare Scope res_scope.
Delimit Scope res_scope with res.
Notation "x <- c ;; k" := (rbind c (fun x => k))
  (at level 100, c at next level, right associativity) : res_scope.
Notation "' p <- c ;; k" := (rbind c (fun x => match x with p => k end))
  (at level 100, p pattern, c at next level, right associativity) : res_scope.
#[global] Open Scope res_scope.

(** The [?] operator on a [Result] whose error type is converted. *)
Definition res_map_err {E F A} (f : E -> F) (r : res E A) : res F A :=
  match r with
  | ROk a => ROk a
  | RErr e => RErr (f e)
  | RPanic p => RPanic p
  end.

Definition is_panic {E A} (r : res E A) : bool :=
  match r with RPanic _ => true | _ => false end.

Lemma res_bind_ok {E A B} (a : A) (k : A -> res E B) :
  rbind (ROk a) k = k a.
Proof. reflexivity. Qed.

Lemma res_bind_ok_inv {E A B} (r : res E A) (k : A -> res E B) (b : B) :
  rbind r k = ROk b -> exists a, r = ROk a /\ k a = ROk b.
Proof. destruct r; simpl; intros H; [eauto | discriminate | discriminate]. Qed.

Lemma res_bind_panic {E A B} (r : res E A) (k : A -> res E B) p :
  rbind r k = RPanic p -> r = RPanic p \/ exists a, r = ROk a /\ k a = RPanic p.
Proof. destruct r; simpl; intros H; [eauto | discriminate | injection H as ->; auto]. Qed.

#[export] Hint Rewrite @res_bind_ok : e2m_rw.

(** ** Bytes *)

Abbreviation byte := Byte.byte.

(** [b as u32] for a [u8]. *)
Definition u8v (b : byte) : Z := Z.of_N (Byte.to_N b).

(** [z as u8]: keeps the low eight bits. *)
Definition byte_of_Z (z : Z) : byte :=
  match Byte.of_N (Z.to_N (z mod 256)) with
  | Some b => b
  | None => Byte.x00
  end.

Definition bytes_of_Zs (l : list Z) : list byte := map byte_of_Z l.

Lemma u8v_range b : 0 <= u8v b < 256.
Proof.
  unfold u8v. pose proof (Byte.to_N_bounded b).
  split; [lia|]. apply N2Z.inj_le in H. simpl in H. lia.
Qed.

Lemma u8v_byte_of_Z z : u8v (byte_of_Z z) = z mod 256.
Proof.
  unfold byte_of_Z, u8v.
  assert (Hr : 0 <= z mod 256 < 256) by (apply Z.mod_pos_bound; lia).
  destruct (Byte.of_N (Z.to_N (z mod 256))) as [b|] eqn:E.
  - apply Byte.to_of_N in E. rewrite E. lia.
  - apply Byte.of_N_None_iff in E. lia.
Qed.

Lemma byte_of_Z_u8v b : byte_of_Z (u8v b) = b.
Proof. destruct b; reflexivity. Qed.

Lemma u8v_inj b1 b2 : u8v b1 = u8v b2 -> b1 = b2.
Proof. intros H. rewrite <- (byte_of_Z_u8v b1), <- (byte_of_Z_u8v b2), H. reflexivity. Qed.

#[export] Hint Resolve u8v_range : e2m.
#[export] Hint Rewrite u8v_byte_of_Z byte_of_Z_u8v : e2m_rw.

#[global] Instance byte_eq_dec : EqDecision byte := Byte.byte_eq_dec.

(** [v[i]]: indexing that panics out of range. *)
Definition at_idx {E} (l : list byte) (i : nat) : res E byte :=
  match l !! i with
  | Some b => ROk b
  | None => RPanic IndexOutOfBounds
  end.

(** [&v[a..]] and [&v[..b]]. *)
Definition slice_from {E} (l : list byte) (a : nat) : res E (list byte) :=
  if decide (a <= List.length l)%nat then ROk (drop a l) else RPanic IndexOutOfBounds.
Definition slice_to {E} (l : list byte) (b : nat) : res E (list byte) :=
  if decide (b <= List.length l)%nat then ROk (take b l) else RPanic IndexOutOfBounds.

(** [l[i]] for each index of [idxs], in order. *)
Fixpoint at_idxs {E} (l : list byte) (idxs : list nat) : res E (list byte) :=
  match idxs with
  | [] => ROk []
  | i :: idxs' => b <- at_idx l i ;; bs <- at_idxs l idxs' ;; ROk (b :: bs)
  end.


(** A computation that cannot fail, only panic, used where errors of
    another type are expected. *)
Definition res_never {E A} (c : res Empty_set A) : res E A :=
  match c with
  | ROk a => ROk a
  | RErr e => match e with end
  | RPanic p => RPanic p
  end.

(** [&l[a..b]], which panics unless [a <= b <= l.len()]. *)
Definition slice_range {E} (l : list byte) (a b : nat) : res E (list byte) :=
  if decide (a <= b <= List.length l)%nat then ROk (take (b - a) (drop a l)) else RPanic IndexOutOfBounds.

(** [a - b] on [usize], which panics on underflow. *)
Definition usize_sub {E} (a b : nat) : res E nat :=
  if decide (b <= a)%nat then ROk (a - b)%nat else RPanic SubtractOverflow.

Lemma at_idx_ok {E} (l : list byte) i b : l !! i = Some b -> @at_idx E l i = ROk b.
Proof. unfold at_idx. intros ->. reflexivity. Qed.


Lemma at_idx_Some {E} (l : list byte) i b : @at_idx E l i = ROk b -> l !! i = Some b.
Proof. unfold at_idx. destruct (l !! i); [intros [= ->]; done | discriminate]. Qed.

Lemma at_idxs_seq {E} (l : list byte) i n :
  (i + n <= List.length l)%nat -> @at_idxs E l (seq i n) = ROk (take n (drop i l)).
Proof.
  revert i. induction n as [|n IH]; intros i H; [done|].
  destruct (lookup_lt_is_Some_2 l i) as [b Hb]; [lia|].
  cbn [seq at_idxs]. rewrite (at_idx_ok _ _ _ Hb), res_bind_ok, IH by lia. simpl.
  rewrite (drop_S _ _ _ Hb). done.
Qed.

(** Reading a list through [drop]: the cursor lemmas of every parser. *)
Lemma drop_cons_inv {A} (l : list A) n x rest :
  drop n l = x :: rest -> l !! n = Some x /\ drop (S n) l = rest.
Proof.
  intros Hd. rewrite <- (Nat.add_0_r n), <- lookup_drop, Hd. split; [done|].
  rewrite Nat.add_0_r, <- Nat.add_1_r, <- drop_drop, Hd. done.
Qed.

Lemma drop_app_bound {A} (l pre rest : list A) n :
  (n <= List.length l)%nat -> drop n l = pre ++ rest -> (n + List.length pre <= List.length l)%nat /\
  take (List.length pre) (drop n l) = pre.
Proof.
  intros Hn Hd. split.
  - apply (f_equal List.length) in Hd. rewrite length_drop, length_app in Hd. lia.
  - rewrite Hd, take_app_length. done.
Qed.

(** [a * b] on [i64], which panics on overflow in a debug build. *)
Definition i64_mul {E} (a b : Z) : res E Z :=
  let p := a * b in
  if (-2^63 <=? p) && (p <? 2^63) then ROk p else RPanic ArithmeticOverflow.

(** ** Bit composition *)

(** An OR of a value below [2^n] with a value shifted by [n] is a sum:
    the lemma behind every little- and big-endian composition. *)
Lemma land_shiftl_low a c n :
  0 <= n -> 0 <= a < 2 ^ n -> Z.land a (Z.shiftl c n) = 0.
Proof.
  intros Hn Ha. apply Z.bits_inj_0. intros i. rewrite Z.land_spec.
  destruct (Z.lt_ge_cases i 0) as [Hi|Hi]; [now rewrite Z.testbit_neg_r|].
  destruct (Z.lt_ge_cases i n) as [Hl|Hl].
  - rewrite Z.shiftl_spec_low by lia. apply andb_false_r.
  - destruct (Z.eq_dec a 0) as [->|Ha0]; [now rewrite Z.bits_0|].
    assert (Z.log2 a < n) by (apply Z.log2_lt_pow2; lia).
    rewrite Z.bits_above_log2; [done|lia|lia].
Qed.

Lemma lor_shiftl_add a c n :
  0 <= n -> 0 <= a < 2 ^ n -> Z.lor a (Z.shiftl c n) = a + c * 2 ^ n.
Proof.
  intros Hn Ha. rewrite <- Z.shiftl_mul_pow2 by done.
  rewrite <- Z.add_lor_land, land_shiftl_low by done. lia.
Qed.

(** ** Number formatting as [format!] does it *)

Definition digit_char (upper : bool) (d : Z) : ascii :=
  if d <? 10 then ascii_of_nat (48 + Z.to_nat d)
  else ascii_of_nat ((if upper then 55 else 87) + Z.to_nat d)%nat.

(** Digits of [n] in base [base], least significant first.  The fuel
    [Z.to_nat (Z.log2 n)] is enough for every base of at least 2. *)
Fixpoint digits_rev (fuel : nat) (base n : Z) : list Z :=
  match fuel with
  | O => [n]
  | S f => if n <? base then [n] else n mod base :: digits_rev f base (n / base)
  end.

Definition radix_string (upper : bool) (base n : Z) : string :=
  string_of_list_ascii
    (map (digit_char upper) (rev (digits_rev (Z.to_nat (Z.log2 n)) base n))).

Definition pad_zero (w : nat) (s : string) : string :=
  String.append (string_of_list_ascii (repeat "0"%char (w - String.length s))) s.

(** [{}] on an unsigned integer, [{:0w}], [{:0wx}], [{:0wX}]. *)
Definition fmt_dec (n : Z) : string := radix_string false 10 n.
Definition fmt_dec_w (w : nat) (n : Z) : string := pad_zero w (fmt_dec n).
Definition fmt_hex (w : nat) (n : Z) : string := pad_zero w (radix_string false 16 n).
Definition fmt_HEX (w : nat) (n : Z) : string := pad_zero w (radix_string true 16 n).

(** [{}] on a signed integer. *)
Definition fmt_int (z : Z) : string :=
  if z <? 0 then String.append "-" (fmt_dec (- z)) else fmt_dec z.

(** [hex::encode] (lower case) and the [{:02X}] join of the OMS payload. *)
Definition hex_encode (l : list byte) : string :=
  String.concat "" (map (fun b => fmt_hex 2 (u8v b)) l).
Definition hex_encode_upper (l : list byte) : string :=
  String.concat "" (map (fun b => fmt_HEX 2 (u8v b)) l).

(** [hex::decode]: pairs of hex digits of either case. *)
Definition hex_val (c : ascii) : option Z :=
  let n := Z.of_nat (nat_of_ascii c) in
  if (48 <=? n) && (n <=? 57) then Some (n - 48)
  else if (97 <=? n) && (n <=? 102) then Some (n - 87)
  else if (65 <=? n) && (n <=? 70) then Some (n - 55)
  else None.

Fixpoint hex_decode_chars (cs : list ascii) : option (list byte) :=
  match cs with
  | [] => Some []
  | [_] => None
  | hi :: lo :: rest =>
      h ← hex_val hi; l ← hex_val lo; r ← hex_decode_chars rest;
      Some (byte_of_Z (16 * h + l) :: r)
  end.

Definition hex_decode (s : string) : option (list byte) :=
  hex_decode_chars (list_ascii_of_string s).

(** ** Strings ([append] is [simpl never]: these are its equations) *)

Lemma str_cons_app c s1 s2 : (String c s1 ++ s2)%string = String c (s1 ++ s2).
Proof. done. Qed.

Lemma str_nil_app s : (EmptyString ++ s)%string = s.
Proof. done. Qed.

Lemma str_lit_app c s : (String c EmptyString ++ s)%string = String c s.
Proof. done. Qed.

Lemma str_app_assoc (s1 s2 s3 : string) : ((s1 ++ s2) ++ s3 = s1 ++ s2 ++ s3)%string.
Proof. induction s1 as [|c s1 IH]; [done|]. exact (f_equal (String c) IH). Qed.

Lemma str_length_app (s1 s2 : string) : String.length (s1 ++ s2) = (String.length s1 + String.length s2)%nat.
Proof. induction s1 as [|c s1 IH]; [done|]. rewrite str_cons_app. cbn. rewrite IH. done. Qed.

Lemma substring_0_length s : substring 0 (String.length s) s = s.
Proof. induction s as [|c s IH]; [done|]. cbn. rewrite IH. done. Qed.

Lemma list_ascii_of_string_app s1 s2 :
  list_ascii_of_string (s1 ++ s2) = list_ascii_of_string s1 ++ list_ascii_of_string s2.
Proof. induction s1 as [|c s1 IH]; simpl; [done|]. rewrite IH. done. Qed.

Lemma str_app_nil s : (s ++ EmptyString)%string = s.
Proof. induction s as [|c s IH]; [done|]. rewrite str_cons_app, IH. done. Qed.

Lemma string_of_list_ascii_app l1 l2 :
  string_of_list_ascii (l1 ++ l2) = (string_of_list_ascii l1 ++ string_of_list_ascii l2)%string.
Proof. induction l1 as [|c l1 IH]; [done|]. cbn. rewrite IH. done. Qed.

(** A character map over a string distributes over [++]. *)
Lemma map_string_app (f : ascii -> ascii) s1 s2 :
  string_of_list_ascii (map f (list_ascii_of_string (s1 ++ s2))) =
  (string_of_list_ascii (map f (list_ascii_of_string s1)) ++
   string_of_list_ascii (map f (list_ascii_of_string s2)))%string.
Proof. rewrite list_ascii_of_string_app, map_app. apply string_of_list_ascii_app. Qed.

(** ** JSON values ([serde_json::Value]) *)

(** Numbers that serde keeps as integers are [JInt]; an [f64] is
    [JFloat m e], standing for the decimal m * 10^e (binary rounding of
    [f64] is not modelled). *)
Inductive json : Type :=
| JNull
| JBool (b : bool)
| JInt (z : Z)
| JFloat (m e : Z)
| JStr (s : string)
| JArr (l : list json)
| JObj (kv : list (string * json)).

(** A [serde_json::Map]: a finite map with string keys. *)
Abbreviation jmap := (gmap string json).

Definition jobj (m : jmap) : json := JObj (map_to_list m).

(** The value of the first binding of [k] in an association list:
    what [list_to_map] keeps ([foldr insert], the head inserted last). *)
Fixpoint assoc_lookup {A} (k : string) (l : list (string * A)) : option A :=
  match l with
  | [] => None
  | (k', v) :: rest => if String.eqb k k' then Some v else assoc_lookup k rest
  end.

Lemma lookup_list_to_map_assoc {A} (l : list (string * A)) k :
  (list_to_map l : gmap string A) !! k = assoc_lookup k l.
Proof.
  induction l as [|[k' v] l IH]; [done|]. cbn.
  destruct (String.eqb_spec k k') as [->|Hne].
  - apply lookup_insert_eq.
  - rewrite lookup_insert_ne by congruence. exact IH.
Qed.

Lemma assoc_lookup_app {A} k (l1 l2 : list (string * A)) :
  assoc_lookup k (l1 ++ l2) = match assoc_lookup k l1 with Some v => Some v | None => assoc_lookup k l2 end.
Proof. induction l1 as [|[k' v] l1 IH]; [done|]. cbn. destruct (String.eqb k k'); auto. Qed.

(** [Value::is_number]. *)
Definition json_is_number (v : json) : bool :=
  match v with JInt _ | JFloat _ _ => true | _ => false end.

(** ** Runs of a step relation and of a step function *)

Section Runs.

Context {St : Type}.

(** The reflexive-transitive closure of a step relation. *)
Inductive star (step : St -> St -> Prop) : St -> St -> Prop :=
| star_refl s : star step s s
| star_step s1 s2 s3 : step s1 s2 -> star step s2 s3 -> star step s1 s3.

(** A property every step preserves holds in every state reachable from
    a state that has it. *)
Lemma star_invariant (step : St -> St -> Prop) (I : St -> Prop) :
  (forall s s', I s -> step s s' -> I s') -> forall s s', star step s s' -> I s -> I s'.
Proof. intros Hpres s s' Hst. induction Hst; eauto. Qed.

Lemma star_snoc (step : St -> St -> Prop) s1 s2 s3 : star step s1 s2 -> step s2 s3 -> star step s1 s3.
Proof. induction 1; eauto using star. Qed.

(** [n] applications of a partial step function. *)
Fixpoint iter_opt (n : nat) (f : St -> option St) (s : St) : option St :=
  match n with
  | O => Some s
  | S n' => match f s with Some s' => iter_opt n' f s' | None => None end
  end.

End Runs.

(** ** Tactics shared by the components *)

(** Unfold a bind on a known result and keep going. *)
Ltac res_step :=
  repeat match goal with
  | |- context [rbind (ROk ?a) ?k] => rewrite (res_bind_ok a k)
  | H : context [rbind (ROk ?a) ?k] |- _ => rewrite (res_bind_ok a k) in H
  end.

(** Take apart a successful result [H : c = ROk v]: every bind gives
    its intermediate value and equation, every test its branch, the
    failing branches are discharged. *)
Ltac inv_ok H :=
  repeat (cbv beta zeta in H; match type of H with
  | rbind ?r ?k = ROk _ =>
      let a := fresh "a" in let Ha := fresh "Ha" in apply res_bind_ok_inv in H as (a & Ha & H)
  | (if decide _ then _ else _) = ROk _ => case_decide; try discriminate H
  | (if ?b then _ else _) = ROk _ => let Hb := fresh "Hb" in destruct b eqn:Hb; try discriminate H
  | (match ?x with _ => _ end) = ROk _ => let Hx := fresh "Hx" in destruct x eqn:Hx; try discriminate H
  end).

(** Case on every [decide] and boolean test in the goal. *)
Ltac case_tests :=
  repeat first [ case_decide | case_match ]; try lia; try done.
