(* ===== verification/Models.v ===== *)
(** The uniform record every decoder produces ([MeteringData],
    mqtt/mod.rs) and the enumerations of models/mod.rs, with their
    string renderings: [to_string]/[from_str] and the [Debug] name that
    the bridge puts into topic names. *)

From S2P Require Import Prelude.

Module Models.

(** models/mod.rs: [enum DeviceType]. *)
Inductive DeviceType : Type :=
| Sensor | Actuator | Gateway | Controller | ModbusTcp | ModbusRtu | ModbusRtuOverTcp.

Definition DeviceType_from_str (s : string) : option DeviceType :=
  match s with
  | "Sensor" => Some Sensor
  | "Actuator" => Some Actuator
  | "Gateway" => Some Gateway
  | "Controller" => Some Controller
  | "ModbusTcp" => Some ModbusTcp
  | "ModbusRtu" => Some ModbusRtu
  | "ModbusRtuOverTcp" => Some ModbusRtu
  | _ => None
  end%string.

Definition DeviceType_to_string (t : DeviceType) : string :=
  match t with
  | Sensor => "Sensor"
  | Actuator => "Actuator"
  | Gateway => "Gateway"
  | Controller => "Controller"
  | ModbusTcp => "ModbusTcp"
  | ModbusRtu => "ModbusRtu"
  | ModbusRtuOverTcp => "ModbusRtuOverTcp"
  end%string.

(** models/mod.rs: [enum DeviceProtocol]. *)
Inductive DeviceProtocol : Type :=
| Unknown | ModbusTCP | ModbusRTU | OMS | MBUS | LoRaWAN | NBIoT
| Tibber | IEC62056 | SML | Victron | KNX.

#[global] Instance DeviceProtocol_eq_dec : EqDecision DeviceProtocol.
Proof. solve_decision. Defined.

Definition DeviceProtocol_from_str (s : string) : option DeviceProtocol :=
  match s with
  | "Modbus TCP" => Some ModbusTCP
  | "Modbus RTU" => Some ModbusRTU
  | "OMS" => Some OMS
  | "M-Bus" => Some MBUS
  | "LoRaWAN" => Some LoRaWAN
  | "NBIoT" => Some NBIoT
  | "Tibber" => Some Tibber
  | "IEC 62056-21" => Some IEC62056
  | "SML" => Some SML
  | "Victron" => Some Victron
  | "KNX" => Some KNX
  | _ => Some Unknown
  end%string.

Definition DeviceProtocol_to_string (p : DeviceProtocol) : string :=
  match p with
  | ModbusTCP => "Modbus TCP"
  | ModbusRTU => "Modbus RTU"
  | OMS => "OMS"
  | MBUS => "M-Bus"
  | LoRaWAN => "LoRaWAN"
  | NBIoT => "NBIoT"
  | Unknown => "Unknown"
  | Tibber => "Tibber"
  | IEC62056 => "IEC 62056-21"
  | SML => "SML"
  | Victron => "Victron"
  | KNX => "KNX"
  end%string.

(** [format!("{:?}", p)]: the derived [Debug] name, used in the topic
    [energy2mqtt/devs/<protocol>/<meter>] and in discovery records. *)
Definition DeviceProtocol_debug (p : DeviceProtocol) : string :=
  match p with
  | Unknown => "Unknown" | ModbusTCP => "ModbusTCP" | ModbusRTU => "ModbusRTU"
  | OMS => "OMS" | MBUS => "MBUS" | LoRaWAN => "LoRaWAN" | NBIoT => "NBIoT"
  | Tibber => "Tibber" | IEC62056 => "IEC62056" | SML => "SML"
  | Victron => "Victron" | KNX => "KNX"
  end%string.

(** mqtt/mod.rs: [enum TranmissionValueType]. *)
Inductive TranmissionValueType : Type := Now | Daily | Hourly | Monthly | KeyValue.

(** mqtt/mod.rs: [struct MeteringData]. *)
Record MeteringData : Type := mkMeteringData {
  id : string;
  meter_name : string;
  tenant : string;
  protocol : DeviceProtocol;
  transmission_time : Z;
  transmission_type : TranmissionValueType;
  metered_time : Z;
  metered_values : jmap
}.

(** [MeteringData::new]. *)
Definition MeteringData_new : MeteringData := {|
  id := ""; tenant := ""; meter_name := ""; protocol := Unknown;
  transmission_time := 0; transmission_type := Now; metered_time := 0;
  metered_values := ∅
|}.

Definition set_meter_name (n : string) (m : MeteringData) : MeteringData :=
  {| id := id m; meter_name := n; tenant := tenant m; protocol := protocol m;
     transmission_time := transmission_time m; transmission_type := transmission_type m;
     metered_time := metered_time m; metered_values := metered_values m |}.
Definition set_protocol (p : DeviceProtocol) (m : MeteringData) : MeteringData :=
  {| id := id m; meter_name := meter_name m; tenant := tenant m; protocol := p;
     transmission_time := transmission_time m; transmission_type := transmission_type m;
     metered_time := metered_time m; metered_values := metered_values m |}.
Definition set_values (v : jmap) (m : MeteringData) : MeteringData :=
  {| id := id m; meter_name := meter_name m; tenant := tenant m; protocol := protocol m;
     transmission_time := transmission_time m; transmission_type := transmission_type m;
     metered_time := metered_time m; metered_values := v |}.

(** The record invariant of the data model: a meter's own time is never
    later than the transmission time. *)
Definition times_ok (m : MeteringData) : Prop := metered_time m <= transmission_time m.

(** models/mod.rs: [enum DeviceStatus]. *)
Inductive DeviceStatus : Type := Online | Offline | Maintenance | StatusUnknown.

#[global] Instance DeviceStatus_eq_dec : EqDecision DeviceStatus.
Proof. solve_decision. Defined.

Definition DeviceStatus_from_str (s : string) : option DeviceStatus :=
  match s with
  | "Online" => Some Online
  | "Offline" => Some Offline
  | "Maintenance" => Some Maintenance
  | "Unknown" => Some StatusUnknown
  | _ => None
  end%string.

Definition DeviceStatus_to_string (st : DeviceStatus) : string :=
  match st with
  | Online => "Online"
  | Offline => "Offline"
  | Maintenance => "Maintenance"
  | StatusUnknown => "Unknown"
  end%string.

(** models/mod.rs: [struct Device]; [last_seen] is a time stamp in
    seconds and [parameters] the [HashMap]. *)
Record Device : Type := mkDevice {
  dev_id : string;
  dev_name : string;
  device_type : DeviceType;
  status : DeviceStatus;
  device_protocol : string;
  last_seen : Z;
  parameters : gmap string string
}.

(** [Device::new]: [uuid] is [Uuid::new_v4()] and [now] is [Utc::now()]. *)
Definition Device_new (uuid : string) (now : Z) (name : string) (device_type : DeviceType)
    (protcol : string) : Device :=
  {| dev_id := uuid; dev_name := name; device_type := device_type; status := Offline;
     device_protocol := protcol; last_seen := now; parameters := ∅ |}.

(** [Device::update_status]: the time is refreshed only when the new
    status is [Online]. *)
Definition update_status (now : Z) (st : DeviceStatus) (d : Device) : Device :=
  {| dev_id := dev_id d; dev_name := dev_name d; device_type := device_type d; status := st;
     device_protocol := device_protocol d;
     last_seen := if decide (st = Online) then now else last_seen d;
     parameters := parameters d |}.

Definition set_parameter (key value : string) (d : Device) : Device :=
  {| dev_id := dev_id d; dev_name := dev_name d; device_type := device_type d; status := status d;
     device_protocol := device_protocol d; last_seen := last_seen d;
     parameters := <[key := value]> (parameters d) |}.

Definition get_parameter (key : string) (d : Device) : option string := parameters d !! key.

(** ** Properties *)

(** [from_str] inverts [to_string] for every protocol,
    [Unknown] included (it is the fallback of [from_str]). *)
Theorem DeviceProtocol_from_to_string (p : DeviceProtocol) :
  DeviceProtocol_from_str (DeviceProtocol_to_string p) = Some p.
Proof. destruct p; reflexivity. Qed.

(** [from_str] of [DeviceType] maps the name of [ModbusRtuOverTcp] to
    [ModbusRtu]: the round trip fails exactly there. *)
Theorem DeviceType_roundtrip_fails_rtu_over_tcp :
  DeviceType_from_str (DeviceType_to_string ModbusRtuOverTcp) = Some ModbusRtu /\
  forall t, t <> ModbusRtuOverTcp -> DeviceType_from_str (DeviceType_to_string t) = Some t.
Proof. split; [reflexivity|]. intros [] H; try reflexivity. congruence. Qed.

(** The [Debug] names are pairwise distinct, so the per-protocol topics
    never collide. *)
Lemma DeviceProtocol_debug_inj p q :
  DeviceProtocol_debug p = DeviceProtocol_debug q -> p = q.
Proof. destruct p, q; simpl; congruence. Qed.

(** A fresh record has equal times, so it satisfies the invariant, and
    the setters used by the decoders keep it. *)
Lemma MeteringData_new_times_ok : times_ok MeteringData_new.
Proof. unfold times_ok; simpl; lia. Qed.

Lemma setters_keep_times m n p v :
  times_ok m ->
  times_ok (set_meter_name n m) /\ times_ok (set_protocol p m) /\ times_ok (set_values v m).
Proof. unfold times_ok; simpl; tauto. Qed.

(** [from_str] and [to_string] of [DeviceStatus] are inverse. *)
Lemma DeviceStatus_roundtrip st s :
  DeviceStatus_from_str (DeviceStatus_to_string st) = Some st /\
  (DeviceStatus_from_str s = Some st -> DeviceStatus_to_string st = s).
Proof.
  split; [by destruct st|]. unfold DeviceStatus_from_str.
  repeat (case_match; try done); intros; simplify_eq; done.
Qed.

(** A device's [last_seen] never decreases when the clock does not go
    back, and it is the time of the last [Online] update; parameters
    are a map. *)
Lemma update_status_last_seen now st d :
  last_seen d <= now ->
  status (update_status now st d) = st /\
  last_seen d <= last_seen (update_status now st d) /\
  (st = Online -> last_seen (update_status now st d) = now).
Proof. intros H. cbn. case_decide; split_and!; (done || lia). Qed.

Lemma get_set_parameter k k' v d :
  get_parameter k' (set_parameter k v d) = if String.eqb k k' then Some v else get_parameter k' d.
Proof.
  unfold get_parameter, set_parameter. cbn [parameters].
  destruct (String.eqb_spec k k') as [->|Hne]; by simplify_map_eq.
Qed.

End Models.
