(* ===== verification/HaInterface.v ===== *)
(** The discovery-metadata builder (mqtt/ha_interface.rs): the
    presentation descriptor [HaComponent] of one value and its
    constructors, the device record [HaDiscover], and what
    [serde_json::to_value] makes of a component (fields skipped by
    [is_none_str] and [Option::is_none]).  Ids are lowercased with
    [str::to_lowercase], written here for ASCII letters (the only
    characters the configured names of the specification use). *)

From S2P Require Import Prelude.

Module HaInterface.

(** ** String helpers *)

Definition ascii_lower (c : ascii) : ascii :=
  let n := nat_of_ascii c in
  if (65 <=? n)%nat && (n <=? 90)%nat then ascii_of_nat (n + 32) else c.

(** [str::to_lowercase]. *)
Definition to_lowercase (s : string) : string :=
  string_of_list_ascii (map ascii_lower (list_ascii_of_string s)).

(** [str::replace] with a one-character pattern: every occurrence of
    [from] becomes [to]. *)
Definition replace_char (from to : ascii) (s : string) : string :=
  string_of_list_ascii
    (map (fun c => if ascii_dec c from then to else c) (list_ascii_of_string s)).

(** [name.replace(" ", "_")]. *)
Definition safe_name (name : string) : string := replace_char " " "_" name.

(** [format!("{{{{ value_json.{key} }}}}")]. *)
Definition value_template_of (key : string) : string :=
  ("{{ value_json." ++ key ++ " }}")%string.

(** [format!("e2m_{proto}_{device}_{safe_name}").to_lowercase()]. *)
Definition unique_id_of (proto device name : string) : string :=
  to_lowercase ("e2m_" ++ proto ++ "_" ++ device ++ "_" ++ safe_name name).

(** [format!("{device}_{safe_name}").to_lowercase()]. *)
Definition object_id_of (device name : string) : string :=
  to_lowercase (device ++ "_" ++ safe_name name).

(** ** Records *)

Record HaDevice : Type := mkHaDevice {
  ids : string; dev_name : string; manufacturer : string; model : string
}.

Record HaOrigin : Type := mkHaOrigin {
  origin_name : string; sw_version : string; support_url : string
}.

(** [is_none_str]: the serializer skips an empty or ["NONE"] string. *)
Definition is_none_str (value : string) : bool :=
  String.eqb value "" || String.eqb value "NONE".

Inductive HAPlatform : Type := Sensor | BinarySensor | Button.

#[global] Instance HAPlatform_eq_dec : EqDecision HAPlatform.
Proof. solve_decision. Defined.

Definition HAPlatform_to_string (p : HAPlatform) : string :=
  match p with
  | Sensor => "sensor"
  | BinarySensor => "binary_sensor"
  | Button => "button"
  end.

Record HaComponent : Type := mkHaComponent {
  p : string;
  name : string;
  device_class : string;
  unit_of_measurement : string;
  value_template : string;
  unique_id : string;
  object_id : string;
  via_device : string;
  state_class : string;
  payload_on : option bool;
  payload_off : option bool;
  payload_press : option string
}.

(** [HaComponent::new]: binary sensors get [payload_on]/[payload_off],
    the device class ["restart"] gets [payload_press]. *)
Definition HaComponent_new (platform : HAPlatform) (device dclass uof proto name state_class : string)
    : HaComponent :=
  let p_off := if decide (platform = BinarySensor) then Some false else None in
  let p_on := if decide (platform = BinarySensor) then Some true else None in
  let p_press := if String.eqb dclass "restart" then Some "restart"%string else None in
  {| p := HAPlatform_to_string platform;
     name := name;
     device_class := dclass;
     unit_of_measurement := uof;
     value_template := value_template_of name;
     unique_id := unique_id_of proto device name;
     object_id := object_id_of device name;
     state_class := state_class;
     payload_on := p_on;
     payload_off := p_off;
     payload_press := p_press;
     via_device := "e2m_management" |}.

(** The shape shared by [new_energy], [new_freq], [new_current],
    [new_power], [new_voltage] and [new_percent]: a sensor whose value
    template names [json_key]. *)
Definition sensor_component (device dclass uof state_class proto name json_key : string)
    : HaComponent :=
  {| p := "sensor";
     name := name;
     device_class := dclass;
     unit_of_measurement := uof;
     value_template := value_template_of json_key;
     unique_id := unique_id_of proto device name;
     object_id := object_id_of device name;
     state_class := state_class;
     payload_on := None;
     payload_off := None;
     payload_press := None;
     via_device := "e2m_management" |}.

Definition new_energy (device uof proto name json_key : string) : HaComponent :=
  sensor_component device "energy" uof "total_increasing" proto name json_key.
Definition new_freq (device proto name json_key : string) : HaComponent :=
  sensor_component device "frequency" "Hz" "measurement" proto name json_key.
Definition new_current (device proto name json_key : string) : HaComponent :=
  sensor_component device "current" "A" "measurement" proto name json_key.
Definition new_power (device proto name json_key : string) : HaComponent :=
  sensor_component device "power" "W" "measurement" proto name json_key.
Definition new_voltage (device proto name json_key : string) : HaComponent :=
  sensor_component device "voltage" "V" "measurement" proto name json_key.
Definition new_percent (device dclass proto name json_key : string) : HaComponent :=
  sensor_component device dclass "%" "measurement" proto name json_key.

Definition set_via (via : string) (c : HaComponent) : HaComponent :=
  {| p := p c; name := name c; device_class := device_class c;
     unit_of_measurement := unit_of_measurement c; value_template := value_template c;
     unique_id := unique_id c; object_id := object_id c; state_class := state_class c;
     payload_on := payload_on c; payload_off := payload_off c; payload_press := payload_press c;
     via_device := via |}.

Definition new_full_sensor (name device_class unit json_key object_id unique_id : string) : HaComponent :=
  {| p := "sensor";
     name := name;
     device_class := device_class;
     unit_of_measurement := unit;
     value_template := value_template_of json_key;
     unique_id := unique_id;
     object_id := object_id;
     state_class := "measurement";
     payload_on := None;
     payload_off := None;
     payload_press := None;
     via_device := "e2m_management" |}.

(** [serde_json::to_value(cmp)]: the derived [Serialize] in field order,
    the [skip_serializing_if] fields left out, collected into a
    [serde_json::Map]. *)
Definition HaComponent_fields (c : HaComponent) : list (string * json) :=
  [("p", JStr (p c)); ("name", JStr (name c))] ++
  (if is_none_str (device_class c) then [] else [("device_class", JStr (device_class c))]) ++
  (if is_none_str (unit_of_measurement c) then []
   else [("unit_of_measurement", JStr (unit_of_measurement c))]) ++
  [("value_template", JStr (value_template c)); ("unique_id", JStr (unique_id c));
   ("object_id", JStr (object_id c)); ("via_device", JStr (via_device c))] ++
  (if is_none_str (state_class c) then [] else [("state_class", JStr (state_class c))]) ++
  (match payload_on c with Some b => [("payload_on", JBool b)] | None => [] end) ++
  (match payload_off c with Some b => [("payload_off", JBool b)] | None => [] end) ++
  (match payload_press c with Some s => [("payload_press", JStr s)] | None => [] end).

Definition HaComponent_to_value (c : HaComponent) : jmap :=
  list_to_map (HaComponent_fields c).

Record HaDiscover : Type := mkHaDiscover {
  dev : HaDevice;
  o : HaOrigin;
  cmps : jmap;
  state_topic : string;
  qos : Z;
  discover_topic : string
}.

Definition e2m_origin : HaOrigin :=
  {| origin_name := "energy2mqtt"; sw_version := "0.1.1"; support_url := "https://energy2mqtt.org" |}.

(** [HaDiscover::new_with_topic_from_name]: the state topic names
    [topic]; [HaDiscover::new] is the case [topic = name]. *)
Definition new_with_topic_from_name (name manu model proto topic : string) : HaDiscover :=
  {| discover_topic := "homeassistant/device/e2m_" ++ proto ++ "-" ++ name ++ "/config";
     dev := {| ids := "e2m_" ++ proto ++ "_" ++ name; dev_name := name;
               manufacturer := manu; model := model |};
     o := e2m_origin;
     cmps := ∅;
     state_topic := "energy2mqtt/devs/" ++ proto ++ "/" ++ topic;
     qos := 2 |}%string.

Definition HaDiscover_new (name manu model proto : string) : HaDiscover :=
  new_with_topic_from_name name manu model proto name.

Definition get_dev_id (d : HaDiscover) : string := ids (dev d).

(** [discover.cmps.insert(key, value)]. *)
Definition insert_cmp (key : string) (v : json) (d : HaDiscover) : HaDiscover :=
  {| dev := dev d; o := o d; cmps := <[key := v]> (cmps d); state_topic := state_topic d;
     qos := qos d; discover_topic := discover_topic d |}.

(** [serde_json::to_string(&disc)] as a value: [discover_topic] is
    [skip_serializing]. *)
Definition HaDiscover_to_value (d : HaDiscover) : json :=
  JObj [("dev", JObj [("ids", JStr (ids (dev d))); ("name", JStr (dev_name (dev d)));
                      ("manufacturer", JStr (manufacturer (dev d))); ("model", JStr (model (dev d)))]);
        ("o", JObj [("name", JStr (origin_name (o d))); ("sw_version", JStr (sw_version (o d)));
                    ("support_url", JStr (support_url (o d)))]);
        ("cmps", jobj (cmps d));
        ("state_topic", JStr (state_topic d));
        ("qos", JInt (qos d))].

(** ** Lemmas *)

Lemma to_lowercase_app s1 s2 :
  to_lowercase (s1 ++ s2) = (to_lowercase s1 ++ to_lowercase s2)%string.
Proof. apply map_string_app. Qed.

Lemma ascii_lower_idem c : ascii_lower (ascii_lower c) = ascii_lower c.
Proof. destruct c as [[] [] [] [] [] [] [] []]; vm_compute; reflexivity. Qed.

(** Lowering does not touch the space, so it commutes with [safe_name]. *)
Lemma ascii_lower_safe c :
  ascii_lower (if ascii_dec (ascii_lower c) " " then "_"%char else ascii_lower c) =
  ascii_lower (if ascii_dec c " " then "_"%char else c).
Proof. destruct c as [[] [] [] [] [] [] [] []]; vm_compute; reflexivity. Qed.

Lemma to_lowercase_safe_name n :
  to_lowercase (safe_name (to_lowercase n)) = to_lowercase (safe_name n).
Proof.
  unfold to_lowercase, safe_name, replace_char.
  rewrite !list_ascii_of_string_of_list_ascii, !map_map.
  f_equal. apply map_ext, ascii_lower_safe.
Qed.

Lemma safe_name_idem n : safe_name (safe_name n) = safe_name n.
Proof.
  unfold safe_name, replace_char. rewrite list_ascii_of_string_of_list_ascii, map_map.
  f_equal. apply map_ext. intros c. repeat destruct ascii_dec; congruence.
Qed.

(** The component fields are looked up in the order they are listed. *)
Lemma HaComponent_to_value_lookup c k :
  HaComponent_to_value c !! k = assoc_lookup k (HaComponent_fields c).
Proof. apply lookup_list_to_map_assoc. Qed.

#[export] Hint Rewrite to_lowercase_app : e2m_rw.

(** ** Properties *)

(** The specialised constructors [new_energy], [new_freq],
    [new_current], [new_power] and [new_voltage] build the same
    component as [HaComponent::new] with the platform [Sensor], their
    fixed class, unit and state class, when the JSON key is the name;
    [new_percent] does so exactly when its class is not ["restart"]
    (the generic constructor then adds [payload_press]). *)
Theorem specialised_constructors_generic device uof proto name dclass :
  new_energy device uof proto name name =
    HaComponent_new Sensor device "energy" uof proto name "total_increasing" /\
  new_freq device proto name name = HaComponent_new Sensor device "frequency" "Hz" proto name "measurement" /\
  new_current device proto name name = HaComponent_new Sensor device "current" "A" proto name "measurement" /\
  new_power device proto name name = HaComponent_new Sensor device "power" "W" proto name "measurement" /\
  new_voltage device proto name name = HaComponent_new Sensor device "voltage" "V" proto name "measurement" /\
  (new_percent device dclass proto name name = HaComponent_new Sensor device dclass "%" proto name "measurement"
   <-> dclass <> "restart"%string).
Proof.
  repeat split; try reflexivity.
  - intros Heq ->. apply (f_equal payload_press) in Heq. cbv in Heq. discriminate Heq.
  - intros Hne. unfold new_percent, HaComponent_new, sensor_component.
    apply String.eqb_neq in Hne. rewrite Hne. reflexivity.
Qed.

(** The value [serde_json::to_value] makes of a component built by
    [HaComponent::new] has the schema of a discovery component: the
    platform name under [p], the name, the value template naming the
    value's key, the ids and [via_device]; [device_class] and
    [unit_of_measurement] exactly when they are not empty or ["NONE"];
    [payload_on]/[payload_off] exactly for binary sensors and
    [payload_press] exactly for the class ["restart"]. *)
Theorem HaComponent_new_schema platform device dclass uof proto nm sc :
  let v := HaComponent_to_value (HaComponent_new platform device dclass uof proto nm sc) in
  v !! "p" = Some (JStr (HAPlatform_to_string platform)) /\
  v !! "name" = Some (JStr nm) /\
  v !! "value_template" = Some (JStr (value_template_of nm)) /\
  v !! "unique_id" = Some (JStr (unique_id_of proto device nm)) /\
  v !! "via_device" = Some (JStr "e2m_management") /\
  v !! "device_class" = (if is_none_str dclass then None else Some (JStr dclass)) /\
  v !! "unit_of_measurement" = (if is_none_str uof then None else Some (JStr uof)) /\
  v !! "payload_on" = (if decide (platform = BinarySensor) then Some (JBool true) else None) /\
  v !! "payload_off" = (if decide (platform = BinarySensor) then Some (JBool false) else None) /\
  v !! "payload_press" = (if String.eqb dclass "restart" then Some (JStr "restart") else None).
Proof.
  cbv zeta. rewrite !HaComponent_to_value_lookup.
  unfold HaComponent_fields, HaComponent_new; cbn [p name device_class unit_of_measurement
    value_template unique_id object_id via_device state_class payload_on payload_off payload_press].
  destruct (is_none_str dclass), (is_none_str uof), (is_none_str sc),
    (decide (platform = BinarySensor)), (String.eqb dclass "restart");
  repeat split; reflexivity.
Qed.

(** Ids depend only on the lowercased name with spaces replaced:
    the unique id and the object id of a name are those of
    [safe_name (to_lowercase name)], so ["Total Energy"],
    ["total energy"] and ["total_energy"] give the same ids. *)
Theorem ids_normal_form proto device name :
  unique_id_of proto device (safe_name (to_lowercase name)) = unique_id_of proto device name /\
  object_id_of device (safe_name (to_lowercase name)) = object_id_of device name.
Proof.
  unfold unique_id_of, object_id_of. autorewrite with e2m_rw.
  rewrite safe_name_idem, to_lowercase_safe_name. done.
Qed.

End HaInterface.
