(* ===== verification/Crc.v ===== *)
(** OMS telegrams with per-block CRCs (metering_oms/utils.rs,
    [verifiy_crc]), and the error enum of the OMS decoder
    (metering_oms/mod.rs, [OmsParseError]).

    The CRC is the one of the [crc16] crate's [EN_13757] parameters
    (polynomial 0x3D65, initial value 0, no reflection, final XOR
    0xFFFF); the known-answer tests below pin it to the CRC bytes of the
    Annex-N telegram in the source's own test.  [add_crc] is the framing
    a meter applies (first block 10 bytes, then 16-byte blocks, each
    followed by its big-endian CRC); it is not code of the repository,
    it is the inverse against which [verifiy_crc] is checked. *)

From S2P Require Import Prelude.

(** metering_oms/mod.rs: [enum OmsParseError]. *)
Inductive OmsParseError : Type :=
| TelegramTooShort
| TelegramTooLong
| UnsupportedTelegramType
| CRCMissMatch
| WiredProtocolNotSupported
| SecurityModeNotSupported
| DecryptionFailed
| SecurityCiTypeNotSupported
| SensorNotConfigured.

Module Crc.

(** ** CRC-16/EN-13757, bit by bit *)

Definition crc_shift (crc : Z) : Z :=
  if Z.testbit crc 15 then Z.land (Z.lxor (Z.shiftl crc 1) 0x3D65) 0xFFFF
  else Z.land (Z.shiftl crc 1) 0xFFFF.

(** [State::update] on one byte. *)
Definition crc_update (crc : Z) (b : byte) : Z :=
  Nat.iter 8 crc_shift (Z.lxor crc (Z.shiftl (u8v b) 8)).

(** [State::<EN_13757>::new()], [update] over the block, [get()]. *)
Definition crc16_en13757 (data : list byte) : Z :=
  Z.lxor (fold_left crc_update data 0) 0xFFFF.

(** [u16::to_be_bytes]: the high byte first. *)
Definition be_hi (s : Z) : Z := (s / 256) mod 256.
Definition be_lo (s : Z) : Z := s mod 256.

(** ** [verifiy_crc]

    One iteration of the [loop]: [start] is the index of the current
    block, [result] the bytes kept so far.  The block is 10 bytes for the
    first one and 16 afterwards, unless fewer than [start + 17] bytes are
    left, in which case it is everything but the last two
    ([telegram.len() - start - 2], which underflows on fewer than two).
    The CRC bytes are compared with [||], so a mismatch of the first one
    returns before the second is indexed. *)
Fixpoint verifiy_crc_loop (fuel : nat) (telegram : list byte) (start : nat)
    (first_block : bool) (result : list byte) : res OmsParseError (list byte) :=
  match fuel with
  | O => RPanic NoFuel
  | S fuel' =>
      let len0 : nat := if first_block then 10%nat else 16%nat in
      len <- (if decide (List.length telegram < start + 17)%nat
              then d <- usize_sub (List.length telegram) start ;; usize_sub d 2
              else ROk len0) ;;
      let end_of_data_to_crc := (start + len)%nat in
      if decide (List.length telegram < end_of_data_to_crc)%nat
      then RPanic IndexOutOfBounds
      else
        let block := take len (drop start telegram) in
        let result' := result ++ block in
        let s := crc16_en13757 block in
        c0 <- at_idx telegram end_of_data_to_crc ;;
        if negb (u8v c0 =? be_hi s) then RErr CRCMissMatch else
        c1 <- at_idx telegram (end_of_data_to_crc + 1) ;;
        if negb (u8v c1 =? be_lo s) then RErr CRCMissMatch else
        let start' := (end_of_data_to_crc + 2)%nat in
        if decide (List.length telegram = start')
        then ROk result'
        else verifiy_crc_loop fuel' telegram start' false result'
  end.

(** Every iteration consumes at least two bytes, so [length + 1] rounds
    of fuel are enough ([verifiy_crc_no_fuel_out]). *)
Definition verifiy_crc (telegram : list byte) : res OmsParseError (list byte) :=
  verifiy_crc_loop (S (List.length telegram)) telegram 0 true [].

(** ** The framing a sender applies *)

Definition crc_be_bytes (block : list byte) : list byte :=
  let s := crc16_en13757 block in [byte_of_Z (be_hi s); byte_of_Z (be_lo s)].

Definition frame_block (block : list byte) : list byte := block ++ crc_be_bytes block.

Fixpoint frame16 (fuel : nat) (l : list byte) : list byte :=
  match fuel, l with
  | O, _ | _, [] => []
  | S f, _ => frame_block (take 16 l) ++ frame16 f (drop 16 l)
  end.

Definition add_crc (body : list byte) : list byte :=
  frame_block (take 10 body) ++ frame16 (List.length body) (drop 10 body).


(** ** Lemmas on one block *)

Definition len0 (first_block : bool) : nat := if first_block then 10%nat else 16%nat.

(** The block length the loop chooses is [n] when [n] data bytes, two CRC
    bytes and [m] further bytes are left. *)
Definition block_len_ok (first_block : bool) (n m : nat) : Prop :=
  if decide (n + 2 + m < 17)%nat then m = 0%nat else n = len0 first_block.

Lemma be_hi_range s : 0 <= be_hi s < 256.
Proof. apply Z.mod_pos_bound; lia. Qed.
Lemma be_lo_range s : 0 <= be_lo s < 256.
Proof. apply Z.mod_pos_bound; lia. Qed.

Lemma u8v_be_hi s : u8v (byte_of_Z (be_hi s)) = be_hi s.
Proof. rewrite u8v_byte_of_Z. apply Z.mod_small, be_hi_range. Qed.
Lemma u8v_be_lo s : u8v (byte_of_Z (be_lo s)) = be_lo s.
Proof. rewrite u8v_byte_of_Z. apply Z.mod_small, be_lo_range. Qed.

#[export] Hint Rewrite u8v_be_hi u8v_be_lo : e2m_rw.

Lemma length_frame_block b : List.length (frame_block b) = (List.length b + 2)%nat.
Proof. unfold frame_block, crc_be_bytes. rewrite length_app. simpl. lia. Qed.

Lemma drop_frame_block_lookup t start blk rest :
  drop start t = frame_block blk ++ rest ->
  (start <= List.length t)%nat /\
  List.length t = (start + List.length blk + 2 + List.length rest)%nat /\
  take (List.length blk) (drop start t) = blk /\
  t !! (start + List.length blk)%nat = Some (byte_of_Z (be_hi (crc16_en13757 blk))) /\
  t !! (start + List.length blk + 1)%nat = Some (byte_of_Z (be_lo (crc16_en13757 blk))).
Proof.
  intros Hd.
  assert (Hl := f_equal List.length Hd).
  rewrite length_drop, length_app, length_frame_block in Hl.
  assert (start <= List.length t)%nat.
  { destruct (decide (start <= List.length t)%nat); [done|].
    rewrite drop_ge in Hd by lia. unfold frame_block in Hd. destruct blk; discriminate. }
  split; [done|]. split; [lia|].
  unfold frame_block, crc_be_bytes in Hd.
  split; [rewrite Hd, <- app_assoc, take_app_length; done|].
  split.
  { rewrite <- lookup_drop, Hd, <- app_assoc, lookup_app_r, Nat.sub_diag by lia. done. }
  replace (start + List.length blk + 1)%nat with (start + (List.length blk + 1))%nat by lia.
  rewrite <- lookup_drop, Hd, <- app_assoc, lookup_app_r by lia.
  replace (List.length blk + 1 - List.length blk)%nat with 1%nat by lia. done.
Qed.

(** One iteration over a block framed with its correct CRC: the block is
    kept and the loop goes on after the two CRC bytes, or stops there. *)
Lemma verifiy_crc_loop_block f t start first acc blk rest :
  drop start t = frame_block blk ++ rest ->
  block_len_ok first (List.length blk) (List.length rest) ->
  verifiy_crc_loop (S f) t start first acc =
    match rest with
    | [] => ROk (acc ++ blk)
    | _ => verifiy_crc_loop f t (start + List.length blk + 2) false (acc ++ blk)
    end.
Proof.
  intros Hd Hok.
  destruct (drop_frame_block_lookup _ _ _ _ Hd) as (Hle & Hlen & Htk & H0 & H1).
  unfold block_len_ok, len0 in Hok.
  cbn [verifiy_crc_loop].
  assert (Hsel : (if decide (List.length t < start + 17)%nat
                  then d <- usize_sub (List.length t) start ;; usize_sub d 2
                  else ROk (if first then 10%nat else 16%nat))
                 = (ROk (List.length blk) : res OmsParseError nat)).
  { unfold usize_sub. destruct (decide (List.length t < start + 17)%nat) as [Hlt|Hge].
    - rewrite decide_True in Hok by lia.
      rewrite decide_True by lia. rewrite res_bind_ok, decide_True by lia. f_equal. lia.
    - rewrite decide_False in Hok by lia. rewrite Hok. destruct first; reflexivity. }
  rewrite Hsel, res_bind_ok.
  rewrite decide_False by lia. rewrite Htk.
  rewrite (at_idx_ok _ _ _ H0), res_bind_ok, u8v_be_hi, Z.eqb_refl. simpl negb. cbv iota.
  rewrite (at_idx_ok _ _ _ H1), res_bind_ok, u8v_be_lo, Z.eqb_refl. simpl negb. cbv iota.
  destruct rest as [|r rest'].
  - rewrite decide_True by (simpl in Hlen; lia). done.
  - rewrite decide_False by (simpl in Hlen; lia). done.
Qed.

Lemma verifiy_crc_loop_block_more f t start first acc blk rest :
  drop start t = frame_block blk ++ rest -> rest <> [] ->
  block_len_ok first (List.length blk) (List.length rest) ->
  verifiy_crc_loop (S f) t start first acc =
    verifiy_crc_loop f t (start + List.length blk + 2) false (acc ++ blk).
Proof. intros Hd Hne Hok. rewrite (verifiy_crc_loop_block _ _ _ _ _ _ _ Hd Hok). by destruct rest. Qed.

(** ** Termination *)

Lemma verifiy_crc_loop_no_fuel_out fuel t start first acc :
  (List.length t - start < fuel)%nat ->
  verifiy_crc_loop fuel t start first acc <> RPanic NoFuel.
Proof.
  revert start first acc. induction fuel as [|fuel IH]; intros start first acc Hf; [lia|].
  cbn [verifiy_crc_loop].
  destruct (if decide _ then _ else _) as [len|e|p] eqn:Hsel; simpl; [|congruence|].
  2:{ intros [= ->]. revert Hsel. unfold usize_sub. repeat (case_decide; simpl); congruence. }
  destruct (decide (List.length t < start + len)%nat); [congruence|].
  unfold at_idx.
  destruct (t !! (start + len)%nat) eqn:E0; simpl; [|congruence].
  destruct (negb _); [congruence|].
  destruct (t !! (start + len + 1)%nat) eqn:E1; simpl; [|congruence].
  destruct (negb _); [congruence|].
  destruct (decide (List.length t = start + len + 2)%nat); [congruence|].
  apply lookup_lt_Some in E1. apply IH. lia.
Qed.


(** ** Round trip with the sender's framing *)

Lemma frame16_nil ff : frame16 ff [] = [].
Proof. destruct ff; reflexivity. Qed.

Lemma frame16_cons ff l :
  l <> [] -> frame16 (S ff) l = frame_block (take 16 l) ++ frame16 ff (drop 16 l).
Proof. destruct l; [done|reflexivity]. Qed.

Lemma length_frame16 ff l :
  l <> [] -> (List.length l <= 16 * ff)%nat ->
  (List.length l + 2 <= List.length (frame16 ff l))%nat.
Proof.
  revert l. induction ff as [|ff IH]; intros l Hne Hle.
  { destruct l; [done|simpl in Hle; lia]. }
  rewrite frame16_cons by done. rewrite length_app, length_frame_block, length_take.
  destruct (decide (List.length l <= 16)%nat).
  - lia.
  - assert (drop 16 l <> []) by (intros Hd; apply (f_equal List.length) in Hd;
      rewrite length_drop in Hd; simpl in Hd; lia).
    specialize (IH (drop 16 l) H). rewrite length_drop in IH. lia.
Qed.

Lemma mod16_sub16 n : (16 <= n)%nat -> ((n - 16) mod 16 = n mod 16)%nat.
Proof. intros. replace n with ((n - 16) + 1 * 16)%nat at 2 by lia. rewrite Nat.Div0.mod_add. done. Qed.

Lemma mod16_small n : (n <= 16)%nat -> (n mod 16 = 15)%nat <-> n = 15%nat.
Proof.
  intros H. destruct (Nat.eq_dec n 16) as [->|]; [done|]. rewrite Nat.mod_small by lia. done.
Qed.

(** The 16-byte blocks after the first: all of them are accepted unless
    the last one has 15 data bytes, in which case the loop reads a block
    of 16 that swallows a CRC byte and fails. *)
Lemma verifiy_crc_loop_frame16 ff f t start acc l :
  l <> [] -> (List.length l <= 16 * ff)%nat -> (List.length l <= 16 * S f)%nat ->
  drop start t = frame16 ff l ->
  if decide (List.length l mod 16 = 15)%nat
  then forall r, verifiy_crc_loop (S f) t start false acc <> ROk r
  else verifiy_crc_loop (S f) t start false acc = ROk (acc ++ l).
Proof.
  revert f start acc l. induction ff as [|ff IH]; intros f start acc l Hne Hff Hf Hd.
  { destruct l; [done|simpl in Hff; lia]. }
  rewrite frame16_cons in Hd by done.
  destruct (decide (List.length l <= 16)%nat) as [Hs|Hs].
  - rewrite (drop_ge l 16), frame16_nil, app_nil_r in Hd by lia.
    rewrite (take_ge l 16) in Hd by lia.
    destruct (decide (List.length l = 15)%nat) as [H15|H15].
    + rewrite decide_True by (apply mod16_small; lia). intros r.
      destruct (drop_frame_block_lookup t start l [] ltac:(rewrite app_nil_r; exact Hd))
        as (_ & Hlen & _ & H0 & H1).
      simpl in Hlen. cbn [verifiy_crc_loop].
      rewrite decide_False by lia. rewrite res_bind_ok, decide_False by lia.
      rewrite H15 in H0, H1. replace (start + 16)%nat with (start + 15 + 1)%nat by lia.
      unfold at_idx. rewrite H1. simpl.
      destruct (negb _); [congruence|].
      rewrite (lookup_ge_None_2 t) by lia. simpl. congruence.
    + rewrite decide_False by (rewrite mod16_small; lia).
      rewrite (verifiy_crc_loop_block f t start false acc l []); [done|by rewrite app_nil_r|].
      unfold block_len_ok, len0. simpl. case_decide; lia.
  - assert (Hne' : drop 16 l <> []) by (intros E; apply (f_equal List.length) in E;
      rewrite length_drop in E; simpl in E; lia).
    assert (Hlt := length_frame16 ff (drop 16 l) Hne' ltac:(rewrite length_drop; lia)).
    rewrite length_drop in Hlt.
    rewrite (verifiy_crc_loop_block f t start false acc (take 16 l) (frame16 ff (drop 16 l))); cycle 1.
    { exact Hd. }
    { unfold block_len_ok, len0. rewrite length_take. case_decide; lia. }
    destruct f as [|f]; [lia|].
    destruct (frame16 ff (drop 16 l)) as [|x xs] eqn:Er; [simpl in Hlt; lia|].
    cbv iota.
    assert (Hd' : drop (start + List.length (take 16 l) + 2) t = frame16 ff (drop 16 l)).
    { rewrite <- Nat.add_assoc, <- drop_drop, Hd.
      replace (List.length (take 16 l) + 2)%nat with (List.length (frame_block (take 16 l)))
        by (rewrite length_frame_block; reflexivity).
      by rewrite drop_app_length. }
    specialize (IH f _ (acc ++ take 16 l) (drop 16 l) Hne' ltac:(rewrite length_drop; lia)
                  ltac:(rewrite length_drop; lia) Hd').
    rewrite length_drop in IH.
    rewrite mod16_sub16 in IH by lia.
    case_decide; [exact IH|]. rewrite IH, <- app_assoc, take_drop. done.
Qed.


(** A telegram shorter than 17 bytes is read as a single block of all
    but its last two bytes. *)
Lemma verifiy_crc_short t :
  (2 <= List.length t < 17)%nat ->
  verifiy_crc t = RErr CRCMissMatch \/ verifiy_crc t = ROk (take (List.length t - 2) t).
Proof.
  intros [H2 H17]. unfold verifiy_crc. cbn [verifiy_crc_loop].
  rewrite decide_True by lia. unfold usize_sub.
  rewrite decide_True by lia. rewrite res_bind_ok, decide_True by lia. rewrite res_bind_ok.
  rewrite decide_False by lia.
  destruct (lookup_lt_is_Some_2 t (0 + (List.length t - 0 - 2))%nat) as [c0 H0]; [lia|].
  rewrite (at_idx_ok _ _ _ H0), res_bind_ok.
  destruct (negb _); [auto|].
  destruct (lookup_lt_is_Some_2 t (0 + (List.length t - 0 - 2) + 1)%nat) as [c1 H1]; [lia|].
  rewrite (at_idx_ok _ _ _ H1), res_bind_ok.
  destruct (negb _); [auto|].
  rewrite decide_True by lia. right. rewrite drop_0, Nat.sub_0_r. reflexivity.
Qed.

(** The body lengths whose framing [verifiy_crc] reads back. *)
Definition crc_frame_ok (n : nat) : bool :=
  negb (n =? 11)%nat && negb (n =? 12)%nat && negb ((25 <=? n)%nat && ((n - 10) mod 16 =? 15)%nat).

Lemma crc_frame_ok_spec n :
  crc_frame_ok n = true <-> n <> 11%nat /\ n <> 12%nat /\ ~ (25 <= n /\ (n - 10) mod 16 = 15)%nat.
Proof.
  unfold crc_frame_ok.
  destruct (Nat.eqb_spec n 11), (Nat.eqb_spec n 12), (Nat.leb_spec 25 n),
    (Nat.eqb_spec ((n - 10) mod 16) 15); simpl; intuition lia.
Qed.

Lemma length_take_drop_10 (body : list byte) :
  (10 < List.length body)%nat -> drop 10 body <> [] /\ List.length (drop 10 body) = (List.length body - 10)%nat.
Proof.
  intros H. rewrite length_drop. split; [|done].
  intros E. apply (f_equal List.length) in E. rewrite length_drop in E. simpl in E. lia.
Qed.

(** The three ranges of body lengths of [verifiy_crc_add_crc]. *)
Lemma verifiy_crc_add_crc_le10 (body : list byte) :
  (List.length body <= 10)%nat ->
  verifiy_crc (add_crc body) = ROk body <-> crc_frame_ok (List.length body) = true.
Proof.
  intros Hs. unfold add_crc. remember (List.length body) as n eqn:Hn.
  rewrite (take_ge body 10), (drop_ge body 10), frame16_nil, app_nil_r by lia.
  unfold verifiy_crc.
  rewrite length_frame_block.
  rewrite (verifiy_crc_loop_block _ _ 0 true [] body []); cycle 1.
  { by rewrite drop_0, app_nil_r. }
  { unfold block_len_ok. simpl. case_decide; lia. }
  rewrite crc_frame_ok_spec. simpl. split; [intros _; lia | done].
Qed.

Lemma verifiy_crc_add_crc_11_12 (body : list byte) :
  (10 < List.length body <= 12)%nat ->
  verifiy_crc (add_crc body) = ROk body <-> crc_frame_ok (List.length body) = true.
Proof.
  intros [Hs H12]. unfold add_crc. remember (List.length body) as n eqn:Hn.
  destruct (length_take_drop_10 body ltac:(lia)) as [Hne Hl].
  destruct n as [|n']; [lia|]. rewrite frame16_cons by done.
  rewrite (drop_ge (drop 10 body) 16), frame16_nil, app_nil_r by lia.
  rewrite (take_ge (drop 10 body) 16) by lia.
  set (t := frame_block (take 10 body) ++ frame_block (drop 10 body)).
  assert (Ht : List.length t = (S n' + 4)%nat).
  { unfold t. rewrite length_app, !length_frame_block, length_take. lia. }
  split.
  * intros E. destruct (verifiy_crc_short t ltac:(lia)) as [E'|E']; rewrite E' in E;
      [discriminate|]. injection E as E. apply (f_equal List.length) in E.
    rewrite length_take in E. lia.
  * rewrite crc_frame_ok_spec. lia.
Qed.

Lemma verifiy_crc_add_crc_long (body : list byte) :
  (12 < List.length body)%nat ->
  verifiy_crc (add_crc body) = ROk body <-> crc_frame_ok (List.length body) = true.
Proof.
  intros H12. assert (Hs : (10 < List.length body)%nat) by lia.
  unfold add_crc. remember (List.length body) as n eqn:Hn.
  destruct (length_take_drop_10 body ltac:(lia)) as [Hne Hl].
  destruct n as [|n']; [lia|]. rewrite frame16_cons by done.
  set (l := drop 10 body) in *.
  set (rest := frame_block (take 16 l) ++ frame16 n' (drop 16 l)).
  assert (Hrest : (List.length l + 2 <= List.length rest)%nat).
  { unfold rest. rewrite <- frame16_cons by done.
    apply length_frame16; [done|lia]. }
  unfold verifiy_crc.
  rewrite (verifiy_crc_loop_block_more _ _ 0 true [] (take 10 body) rest); cycle 1.
  { by rewrite drop_0. }
  { intros E. rewrite E in Hrest. simpl in Hrest. lia. }
  { unfold block_len_ok, len0. rewrite length_take. case_decide; lia. }
  rewrite length_app, length_frame_block.
  replace (List.length (take 10 body) + 2 + List.length rest)%nat
    with (S (List.length (take 10 body) + 1 + List.length rest)) by lia.
  pose proof (verifiy_crc_loop_frame16 (S n') (List.length (take 10 body) + 1 + List.length rest)
               (frame_block (take 10 body) ++ rest) (0 + List.length (take 10 body) + 2)
               ([] ++ take 10 body) l Hne ltac:(lia) ltac:(rewrite length_take; lia)) as Hf.
  rewrite frame16_cons in Hf by done. fold rest in Hf.
  specialize (Hf ltac:(rewrite length_take, Nat.min_l by lia;
    replace (0 + 10 + 2)%nat with (List.length (frame_block (take 10 body)))
      by (rewrite length_frame_block, length_take; lia);
    by rewrite drop_app_length)).
  rewrite Hl in Hf. rewrite crc_frame_ok_spec.
  case_decide as Hm.
  * split; [intros E; by apply Hf in E|]. intros (_ & _ & Hn'). exfalso. apply Hn'.
    rewrite <- Hn in Hm. split; [|exact Hm]. destruct (decide (25 <= S n')%nat); [done|].
    rewrite mod16_small in Hm by lia. lia.
  * rewrite <- Hn in Hm. rewrite Hf. simpl. unfold l. rewrite take_drop.
    split; [intros _|done]. split; [lia|]. split; [lia|]. intros [_ ?]. done.
Qed.

(** C1: framing a body with [add_crc] and stripping it with
    [verifiy_crc] gives the body back exactly when its length is not 11
    or 12 (the first block is then read as 13 or 14 bytes) and its last
    16-byte block does not hold 15 bytes (that block is then read as 16
    bytes, one of them a CRC byte).  Every other length round-trips. *)
Theorem verifiy_crc_add_crc (body : list byte) :
  verifiy_crc (add_crc body) = ROk body <-> crc_frame_ok (List.length body) = true.
Proof.
  destruct (decide (List.length body <= 10)%nat); [by apply verifiy_crc_add_crc_le10|].
  destruct (decide (List.length body <= 12)%nat); [apply verifiy_crc_add_crc_11_12; lia|].
  apply verifiy_crc_add_crc_long. lia.
Qed.


(** ** Soundness: only CRC-correct blocks are accepted *)

Lemma drop_split_block (t : list byte) start len c0 c1 :
  t !! (start + len)%nat = Some c0 -> t !! (start + len + 1)%nat = Some c1 ->
  drop start t = take len (drop start t) ++ c0 :: c1 :: drop (start + len + 2) t.
Proof.
  intros H0 H1.
  rewrite <- (take_drop len (drop start t)) at 1. f_equal.
  rewrite drop_drop, (drop_S _ _ _ H0), (drop_S _ c1); [do 3 f_equal; lia|].
  by replace (S (start + len)) with (start + len + 1)%nat by lia.
Qed.

Lemma crc_bytes_eq block c0 c1 :
  u8v c0 = be_hi (crc16_en13757 block) -> u8v c1 = be_lo (crc16_en13757 block) ->
  [c0; c1] = crc_be_bytes block.
Proof.
  intros H0 H1. unfold crc_be_bytes. f_equal; [|f_equal];
    apply u8v_inj; autorewrite with e2m_rw; done.
Qed.

Lemma verifiy_crc_loop_sound fuel t start first acc body :
  verifiy_crc_loop fuel t start first acc = ROk body ->
  exists blocks, drop start t = List.concat (map frame_block blocks) /\ body = acc ++ List.concat blocks.
Proof.
  revert start first acc. induction fuel as [|fuel IH]; intros start first acc H; [discriminate|].
  cbn [verifiy_crc_loop] in H.
  apply res_bind_ok_inv in H as (len & _ & H).
  destruct (decide (List.length t < start + len)%nat); [discriminate|].
  unfold at_idx in H.
  destruct (t !! (start + len)%nat) as [c0|] eqn:E0; simpl in H; [|discriminate].
  destruct (u8v c0 =? _) eqn:Ec0; simpl in H; [|discriminate].
  destruct (t !! (start + len + 1)%nat) as [c1|] eqn:E1; simpl in H; [|discriminate].
  destruct (u8v c1 =? _) eqn:Ec1; simpl in H; [|discriminate].
  apply Z.eqb_eq in Ec0, Ec1.
  pose proof (drop_split_block t start len c0 c1 E0 E1) as Hs.
  change (c0 :: c1 :: ?r) with ([c0; c1] ++ r) in Hs.
  rewrite (crc_bytes_eq _ _ _ Ec0 Ec1), app_assoc in Hs. fold (frame_block (take len (drop start t))) in Hs.
  set (blk := take len (drop start t)) in *.
  destruct (decide (List.length t = start + len + 2)%nat) as [Hend|Hend].
  - injection H as <-. exists [blk].
    rewrite Hs, (drop_ge t (start + len + 2)) by lia. cbn [map List.concat]. rewrite !app_nil_r. done.
  - destruct (IH _ _ _ H) as (blocks & Hd & ->).
    exists (blk :: blocks). rewrite Hs, Hd. simpl.
    rewrite <- app_assoc. done.
Qed.

(** C2: a telegram accepted by [verifiy_crc] is a sequence of
    blocks each followed by its correct big-endian CRC, and the result is
    the concatenation of the blocks. *)
Theorem verifiy_crc_sound (t body : list byte) :
  verifiy_crc t = ROk body ->
  exists blocks, t = List.concat (map frame_block blocks) /\ body = List.concat blocks.
Proof. intros H. apply verifiy_crc_loop_sound in H as (blocks & Hd & Hb). exists blocks. by rewrite drop_0 in Hd. Qed.

(** [verifiy_crc] always terminates within its fuel. *)
Theorem verifiy_crc_no_fuel_out (t : list byte) : verifiy_crc t <> RPanic NoFuel.
Proof. apply verifiy_crc_loop_no_fuel_out. lia. Qed.


(** ** Known answers *)

(** The Annex-N telegram of the source's test [oms_parse_tests::get_mr]
    (Open Metering System Vol. 2, Annex N.2.1), with its CRC blocks. *)
Definition annex_n_telegram : list byte := bytes_of_Zs
  [0x2E;0x44;0x93;0x15;0x78;0x56;0x34;0x12;0x33;0x03;0x33;0x63;
   0x7A;0x2A;0x00;0x20;0x25;0x59;0x23;0xC9;0x5A;0xAA;0x26;0xD1;0xB2;0xE7;0x49;0x3B;0xC2;0xAD;
   0x01;0x3E;0xC4;0xA6;0xF6;0xD3;0x52;0x9B;0x52;0x0E;0xDF;0xF0;0xEA;0x6D;0xEF;0xC9;0x55;0xB2;
   0x9D;0x6D;0x69;0xEB;0xF3;0xEC;0x8A].

(** The same telegram without CRCs, as the source's comment gives it. *)
Definition annex_n_body : list byte := bytes_of_Zs
  [0x2E;0x44;0x93;0x15;0x78;0x56;0x34;0x12;0x33;0x03;
   0x7A;0x2A;0x00;0x20;0x25;0x59;0x23;0xC9;0x5A;0xAA;0x26;0xD1;0xB2;0xE7;0x49;0x3B;
   0x01;0x3E;0xC4;0xA6;0xF6;0xD3;0x52;0x9B;0x52;0x0E;0xDF;0xF0;0xEA;0x6D;0xEF;0xC9;
   0x9D;0x6D;0x69;0xEB;0xF3].

Example crc16_check_value :
  crc16_en13757 (bytes_of_Zs [0x31;0x32;0x33;0x34;0x35;0x36;0x37;0x38;0x39]) = 0xC2B7.
Proof. vm_compute. reflexivity. Qed.

(** The source's test: the CRCs check and eight bytes are removed. *)
Example verifiy_crc_annex_n : verifiy_crc annex_n_telegram = ROk annex_n_body.
Proof. vm_compute. reflexivity. Qed.

Lemma verifiy_crc_sound_witness :
  exists blocks, annex_n_telegram = List.concat (map frame_block blocks) /\
                 annex_n_body = List.concat blocks.
Proof. apply (verifiy_crc_sound annex_n_telegram annex_n_body). vm_compute. reflexivity. Defined.

(** An 11-byte body and a 25-byte body are not read back. *)
Example verifiy_crc_add_crc_11 :
  verifiy_crc (add_crc (bytes_of_Zs (seqZ 0 11))) = RErr CRCMissMatch.
Proof. vm_compute. reflexivity. Qed.

Example verifiy_crc_add_crc_25 :
  verifiy_crc (add_crc (bytes_of_Zs (seqZ 0 25))) = RErr CRCMissMatch.
Proof. vm_compute. reflexivity. Qed.

End Crc.
