(* ===== verification/DifVif.v ===== *)
(** M-Bus data records (metering_oms/div_vif_parser.rs): the DIF handlers
    that read a value, the VIF tables that name and scale it, and
    [parse_payload], the loop that walks a decrypted payload and fills a
    JSON map.  A Rust [fn] pointer ([DifHandler], [VifHandler]) is a Rocq
    function; [VifData] is a record; every index [start[i]] panics out of
    range, so a truncated record is an [RPanic], not an error.  Integer
    overflow is the panic of a debug build. *)

From S2P Require Import Prelude.

Module DifVif.

(** [parse_payload] cannot fail, it can only panic. *)
Abbreviation Never := Empty_set.
Abbreviation r := (res Never).

(** ** DIF handlers: [(bytes to skip, value read)] *)

Abbreviation DifHandler := (list byte -> nat -> r (nat * json)).

(** Little-endian composition of the bytes read, written as the handlers
    write it: [b0 | b1 << 8 | b2 << 16 | ...]. *)
Fixpoint le_combine (bs : list byte) : Z :=
  match bs with
  | [] => 0
  | b :: bs' => Z.lor (u8v b) (Z.shiftl (le_combine bs') 8)
  end.

(** [start[cur_pos]], ..., [start[cur_pos + n - 1]], each indexing panics. *)
Fixpoint read_bytes (start : list byte) (cur_pos n : nat) : r (list byte) :=
  match n with
  | O => ROk []
  | S n' => b <- at_idx start cur_pos ;; bs <- read_bytes start (S cur_pos) n' ;; ROk (b :: bs)
  end.

Definition dif_no_data : DifHandler := fun _ _ => ROk (0%nat, JStr "").

Definition dif_read_int (n : nat) : DifHandler := fun start cur_pos =>
  bs <- read_bytes start cur_pos n ;; ROk (n, JInt (le_combine bs)).

Definition dif_read_8bit_int : DifHandler := dif_read_int 1.
Definition dif_read_16bit_int : DifHandler := dif_read_int 2.
Definition dif_read_24bit_int : DifHandler := dif_read_int 3.
(** [Value::from(value as i64)]: a [u32] always fits. *)
Definition dif_read_32bit_int : DifHandler := dif_read_int 4.
Definition dif_read_48bit_int : DifHandler := dif_read_int 6.
Definition dif_read_64bit_int : DifHandler := dif_read_int 8.

(** The 8-digit BCD handler is a stub: it reads nothing and returns a
    constant string. *)
Definition dif_read_8digest_bcd : DifHandler := fun _ _ => ROk (4%nat, JStr "1111 1111").

(** [bcd_to_integer_sized]: bytes from the last to the first, two decimal
    digits per byte, high nibble first.  [high * 10 + low] is [u8]
    arithmetic and stays below 256. *)
Fixpoint bcd_fold (bs : list byte) (result : Z) : Z :=
  match bs with
  | [] => result
  | b :: bs' =>
      let high := Z.land (Z.shiftr (u8v b) 4) 0x0F in
      let low := Z.land (u8v b) 0x0F in
      bcd_fold bs' (result * 100 + (high * 10 + low))
  end.

Definition bcd_to_integer_sized (start : list byte) (cur_pos len : nat) : r Z :=
  bs <- read_bytes start cur_pos len ;; ROk (bcd_fold (rev bs) 0).

Definition dif_read_12digest_bcd : DifHandler := fun start cur_pos =>
  v <- bcd_to_integer_sized start cur_pos 4 ;; ROk (4%nat, JInt v).

(** The 32-bit real handler is a stub too: it returns [0.0]. *)
Definition dif_read_32bit_real : DifHandler := fun _ _ => ROk (4%nat, JFloat 0 0).

(** [get_dif_function]: the DIF byte selects the handler; the boolean
    says whether a VIF and a value follow. *)
Definition get_dif_function (start : list byte) (cur_pos : nat) : r (nat * DifHandler * bool) :=
  dif <- at_idx start cur_pos ;;
  ROk (match u8v dif with
       | 0x00 => (1%nat, dif_no_data, false)
       | 0x01 => (1%nat, dif_read_8bit_int, true)
       | 0x02 => (1%nat, dif_read_16bit_int, true)
       | 0x03 => (1%nat, dif_read_24bit_int, true)
       | 0x04 => (1%nat, dif_read_32bit_int, true)
       | 0x05 => (1%nat, dif_read_32bit_real, true)
       | 0x06 => (1%nat, dif_read_48bit_int, true)
       | 0x07 => (1%nat, dif_read_64bit_int, true)
       | 0x08 => (1%nat, dif_no_data, false)
       | 0x0C => (1%nat, dif_read_12digest_bcd, true)
       | 0xF0 => (1%nat, dif_read_8digest_bcd, true)
       | 0x2F => (1%nat, dif_no_data, false)
       | _ => (1%nat, dif_no_data, true)
       end).


(** ** VIF handlers *)

Abbreviation VifHandler := (Z -> json -> r json).

(** [Value::as_i64] on a number. *)
Definition json_as_i64 (v : json) : option Z :=
  match v with
  | JInt z => if (-2^63 <=? z) && (z <? 2^63) then Some z else None
  | _ => None
  end.

Definition join (l : list string) : string := String.concat "" l.

(** [parse_time_point]: data type F (date and time, [vif & 1 = 1]) or G
    (date).  The operator precedence is the source's: in Rust [>>] binds
    tighter than [&], so [time & 0xE0 >> 5] is [time & 7] and
    [time & 0x60 >> 5] is [time & 3]. *)
Definition parse_time_point : VifHandler := fun vif data =>
  if negb (json_is_number data) then ROk (JStr "unparseable not a number") else
  match json_as_i64 data with
  | None => ROk (JStr "unparseable not i64")
  | Some t =>
      let time := t mod 2^32 in
      if Z.land vif 1 =? 1 then
        let min := Z.land time 0x3F in
        let hour := Z.land (Z.shiftr time 8) 0x1F in
        let day := Z.land (Z.shiftr time 16) 0x1F in
        let month := Z.land (Z.shiftr time 24) 0x0F in
        let year := Z.lor (Z.shiftr (Z.land (Z.shiftr time 16) 0xE0) 5)
                          (Z.shiftr (Z.land (Z.shiftr time 24) 0xF0) 1) in
        let hundred_year := Z.shiftr (Z.land time 0x60) 5 in
        let hundred_year := if (hundred_year =? 0) && (year <=? 80) then 1 else hundred_year in
        let year := 1900 + 100 * hundred_year + year in
        ROk (JStr (join [fmt_dec_w 2 day; "."; fmt_dec_w 2 month; "."; fmt_dec_w 4 year; " ";
                         fmt_dec_w 2 hour; ":"; fmt_dec_w 2 min]))
      else
        let day := Z.land time 0x1F in
        let month := Z.land (Z.shiftr time 8) 0x0F in
        let year := Z.lor (Z.land time (Z.shiftr 0xE0 5))
                          (Z.shiftr (Z.land (Z.shiftr time 16) 0xF0) 1) in
        let hundred_year := Z.land time (Z.shiftr 0x60 5) in
        let hundred_year := if (hundred_year =? 0) && (year <=? 80) then 1 else hundred_year in
        let year := 1900 + 100 * hundred_year + year in
        ROk (JStr (join [fmt_dec_w 2 day; "."; fmt_dec_w 2 month; "."; fmt_dec_w 4 year]))
  end.

(** [parse_on_time]: the low two bits of the VIF give the unit; the
    value is converted to seconds with [i64] products. *)
Definition parse_on_time : VifHandler := fun vif data =>
  if negb (json_is_number data) then ROk (JStr "unparseable") else
  match json_as_i64 data with
  | None => ROk (JStr "unparseable")
  | Some time =>
      v <- (match Z.land vif 3 with
            | 0 => ROk time
            | 1 => i64_mul time 60
            | 2 => a <- i64_mul time 60 ;; i64_mul a 60
            | _ => a <- i64_mul time 24 ;; b <- i64_mul a 60 ;; i64_mul b 60
            end) ;;
      ROk (JInt v)
  end.

(** [vif_handle_binary]: [format!("{d:X}")] of [d as u64]. *)
Definition vif_handle_binary : VifHandler := fun _ data =>
  if negb (json_is_number data) then ROk (JStr "unparseable") else
  match json_as_i64 data with
  | None => ROk (JStr "unparseable")
  | Some d => ROk (JStr (fmt_HEX 0 (d mod 2^64)))
  end.

(** ** [VifData] and the VIF tables *)

(** The [f64] scaler: a power of ten ([base.powi(k)], [0.1], [1.0], ...)
    or the [0.0] of the entries that have a handler. *)
Inductive f64_scaler : Type := Pow10 (k : Z) | ZeroScaler.

Record VifData : Type := mkVifData {
  vif : Z;
  fildname : string;
  scaler : f64_scaler;
  unit : string;
  vif_function : option VifHandler
}.

Definition vd (name : string) (s : f64_scaler) (u : string) (f : option VifHandler) (v : Z) : VifData :=
  {| vif := v; fildname := name; scaler := s; unit := u; vif_function := f |}.

Definition between (a x b : Z) : bool := (a <=? x) && (x <=? b).


(** [unknown_at_{cur_pos}]. *)
Definition unknown_at (cur_pos : nat) : string := String.append "unknown_at_" (fmt_dec (Z.of_nat cur_pos)).

(** [get_vif_extension_fb], on [vif = start[cur_pos + 1]]: the arms of the
    [match vif & 0x7F].  An unknown code skips one byte only. *)
Definition fb_table (v : Z) (cur_pos : nat) : nat * VifData :=
  let x := Z.land v 0x7F in
  let n1 := Z.land v 1 in
  let n3 := Z.land v 3 in
  if between 0x00 x 0x01 then (2%nat, vd "energy" (Pow10 (n1 - 1)) "MWh" None v)
  else if between 0x08 x 0x09 then (2%nat, vd "energy" (Pow10 (n1 - 1)) "GJ" None v)
  else if between 0x10 x 0x11 then (2%nat, vd "volume" (Pow10 (n1 + 2)) "m³" None v)
  else if between 0x18 x 0x19 then (2%nat, vd "mass" (Pow10 (n1 + 2)) "t" None v)
  else if x =? 0x21 then (2%nat, vd "volume" (Pow10 (-1)) "feet³" None v)
  else if x =? 0x22 then (2%nat, vd "volume" (Pow10 (-1)) "american_gallon" None v)
  else if x =? 0x23 then (2%nat, vd "volume" (Pow10 0) "american_gallon" None v)
  else if x =? 0x24 then (2%nat, vd "volume_flow" (Pow10 (-3)) "american_gallon/min" None v)
  else if x =? 0x25 then (2%nat, vd "volume_flow" (Pow10 0) "american_gallon/min" None v)
  else if x =? 0x26 then (2%nat, vd "volume_flow" (Pow10 0) "american_gallon/h" None v)
  else if between 0x28 x 0x29 then (2%nat, vd "power" (Pow10 (n1 - 1)) "MW" None v)
  else if between 0x30 x 0x31 then (2%nat, vd "power" (Pow10 (n1 - 1)) "GJ/h" None v)
  else if between 0x58 x 0x5B then (2%nat, vd "flow_temperature" (Pow10 (n3 - 3)) "°F" None v)
  else if between 0x5C x 0x5F then (2%nat, vd "return_temperature" (Pow10 (n3 - 3)) "°F" None v)
  else if between 0x60 x 0x63 then (2%nat, vd "temperature_difference" (Pow10 (n3 - 3)) "°F" None v)
  else if between 0x64 x 0x67 then (2%nat, vd "external_temperature" (Pow10 (n3 - 3)) "°F" None v)
  else if between 0x70 x 0x73 then (2%nat, vd "cold_warm_temperature_limit" (Pow10 (n3 - 3)) "°F" None v)
  else if between 0x74 x 0x77 then (2%nat, vd "cold_warm_temperature_limit" (Pow10 (n3 - 3)) "°C" None v)
  else if between 0x78 x 0x7F then (2%nat, vd "cumul_count_max_power" (Pow10 (Z.land v 7 - 3)) "W" None v)
  else (1%nat, vd (unknown_at cur_pos) (Pow10 0) "" None v).

Definition get_vif_extension_fb (start : list byte) (cur_pos : nat) : r (nat * VifData) :=
  b <- at_idx start (cur_pos + 1) ;; ROk (fb_table (u8v b) cur_pos).

(** [get_vif_extension_fd]: the arms of its [match vif & 0x7F]. *)
Definition fd_table (v : Z) (cur_pos : nat) : nat * VifData :=
  let x := Z.land v 0x7F in
  let n3 := Z.land v 3 in
  let plain name := (2%nat, vd name (Pow10 0) "" None v) in
  if between 0x00 x 0x03 then (2%nat, vd "credit" (Pow10 (n3 - 3)) "currency_units" None v)
  else if between 0x04 x 0x07 then (2%nat, vd "debit" (Pow10 (n3 - 3)) "currency_units" None v)
  else if x =? 0x08 then (2%nat, vd "access_number" (Pow10 0) "count" None v)
  else if x =? 0x09 then plain "medium"
  else if x =? 0x0A then plain "manufacturer"
  else if x =? 0x0B then plain "parameter_set_identification"
  else if x =? 0x0C then plain "model_version"
  else if x =? 0x0D then plain "hardware_version"
  else if x =? 0x0E then plain "firmware_version"
  else if x =? 0x0F then plain "software_version"
  else if x =? 0x10 then plain "customer_location"
  else if x =? 0x11 then plain "customer"
  else if x =? 0x12 then plain "access_code_user"
  else if x =? 0x13 then plain "access_code_operator"
  else if x =? 0x14 then plain "access_code_system_operator"
  else if x =? 0x15 then plain "access_code_developer"
  else if x =? 0x16 then plain "password"
  else if x =? 0x17 then (2%nat, vd "error_flags" (Pow10 0) "" (Some vif_handle_binary) v)
  else if x =? 0x18 then plain "error_mask"
  else if x =? 0x19 then plain "reserved_0x19"
  else if x =? 0x1A then (2%nat, vd "digital_output" (Pow10 0) "" (Some vif_handle_binary) v)
  else if x =? 0x1B then (2%nat, vd "digital_input" (Pow10 0) "" (Some vif_handle_binary) v)
  else if x =? 0x1C then (2%nat, vd "baudrate" (Pow10 0) "Baud" None v)
  else if x =? 0x1D then (2%nat, vd "response_delay_time" (Pow10 0) "bittimes" None v)
  else if x =? 0x1E then plain "retry"
  else if x =? 0x1F then plain "reserved_0x1f"
  else if x =? 0x20 then plain "first_storage_for_cyclic_storage"
  else if x =? 0x21 then plain "last_storage_for_cyclic_storage"
  else if x =? 0x22 then plain "size_of_storage_block"
  else if x =? 0x23 then plain "reserved_0x23"
  else if between 0x24 x 0x27 then (2%nat, vd "storage_interval" (Pow10 0) "time" None v)
  else if x =? 0x28 then (2%nat, vd "storage_interval_months" (Pow10 0) "months" None v)
  else if x =? 0x29 then (2%nat, vd "storage_interval_years" (Pow10 0) "years" None v)
  else if x =? 0x2A then plain "reserved_0x2a"
  else if x =? 0x2B then plain "reserved_0x2b"
  else if between 0x2C x 0x2F then (2%nat, vd "duration_since_last_readout" (Pow10 0) "time" None v)
  else if x =? 0x30 then (2%nat, vd "start_of_tariff" (Pow10 0) "datetime" None v)
  else if between 0x31 x 0x33 then (2%nat, vd "duration_of_tariff" (Pow10 0) "time" None v)
  else if between 0x34 x 0x37 then (2%nat, vd "period_of_tariff" (Pow10 0) "time" None v)
  else if x =? 0x38 then (2%nat, vd "period_of_tariff_months" (Pow10 0) "months" None v)
  else if x =? 0x39 then (2%nat, vd "period_of_tariff_years" (Pow10 0) "years" None v)
  else if x =? 0x3A then plain "dimensionless"
  else if x =? 0x3B then plain "reserved_0x3b"
  else if between 0x3C x 0x3F then plain "reserved_0x3c_0x3f"
  else if between 0x40 x 0x4F then (2%nat, vd "voltage" (Pow10 (Z.land v 0xF - 9)) "V" None v)
  else if between 0x50 x 0x5F then (2%nat, vd "current" (Pow10 (Z.land v 0xF - 12)) "A" None v)
  else (2%nat, vd (unknown_at cur_pos) (Pow10 0) "" None v).

Definition get_vif_extension_fd (start : list byte) (cur_pos : nat) : r (nat * VifData) :=
  b <- at_idx start (cur_pos + 1) ;; ROk (fd_table (u8v b) cur_pos).

(** [get_vif_function]'s own table.  Two of its ranges are written with a
    decimal upper bound, [0b01110000..=01110011] and
    [0b01110100..=01110111]: the first covers 0x70 up to every value of
    [vif & 0x7F], so the second is unreachable. *)
Definition primary_table (v : Z) (cur_pos : nat) : nat * VifData :=
  let x := Z.land v 0x7F in
  let n7 := Z.land v 7 in
  let n3 := Z.land v 3 in
  if between 0x00 x 0x07 then (1%nat, vd "energy" (Pow10 (n7 - 3)) "Wh" None v)
  else if between 0x08 x 0x0F then (1%nat, vd "energy" (Pow10 (n7 - 3)) "J" None v)
  else if between 0x10 x 0x17 then (1%nat, vd "volume" (Pow10 (n7 - 6)) "m³" None v)
  else if between 0x18 x 0x1F then (1%nat, vd "mass" (Pow10 (n7 - 3)) "kg" None v)
  else if between 0x20 x 0x20 then (1%nat, vd "on_time" ZeroScaler "s" (Some parse_on_time) v)
  else if between 0x24 x 0x27 then (1%nat, vd "operation_time" ZeroScaler "s" (Some parse_on_time) v)
  else if between 0x28 x 0x2F then (1%nat, vd "power" (Pow10 (n7 - 3)) "W" None v)
  else if between 0x30 x 0x37 then (1%nat, vd "power" (Pow10 n7) "J/h" None v)
  else if between 0x38 x 0x3F then (1%nat, vd "volume_flow" (Pow10 (n7 - 6)) "m³/h" None v)
  else if between 0x40 x 0x47 then (1%nat, vd "volume_flow_ext" (Pow10 (n7 - 7)) "m³/min" None v)
  else if between 0x48 x 0x4F then (1%nat, vd "volume_flow_ext" (Pow10 (n7 - 9)) "m³/s" None v)
  else if between 0x50 x 0x57 then (1%nat, vd "mass_flow" (Pow10 (n7 - 3)) "kg/h" None v)
  else if between 0x58 x 0x5B then (1%nat, vd "flow_temperature" (Pow10 (n3 - 3)) "°C" None v)
  else if between 0x5C x 0x5F then (1%nat, vd "return_temperature" (Pow10 (n3 - 3)) "°C" None v)
  else if between 0x60 x 0x63 then (1%nat, vd "temperature_difference" (Pow10 (n3 - 3)) "K" None v)
  else if between 0x64 x 0x67 then (1%nat, vd "external_temperature" (Pow10 (n3 - 3)) "°C" None v)
  else if between 0x68 x 0x6B then (1%nat, vd "pressure" (Pow10 (n3 - 3)) "bar" None v)
  else if between 0x6C x 0x6D then (1%nat, vd "time_of_readout" ZeroScaler "" (Some parse_time_point) v)
  else if x =? 0x6E then (1%nat, vd "hca_units" (Pow10 0) "" None v)
  else if between 0x70 x 1110011 then (1%nat, vd "averaging_duration" ZeroScaler "s" (Some parse_on_time) v)
  else if between 0x74 x 1110111 then (1%nat, vd "actuality_duration" ZeroScaler "s" (Some parse_on_time) v)
  else (1%nat, vd (join ["unknown_at_"; fmt_dec (Z.of_nat cur_pos); "_"; fmt_hex 0 v])
                  (Pow10 0) "unknown" None v).

Definition get_vif_function (start : list byte) (cur_pos : nat) : r (nat * VifData) :=
  b <- at_idx start cur_pos ;;
  let v := u8v b in
  if v =? 0xFB then get_vif_extension_fb start cur_pos
  else if v =? 0xFD then get_vif_extension_fd start cur_pos
  else ROk (primary_table v cur_pos).


(** ** [parse_payload] *)

Definition scaler_is_one (s : f64_scaler) : bool :=
  match s with Pow10 0 => true | _ => false end.

(** [Value::from(v * vif_data.scaler)] with [v = value.as_f64()]. *)
Definition scale (s : f64_scaler) (value : json) : json :=
  match s, value with
  | ZeroScaler, _ => JFloat 0 0
  | Pow10 k, JInt z => JFloat z k
  | Pow10 k, JFloat m e => JFloat m (e + k)
  | _, _ => value
  end.

(** The handler of the VIF if it has one, else the scaler when the value
    is a number and the scaler is not [1.0]. *)
Definition convert (vd : VifData) (value : json) : r json :=
  match vif_function vd with
  | Some converter => converter (vif vd) value
  | None =>
      ROk (if json_is_number value && negb (scaler_is_one (scaler vd))
           then scale (scaler vd) value else value)
  end.

(** [ret.insert(fildname, value); ret.insert(fildname + "_unit", unit)]. *)
Definition insert_record (vd : VifData) (value : json) (ret : jmap) : jmap :=
  <[String.append (fildname vd) "_unit" := JStr (unit vd)]> (<[fildname vd := value]> ret).

(** One record: DIF, then (unless the DIF is a no-op) VIF and value. *)
Definition parse_record (payload : list byte) (cur_pos : nat) (ret : jmap) : r (nat * jmap) :=
  '(offset, handler, check_further) <- get_dif_function payload cur_pos ;;
  let cur_pos := (cur_pos + offset)%nat in
  if check_further then
    '(offset, vif_data) <- get_vif_function payload cur_pos ;;
    let cur_pos := (cur_pos + offset)%nat in
    '(offset, value) <- handler payload cur_pos ;;
    let cur_pos := (cur_pos + offset)%nat in
    value <- convert vif_data value ;;
    ROk (cur_pos, insert_record vif_data value ret)
  else ROk (cur_pos, ret).

(** [while cur_pos < payload.len()]. *)
Fixpoint parse_payload_loop (fuel : nat) (payload : list byte) (cur_pos : nat) (ret : jmap) : r jmap :=
  match fuel with
  | O => RPanic NoFuel
  | S fuel' =>
      if decide (cur_pos < List.length payload)%nat then
        '(cur_pos', ret') <- parse_record payload cur_pos ret ;;
        parse_payload_loop fuel' payload cur_pos' ret'
      else ROk ret
  end.

(** Each record moves the cursor at least one byte, so [len + 1] rounds
    suffice ([parse_payload_loop_fuel_stable]). *)
Definition parse_payload (payload : list byte) : r jmap :=
  parse_payload_loop (S (List.length payload)) payload 0 ∅.


(** ** Reference reading of records

    What a record means, written independently of the cursor arithmetic
    of [parse_payload]: the value its data bytes stand for by the DIF
    (little-endian integer or BCD, §4.2 of the specification), and the
    map a list of such records yields. *)

(** The number a little-endian byte string stands for. *)
Fixpoint le_value (bs : list byte) : Z :=
  match bs with
  | [] => 0
  | b :: bs' => u8v b + 256 * le_value bs'
  end.

(** The two decimal digits of a BCD byte, high nibble first. *)
Definition bcd_byte (b : byte) : Z :=
  Z.land (Z.shiftr (u8v b) 4) 0x0F * 10 + Z.land (u8v b) 0x0F.

(** Byte-wise little-endian BCD: the last byte holds the most
    significant pair of digits. *)
Fixpoint bcd_value (bs : list byte) : Z :=
  match bs with
  | [] => 0
  | b :: bs' => bcd_byte b + 100 * bcd_value bs'
  end.

(** The size in bytes of the integer DIFs. *)
Definition dif_int_size (dif : Z) : option nat :=
  match dif with
  | 0x01 => Some 1%nat | 0x02 => Some 2%nat | 0x03 => Some 3%nat
  | 0x04 => Some 4%nat | 0x06 => Some 6%nat | 0x07 => Some 8%nat
  | _ => None
  end.

(** The raw value of a record whose DIF is an integer or the 12-digit
    BCD, when its data has the DIF's size. *)
Definition dif_decode (dif : Z) (data : list byte) : option json :=
  match dif_int_size dif with
  | Some n => if Nat.eqb (List.length data) n then Some (JInt (le_value data)) else None
  | None =>
      if (dif =? 0x0C) && Nat.eqb (List.length data) 4 then Some (JInt (bcd_value data)) else None
  end.

(** A record: DIF byte, primary VIF byte, data. *)
Definition record_bytes (rc : byte * byte * list byte) : list byte :=
  let '(dif, v, data) := rc in dif :: v :: data.

Definition record_ok (rc : byte * byte * list byte) : bool :=
  let '(dif, v, data) := rc in
  bool_decide (is_Some (dif_decode (u8v dif) data)) && negb (u8v v =? 0xFB) && negb (u8v v =? 0xFD).

(** The map a list of records yields, each value converted by its VIF
    and stored with its unit; [pos] is the offset of the record. *)
Fixpoint decode_records (rcs : list (byte * byte * list byte)) (pos : nat) (ret : jmap) : r jmap :=
  match rcs with
  | [] => ROk ret
  | (dif, v, data) :: rcs' =>
      match dif_decode (u8v dif) data with
      | Some raw =>
          let vdat := (primary_table (u8v v) (pos + 1)).2 in
          value <- convert vdat raw ;;
          decode_records rcs' (pos + 2 + List.length data) (insert_record vdat value ret)
      | None => ROk ret
      end
  end.

(** The DIFs [get_dif_function] knows. *)
Definition dif_known (dif : Z) : bool :=
  bool_decide (dif ∈ [0x00; 0x01; 0x02; 0x03; 0x04; 0x05; 0x06; 0x07; 0x08; 0x0C; 0xF0; 0x2F]).

(** ** Reading bytes *)

Lemma le_combine_value bs : le_combine bs = le_value bs.
Proof.
  induction bs as [|b bs IH]; [done|]. simpl.
  rewrite IH, (lor_shiftl_add _ _ 8); [lia|lia|]. pose proof (u8v_range b). simpl; lia.
Qed.

Lemma le_value_range bs : 0 <= le_value bs < 2 ^ (8 * Z.of_nat (List.length bs)).
Proof.
  induction bs as [|b bs IH]; [simpl; lia|].
  cbn [le_value List.length]. pose proof (u8v_range b).
  rewrite Nat2Z.inj_succ, Z.mul_succ_r, Z.pow_add_r by lia. lia.
Qed.

Lemma read_bytes_ok (l : list byte) cur n :
  (cur + n <= List.length l)%nat -> read_bytes l cur n = ROk (take n (drop cur l)).
Proof.
  revert cur. induction n as [|n IH]; intros cur H; [done|].
  destruct (lookup_lt_is_Some_2 l cur ltac:(lia)) as [b Hb].
  cbn [read_bytes]. rewrite (at_idx_ok _ _ _ Hb), res_bind_ok, IH by lia. rewrite res_bind_ok.
  rewrite (drop_S _ _ _ Hb). done.
Qed.

Lemma read_bytes_oob (l : list byte) cur n :
  (0 < n)%nat -> (List.length l < cur + n)%nat -> read_bytes l cur n = RPanic IndexOutOfBounds.
Proof.
  revert cur. induction n as [|n IH]; intros cur Hn H; [lia|].
  cbn [read_bytes]. unfold at_idx.
  destruct (l !! cur) as [b|] eqn:Hb; [|done]. simpl.
  apply lookup_lt_Some in Hb. rewrite IH by lia. done.
Qed.

Lemma dif_read_int_ok n (l : list byte) cur :
  (cur + n <= List.length l)%nat ->
  dif_read_int n l cur = ROk (n, JInt (le_value (take n (drop cur l)))).
Proof. intros H. unfold dif_read_int. rewrite read_bytes_ok by done. simpl. by rewrite le_combine_value. Qed.

(** ** Selecting the handler *)

Lemma get_dif_function_int (l : list byte) cur dif n :
  l !! cur = Some dif -> dif_int_size (u8v dif) = Some n ->
  get_dif_function l cur = ROk (1%nat, dif_read_int n, true).
Proof.
  intros Hl Hn. unfold get_dif_function. rewrite (at_idx_ok _ _ _ Hl), res_bind_ok.
  destruct dif; try discriminate; injection Hn as <-; reflexivity.
Qed.

Lemma get_dif_function_offset (l : list byte) cur o h b :
  get_dif_function l cur = ROk (o, h, b) -> o = 1%nat.
Proof.
  unfold get_dif_function, at_idx. destruct (l !! cur) as [dif|]; [|discriminate].
  simpl. intros E. destruct dif; injection E; done.
Qed.

(** A record always consumes at least its DIF byte. *)
Lemma parse_record_progress (l : list byte) cur ret cur' ret' :
  parse_record l cur ret = ROk (cur', ret') -> (cur < cur')%nat.
Proof.
  unfold parse_record.
  destruct (get_dif_function l cur) as [[[o h] b]| |] eqn:E; simpl; try discriminate.
  apply get_dif_function_offset in E as ->.
  destruct b.
  - destruct (get_vif_function l (cur + 1)) as [[o2 vdat]| |]; simpl; try discriminate.
    destruct (h l (cur + 1 + o2)%nat) as [[o3 val]| |]; simpl; try discriminate.
    destruct (convert vdat val); simpl; try discriminate. intros [= <- _]. lia.
  - intros [= <- _]. lia.
Qed.

(** Once the fuel exceeds the bytes left, more fuel changes nothing: the
    bounded loop computes the result of the unbounded [while]. *)
Lemma parse_payload_loop_fuel_stable f1 f2 (l : list byte) cur ret :
  (List.length l - cur < f1)%nat -> (List.length l - cur < f2)%nat ->
  parse_payload_loop f1 l cur ret = parse_payload_loop f2 l cur ret.
Proof.
  revert f2 cur ret. induction f1 as [|f1 IH]; intros [|f2] cur ret H1 H2; try lia.
  cbn [parse_payload_loop]. case_decide; [|done].
  destruct (parse_record l cur ret) as [[cur' ret']| |] eqn:E; simpl; try done.
  apply parse_record_progress in E. apply IH; lia.
Qed.

(** The loop after one record. *)
Lemma parse_payload_loop_step fuel (l : list byte) cur ret cur' ret' :
  (cur < List.length l)%nat -> parse_record l cur ret = ROk (cur', ret') ->
  parse_payload_loop (S fuel) l cur ret = parse_payload_loop fuel l cur' ret'.
Proof. intros Hc E. cbn [parse_payload_loop]. rewrite decide_True by done. rewrite E. done. Qed.

(** ** One record *)

Lemma bcd_fold_snoc bs b result :
  bcd_fold (bs ++ [b]) result = bcd_fold bs result * 100 + bcd_byte b.
Proof. revert result. induction bs as [|b' bs IH]; intros result; [unfold bcd_byte; simpl; lia|apply IH]. Qed.

Lemma bcd_fold_rev bs : bcd_fold (rev bs) 0 = bcd_value bs.
Proof. induction bs as [|b bs IH]; [done|]. cbn [rev bcd_value]. rewrite bcd_fold_snoc, IH. lia. Qed.

Lemma primary_table_offset v c : (primary_table v c).1 = 1%nat.
Proof. unfold primary_table. repeat case_match; reflexivity. Qed.

Lemma get_vif_function_primary (l : list byte) cur v :
  l !! cur = Some v -> u8v v <> 0xFB -> u8v v <> 0xFD ->
  get_vif_function l cur = ROk (primary_table (u8v v) cur).
Proof.
  intros Hl H1 H2. unfold get_vif_function. rewrite (at_idx_ok _ _ _ Hl), res_bind_ok.
  cbv zeta. rewrite (proj2 (Z.eqb_neq _ _) H1), (proj2 (Z.eqb_neq _ _) H2). done.
Qed.

(** A DIF that [dif_decode] reads selects a handler that reads exactly
    the value [dif_decode] gives. *)
Lemma dif_decode_handler (l : list byte) cur dif data rest raw :
  l !! cur = Some dif -> (cur + 2 <= List.length l)%nat ->
  drop (cur + 2) l = data ++ rest -> dif_decode (u8v dif) data = Some raw ->
  exists h, get_dif_function l cur = ROk (1%nat, h, true) /\
            h l (cur + 2)%nat = ROk (List.length data, raw).
Proof.
  intros Hl Hc Hd Hdec. destruct (drop_app_bound _ _ _ _ Hc Hd) as [Hb Ht].
  unfold dif_decode in Hdec. destruct (dif_int_size (u8v dif)) as [n|] eqn:Hs.
  - destruct (Nat.eqb_spec (List.length data) n) as [<-|]; [|discriminate].
    injection Hdec as <-. exists (dif_read_int (List.length data)).
    rewrite (get_dif_function_int _ _ _ _ Hl Hs), dif_read_int_ok, Ht by lia. done.
  - destruct (Z.eqb_spec (u8v dif) 0x0C) as [H12|]; [|discriminate].
    destruct (Nat.eqb_spec (List.length data) 4) as [H4|]; [|discriminate].
    injection Hdec as <-. exists dif_read_12digest_bcd. split.
    + unfold get_dif_function. rewrite (at_idx_ok _ _ _ Hl), res_bind_ok, H12. done.
    + unfold dif_read_12digest_bcd, bcd_to_integer_sized.
      rewrite read_bytes_ok by lia. rewrite <- H4, Ht. simpl. rewrite bcd_fold_rev. done.
Qed.

(** [parse_record] on a record that [record_ok] accepts. *)
Lemma parse_record_decode (l : list byte) cur ret dif v data rest raw :
  drop cur l = dif :: v :: data ++ rest -> dif_decode (u8v dif) data = Some raw ->
  u8v v <> 0xFB -> u8v v <> 0xFD ->
  parse_record l cur ret =
    (let vdat := (primary_table (u8v v) (cur + 1)).2 in
     value <- convert vdat raw ;; ROk ((cur + 2 + List.length data)%nat, insert_record vdat value ret)).
Proof.
  intros Hd Hdec H1 H2.
  destruct (drop_cons_inv _ _ _ _ Hd) as [Hl Hd1].
  destruct (drop_cons_inv _ _ _ _ Hd1) as [Hv Hd2].
  assert (Hc : (cur + 2 <= List.length l)%nat) by (apply lookup_lt_Some in Hv; lia).
  replace (S (S cur)) with (cur + 2)%nat in Hd2 by lia.
  destruct (dif_decode_handler _ _ _ _ _ _ Hl Hc Hd2 Hdec) as (h & Hg & Hh).
  unfold parse_record. rewrite Hg, res_bind_ok. cbv beta iota zeta.
  rewrite <- Nat.add_1_r in Hv. rewrite (get_vif_function_primary l (cur + 1) v) by done.
  rewrite res_bind_ok.
  pose proof (primary_table_offset (u8v v) (cur + 1)) as Ho.
  destruct (primary_table (u8v v) (cur + 1)) as [o vdat]. simpl in Ho |- *. subst o.
  replace (cur + 1 + 1)%nat with (cur + 2)%nat by lia. rewrite Hh, res_bind_ok. simpl.
  replace (cur + 2 + List.length data)%nat with (cur + 1 + 1 + List.length data)%nat by lia. done.
Qed.

Lemma parse_payload_loop_records fuel (l : list byte) cur ret rcs :
  Forall (fun rc => record_ok rc = true) rcs ->
  drop cur l = List.concat (map record_bytes rcs) ->
  (List.length l - cur < fuel)%nat ->
  parse_payload_loop fuel l cur ret = decode_records rcs cur ret.
Proof.
  revert fuel cur ret. induction rcs as [|[[dif v] data] rcs IH]; intros fuel cur ret Hok Hd Hf;
    (destruct fuel as [|fuel]; [lia|]); cbn [parse_payload_loop].
  - rewrite decide_False; [done|]. apply (f_equal List.length) in Hd. simpl in Hd.
    rewrite length_drop in Hd. lia.
  - apply Forall_cons in Hok as [Hrc Hok]. simpl in Hrc.
    apply andb_prop in Hrc as [Hrc H2]. apply andb_prop in Hrc as [Hs H1].
    apply bool_decide_eq_true in Hs as [raw Hraw].
    apply negb_true_iff, Z.eqb_neq in H1, H2.
    simpl in Hd. destruct (drop_cons_inv _ _ _ _ Hd) as [Hl _].
    rewrite decide_True by (apply lookup_lt_Some in Hl; done).
    rewrite (parse_record_decode _ _ _ _ _ _ _ _ Hd Hraw H1 H2). cbn [decode_records].
    rewrite Hraw. cbv zeta.
    destruct (convert _ raw) as [value| |]; simpl; try done.
    apply IH; [done| |].
    + replace (cur + 2 + List.length data)%nat with (cur + (2 + List.length data))%nat by lia.
      rewrite <- drop_drop, Hd. simpl. rewrite drop_app_length. done.
    + apply (f_equal List.length) in Hd. rewrite length_drop in Hd. simpl in Hd.
      rewrite length_app in Hd. lia.
Qed.

Lemma get_dif_function_unknown (l : list byte) cur dif :
  l !! cur = Some dif -> dif_known (u8v dif) = false ->
  get_dif_function l cur = ROk (1%nat, dif_no_data, true).
Proof.
  intros Hl Hk. unfold get_dif_function. rewrite (at_idx_ok _ _ _ Hl), res_bind_ok.
  destruct dif; try discriminate Hk; reflexivity.
Qed.

Lemma parse_payload_loop_fillers fuel (l : list byte) cur ret k :
  drop cur l = repeat Byte.x2f k -> (List.length l - cur < fuel)%nat ->
  parse_payload_loop fuel l cur ret = ROk ret.
Proof.
  revert fuel cur. induction k as [|k IH]; intros [|fuel] cur Hd Hf; try lia; cbn [parse_payload_loop].
  - rewrite decide_False; [done|]. apply (f_equal List.length) in Hd.
    rewrite length_drop in Hd. simpl in Hd. lia.
  - destruct (drop_cons_inv _ _ _ _ Hd) as [Hl Hd1].
    rewrite decide_True by (apply lookup_lt_Some in Hl; done).
    unfold parse_record, get_dif_function. rewrite (at_idx_ok _ _ _ Hl). simpl.
    apply IH; [rewrite Nat.add_1_r; done|]. apply lookup_lt_Some in Hl. lia.
Qed.

(** ** Properties of the decoder *)

(** C3: [parse_payload] refines the record-level reading: on a payload
    made of records with an integer or 12-digit BCD DIF, data of the DIF's
    size and a primary VIF, it yields the map [decode_records] builds,
    each raw value the little-endian (or BCD) number of its bytes,
    converted by its VIF. *)
Theorem parse_payload_records rcs :
  Forall (fun rc => record_ok rc = true) rcs ->
  parse_payload (List.concat (map record_bytes rcs)) = decode_records rcs 0 ∅.
Proof. intros Hok. apply parse_payload_loop_records; [done|done|lia]. Qed.

(** C22: DIF coverage: for every integer DIF and the 12-digit BCD DIF,
    a record with VIF [0x03] (energy in Wh, scaler 1) decodes to the
    little-endian (resp. BCD) value of its bytes, under [energy], with
    unit [Wh]. *)
Theorem dif_coverage_energy dif data raw :
  dif_decode (u8v dif) data = Some raw ->
  parse_payload (dif :: Byte.x03 :: data) =
    ROk (<["energy_unit" := JStr "Wh"]> (<["energy" := raw]> (∅ : jmap))).
Proof.
  intros Hraw. unfold parse_payload.
  rewrite (parse_payload_loop_records _ _ 0 ∅ [(dif, Byte.x03, data)]).
  - cbn [decode_records]. rewrite Hraw. simpl.
    unfold dif_decode in Hraw. repeat case_match; simplify_eq; done.
  - repeat constructor. simpl. rewrite Hraw. done.
  - simpl. rewrite app_nil_r. done.
  - simpl. lia.
Qed.

(** a record whose data ends before the DIF's size makes the decoder
    panic on the out-of-range index: the truncated telegram is not
    dropped with an error, the worker thread dies. *)
Theorem parse_payload_truncated dif v data n :
  dif_int_size (u8v dif) = Some n -> (List.length data < n)%nat ->
  u8v v <> 0xFB -> u8v v <> 0xFD ->
  parse_payload (dif :: v :: data) = RPanic IndexOutOfBounds.
Proof.
  intros Hs Hn H1 H2. unfold parse_payload. cbn [parse_payload_loop].
  rewrite decide_True by (simpl; lia). unfold parse_record.
  rewrite (get_dif_function_int _ _ dif n) by done. rewrite res_bind_ok. cbv beta iota zeta. rewrite Nat.add_0_l.
  rewrite (get_vif_function_primary _ _ v) by done. rewrite res_bind_ok.
  pose proof (primary_table_offset (u8v v) 1) as Ho.
  destruct (primary_table (u8v v) 1) as [o vdat]. cbn [fst] in Ho. subst o. cbv beta iota zeta.
  unfold dif_read_int. cbv beta. rewrite read_bytes_oob by (simpl; destruct n; simpl in *; lia). done.
Qed.

(** an unknown DIF is not skipped: the decoder reads the next byte as
    a VIF, consumes two bytes and stores the empty string under the VIF's
    field (the specification says it advances one byte and emits
    nothing). *)
Theorem parse_payload_unknown_dif dif v :
  dif_known (u8v dif) = false -> u8v v <> 0xFB -> u8v v <> 0xFD ->
  parse_payload [dif; v] =
    (let vdat := (primary_table (u8v v) 1).2 in
     value <- convert vdat (JStr "") ;; ROk (insert_record vdat value ∅)).
Proof.
  intros Hk H1 H2. unfold parse_payload. cbn [parse_payload_loop].
  rewrite decide_True by (simpl; lia). unfold parse_record.
  rewrite (get_dif_function_unknown _ _ dif) by done. rewrite res_bind_ok. cbv beta iota zeta. rewrite Nat.add_0_l.
  rewrite (get_vif_function_primary _ _ v) by done. rewrite res_bind_ok.
  pose proof (primary_table_offset (u8v v) 1) as Ho.
  destruct (primary_table (u8v v) 1) as [o vdat]. cbn [fst] in Ho. subst o. cbv beta iota zeta.
  unfold dif_no_data. rewrite res_bind_ok.
  cbn [snd]. destruct (convert vdat (JStr "")); reflexivity.
Qed.

(** the 8-digit BCD DIF [0xF0] and the 32-bit real DIF [0x05] are
    stubs: whatever their four data bytes, they yield the string
    ["1111 1111"] and [0.0]. *)
Theorem dif_stub_handlers data :
  List.length data = 4%nat ->
  parse_payload (Byte.xf0 :: Byte.x03 :: data) =
    ROk (<["energy_unit" := JStr "Wh"]> (<["energy" := JStr "1111 1111"]> (∅ : jmap))) /\
  parse_payload (Byte.x05 :: Byte.x03 :: data) =
    ROk (<["energy_unit" := JStr "Wh"]> (<["energy" := JFloat 0 0]> (∅ : jmap))).
Proof. intros Hl. destruct data as [|a [|b [|c [|d [|]]]]]; try discriminate; split; reflexivity. Qed.

(** the range written [0b01110000..=01110011] in [get_vif_function]
    has a decimal upper bound, so every VIF from [0x70] to [0x7F] is
    [averaging_duration] and no VIF byte yields [actuality_duration]. *)
Theorem vif_actuality_unreachable (b : byte) c :
  (0x70 <= Z.land (u8v b) 0x7F -> fildname (primary_table (u8v b) c).2 = "averaging_duration"%string) /\
  fildname (primary_table (u8v b) c).2 <> "actuality_duration"%string.
Proof. destruct b; split; (intros; vm_compute in *; first [lia | congruence | discriminate]). Qed.

(** a payload of idle fillers [0x2F] decodes to the empty map. *)
Theorem parse_payload_fillers k : parse_payload (repeat Byte.x2f k) = ROk ∅.
Proof. apply (parse_payload_loop_fillers _ _ _ _ k); [done|lia]. Qed.

(** termination: [len + 1] rounds of the loop are enough; any
    larger bound gives the same result. *)
Theorem parse_payload_fuel (l : list byte) fuel :
  (List.length l < fuel)%nat -> parse_payload_loop fuel l 0 ∅ = parse_payload l.
Proof. intros H. apply parse_payload_loop_fuel_stable; lia. Qed.

(** scenario S6 of the specification: DIF [0x02], VIF [0x22], value
    2.  The code's on-time arm is [0x20] alone, so [0x22] is an unknown
    VIF: the value 2 is stored under [unknown_at_1_22], not as
    [on_time = 7200]; the operating-time VIF [0x26] (hours) does give
    7200 seconds. *)
Example parse_payload_s6 :
  parse_payload [Byte.x02; Byte.x22; Byte.x02; Byte.x00] =
    ROk (<["unknown_at_1_22_unit" := JStr "unknown"]> (<["unknown_at_1_22" := JInt 2]> (∅ : jmap))) /\
  parse_payload [Byte.x02; Byte.x26; Byte.x02; Byte.x00] =
    ROk (<["operation_time_unit" := JStr "s"]> (<["operation_time" := JInt 7200]> (∅ : jmap))).
Proof. split; reflexivity. Qed.

(** the type-G date reads its year and century with the precedence
    of [time & 0xE0 >> 5]: the date bytes [1F 1C] (31.12.2008 in the
    standard's encoding) are printed as [31.12.2207]. *)
Example parse_time_point_type_g :
  parse_payload [Byte.x02; Byte.x6c; Byte.x1f; Byte.x1c] =
    ROk (<["time_of_readout_unit" := JStr ""]> (<["time_of_readout" := JStr "31.12.2207"]> (∅ : jmap))).
Proof. reflexivity. Qed.

(** the type-F date takes its century from bits 5 and 6 of the
    minute byte: the same day, 27.12.1990, read at 15:00 and at 15:32,
    is printed with the years 1990 and 2090. *)
Example parse_time_point_type_f_century :
  parse_payload [Byte.x04; Byte.x6d; Byte.x00; Byte.x0f; Byte.x5b; Byte.xbc] =
    ROk (<["time_of_readout_unit" := JStr ""]> (<["time_of_readout" := JStr "27.12.1990 15:00"]> (∅ : jmap))) /\
  parse_payload [Byte.x04; Byte.x6d; Byte.x20; Byte.x0f; Byte.x5b; Byte.xbc] =
    ROk (<["time_of_readout_unit" := JStr ""]> (<["time_of_readout" := JStr "27.12.2090 15:32"]> (∅ : jmap))).
Proof. split; reflexivity. Qed.

(** ** Witnesses *)

Lemma parse_payload_records_witness :
  Forall (fun rc => record_ok rc = true)
    [(Byte.x04, Byte.x13, [Byte.x10; Byte.x27; Byte.x00; Byte.x00]);
     (Byte.x02, Byte.x26, [Byte.x02; Byte.x00]);
     (Byte.x0c, Byte.x03, [Byte.x78; Byte.x56; Byte.x34; Byte.x12])] /\
  parse_payload (List.concat (map record_bytes
    [(Byte.x04, Byte.x13, [Byte.x10; Byte.x27; Byte.x00; Byte.x00]);
     (Byte.x02, Byte.x26, [Byte.x02; Byte.x00]);
     (Byte.x0c, Byte.x03, [Byte.x78; Byte.x56; Byte.x34; Byte.x12])])) =
  decode_records
    [(Byte.x04, Byte.x13, [Byte.x10; Byte.x27; Byte.x00; Byte.x00]);
     (Byte.x02, Byte.x26, [Byte.x02; Byte.x00]);
     (Byte.x0c, Byte.x03, [Byte.x78; Byte.x56; Byte.x34; Byte.x12])] 0 ∅.
Proof.
  assert (H : Forall (fun rc => record_ok rc = true)
    [(Byte.x04, Byte.x13, [Byte.x10; Byte.x27; Byte.x00; Byte.x00]);
     (Byte.x02, Byte.x26, [Byte.x02; Byte.x00]);
     (Byte.x0c, Byte.x03, [Byte.x78; Byte.x56; Byte.x34; Byte.x12])])
    by (repeat constructor).
  split; [exact H | apply (parse_payload_records _ H)].
Defined.

Lemma dif_coverage_energy_witness :
  dif_decode (u8v Byte.x0c) [Byte.x78; Byte.x56; Byte.x34; Byte.x12] = Some (JInt 12345678) /\
  parse_payload [Byte.x0c; Byte.x03; Byte.x78; Byte.x56; Byte.x34; Byte.x12] =
    ROk (<["energy_unit" := JStr "Wh"]> (<["energy" := JInt 12345678]> (∅ : jmap))).
Proof. split; [reflexivity | apply (dif_coverage_energy Byte.x0c); reflexivity]. Defined.

Lemma parse_payload_truncated_witness :
  dif_int_size (u8v Byte.x04) = Some 4%nat /\
  parse_payload [Byte.x04; Byte.x13; Byte.x10; Byte.x27] = RPanic IndexOutOfBounds.
Proof. split; [reflexivity | apply (parse_payload_truncated _ _ _ 4); vm_compute; (reflexivity || lia || discriminate)]. Defined.

Lemma parse_payload_unknown_dif_witness :
  dif_known (u8v Byte.x09) = false /\
  parse_payload [Byte.x09; Byte.x03] =
    (let vdat := (primary_table (u8v Byte.x03) 1).2 in
     value <- convert vdat (JStr "") ;; ROk (insert_record vdat value ∅)).
Proof. split; [reflexivity | apply parse_payload_unknown_dif; (reflexivity || discriminate)]. Defined.

Lemma dif_stub_handlers_witness :
  parse_payload [Byte.xf0; Byte.x03; Byte.x12; Byte.x34; Byte.x56; Byte.x78] =
    ROk (<["energy_unit" := JStr "Wh"]> (<["energy" := JStr "1111 1111"]> (∅ : jmap))).
Proof. apply (dif_stub_handlers [Byte.x12; Byte.x34; Byte.x56; Byte.x78]). reflexivity. Defined.

Lemma vif_actuality_unreachable_witness :
  fildname (primary_table (u8v Byte.x74) 1).2 = "averaging_duration"%string.
Proof. apply (vif_actuality_unreachable Byte.x74 1). vm_compute. discriminate. Defined.

Lemma parse_payload_fuel_witness :
  parse_payload_loop 10 [Byte.x02; Byte.x26; Byte.x02; Byte.x00] 0 ∅ =
  parse_payload [Byte.x02; Byte.x26; Byte.x02; Byte.x00].
Proof. apply parse_payload_fuel. simpl. lia. Defined.

End DifVif.
