(* ===== verification/Obis.v ===== *)
(** OBIS identifiers (obis_utils/mod.rs) and the [&str] operations the
    text decoders use.  A Rust [&str] is a [string] of bytes holding
    valid UTF-8; [trim] removes the characters of Unicode's White_Space
    property, written out as their UTF-8 byte sequences; [split],
    [rfind] and [u8::from_str] are written as the standard library
    defines them. *)

From S2P Require Import Prelude.

Module Obis.

(** ** [&str] operations *)

Definition az (c : ascii) : Z := Z.of_nat (nat_of_ascii c).

(** The UTF-8 encodings of the White_Space characters: U+0009 to
    U+000D, U+0020, U+0085, U+00A0, U+1680, U+2000 to U+200A, U+2028,
    U+2029, U+202F, U+205F and U+3000. *)
Definition whitespace_utf8 : list (list Z) :=
  [[0x09]; [0x0A]; [0x0B]; [0x0C]; [0x0D]; [0x20];
   [0xC2; 0x85]; [0xC2; 0xA0]; [0xE1; 0x9A; 0x80];
   [0xE2; 0x80; 0x80]; [0xE2; 0x80; 0x81]; [0xE2; 0x80; 0x82]; [0xE2; 0x80; 0x83];
   [0xE2; 0x80; 0x84]; [0xE2; 0x80; 0x85]; [0xE2; 0x80; 0x86]; [0xE2; 0x80; 0x87];
   [0xE2; 0x80; 0x88]; [0xE2; 0x80; 0x89]; [0xE2; 0x80; 0x8A];
   [0xE2; 0x80; 0xA8]; [0xE2; 0x80; 0xA9]; [0xE2; 0x80; 0xAF]; [0xE2; 0x81; 0x9F];
   [0xE3; 0x80; 0x80]].

Fixpoint zprefix (p : list Z) (l : list ascii) : bool :=
  match p, l with
  | [], _ => true
  | z :: p', c :: l' => (z =? az c) && zprefix p' l'
  | _ :: _, [] => false
  end.

(** The byte length of the whitespace character [l] starts with. *)
Definition ws_prefix (seqs : list (list Z)) (l : list ascii) : option nat :=
  match List.find (fun p => zprefix p l) seqs with
  | Some p => Some (List.length p)
  | None => None
  end.

Fixpoint trim_start_fuel (fuel : nat) (seqs : list (list Z)) (l : list ascii) : list ascii :=
  match fuel with
  | O => l
  | S fuel' =>
      match ws_prefix seqs l with
      | Some k => trim_start_fuel fuel' seqs (drop k l)
      | None => l
      end
  end.

(** [str::trim_start]: every step drops at least one byte, so [length]
    steps are enough. *)
Definition trim_start_l (l : list ascii) : list ascii :=
  trim_start_fuel (List.length l) whitespace_utf8 l.

(** [str::trim_end]: the same on the reversed bytes, with the reversed
    sequences; in valid UTF-8 a suffix that spells a whitespace
    character is that character. *)
Definition trim_end_l (l : list ascii) : list ascii :=
  rev (trim_start_fuel (List.length l) (map (@rev Z) whitespace_utf8) (rev l)).

(** [str::trim]. *)
Definition trim (s : string) : string :=
  string_of_list_ascii (trim_end_l (trim_start_l (list_ascii_of_string s))).

(** [str::split(c)]: the pieces between the occurrences of [c]; the
    empty string gives one empty piece. *)
Fixpoint split_char (c : ascii) (s : string) : list string :=
  match s with
  | EmptyString => [EmptyString]
  | String x s' =>
      if Ascii.eqb x c then EmptyString :: split_char c s'
      else match split_char c s' with
           | [] => [String x EmptyString]
           | p :: ps => String x p :: ps
           end
  end.

Fixpoint contains_char (c : ascii) (s : string) : bool :=
  match s with
  | EmptyString => false
  | String x s' => Ascii.eqb x c || contains_char c s'
  end.

(** [str::find(c)] and [str::rfind(c)] for an ASCII [c]: byte indices. *)
Fixpoint find_char (c : ascii) (s : string) : option nat :=
  match s with
  | EmptyString => None
  | String x s' => if Ascii.eqb x c then Some O else option_map S (find_char c s')
  end.

Fixpoint rfind_char (c : ascii) (s : string) : option nat :=
  match s with
  | EmptyString => None
  | String x s' =>
      match rfind_char c s' with
      | Some i => Some (S i)
      | None => if Ascii.eqb x c then Some O else None
      end
  end.

Definition is_digit (c : ascii) : bool := (48 <=? az c) && (az c <=? 57).

(** Printable ASCII, the space excluded. *)
Definition ascii_graphic (c : ascii) : bool := (33 <=? az c) && (az c <=? 126).

(** [u8::from_str]: an optional [+], then at least one decimal digit;
    the value is accumulated with checked arithmetic and must stay below
    256. *)
Fixpoint parse_digits (acc : Z) (s : string) : option Z :=
  match s with
  | EmptyString => Some acc
  | String c s' =>
      if is_digit c then
        let v := acc * 10 + (az c - 48) in
        if v <=? 255 then parse_digits v s' else None
      else None
  end.

Definition parse_u8 (s : string) : option Z :=
  let digits := match s with String "+"%char rest => rest | _ => s end in
  match digits with
  | EmptyString => None
  | _ => parse_digits 0 digits
  end.

(** ** obis_utils/mod.rs *)

Record ObisData : Type := mkObisData { code : string; value : string; unit : option string }.

(** [get_standard_obis_descriptions]. *)
Definition standard_obis_descriptions : list (string * string) := [
  ("1-0:1.8.0", "Active energy + (total)"); ("1-0:1.8.1", "Active energy + (tariff 1)");
  ("1-0:1.8.2", "Active energy + (tariff 2)"); ("1-0:2.8.0", "Active energy - (total)");
  ("1-0:2.8.1", "Active energy - (tariff 1)"); ("1-0:2.8.2", "Active energy - (tariff 2)");
  ("1-0:15.8.0", "Absolute active energy total");
  ("1-0:1.7.0", "Active power + (total)"); ("1-0:2.7.0", "Active power - (total)");
  ("1-0:15.7.0", "Absolute active instantaneous power"); ("1-0:21.7.0", "Active power + (L1)");
  ("1-0:41.7.0", "Active power + (L2)"); ("1-0:61.7.0", "Active power + (L3)");
  ("1-0:32.7.0", "Voltage (L1)"); ("1-0:52.7.0", "Voltage (L2)"); ("1-0:72.7.0", "Voltage (L3)");
  ("1-0:31.7.0", "Current (L1)"); ("1-0:51.7.0", "Current (L2)"); ("1-0:71.7.0", "Current (L3)");
  ("1-0:3.8.0", "Reactive energy + (total)"); ("1-0:4.8.0", "Reactive energy - (total)");
  ("1-0:3.7.0", "Reactive power + (total)"); ("1-0:4.7.0", "Reactive power - (total)");
  ("0-0:1.0.0", "Date and time"); ("0-0:0.0.0", "Device ID"); ("0-0:0.0.1", "Device ID 1");
  ("0-0:0.2.0", "Firmware version"); ("1-0:14.7.0", "Supply frequency");
  ("1-0:0.0.0", "Equipment identifier"); ("1-0:0.0.9", "Date and time");
  ("1-0:32.32.0", "Number of voltage sags (L1)"); ("1-0:52.32.0", "Number of voltage sags (L2)");
  ("1-0:72.32.0", "Number of voltage sags (L3)");
  ("1-0:16.7.0", "Sum active instantaneous power"); ("1-0:36.7.0", "Sum reactive instantaneous power");
  ("1-0:13.7.0", "Power factor")]%string.

(** [HashMap::get] on a table without duplicate keys. *)
Definition lookup_table (k : string) (t : list (string * string)) : option string :=
  option_map snd (List.find (fun kv => String.eqb (fst kv) k) t).

Definition get_obis_description (obis_code : string) : option string :=
  lookup_table obis_code standard_obis_descriptions.

Definition easymeter_obis_mapping : list (string * string) := [
  ("1-0:1.8.0", "total_energy_consumed"); ("1-0:2.8.0", "total_energy_delivered");
  ("1-0:15.7.0", "current_power"); ("1-0:32.7.0", "voltage_l1"); ("1-0:52.7.0", "voltage_l2");
  ("1-0:72.7.0", "voltage_l3"); ("1-0:31.7.0", "current_l1"); ("1-0:51.7.0", "current_l2");
  ("1-0:71.7.0", "current_l3"); ("0-0:1.0.0", "timestamp")]%string.

Definition ebz_obis_mapping : list (string * string) := [
  ("1-0:1.8.1", "energy_consumed_t1"); ("1-0:1.8.2", "energy_consumed_t2");
  ("1-0:2.8.1", "energy_delivered_t1"); ("1-0:2.8.2", "energy_delivered_t2");
  ("1-0:16.7.0", "sum_active_power"); ("1-0:36.7.0", "sum_reactive_power");
  ("1-0:21.7.0", "active_power_l1"); ("1-0:41.7.0", "active_power_l2");
  ("1-0:61.7.0", "active_power_l3"); ("1-0:32.7.0", "voltage_l1"); ("1-0:52.7.0", "voltage_l2");
  ("1-0:72.7.0", "voltage_l3"); ("1-0:31.7.0", "current_l1"); ("1-0:51.7.0", "current_l2");
  ("1-0:71.7.0", "current_l3"); ("1-0:13.7.0", "power_factor"); ("1-0:14.7.0", "frequency");
  ("0-0:1.0.0", "timestamp")]%string.

(** [validate_obis_code]: [A-B] before the one [:], [C.D.E] after it up
    to an optional [*], every field a [u8]; what follows [*] is not
    looked at. *)
Definition validate_obis_code (code : string) : bool :=
  match split_char ":" code with
  | [ab; cde_part] =>
      match split_char "-" ab with
      | [_; _] as ab_parts =>
          let cde := if contains_char "*" cde_part
                     then default EmptyString (head (split_char "*" cde_part)) else cde_part in
          match split_char "." cde with
          | [_; _; _] as cde_parts =>
              forallb (fun part => if parse_u8 part then true else false) (ab_parts ++ cde_parts)
          | _ => false
          end
      | _ => false
      end
  | _ => false
  end.

(** [normalize_obis_code]: [code.trim()]. *)
Definition normalize_obis_code (code : string) : string := trim code.

(** [extract_unit]: everything after the last [*], if not empty. *)
Definition extract_unit (value_content : string) : option string :=
  match rfind_char "*" value_content with
  | Some star_pos =>
      let unit := substring (S star_pos) (String.length value_content) value_content in
      if String.eqb unit "" then None else Some unit
  | None => None
  end.

(** ** Reference: the textual form [A-B:C.D.E] of five numbers. *)

Definition render_obis (a b c d e : Z) : string :=
  (fmt_dec a ++ "-" ++ fmt_dec b ++ ":" ++ fmt_dec c ++ "." ++ fmt_dec d ++ "." ++ fmt_dec e)%string.

Definition all_digits (s : string) : bool := forallb is_digit (list_ascii_of_string s).

(** What the round trip needs of the decimal form of a [u8]: it reads
    back, it is made of digits, it is not empty. *)
Definition fmt_u8_ok (n : Z) : bool :=
  match parse_u8 (fmt_dec n) with Some m => m =? n | None => false end &&
  all_digits (fmt_dec n) && negb (String.eqb (fmt_dec n) "").

(** ** Lemmas *)

Lemma fmt_u8_ok_all n : 0 <= n <= 255 -> fmt_u8_ok n = true.
Proof.
  intros Hn. assert (H : forallb (fun k => fmt_u8_ok (Z.of_nat k)) (seq 0 256) = true)
    by (vm_compute; reflexivity).
  rewrite forallb_forall in H. rewrite <- (Z2Nat.id n) by lia. apply H.
  apply in_seq. lia.
Qed.

Lemma fmt_u8_facts n :
  0 <= n <= 255 ->
  parse_u8 (fmt_dec n) = Some n /\ all_digits (fmt_dec n) = true /\ fmt_dec n <> EmptyString.
Proof.
  intros Hn. pose proof (fmt_u8_ok_all n Hn) as H. unfold fmt_u8_ok in H.
  apply andb_prop in H as [H H3]. apply andb_prop in H as [H1 H2].
  destruct (parse_u8 (fmt_dec n)) as [m|]; [|discriminate]. apply Z.eqb_eq in H1 as ->.
  apply negb_true_iff, String.eqb_neq in H3. done.
Qed.

Lemma contains_char_app c s1 s2 :
  contains_char c (s1 ++ s2) = contains_char c s1 || contains_char c s2.
Proof. induction s1 as [|x s1 IH]; [done|]. simpl. rewrite IH, orb_assoc. done. Qed.

Lemma all_digits_no_char c s : is_digit c = false -> all_digits s = true -> contains_char c s = false.
Proof.
  intros Hc. induction s as [|x s IH]; [done|]. unfold all_digits. simpl.
  intros [Hx Hs]%andb_prop. rewrite IH by done.
  destruct (Ascii.eqb_spec x c) as [->|]; [congruence|done].
Qed.

Lemma split_char_nochar c s : contains_char c s = false -> split_char c s = [s].
Proof.
  induction s as [|x s IH]; [done|]. simpl. intros [Hx Hs]%orb_false_iff. rewrite Hx, IH by done. done.
Qed.

Lemma split_char_app c s1 s2 :
  contains_char c s1 = false -> split_char c (s1 ++ String c s2) = s1 :: split_char c s2.
Proof.
  induction s1 as [|x s1 IH]; simpl.
  - rewrite Ascii.eqb_refl. done.
  - intros [Hx Hs]%orb_false_iff. rewrite Hx, IH by done. done.
Qed.

#[local] Hint Resolve all_digits_no_char : core.

Lemma ws_prefix_none_head seqs c l :
  forallb (fun p => match p with z :: _ => negb (z =? az c) | [] => false end) seqs = true ->
  ws_prefix seqs (c :: l) = None.
Proof.
  intros H. unfold ws_prefix. destruct (List.find _ seqs) as [p|] eqn:E; [|done].
  apply find_some in E as [Hin Hp]. rewrite forallb_forall in H. specialize (H p Hin).
  destruct p as [|z p]; [done|]. simpl in Hp, H. apply andb_prop in Hp as [Hz _].
  rewrite Hz in H. done.
Qed.

(** No byte of a whitespace sequence is a printable ASCII character. *)
Lemma ws_seqs_nographic seqs :
  seqs = whitespace_utf8 \/ seqs = map (@rev Z) whitespace_utf8 ->
  forall p z, In p seqs -> In z p -> ~ (33 <= z <= 126).
Proof.
  intros Hs. assert (H : forallb (forallb (fun z => negb ((33 <=? z) && (z <=? 126)))) seqs = true)
    by (destruct Hs as [->| ->]; vm_compute; reflexivity).
  intros p z Hp Hz [H1 H2]. rewrite forallb_forall in H. specialize (H p Hp).
  rewrite forallb_forall in H. specialize (H z Hz).
  rewrite (proj2 (Z.leb_le _ _) H1), (proj2 (Z.leb_le _ _) H2) in H. done.
Qed.

Lemma ws_prefix_graphic seqs c l :
  seqs = whitespace_utf8 \/ seqs = map (@rev Z) whitespace_utf8 ->
  ascii_graphic c = true -> ws_prefix seqs (c :: l) = None.
Proof.
  unfold ascii_graphic. intros Hs [H1 H2]%andb_prop. apply Z.leb_le in H1, H2.
  apply ws_prefix_none_head. apply forallb_forall. intros p Hp.
  assert (Hne : forallb (fun p => negb (List.length p =? 0)%nat) seqs = true)
    by (destruct Hs as [->| ->]; vm_compute; reflexivity).
  rewrite forallb_forall in Hne. specialize (Hne p Hp).
  destruct p as [|z p]; [done|]. apply negb_true_iff, Z.eqb_neq. intros ->.
  eapply (ws_seqs_nographic seqs Hs); [exact Hp|left; done|lia].
Qed.

Lemma is_digit_graphic c : is_digit c = true -> ascii_graphic c = true.
Proof.
  unfold is_digit, ascii_graphic. intros [H1 H2]%andb_prop. apply Z.leb_le in H1, H2.
  apply andb_true_iff. split; apply Z.leb_le; lia.
Qed.

Lemma trim_start_fuel_none fuel seqs l : ws_prefix seqs l = None -> trim_start_fuel fuel seqs l = l.
Proof. destruct fuel; simpl; [done|]. intros ->. done. Qed.

Lemma zprefix_take p l : zprefix p l = true -> map az (take (List.length p) l) = p.
Proof.
  revert l. induction p as [|z p IH]; intros [|c l]; simpl; try done.
  intros [Hz Hp]%andb_prop. apply Z.eqb_eq in Hz as ->. rewrite IH; done.
Qed.

(** [trim_start_fuel] drops whole whitespace sequences only: a byte that
    is in no sequence stays. *)
Lemma trim_start_fuel_In fuel seqs c l :
  (forall p, In p seqs -> ~ In (az c) p) -> In c l -> In c (trim_start_fuel fuel seqs l).
Proof.
  intros Hc. revert l. induction fuel as [|fuel IH]; intros l Hl; simpl; [done|].
  unfold ws_prefix. destruct (List.find _ seqs) as [p|] eqn:E; [|done].
  apply find_some in E as [Hin Hp]. apply IH.
  rewrite <- (take_drop (List.length p) l) in Hl. apply in_app_or in Hl as [Hl|]; [|done].
  exfalso. apply (Hc p Hin). rewrite <- (zprefix_take p l Hp). apply in_map. done.
Qed.

(** A string whose first and last bytes are printable ASCII is its own [trim]. *)
Lemma trim_graphic_ends (s : string) c l c' l' :
  list_ascii_of_string s = c :: l -> rev (list_ascii_of_string s) = c' :: l' ->
  ascii_graphic c = true -> ascii_graphic c' = true -> trim s = s.
Proof.
  intros E1 E2 H1 H2. unfold trim, trim_start_l, trim_end_l.
  rewrite E1, (trim_start_fuel_none _ whitespace_utf8) by (apply ws_prefix_graphic; auto). rewrite <- E1.
  rewrite E2, trim_start_fuel_none by (apply ws_prefix_graphic; auto).
  rewrite <- E2, rev_involutive. apply string_of_list_ascii_of_string.
Qed.

(** [trim] keeps every printable ASCII byte. *)
Lemma trim_graphic_In c s :
  ascii_graphic c = true -> In c (list_ascii_of_string s) -> In c (list_ascii_of_string (trim s)).
Proof.
  unfold ascii_graphic. intros [H1 H2]%andb_prop Hin. apply Z.leb_le in H1, H2.
  unfold trim, trim_start_l, trim_end_l. rewrite list_ascii_of_string_of_list_ascii.
  apply in_rev. rewrite rev_involutive. apply trim_start_fuel_In.
  { intros p Hp Hz. eapply (ws_seqs_nographic _ (or_intror eq_refl)); [exact Hp|exact Hz|lia]. }
  apply in_rev. rewrite rev_involutive. apply trim_start_fuel_In; [|done].
  intros p Hp Hz. eapply (ws_seqs_nographic _ (or_introl eq_refl)); [exact Hp|exact Hz|lia].
Qed.


Lemma all_digits_app s1 s2 : all_digits (s1 ++ s2) = all_digits s1 && all_digits s2.
Proof. unfold all_digits. rewrite list_ascii_of_string_app, forallb_app. done. Qed.

Lemma digits_first s rest :
  all_digits s = true -> s <> EmptyString ->
  exists c l, list_ascii_of_string (s ++ rest) = c :: l /\ is_digit c = true.
Proof.
  destruct s as [|c s]; [done|]. unfold all_digits. simpl. intros [Hc _]%andb_prop _. eauto.
Qed.

Lemma digits_last pre s :
  all_digits s = true -> s <> EmptyString ->
  exists c l, rev (list_ascii_of_string (pre ++ s)) = c :: l /\ is_digit c = true.
Proof.
  intros Hs Hne. rewrite list_ascii_of_string_app, rev_app_distr.
  destruct (rev (list_ascii_of_string s)) as [|c l] eqn:Er.
  - apply (f_equal (@rev ascii)) in Er. rewrite rev_involutive in Er.
    destruct s; [done|discriminate].
  - exists c, (l ++ rev (list_ascii_of_string pre)). split; [done|].
    unfold all_digits in Hs. rewrite forallb_forall in Hs. apply Hs.
    apply in_rev. rewrite Er. left. done.
Qed.






Lemma find_char_app c s1 s2 :
  contains_char c s1 = false -> find_char c (s1 ++ String c s2) = Some (String.length s1).
Proof.
  induction s1 as [|x s1 IH]; rewrite ?str_nil_app, ?str_cons_app; cbn -[Ascii.eqb].
  - rewrite Ascii.eqb_refl. done.
  - intros [Hx Hs]%orb_false_iff. rewrite Hx, IH by done. done.
Qed.

Lemma rfind_char_last c s : rfind_char c (s ++ String c EmptyString) = Some (String.length s).
Proof.
  induction s as [|x s IH]; rewrite ?str_nil_app, ?str_cons_app; cbn -[Ascii.eqb].
  - rewrite Ascii.eqb_refl. done.
  - rewrite IH. done.
Qed.

Lemma substring_app_l (s1 s2 : string) : substring 0 (String.length s1) (s1 ++ s2) = s1.
Proof. induction s1 as [|c s1 IH]; [destruct s2; done|]. rewrite str_cons_app. cbn. rewrite IH. done. Qed.

Lemma substring_app_r (s1 s2 : string) n m :
  substring (String.length s1 + n) m (s1 ++ s2) = substring n m s2.
Proof. induction s1 as [|c s1 IH]; [done|]. rewrite str_cons_app. cbn. apply IH. Qed.

Lemma contains_char_forallb c s :
  contains_char c s = negb (forallb (fun x => negb (Ascii.eqb x c)) (list_ascii_of_string s)).
Proof.
  induction s as [|x s IH]; [done|]. cbn [contains_char list_ascii_of_string forallb].
  rewrite IH. destruct (Ascii.eqb x c); done.
Qed.

(** Splitting a [sep]-separated list of digit strings gives it back. *)
Lemma split_char_concat sep ds :
  is_digit sep = false -> Forall (fun d => all_digits d = true) ds -> ds <> [] ->
  split_char sep (String.concat (String sep EmptyString) ds) = ds.
Proof.
  intros Hsep Hds. induction Hds as [|d ds Hd Hds IH]; intros Hne; [done|].
  destruct ds as [|d' ds].
  - apply split_char_nochar, all_digits_no_char; done.
  - change (String.concat (String sep EmptyString) (d :: d' :: ds))
      with (d ++ String sep EmptyString ++ String.concat (String sep EmptyString) (d' :: ds))%string.
    rewrite str_lit_app, split_char_app, IH by (try apply all_digits_no_char; done). done.
Qed.

(** [c] does not occur in a concatenation of digit strings and
    separators other than [c]. *)
Ltac nochar :=
  rewrite ?contains_char_app; cbn [contains_char];
  repeat match goal with
  | H : all_digits ?s = true |- context [contains_char ?c ?s] =>
      rewrite (all_digits_no_char c s) by (reflexivity || exact H)
  end; reflexivity.

(** The parts of a rendered code: what a split at each separator gives. *)
Lemma render_obis_split a b c d e :
  0 <= a <= 255 -> 0 <= b <= 255 -> 0 <= c <= 255 -> 0 <= d <= 255 -> 0 <= e <= 255 ->
  split_char ":" (render_obis a b c d e) =
    [(fmt_dec a ++ "-" ++ fmt_dec b)%string; (fmt_dec c ++ "." ++ fmt_dec d ++ "." ++ fmt_dec e)%string] /\
  split_char "-" (fmt_dec a ++ "-" ++ fmt_dec b) = [fmt_dec a; fmt_dec b] /\
  contains_char "*" (fmt_dec c ++ "." ++ fmt_dec d ++ "." ++ fmt_dec e) = false /\
  split_char "." (fmt_dec c ++ "." ++ fmt_dec d ++ "." ++ fmt_dec e) = [fmt_dec c; fmt_dec d; fmt_dec e].
Proof.
  intros Ha Hb Hc Hd He.
  destruct (fmt_u8_facts a Ha) as (_ & Da & _), (fmt_u8_facts b Hb) as (_ & Db & _),
    (fmt_u8_facts c Hc) as (_ & Dc & _), (fmt_u8_facts d Hd) as (_ & Dd & _),
    (fmt_u8_facts e He) as (_ & De & _).
  unfold render_obis. repeat apply conj.
  - set (R := (fmt_dec c ++ "." ++ fmt_dec d ++ "." ++ fmt_dec e)%string).
    replace (fmt_dec a ++ "-" ++ fmt_dec b ++ ":" ++ R)%string
      with ((fmt_dec a ++ "-" ++ fmt_dec b) ++ String ":" R)%string
      by (rewrite str_app_assoc; done). subst R.
    rewrite split_char_app by nochar. rewrite split_char_nochar by nochar. done.
  - rewrite !str_lit_app. rewrite split_char_app, split_char_nochar by nochar. done.
  - nochar.
  - rewrite !str_lit_app. rewrite split_char_app by nochar.
    rewrite split_char_app, split_char_nochar by nochar. done.
Qed.

(** * Properties *)

(** C24: A code written [A-B:C.D.E] from five [u8] values is accepted by
    [validate_obis_code], and [normalize_obis_code] leaves it as it is. *)
Theorem validate_render_obis a b c d e :
  0 <= a <= 255 -> 0 <= b <= 255 -> 0 <= c <= 255 -> 0 <= d <= 255 -> 0 <= e <= 255 ->
  validate_obis_code (render_obis a b c d e) = true /\
  normalize_obis_code (render_obis a b c d e) = render_obis a b c d e.
Proof.
  intros Ha Hb Hc Hd He.
  destruct (render_obis_split a b c d e Ha Hb Hc Hd He) as (S1 & S2 & S3 & S4).
  destruct (fmt_u8_facts a Ha) as (Pa & Da & Na), (fmt_u8_facts b Hb) as (Pb & Db & Nb),
    (fmt_u8_facts c Hc) as (Pc & Dc & Nc), (fmt_u8_facts d Hd) as (Pd & Dd & Nd),
    (fmt_u8_facts e He) as (Pe & De & Ne).
  split.
  - unfold validate_obis_code. rewrite S1, S2, S3, S4. simpl. rewrite Pa, Pb, Pc, Pd, Pe. done.
  - destruct (digits_first (fmt_dec a) ("-" ++ fmt_dec b ++ ":" ++ fmt_dec c ++ "." ++ fmt_dec d ++ "." ++ fmt_dec e)
      Da Na) as (x & l & E1 & X).
    destruct (digits_last (fmt_dec a ++ "-" ++ fmt_dec b ++ ":" ++ fmt_dec c ++ "." ++ fmt_dec d ++ ".") (fmt_dec e)
      De Ne) as (y & l' & E2 & Y).
    unfold normalize_obis_code, render_obis.
    rewrite !str_app_assoc in E2. eapply trim_graphic_ends; eauto using is_digit_graphic.
Qed.

(** [validate_obis_code] does not look at what follows the [*]:
    a code whose F part is not a number is accepted; the rest of the
    code does check its fields as [u8]. *)
Example validate_obis_code_f_part :
  validate_obis_code "1-0:1.8.1*abc" = true /\ validate_obis_code "1-0:1.8.1*255" = true /\
  validate_obis_code "1-0:256.8.1" = false.
Proof. vm_compute. auto. Qed.

(** [extract_unit] keeps whatever follows the last [*], spaces,
    digits and punctuation included, and nothing when the [*] is last. *)
Example extract_unit_any_suffix :
  extract_unit "1.5*kWh" = Some "kWh" /\ extract_unit "1.5*k Wh)" = Some "k Wh)" /\
  extract_unit "1.5*12" = Some "12" /\ extract_unit "1.5*" = None /\ extract_unit "1*2*V" = Some "V".
Proof. vm_compute. auto. Qed.

(** Witness of [validate_render_obis]. *)
Lemma validate_render_obis_witness :
  validate_obis_code (render_obis 1 0 1 8 0) = true /\
  normalize_obis_code (render_obis 1 0 1 8 0) = render_obis 1 0 1 8 0.
Proof. apply (validate_render_obis 1 0 1 8 0); lia. Defined.

End Obis.
