(* ===== verification/Iec62056.v ===== *)
(** The IEC 62056-21 telegram decoder (metering_62056/): the
    identification line (utils.rs), the OBIS data lines
    (obis_parser.rs) and the telegram loop (mod.rs,
    [parse_iec62056_telegram]) that turns an ASCII telegram into a
    [MeteringData] record, with the checksum helpers of utils.rs. *)

From S2P Require Import Prelude.
From S2P Require Import Models.
From S2P Require Import Obis.

Module Iec62056.

Import Models Obis.

(** ** Data (mod.rs, structs.rs) *)

Inductive Iec62056ParseError : Type :=
| InvalidFormat | UnsupportedMode | InvalidObisCode | ChecksumFailed
| DeviceNotConfigured | MissingIdentification | InvalidDataLine.

Inductive ProtocolMode : Type := ModeA | ModeB | ModeC | ModeD.

Record DeviceIdentification : Type := mkDeviceIdentification {
  manufacturer : string;
  identification : string;
  mode : string;
  full_id : string
}.

(** ** [&str] operations of the decoder *)

(** A byte index of valid UTF-8 is a character boundary when it is 0,
    the length, or the index of a byte that is not a continuation
    byte [0b10xxxxxx] ([str::is_char_boundary]). *)
Definition is_char_boundary (s : string) (i : nat) : bool :=
  (i =? 0)%nat ||
  match String.get i s with
  | Some c => negb ((128 <=? az c) && (az c <? 192))
  | None => (i =? String.length s)%nat
  end.

(** [&s[a..b]]: panics unless [a <= b] and both are boundaries. *)
Definition str_slice {E} (s : string) (a b : nat) : res E string :=
  if (a <=? b)%nat && is_char_boundary s a && is_char_boundary s b
  then ROk (substring a (b - a) s) else RPanic StrSliceBoundary.

Definition starts_with_char (c : ascii) (s : string) : bool :=
  match s with String x _ => Ascii.eqb x c | EmptyString => false end.

(** [str::split_inclusive('\n')]: the pieces up to and including each
    line feed, and the rest if it is not empty. *)
Fixpoint split_inclusive_nl (s : string) : list string :=
  match s with
  | EmptyString => []
  | String c s' =>
      if Ascii.eqb c "010"%char then String c EmptyString :: split_inclusive_nl s'
      else match split_inclusive_nl s' with
           | [] => [String c EmptyString]
           | p :: ps => String c p :: ps
           end
  end.

(** [str::strip_suffix(c)]. *)
Definition strip_suffix_char (c : ascii) (s : string) : option string :=
  match rev (list_ascii_of_string s) with
  | x :: r => if Ascii.eqb x c then Some (string_of_list_ascii (rev r)) else None
  | [] => None
  end.

(** The line of a piece: without its ["\n"], and then without a ["\r"]
    before it ([LinesMap] of the standard library). *)
Definition line_of_piece (p : string) : string :=
  match strip_suffix_char "010"%char p with
  | None => p
  | Some l => match strip_suffix_char "013"%char l with None => l | Some l' => l' end
  end.

(** [str::lines]. *)
Definition str_lines (s : string) : list string := map line_of_piece (split_inclusive_nl s).

(** ** utils.rs *)

Definition determine_protocol_mode (identification : string) : string :=
  if contains_char "@" identification then "C"
  else if (10 <? String.length identification)%nat then "D"
  else "A".

(** [parse_identification_line]: the manufacturer is the first three
    bytes after the [/]; the identification is all of them. *)
Definition parse_identification_line (line : string)
    : res Iec62056ParseError DeviceIdentification :=
  if negb (starts_with_char "/" line) then RErr MissingIdentification else
  content <- str_slice line 1 (String.length line) ;;
  if (3 <=? String.length content)%nat then
    manufacturer <- str_slice content 0 3 ;;
    let identification := content in
    let mode := determine_protocol_mode identification in
    ROk {| manufacturer := manufacturer; identification := identification; mode := mode;
           full_id := (manufacturer ++ identification)%string |}
  else RErr InvalidFormat.

(** [calculate_checksum]: the byte sum, wrapping at 16 bits, as four
    upper-case hex digits. *)
Definition calculate_checksum (data : string) : string :=
  let checksum := fold_left (fun acc c => (acc + az c) mod 65536) (list_ascii_of_string data) 0 in
  fmt_HEX 4 (Z.land checksum 0xFFFF).

Definition verify_checksum (telegram provided_checksum : string) : bool :=
  String.eqb (calculate_checksum telegram) provided_checksum.

(** utils.rs [normalize_obis_code] (the decoder calls the obis_utils
    one): [trim] and then [replace(" ", "")]. *)
Fixpoint remove_spaces (s : string) : string :=
  match s with
  | EmptyString => EmptyString
  | String c s' => if Ascii.eqb c " "%char then remove_spaces s' else String c (remove_spaces s')
  end.

Definition normalize_obis_code_utils (code : string) : string := remove_spaces (trim code).

(** ** obis_parser.rs *)

(** [parse_obis_line]: code before the first [(], value between it and
    the last [)].  Both are ASCII, so the slices are at character
    boundaries and cannot panic. *)
Definition parse_obis_line (line0 : string) : res Iec62056ParseError ObisData :=
  let line := trim line0 in
  match find_char "(" line with
  | None => RErr InvalidDataLine
  | Some paren_start =>
      match rfind_char ")" line with
      | None => RErr InvalidDataLine
      | Some paren_end =>
          if (paren_end <=? paren_start)%nat then RErr InvalidDataLine else
          let obis_code := normalize_obis_code (substring 0 paren_start line) in
          let value_content := substring (S paren_start) (paren_end - S paren_start) line in
          ROk {| code := obis_code; value := value_content; unit := extract_unit value_content |}
      end
  end.

(** ** mod.rs *)

(** The loop over the data lines: blank lines are skipped, a line
    starting with [!] ends it, a line that does not parse is logged and
    skipped; a parsed line inserts [code] and, with a unit, [code_unit]. *)
Fixpoint data_lines (lines : list string) (vals : jmap) : jmap :=
  match lines with
  | [] => vals
  | line :: rest =>
      if String.eqb (trim line) "" then data_lines rest vals
      else if starts_with_char "!" line then vals
      else match parse_obis_line line with
           | ROk obis_data =>
               let vals := <[code obis_data := JStr (value obis_data)]> vals in
               let vals := match unit obis_data with
                           | Some u => <[(code obis_data ++ "_unit")%string := JStr u]> vals
                           | None => vals
                           end in
               data_lines rest vals
           | _ => data_lines rest vals
           end
  end.

Definition iec_protocol_map (device_info : DeviceIdentification) : jmap :=
  <["mode" := JStr (mode device_info)]>
  (<["identification" := JStr (identification device_info)]>
  (<["manufacturer" := JStr (manufacturer device_info)]>
  (<["type" := JStr "iec62056"]> ∅))).

(** [parse_iec62056_telegram]. *)
Definition parse_iec62056_telegram (telegram : string) : res Iec62056ParseError MeteringData :=
  match str_lines telegram with
  | [] => RErr InvalidFormat
  | identification_line :: rest =>
      if negb (starts_with_char "/" identification_line) then RErr MissingIdentification else
      device_info <- parse_identification_line identification_line ;;
      let mr := set_meter_name (full_id device_info) (set_protocol IEC62056 MeteringData_new) in
      let vals := data_lines rest (metered_values mr) in
      ROk (set_values (<["proto" := jobj (iec_protocol_map device_info)]> vals) mr)
  end.

(** ** Reference: well-formed UTF-8

    A Rust [&str] always holds valid UTF-8.  The check below is the
    structure of UTF-8 (a lead byte announcing 0 to 3 continuation
    bytes [0b10xxxxxx]); what it leaves out (overlong forms,
    surrogates, code points above U+10FFFF) does not move a character
    boundary. *)
Definition is_cont (c : ascii) : bool := (128 <=? az c) && (az c <? 192).

Definition lead_len (c : ascii) : option nat :=
  if az c <? 128 then Some 0%nat
  else if (194 <=? az c) && (az c <=? 223) then Some 1%nat
  else if (224 <=? az c) && (az c <=? 239) then Some 2%nat
  else if (240 <=? az c) && (az c <=? 244) then Some 3%nat
  else None.

Fixpoint conts (n : nat) (l : list ascii) : option (list ascii) :=
  match n, l with
  | O, _ => Some l
  | S n', c :: r => if is_cont c then conts n' r else None
  | S _, [] => None
  end.

Fixpoint utf8_ok (fuel : nat) (l : list ascii) : bool :=
  match l, fuel with
  | [], _ => true
  | _ :: _, O => false
  | c :: r, S f =>
      match lead_len c with
      | Some n => match conts n r with Some r' => utf8_ok f r' | None => false end
      | None => false
      end
  end.

(** Every character takes at least one byte: the length is enough fuel. *)
Definition utf8_valid (s : string) : bool :=
  utf8_ok (String.length s) (list_ascii_of_string s).

(** The telegram of scenario S2 of the specification. *)
Definition iec_s2_telegram : string :=
  ("/ELS5\@V5.3" ++ String "010" "1-0:1.8.1(000123.456*kWh)" ++ String "010" "1-0:15.7.0(001.234*kW)"
   ++ String "010" "!")%string.

(** ** Lemmas *)

Lemma lead_len_not_cont d : lead_len d <> None -> is_cont d = false.
Proof. destruct d as [[] [] [] [] [] [] [] []]; vm_compute; done. Qed.

(** In valid UTF-8 the byte after an ASCII byte starts a character. *)
Lemma utf8_after_ascii c d r :
  utf8_valid (String c (String d r)) = true -> az c < 128 -> is_cont d = false.
Proof.
  unfold utf8_valid. cbn [String.length list_ascii_of_string utf8_ok].
  intros H Hc. unfold lead_len at 1 in H. rewrite (proj2 (Z.ltb_lt _ _) Hc) in H.
  cbn [conts utf8_ok] in H. apply lead_len_not_cont. destruct (lead_len d); done.
Qed.

Lemma get_length s : String.get (String.length s) s = None.
Proof. induction s as [|c s IH]; done. Qed.

Lemma is_char_boundary_length s : is_char_boundary s (String.length s) = true.
Proof.
  unfold is_char_boundary. rewrite get_length.
  rewrite Nat.eqb_refl, orb_true_r. done.
Qed.

(** Slicing off a leading ASCII byte never panics in valid UTF-8. *)
Lemma str_slice_after_ascii {E} c content :
  utf8_valid (String c content) = true -> az c < 128 ->
  @str_slice E (String c content) 1 (String.length (String c content)) = ROk content.
Proof.
  intros Hv Hc. unfold str_slice. rewrite is_char_boundary_length.
  assert (Hb : is_char_boundary (String c content) 1 = true).
  { unfold is_char_boundary. destruct content as [|d r]; [done|].
    pose proof (utf8_after_ascii c d r Hv Hc) as Hd. unfold is_cont in Hd.
    cbn [String.get]. rewrite Hd. done. }
  rewrite Hb. cbn [String.length Nat.leb andb]. rewrite Nat.sub_1_r.
  destruct (Nat.leb_spec 1 (S (String.length content))); [|lia].
  cbn [substring Nat.pred]. rewrite substring_0_length. done.
Qed.

Lemma split_inclusive_nl_nil s : split_inclusive_nl s = [] -> s = EmptyString.
Proof.
  destruct s as [|c s]; [done|]. cbn. destruct (Ascii.eqb c "010"); [done|].
  destruct (split_inclusive_nl s); done.
Qed.

(** A line feed closes a piece: what follows it is split on its own. *)
Lemma split_inclusive_nl_app s1 s2 :
  split_inclusive_nl (s1 ++ String "010" s2) =
  split_inclusive_nl (s1 ++ String "010" EmptyString) ++ split_inclusive_nl s2.
Proof.
  induction s1 as [|c s1 IH]; [done|]. rewrite !str_cons_app. cbn [split_inclusive_nl].
  destruct (Ascii.eqb c "010"); [rewrite IH; done|]. rewrite IH.
  destruct (split_inclusive_nl (s1 ++ String "010" EmptyString)) eqn:E; [|done].
  apply split_inclusive_nl_nil in E. destruct s1; done.
Qed.

Lemma split_inclusive_nl_bang x :
  exists p ps, split_inclusive_nl (String "!" x) = String "!" p :: ps.
Proof.
  cbn [split_inclusive_nl]. destruct (split_inclusive_nl x) as [|p ps]; cbn; eauto.
Qed.

Lemma strip_suffix_char_head c x r y :
  Ascii.eqb x c = false -> strip_suffix_char c (String x r) = Some y -> exists y', y = String x y'.
Proof.
  unfold strip_suffix_char. cbn [list_ascii_of_string rev].
  destruct (rev (list_ascii_of_string r)) as [|z t] eqn:E; cbn [app].
  - intros ->. done.
  - destruct (Ascii.eqb z c); [|done]. intros _ [= <-].
    rewrite rev_app_distr. cbn. eauto.
Qed.

(** The end line keeps its [!] when its line ending is removed. *)
Lemma line_of_piece_bang p : starts_with_char "!" (line_of_piece (String "!" p)) = true.
Proof.
  unfold line_of_piece.
  destruct (strip_suffix_char "010" (String "!" p)) as [l|] eqn:E1; [|done].
  destruct (strip_suffix_char_head "010" "!" p l eq_refl E1) as [l1 ->].
  destruct (strip_suffix_char "013" (String "!" l1)) as [l'|] eqn:E2; [|done].
  destruct (strip_suffix_char_head "013" "!" l1 l' eq_refl E2) as [l2 ->]. done.
Qed.

Lemma trim_bang_nonblank l : starts_with_char "!" l = true -> String.eqb (trim l) "" = false.
Proof.
  destruct l as [|c l]; [done|]. unfold starts_with_char. intros Hc%Ascii.eqb_eq. subst c.
  apply String.eqb_neq. intros E.
  pose proof (trim_graphic_In "!" (String "!" l) eq_refl (or_introl eq_refl)) as H.
  rewrite E in H. done.
Qed.

(** The loop over the data lines stops at the first end line; nothing
    after it, nor the rest of the end line, is looked at. *)
Lemma data_lines_end L b1 b2 p1 p2 vals :
  starts_with_char "!" b1 = true -> starts_with_char "!" b2 = true ->
  data_lines (L ++ b1 :: p1) vals = data_lines (L ++ b2 :: p2) vals.
Proof.
  intros H1 H2. revert vals. induction L as [|l L IH]; intros vals; cbn [app data_lines].
  - rewrite !trim_bang_nonblank, H1, H2 by done. done.
  - repeat case_match; auto.
Qed.

(** * Properties *)

(** Nothing after the end line [!] is looked at: whatever follows
    the [!] (a BCC checksum, garbage, further lines) leaves the result
    of [parse_iec62056_telegram] as it is without it. *)
Theorem parse_iec62056_telegram_after_end t x :
  parse_iec62056_telegram (t ++ String "010" (String "!" x)) =
  parse_iec62056_telegram (t ++ String "010" (String "!" EmptyString)).
Proof.
  unfold parse_iec62056_telegram, str_lines.
  rewrite (split_inclusive_nl_app t (String "!" x)), (split_inclusive_nl_app t (String "!" EmptyString)).
  destruct (split_inclusive_nl_bang x) as (p & ps & ->).
  destruct (split_inclusive_nl (t ++ String "010" EmptyString)) as [|p0 L] eqn:E.
  { apply split_inclusive_nl_nil in E. destruct t; done. }
  cbn [app]. rewrite !map_cons, !map_app, !map_cons.
  destruct (negb _); [done|]. destruct (parse_identification_line _) as [d| |]; [|done|done].
  rewrite !res_bind_ok.
  rewrite (data_lines_end _ (line_of_piece (String "!" p)) (line_of_piece (String "!" EmptyString)) _ []);
    [done| |]; apply line_of_piece_bang.
Qed.

(** C25: [parse_identification_line] on [/] followed by valid UTF-8:
    fewer than three bytes is [InvalidFormat]; otherwise the manufacturer
    is the first three bytes, the identification is the whole content
    (manufacturer included), the mode is read from that whole content,
    [full_id] repeats the manufacturer; and the line panics when byte 3
    falls inside a multi-byte character. *)
Theorem parse_identification_line_spec content :
  utf8_valid (String "/" content) = true ->
  parse_identification_line (String "/" content) =
    if (String.length content <? 3)%nat then RErr InvalidFormat
    else if is_char_boundary content 3 then
      ROk {| manufacturer := substring 0 3 content; identification := content;
             mode := determine_protocol_mode content;
             full_id := (substring 0 3 content ++ content)%string |}
    else RPanic StrSliceBoundary.
Proof.
  intros Hv. unfold parse_identification_line. cbn [starts_with_char negb].
  rewrite Ascii.eqb_refl. cbn [negb].
  rewrite (str_slice_after_ascii "/" content Hv) by reflexivity. rewrite res_bind_ok.
  destruct (Nat.leb_spec 3 (String.length content)), (Nat.ltb_spec (String.length content) 3);
    try lia; [|done].
  unfold str_slice. change (is_char_boundary content 0) with true. cbn [Nat.leb andb].
  destruct (is_char_boundary content 3); done.
Qed.

(** A data line [CODE(VALUE)] whose code starts with a printable
    character and has no [(] gives the trimmed code, everything between
    the first [(] and the last [)] as the value (parentheses inside it
    included) and the unit that [extract_unit] finds in it. *)
Theorem parse_obis_line_ok x c v :
  ascii_graphic x = true -> contains_char "(" (String x c) = false ->
  parse_obis_line (String x c ++ "(" ++ v ++ ")") =
  ROk {| code := trim (String x c); value := v; unit := extract_unit v |}.
Proof.
  intros Hx Hc. set (L := (String x c ++ "(" ++ v ++ ")")%string).
  assert (EL : L = ((String x c ++ String "(" v) ++ String ")" EmptyString)%string)
    by (unfold L; rewrite str_app_assoc; done).
  assert (Ht : trim L = L).
  { eapply (trim_graphic_ends L x (list_ascii_of_string (c ++ "(" ++ v ++ ")")) ")"); [done| |done|done].
    rewrite EL, list_ascii_of_string_app, rev_app_distr. done. }
  unfold parse_obis_line. rewrite Ht.
  assert (Hf : find_char "(" L = Some (String.length (String x c))) by (apply find_char_app; done).
  assert (Hr : rfind_char ")" L = Some (String.length (String x c ++ String "(" v)))
    by (rewrite EL; apply rfind_char_last).
  rewrite Hf, Hr, str_length_app. unfold L.
  assert (Hn : String.length (String "(" v) = S (String.length v)) by done. rewrite Hn.
  destruct (Nat.leb_spec (String.length (String x c) + S (String.length v)) (String.length (String x c)));
    [lia|].
  rewrite substring_app_l.
  replace (S (String.length (String x c))) with (String.length (String x c) + 1)%nat by lia.
  rewrite substring_app_r, str_lit_app.
  replace (String.length (String x c) + S (String.length v) - (String.length (String x c) + 1))%nat
    with (String.length v) by lia.
  cbn [substring]. rewrite substring_app_l. done.
Qed.

(** Scenario S2 of the specification: the minimal telegram gives
    a record of protocol IEC 62056-21 with the manufacturer [ELS], mode
    C, each value under its OBIS code and each unit under [code_unit];
    the meter name repeats the manufacturer. *)
Example parse_iec62056_telegram_s2 :
  exists mr, parse_iec62056_telegram iec_s2_telegram = ROk mr /\
    protocol mr = IEC62056 /\ meter_name mr = "ELSELS5\@V5.3" /\
    metered_values mr !! "1-0:1.8.1" = Some (JStr "000123.456*kWh") /\
    metered_values mr !! "1-0:1.8.1_unit" = Some (JStr "kWh") /\
    metered_values mr !! "1-0:15.7.0" = Some (JStr "001.234*kW") /\
    metered_values mr !! "1-0:15.7.0_unit" = Some (JStr "kW") /\
    metered_values mr !! "proto" =
      Some (jobj (<["mode" := JStr "C"]> (<["identification" := JStr "ELS5\@V5.3"]>
             (<["manufacturer" := JStr "ELS"]> (<["type" := JStr "iec62056"]> ∅))))).
Proof. eexists. split; [vm_compute; reflexivity|]. vm_compute. repeat apply conj; reflexivity. Qed.

(** An identification line that is valid UTF-8 but has a
    multi-byte character across byte 3 makes the decoder panic
    ([content[..3]] is not at a character boundary). *)
Example parse_identification_line_multibyte :
  let line := String "/" (String "a" (String "b" (String "226" (String "130" (String "172" EmptyString))))) in
  utf8_valid line = true /\ parse_identification_line line = RPanic StrSliceBoundary /\
  parse_iec62056_telegram line = RPanic StrSliceBoundary.
Proof. vm_compute. auto. Qed.

(** Witness of [parse_identification_line_spec]: a long identification
    without [@] is read as mode D, its length counted with the
    manufacturer. *)
Lemma parse_identification_line_spec_witness :
  utf8_valid "/ABC12345678" = true /\
  parse_identification_line "/ABC12345678" =
    ROk {| manufacturer := "ABC"; identification := "ABC12345678"; mode := "D";
           full_id := "ABCABC12345678" |}.
Proof.
  split; [reflexivity|].
  rewrite (parse_identification_line_spec "ABC12345678" eq_refl). reflexivity.
Defined.

(** Witness of [parse_obis_line_ok]. *)
Lemma parse_obis_line_ok_witness :
  parse_obis_line ("1-0:1.8.1" ++ "(" ++ "000123.456*kWh" ++ ")") =
  ROk {| code := "1-0:1.8.1"; value := "000123.456*kWh"; unit := Some "kWh" |}.
Proof. rewrite (parse_obis_line_ok "1" "-0:1.8.1" "000123.456*kWh" eq_refl eq_refl). reflexivity. Defined.

End Iec62056.
