(* ===== verification/Sml.v ===== *)
(** The SML parser (metering_sml/parser.rs and the data types of
    metering_sml/structs.rs).  [struct SmlParser { data, pos }] is a
    record; every [&mut self] method is a function of the parser state
    that returns the new state with its result, in a small state and
    error monad [M]: [Err] of the [?] operator is [RErr], an index or
    [usize] underflow is a panic. *)

From S2P Require Import Prelude.

Module Sml.

(** metering_sml/mod.rs: [enum SmlError]. *)
Inductive SmlError : Type :=
| InvalidMessage
| ParseError (detail : string)
| MqttError (detail : string)
| ConfigError (detail : string).

(** ** Data (structs.rs) *)

Inductive SmlValue : Type :=
| Bool (b : bool)
| Int8 (z : Z) | Int16 (z : Z) | Int32 (z : Z) | Int64 (z : Z)
| UInt8 (z : Z) | UInt16 (z : Z) | UInt32 (z : Z) | UInt64 (z : Z)
| OctetString (bs : list byte)
| List (vs : list SmlValue).

Record SmlListEntry : Type := mkSmlListEntry {
  obis_code : option (list byte);
  status : option Z;
  val_time : option Z;
  unit : option Z;
  scaler : option Z;
  value : option SmlValue;
  value_signature : option (list byte)
}.

Record SmlGetListResponse : Type := mkSmlGetListResponse {
  client_id : option (list byte);
  server_id : option (list byte);
  list_name : option (list byte);
  act_sensor_time : option Z;
  val_list : list SmlListEntry;
  list_signature : option (list byte);
  act_gateway_time : option Z
}.

(** [SmlTree]: the parser never fills [child_list]. *)
Record SmlTree : Type := mkSmlTree {
  parameter_name : option (list byte);
  parameter_value : option SmlValue;
  child_list : option (list SmlValue)
}.

Record SmlGetProcParameterResponse : Type := mkSmlGetProcParameterResponse {
  pp_server_id : option (list byte);
  parameter_tree_path : list byte;
  parameter_tree : option SmlTree
}.

Record SmlAttentionMessage : Type := mkSmlAttentionMessage {
  at_server_id : option (list byte);
  attention_no : list byte;
  attention_msg : option (list byte);
  attention_details : option SmlTree
}.

Record SmlMessageBody : Type := mkSmlMessageBody {
  msg_type : Z;
  get_list_response : option SmlGetListResponse;
  get_proc_parameter_response : option SmlGetProcParameterResponse;
  attention_response : option SmlAttentionMessage
}.

Record SmlMessage : Type := mkSmlMessage {
  transaction_id : list byte;
  group_no : Z;
  abort_on_error : Z;
  message_body : SmlMessageBody;
  crc : option Z;
  end_of_message : Z;
  msg_client_id : option (list byte)
}.

Record SmlFile : Type := mkSmlFile { messages : list SmlMessage }.

(** ** The parser state and its monad *)

Record SmlParser : Type := mkSmlParser { data : list byte; pos : nat }.

Definition M (A : Type) : Type := SmlParser -> res SmlError (A * SmlParser).

Definition pret {A} (a : A) : M A := fun p => ROk (a, p).
Definition perr {A} (msg : string) : M A := fun _ => RErr (ParseError msg).
Definition pbind {A B} (m : M A) (k : A -> M B) : M B := fun p =>
  match m p with
  | ROk (a, p') => k a p'
  | RErr e => RErr e
  | RPanic q => RPanic q
  end.

Declare Scope sml_scope.
Delimit Scope sml_scope with sml.
Notation "x <-- m ;; k" := (pbind m (fun x => k))
  (at level 100, m at next level, right associativity) : sml_scope.
Notation "' pat <-- m ;; k" := (pbind m (fun x => match x with pat => k end))
  (at level 100, pat pattern, m at next level, right associativity) : sml_scope.
Notation "m ;;; k" := (pbind m (fun _ => k))
  (at level 100, right associativity) : sml_scope.
#[local] Open Scope sml_scope.

(** [self.pos += n]. *)
Definition advance (n : nat) : M Datatypes.unit := fun p => ROk (tt, mkSmlParser (data p) (pos p + n)).

(** [self.pos -= 1] on [usize]. *)
Definition rewind : M Datatypes.unit := fun p =>
  if decide (pos p = 0%nat) then RPanic SubtractOverflow
  else ROk (tt, mkSmlParser (data p) (pos p - 1)).

(** [if self.pos + n > self.data.len() { return Err(...) }]. *)
Definition check_avail (n : nat) (msg : string) : M Datatypes.unit := fun p =>
  if decide (List.length (data p) < pos p + n)%nat then RErr (ParseError msg) else ROk (tt, p).

(** [self.data[self.pos..self.pos + n]] (each index panics out of range),
    then [self.pos += n]. *)
Definition take_bytes (n : nat) : M (list byte) := fun p =>
  if decide (pos p + n <= List.length (data p))%nat
  then ROk (take n (drop (pos p) (data p)), mkSmlParser (data p) (pos p + n))
  else RPanic IndexOutOfBounds.

(** [u16::from_be_bytes] and its wider and signed siblings. *)
Definition be_value (bs : list byte) : Z := fold_left (fun acc b => acc * 256 + u8v b) bs 0.

Definition to_signed (bits : Z) (v : Z) : Z := if v <? 2 ^ (bits - 1) then v else v - 2 ^ bits.

(** ** Basic type parsers *)

(** [let b = self.data[self.pos]; self.pos += 1]. *)
Definition read_byte : M byte := fun p =>
  b <- at_idx (data p) (pos p) ;; ROk (b, mkSmlParser (data p) (S (pos p))).

(** [parse_type_length]: type in bits 4..6 of the first byte, length in
    its low nibble, [0x0F] announcing an extended length byte. *)
Definition parse_type_length : M (Z * nat) :=
  check_avail 1 "Unexpected end of data" ;;;
  first_byte <-- read_byte ;;
  let type_field := Z.land (Z.shiftr (u8v first_byte) 4) 0x07 in
  let length_field := Z.land (u8v first_byte) 0x0F in
  if length_field =? 0x0F then
    check_avail 1 "Unexpected end in extended length" ;;;
    extended <-- read_byte ;;
    pret (type_field, Z.to_nat (u8v extended))
  else pret (type_field, Z.to_nat length_field).

Definition parse_list_length : M nat :=
  '(type_field, length) <-- parse_type_length ;;
  if negb (type_field =? 7) then perr "Expected list type" else pret length.

(** [parse_octet_string]: type 0 is "absent"; otherwise [length] bytes
    follow the type-length byte(s). *)
Definition parse_octet_string : M (option (list byte)) :=
  '(type_field, length) <-- parse_type_length ;;
  if type_field =? 0 then pret None else
  if negb (type_field =? 0) && Nat.ltb 0 length then
    check_avail length "Octet string extends beyond data" ;;;
    value <-- take_bytes length ;; pret (Some value)
  else pret None.

Definition parse_optional_octet_string : M (option (list byte)) := parse_octet_string.

(** The shape shared by the mandatory fixed-width readers: the type is
    ignored, the length must be [n], then [n] bytes are read. *)
Definition parse_fixed (n : nat) (len_msg : string) : M (list byte) :=
  '(_, length) <-- parse_type_length ;;
  if negb (Nat.eqb length n) then perr len_msg else
  check_avail n "Unexpected end of data" ;;; take_bytes n.

(** The optional ones: type 0 is [None]. *)
Definition parse_optional_fixed (n : nat) (len_msg : string) : M (option (list byte)) :=
  '(type_field, length) <-- parse_type_length ;;
  if type_field =? 0 then pret None else
  if negb (Nat.eqb length n) then perr len_msg else
  check_avail n "Unexpected end of data" ;;; bs <-- take_bytes n ;; pret (Some bs).

Definition parse_unsigned8 : M Z :=
  bs <-- parse_fixed 1 "Invalid unsigned8 length" ;; pret (be_value bs).
Definition parse_optional_unsigned8 : M (option Z) :=
  o <-- parse_optional_fixed 1 "Invalid optional unsigned8 length" ;; pret (option_map be_value o).
Definition parse_signed8 : M Z :=
  bs <-- parse_fixed 1 "Invalid signed8 length" ;; pret (to_signed 8 (be_value bs)).
Definition parse_optional_signed8 : M (option Z) :=
  o <-- parse_optional_fixed 1 "Invalid optional signed8 length" ;;
  pret (option_map (fun bs => to_signed 8 (be_value bs)) o).
Definition parse_unsigned16 : M Z :=
  bs <-- parse_fixed 2 "Invalid unsigned16 length" ;; pret (be_value bs).
Definition parse_optional_unsigned16 : M (option Z) :=
  o <-- parse_optional_fixed 2 "Invalid optional unsigned16 length" ;; pret (option_map be_value o).
Definition parse_unsigned32 : M Z :=
  bs <-- parse_fixed 4 "Invalid unsigned32 length" ;; pret (be_value bs).
Definition parse_optional_unsigned32 : M (option Z) :=
  o <-- parse_optional_fixed 4 "Invalid optional unsigned32 length" ;; pret (option_map be_value o).
Definition parse_unsigned64 : M Z :=
  bs <-- parse_fixed 8 "Invalid unsigned64 length" ;; pret (be_value bs).
Definition parse_optional_unsigned64 : M (option Z) :=
  o <-- parse_optional_fixed 8 "Invalid optional unsigned64 length" ;; pret (option_map be_value o).
Definition parse_bool : M bool :=
  bs <-- parse_fixed 1 "Invalid bool length" ;; pret (negb (be_value bs =? 0)).
Definition parse_signed16 : M Z :=
  bs <-- parse_fixed 2 "Invalid signed16 length" ;; pret (to_signed 16 (be_value bs)).
Definition parse_signed32 : M Z :=
  bs <-- parse_fixed 4 "Invalid signed32 length" ;; pret (to_signed 32 (be_value bs)).
Definition parse_signed64 : M Z :=
  bs <-- parse_fixed 8 "Invalid signed64 length" ;; pret (to_signed 64 (be_value bs)).

(** [parse_optional_value]: after reading the type-length byte it steps
    back one byte and lets the typed reader read it again.  Type 0 has
    already returned [None], so its unsigned arm is never taken. *)
Definition parse_optional_value : M (option SmlValue) :=
  '(type_field, length) <-- parse_type_length ;;
  if type_field =? 0 then pret None else
  rewind ;;;
  match type_field with
  | 5 => b <-- parse_bool ;; pret (Some (Bool b))
  | 6 =>
      match length with
      | 1%nat => v <-- parse_signed8 ;; pret (Some (Int8 v))
      | 2%nat => v <-- parse_signed16 ;; pret (Some (Int16 v))
      | 4%nat => v <-- parse_signed32 ;; pret (Some (Int32 v))
      | 8%nat => v <-- parse_signed64 ;; pret (Some (Int64 v))
      | _ => perr "Invalid signed integer length"
      end
  | 0 =>
      match length with
      | 1%nat => v <-- parse_unsigned8 ;; pret (Some (UInt8 v))
      | 2%nat => v <-- parse_unsigned16 ;; pret (Some (UInt16 v))
      | 4%nat => v <-- parse_unsigned32 ;; pret (Some (UInt32 v))
      | 8%nat => v <-- parse_unsigned64 ;; pret (Some (UInt64 v))
      | _ => perr "Invalid unsigned integer length"
      end
  | _ =>
      advance 1 ;;;
      check_avail length "Value extends beyond data" ;;;
      v <-- take_bytes length ;; pret (Some (OctetString v))
  end.

(** [parse_optional_tree]: one level, no children. *)
Definition parse_optional_tree : M (option SmlTree) :=
  '(type_field, _) <-- parse_type_length ;;
  if type_field =? 0 then pret None else
  parameter_name <-- parse_optional_octet_string ;;
  parameter_value <-- parse_optional_value ;;
  pret (Some (mkSmlTree parameter_name parameter_value None)).

(** [skip_list]: skips [length] bytes, not [length] elements. *)
Definition skip_list : M Datatypes.unit :=
  '(_, length) <-- parse_type_length ;;
  check_avail length "Skip extends beyond data" ;;; advance length.

(** ** Message parsers *)

Definition parse_list_entry : M SmlListEntry :=
  obis_code <-- parse_optional_octet_string ;;
  status <-- parse_optional_unsigned64 ;;
  val_time <-- parse_optional_unsigned32 ;;
  unit <-- parse_optional_unsigned8 ;;
  scaler <-- parse_optional_signed8 ;;
  value <-- parse_optional_value ;;
  value_signature <-- parse_optional_octet_string ;;
  pret (mkSmlListEntry obis_code status val_time unit scaler value value_signature).

(** [for _ in 0..list_length { entries.push(self.parse_list_entry()?) }]. *)
Fixpoint parse_entries (n : nat) (entries : list SmlListEntry) : M (list SmlListEntry) :=
  match n with
  | O => pret entries
  | S n' => e <-- parse_list_entry ;; parse_entries n' (entries ++ [e])
  end.

Definition parse_val_list : M (list SmlListEntry) :=
  list_length <-- parse_list_length ;; parse_entries list_length [].

Definition parse_get_list_response : M SmlGetListResponse :=
  client_id <-- parse_optional_octet_string ;;
  server_id <-- parse_optional_octet_string ;;
  list_name <-- parse_optional_octet_string ;;
  act_sensor_time <-- parse_optional_unsigned32 ;;
  val_list <-- parse_val_list ;;
  list_signature <-- parse_optional_octet_string ;;
  act_gateway_time <-- parse_optional_unsigned32 ;;
  pret (mkSmlGetListResponse client_id server_id list_name act_sensor_time val_list
          list_signature act_gateway_time).

Definition parse_get_proc_parameter_response : M SmlGetProcParameterResponse :=
  server_id <-- parse_optional_octet_string ;;
  path <-- parse_octet_string ;;
  parameter_tree <-- parse_optional_tree ;;
  pret (mkSmlGetProcParameterResponse server_id (default [] path) parameter_tree).

Definition parse_attention_message : M SmlAttentionMessage :=
  server_id <-- parse_optional_octet_string ;;
  attention_no <-- parse_octet_string ;;
  attention_msg <-- parse_optional_octet_string ;;
  attention_details <-- parse_optional_tree ;;
  pret (mkSmlAttentionMessage server_id (default [] attention_no) attention_msg attention_details).

Definition SML_GET_LIST_RESPONSE : Z := 0x701.
Definition SML_GET_PROC_PARAMETER_RESPONSE : Z := 0x601.
Definition SML_ATTENTION : Z := 0x901.

Definition parse_message_body : M SmlMessageBody :=
  msg_type <-- parse_unsigned16 ;;
  if msg_type =? SML_GET_LIST_RESPONSE then
    r <-- parse_get_list_response ;; pret (mkSmlMessageBody msg_type (Some r) None None)
  else if msg_type =? SML_GET_PROC_PARAMETER_RESPONSE then
    r <-- parse_get_proc_parameter_response ;; pret (mkSmlMessageBody msg_type None (Some r) None)
  else if msg_type =? SML_ATTENTION then
    r <-- parse_attention_message ;; pret (mkSmlMessageBody msg_type None None (Some r))
  else
    skip_list ;;; pret (mkSmlMessageBody msg_type None None None).

(** [SmlParser::parse_sml_message]: the six fields, read one after the
    other; no list header is read first. *)
Definition parser_parse_sml_message : M SmlMessage :=
  transaction_id <-- parse_octet_string ;;
  group_no <-- parse_unsigned8 ;;
  abort_on_error <-- parse_unsigned8 ;;
  message_body <-- parse_message_body ;;
  crc <-- parse_optional_unsigned16 ;;
  end_of_message <-- parse_unsigned8 ;;
  pret (mkSmlMessage (default [] transaction_id) group_no abort_on_error message_body crc
          end_of_message None).

(** [while self.pos < self.data.len() && self.data[self.pos] != 0x00]:
    a message that fails to parse ends the loop ([break]).  After such a
    failure Rust's cursor stays where the failed message stopped, while
    the model returns the cursor before that message (the error of [M]
    carries no state); [parse_sml_message] drops the parser after
    [parse_sml_file], so no caller sees the difference. *)
Fixpoint parse_sml_file_loop (fuel : nat) (msgs : list SmlMessage) : M (list SmlMessage) := fun p =>
  match fuel with
  | O => RPanic NoFuel
  | S fuel' =>
      match data p !! pos p with
      | Some b =>
          if u8v b =? 0 then ROk (msgs, p) else
          match parser_parse_sml_message p with
          | ROk (m, p') => parse_sml_file_loop fuel' (msgs ++ [m]) p'
          | RErr _ => ROk (msgs, p)
          | RPanic q => RPanic q
          end
      | None => ROk (msgs, p)
      end
  end.

(** [parse_sml_file]; every message consumes a byte, so [len + 1]
    rounds suffice. *)
Definition parse_sml_file : M SmlFile := fun p =>
  (msgs <-- parse_sml_file_loop (S (List.length (data p))) [] ;;
   match msgs with
   | [] => perr "No valid SML messages found"
   | _ => pret (mkSmlFile msgs)
   end) p.

(** ** Frames *)

Definition SML_START_SEQUENCE : list byte := [Byte.x1b; Byte.x1b; Byte.x1b; Byte.x1b].
Definition SML_END_SEQUENCE : list byte := [Byte.x1b; Byte.x1b; Byte.x1b; Byte.x1a].

(** [for i in from..from + n { if test(i) { return Some(i) } }]. *)
Fixpoint find_index (test : nat -> bool) (i n : nat) : option nat :=
  match n with
  | O => None
  | S n' => if test i then Some i else find_index test (S i) n'
  end.

(** [for i in 0..data.len().saturating_sub(4)]: [nat] subtraction
    saturates as [saturating_sub] does; [data[i..i + 4]] is in range. *)
Definition find_sml_start (data : list byte) : res SmlError nat :=
  match find_index (fun i => bool_decide (take 4 (drop i data) = SML_START_SEQUENCE))
                   0 (List.length data - 4) with
  | Some i => ROk i
  | None => RErr InvalidMessage
  end.

(** [for i in start_pos + 4..data.len().saturating_sub(3)]. *)
Definition find_sml_end (data : list byte) (start_pos : nat) : res SmlError nat :=
  match find_index (fun i => bool_decide (i + 4 <= List.length data)%nat &&
                             bool_decide (take 4 (drop i data) = SML_END_SEQUENCE))
                   (start_pos + 4) (List.length data - 3 - (start_pos + 4)) with
  | Some i => ROk i
  | None => RErr InvalidMessage
  end.

(** The top-level [parse_sml_message]: the content is
    [data[start_pos + 8..end_pos]]. *)
Definition parse_sml_message (data : list byte) : res SmlError SmlFile :=
  start_pos <- find_sml_start data ;;
  end_pos <- find_sml_end data start_pos ;;
  sml_content <- slice_range data (start_pos + 8) end_pos ;;
  '(file, _) <- parse_sml_file (mkSmlParser sml_content 0) ;;
  ROk file.

(** ** Cursor discipline

    The predicates of the progress invariant: on a state whose cursor is
    within the data, a parser that succeeds keeps the data, leaves the
    cursor within it and moves it forward ([keeps]) or strictly forward
    ([advances]). *)

Definition keeps {A} (m : M A) : Prop :=
  forall p a p', (pos p <= List.length (data p))%nat -> m p = ROk (a, p') ->
  data p' = data p /\ (pos p <= pos p' <= List.length (data p))%nat.

Definition advances {A} (m : M A) : Prop :=
  forall p a p', (pos p <= List.length (data p))%nat -> m p = ROk (a, p') ->
  data p' = data p /\ (pos p < pos p' <= List.length (data p))%nat.

(** The same, from a cursor strictly inside the data: the shape of the
    readers that [parse_optional_value] runs after stepping back. *)
Definition advances_lt {A} (m : M A) : Prop :=
  forall p a p', (pos p < List.length (data p))%nat -> m p = ROk (a, p') ->
  data p' = data p /\ (pos p < pos p' <= List.length (data p))%nat.

(** ** Encoders

    The byte strings the parser reads back: a type-length byte (with an
    extended length byte when the length does not fit in the nibble),
    and big-endian integers. *)

Definition encode_tl (type_field : Z) (length : nat) : list byte :=
  if decide (length < 15)%nat
  then [byte_of_Z (type_field * 16 + Z.of_nat length)]
  else [byte_of_Z (type_field * 16 + 15); byte_of_Z (Z.of_nat length)].

Fixpoint be_bytes (n : nat) (v : Z) : list byte :=
  match n with
  | O => []
  | S n' => be_bytes n' (v / 256) ++ [byte_of_Z (v mod 256)]
  end.

(** An octet string as the parser reads it: the length in the
    type-length byte counts the data bytes only. *)
Definition encode_octet_string (type_field : Z) (bs : list byte) : list byte :=
  encode_tl type_field (List.length bs) ++ bs.

(** A frame laid out as §4.3 of the specification describes it: start
    escape and version, one message as a 6-element list ([0x76]) whose
    transaction id is [05 01 02 03 04], a [GetListResponse] body holding
    one entry for [1-0:1.8.0] (unit 30 = W, scaler -1, value 256), end
    escape. *)
Definition spec_sample_frame : list byte := bytes_of_Zs [
  0x1b; 0x1b; 0x1b; 0x1b; 0x01; 0x01; 0x01; 0x01;
  0x76; 0x05; 0x01; 0x02; 0x03; 0x04; 0x62; 0x00; 0x62; 0x00;
  0x72; 0x63; 0x07; 0x01;
  0x77; 0x01; 0x0b; 0x0a; 0x01; 0x45; 0x4d; 0x48; 0x00; 0x00; 0x00; 0x00; 0x00; 0x01; 0x01;
  0x71; 0x77; 0x07; 0x01; 0x00; 0x01; 0x08; 0x00; 0xff; 0x01; 0x01; 0x62; 0x1e; 0x52; 0xff;
  0x65; 0x00; 0x01; 0x00; 0x00; 0x01;
  0x01; 0x01;
  0x63; 0x12; 0x34; 0x00;
  0x00; 0x00;
  0x1b; 0x1b; 0x1b; 0x1b; 0x1a; 0x00; 0x00; 0x00].

(** ** Lemmas on the monad *)

Create HintDb sml_moves discriminated.

Lemma keeps_pret {A} (a : A) : keeps (pret a).
Proof. intros p b p' Hp [= _ <-]. split; [done|lia]. Qed.

Lemma advances_perr {A} msg : advances (@perr A msg).
Proof. discriminate. Qed.

Lemma advances_keeps {A} (m : M A) : advances m -> keeps m.
Proof. intros H p a p' Hp E. destruct (H p a p' Hp E). split; [done|lia]. Qed.

Lemma keeps_bind {A B} (m : M A) (k : A -> M B) :
  keeps m -> (forall a, keeps (k a)) -> keeps (pbind m k).
Proof.
  intros Hm Hk p b p'' Hp E. unfold pbind in E.
  destruct (m p) as [[a p']| |] eqn:Em; try discriminate.
  destruct (Hm _ _ _ Hp Em) as [Hd Hl].
  assert (Hp' : (pos p' <= List.length (data p'))%nat) by (rewrite Hd; lia).
  destruct (Hk a _ _ _ Hp' E) as [Hd2 Hl2]. rewrite Hd in Hl2. split; [congruence|lia].
Qed.

Lemma advances_bind_l {A B} (m : M A) (k : A -> M B) :
  advances m -> (forall a, keeps (k a)) -> advances (pbind m k).
Proof.
  intros Hm Hk p b p'' Hp E. unfold pbind in E.
  destruct (m p) as [[a p']| |] eqn:Em; try discriminate.
  destruct (Hm _ _ _ Hp Em) as [Hd Hl].
  assert (Hp' : (pos p' <= List.length (data p'))%nat) by (rewrite Hd; lia).
  destruct (Hk a _ _ _ Hp' E) as [Hd2 Hl2]. rewrite Hd in Hl2. split; [congruence|lia].
Qed.

Lemma advances_bind_r {A B} (m : M A) (k : A -> M B) :
  keeps m -> (forall a, advances (k a)) -> advances (pbind m k).
Proof.
  intros Hm Hk p b p'' Hp E. unfold pbind in E.
  destruct (m p) as [[a p']| |] eqn:Em; try discriminate.
  destruct (Hm _ _ _ Hp Em) as [Hd Hl].
  assert (Hp' : (pos p' <= List.length (data p'))%nat) by (rewrite Hd; lia).
  destruct (Hk a _ _ _ Hp' E) as [Hd2 Hl2]. rewrite Hd in Hl2. split; [congruence|lia].
Qed.

Lemma keeps_check_avail n msg : keeps (check_avail n msg).
Proof. intros p a p' Hp E. unfold check_avail in E. case_decide; [done|]. injection E as _ <-. split; [done|lia]. Qed.

Lemma keeps_take_bytes n : keeps (take_bytes n).
Proof. intros p a p' Hp E. unfold take_bytes in E. case_decide; [|done]. injection E as _ <-. simpl. split; [done|lia]. Qed.

Lemma keeps_check_advance n msg : keeps (check_avail n msg ;;; advance n).
Proof.
  intros p a p' Hp E. unfold pbind, check_avail, advance in E.
  case_decide; [done|]. injection E as _ <-. simpl. split; [done|lia].
Qed.

Lemma advances_read_byte : advances read_byte.
Proof.
  intros p a p' Hp E. unfold read_byte, at_idx in E.
  destruct (data p !! pos p) eqn:Hb; [|done]. injection E as _ <-. simpl.
  apply lookup_lt_Some in Hb. split; [done|lia].
Qed.

#[export] Hint Resolve keeps_pret advances_perr keeps_check_avail keeps_take_bytes
  keeps_check_advance advances_read_byte : sml_moves.
#[export] Hint Resolve advances_keeps | 10 : sml_moves.

(** Composition: destructure the intermediate results, split on the
    code's conditions, and chain the lemmas above. *)
Ltac solve_moves :=
  repeat (intros; match goal with
    | x : _ * _ |- _ => destruct x
    | |- _ => solve [eauto with sml_moves]
    | |- keeps (pbind _ _) => apply keeps_bind
    | |- advances (pbind _ _) =>
        first [apply advances_bind_l; [solve [solve_moves]|]
              | apply advances_bind_r]
    | |- keeps (if ?b then _ else _) => destruct b
    | |- advances (if ?b then _ else _) => destruct b
    | |- keeps (match ?x with _ => _ end) => destruct x
    | |- advances (match ?x with _ => _ end) => destruct x
    end).

Lemma advances_parse_type_length : advances parse_type_length.
Proof. unfold parse_type_length. solve_moves. Qed.
#[export] Hint Resolve advances_parse_type_length : sml_moves.

Lemma advances_parse_octet_string : advances parse_octet_string.
Proof. unfold parse_octet_string. solve_moves. Qed.

Lemma advances_parse_fixed n msg : advances (parse_fixed n msg).
Proof. unfold parse_fixed. solve_moves. Qed.

Lemma advances_parse_optional_fixed n msg : advances (parse_optional_fixed n msg).
Proof. unfold parse_optional_fixed. solve_moves. Qed.

#[export] Hint Resolve advances_parse_octet_string advances_parse_fixed
  advances_parse_optional_fixed : sml_moves.

(** Every fixed-width reader, mandatory or optional, advances. *)
Lemma advances_readers :
  advances parse_unsigned8 /\ advances parse_optional_unsigned8 /\ advances parse_signed8 /\
  advances parse_optional_signed8 /\ advances parse_unsigned16 /\ advances parse_optional_unsigned16 /\
  advances parse_unsigned32 /\ advances parse_optional_unsigned32 /\ advances parse_unsigned64 /\
  advances parse_optional_unsigned64 /\ advances parse_bool /\ advances parse_signed16 /\
  advances parse_signed32 /\ advances parse_signed64.
Proof.
  unfold parse_unsigned8, parse_optional_unsigned8, parse_signed8, parse_optional_signed8,
    parse_unsigned16, parse_optional_unsigned16, parse_unsigned32, parse_optional_unsigned32,
    parse_unsigned64, parse_optional_unsigned64, parse_bool, parse_signed16, parse_signed32,
    parse_signed64.
  repeat apply conj; solve_moves.
Qed.

Lemma advances_lt_of_advances {A} (m : M A) : advances m -> advances_lt m.
Proof. intros H p a p' Hp. apply H. lia. Qed.

Lemma advances_lt_advance_keeps {A} (m : M A) : keeps m -> advances_lt (advance 1 ;;; m).
Proof.
  intros H p a p' Hp E. unfold pbind, advance in E.
  assert (Hp1 : (pos (mkSmlParser (data p) (pos p + 1)) <=
                 List.length (data (mkSmlParser (data p) (pos p + 1))))%nat) by (simpl; lia).
  destruct (H _ _ _ Hp1 E) as [Hd Hl]. simpl in Hd, Hl. split; [done|lia].
Qed.

Lemma advances_lt_perr {A} msg : advances_lt (@perr A msg).
Proof. discriminate. Qed.

#[export] Hint Resolve advances_lt_of_advances advances_lt_advance_keeps advances_lt_perr : sml_moves.

Lemma advances_parse_optional_value : advances parse_optional_value.
Proof.
  pose proof advances_readers as R. repeat destruct R as [? R].
  intros p a p'' Hp E. unfold parse_optional_value, pbind at 1 in E.
  destruct (parse_type_length p) as [[[t l] p1]| |] eqn:E1; try discriminate.
  destruct (advances_parse_type_length _ _ _ Hp E1) as [Hd1 Hl1].
  cbv beta iota in E. destruct (t =? 0).
  { injection E as _ <-. split; [done|lia]. }
  unfold pbind at 1, rewind in E. rewrite decide_False in E by lia. cbv beta iota in E.
  match type of E with ?m _ = _ => assert (Hm : advances_lt m) end.
  { repeat case_match;
      first [apply advances_lt_advance_keeps; solve_moves | apply advances_lt_of_advances; solve_moves]. }
  assert (Hp2 : (pos (mkSmlParser (data p1) (pos p1 - 1)) <
                 List.length (data (mkSmlParser (data p1) (pos p1 - 1))))%nat) by (simpl; rewrite Hd1; lia).
  destruct (Hm _ _ _ Hp2 E) as [Hd Hl]. simpl in Hd, Hl.
  split; [congruence|]. rewrite <- Hd1. lia.
Qed.

#[export] Hint Resolve advances_parse_optional_value : sml_moves.

Lemma advances_message_parsers :
  advances parse_optional_tree /\ advances skip_list /\ advances parse_list_entry /\
  (forall n entries, keeps (parse_entries n entries)) /\ advances parse_val_list /\
  advances parse_get_list_response /\ advances parse_get_proc_parameter_response /\
  advances parse_attention_message /\ advances parse_message_body /\
  advances parser_parse_sml_message.
Proof.
  pose proof advances_readers as R. repeat destruct R as [? R].
  assert (Ht : advances parse_optional_tree) by (unfold parse_optional_tree; solve_moves).
  assert (Hs : advances skip_list) by (unfold skip_list; solve_moves).
  assert (He : advances parse_list_entry) by (unfold parse_list_entry; solve_moves).
  assert (Hn : forall n entries, keeps (parse_entries n entries)).
  { induction n; intros; simpl; solve_moves. }
  assert (Hv : advances parse_val_list).
  { unfold parse_val_list, parse_list_length. solve_moves. }
  assert (Hg : advances parse_get_list_response) by (unfold parse_get_list_response; solve_moves).
  assert (Hp : advances parse_get_proc_parameter_response)
    by (unfold parse_get_proc_parameter_response; solve_moves).
  assert (Ha : advances parse_attention_message) by (unfold parse_attention_message; solve_moves).
  assert (Hb : advances parse_message_body) by (unfold parse_message_body; solve_moves).
  repeat apply conj; try done. unfold parser_parse_sml_message. solve_moves.
Qed.

(** ** No parser runs out of fuel

    Only the message loop of [parse_sml_file] takes fuel; the readers
    below it may fail or panic (index out of range, [pos - 1] at 0) but
    never report [NoFuel].  The predicate is closed under the monad's
    operations, like [keeps] and [advances] above. *)

Definition no_fuel_out {A} (m : M A) : Prop := forall p, m p <> RPanic NoFuel.

Create HintDb sml_nf discriminated.

Lemma nf_pret {A} (a : A) : no_fuel_out (pret a).
Proof. intros p. discriminate. Qed.

Lemma nf_perr {A} msg : no_fuel_out (@perr A msg).
Proof. intros p. discriminate. Qed.

Lemma nf_bind {A B} (m : M A) (k : A -> M B) :
  no_fuel_out m -> (forall a, no_fuel_out (k a)) -> no_fuel_out (pbind m k).
Proof.
  intros Hm Hk p. unfold pbind. destruct (m p) as [[a p']|e|q] eqn:E; [apply Hk|discriminate|].
  intros [= ->]. exact (Hm p E).
Qed.

Lemma nf_advance n : no_fuel_out (advance n).
Proof. intros p. discriminate. Qed.

Lemma nf_rewind : no_fuel_out rewind.
Proof. intros p. unfold rewind. case_decide; discriminate. Qed.

Lemma nf_check_avail n msg : no_fuel_out (check_avail n msg).
Proof. intros p. unfold check_avail. case_decide; discriminate. Qed.

Lemma nf_take_bytes n : no_fuel_out (take_bytes n).
Proof. intros p. unfold take_bytes. case_decide; discriminate. Qed.

Lemma nf_read_byte : no_fuel_out read_byte.
Proof. intros p. unfold read_byte, at_idx. destruct (data p !! pos p); discriminate. Qed.

#[export] Hint Resolve nf_pret nf_perr nf_advance nf_rewind nf_check_avail nf_take_bytes nf_read_byte : sml_nf.

Ltac solve_nf :=
  repeat (intros; match goal with
    | x : _ * _ |- _ => destruct x
    | |- _ => solve [eauto with sml_nf]
    | |- no_fuel_out (pbind _ _) => apply nf_bind
    | |- no_fuel_out (if ?b then _ else _) => destruct b
    | |- no_fuel_out (match ?x with _ => _ end) => destruct x
    end).

Lemma nf_parser_parse_sml_message : no_fuel_out parser_parse_sml_message.
Proof.
  assert (Htl : no_fuel_out parse_type_length) by (unfold parse_type_length; solve_nf).
  assert (Hos : no_fuel_out parse_octet_string) by (unfold parse_octet_string; solve_nf).
  assert (Hf : forall n msg, no_fuel_out (parse_fixed n msg)) by (intros; unfold parse_fixed; solve_nf).
  assert (Hof : forall n msg, no_fuel_out (parse_optional_fixed n msg))
    by (intros; unfold parse_optional_fixed; solve_nf).
  assert (R : no_fuel_out parse_unsigned8 /\ no_fuel_out parse_optional_unsigned8 /\
              no_fuel_out parse_signed8 /\ no_fuel_out parse_optional_signed8 /\
              no_fuel_out parse_unsigned16 /\ no_fuel_out parse_optional_unsigned16 /\
              no_fuel_out parse_unsigned32 /\ no_fuel_out parse_optional_unsigned32 /\
              no_fuel_out parse_unsigned64 /\ no_fuel_out parse_optional_unsigned64 /\
              no_fuel_out parse_bool /\ no_fuel_out parse_signed16 /\
              no_fuel_out parse_signed32 /\ no_fuel_out parse_signed64).
  { unfold parse_unsigned8, parse_optional_unsigned8, parse_signed8, parse_optional_signed8,
      parse_unsigned16, parse_optional_unsigned16, parse_unsigned32, parse_optional_unsigned32,
      parse_unsigned64, parse_optional_unsigned64, parse_bool, parse_signed16, parse_signed32,
      parse_signed64. repeat split; solve_nf. }
  repeat destruct R as [? R].
  assert (Hv : no_fuel_out parse_optional_value) by (unfold parse_optional_value; solve_nf).
  assert (Ht : no_fuel_out parse_optional_tree)
    by (unfold parse_optional_tree, parse_optional_octet_string; solve_nf).
  assert (Hs : no_fuel_out skip_list) by (unfold skip_list; solve_nf).
  assert (He : no_fuel_out parse_list_entry)
    by (unfold parse_list_entry, parse_optional_octet_string; solve_nf).
  assert (Hn : forall n entries, no_fuel_out (parse_entries n entries)).
  { induction n; intros; simpl; solve_nf. }
  assert (Hl : no_fuel_out parse_val_list) by (unfold parse_val_list, parse_list_length; solve_nf).
  assert (Hg : no_fuel_out parse_get_list_response)
    by (unfold parse_get_list_response, parse_optional_octet_string; solve_nf).
  assert (Hp : no_fuel_out parse_get_proc_parameter_response)
    by (unfold parse_get_proc_parameter_response, parse_optional_octet_string; solve_nf).
  assert (Ha : no_fuel_out parse_attention_message)
    by (unfold parse_attention_message, parse_optional_octet_string; solve_nf).
  assert (Hb : no_fuel_out parse_message_body) by (unfold parse_message_body; solve_nf).
  unfold parser_parse_sml_message. solve_nf.
Qed.

(** ** Running the readers on known bytes *)

Lemma pbind_ok {A B} (m : M A) (k : A -> M B) p a p' :
  m p = ROk (a, p') -> pbind m k p = k a p'.
Proof. unfold pbind. intros ->. done. Qed.

Lemma check_avail_ok n msg p :
  (pos p + n <= List.length (data p))%nat -> check_avail n msg p = ROk (tt, p).
Proof. intros H. unfold check_avail. rewrite decide_False by lia. done. Qed.

Lemma read_byte_run p b :
  data p !! pos p = Some b -> read_byte p = ROk (b, mkSmlParser (data p) (S (pos p))).
Proof. intros H. unfold read_byte. rewrite (at_idx_ok _ _ _ H). done. Qed.

Lemma take_bytes_run p bs rest :
  (pos p <= List.length (data p))%nat -> drop (pos p) (data p) = bs ++ rest ->
  take_bytes (List.length bs) p = ROk (bs, mkSmlParser (data p) (pos p + List.length bs)).
Proof.
  intros Hp H. unfold take_bytes.
  assert (Hl := f_equal List.length H). rewrite length_drop, length_app in Hl.
  rewrite decide_True by lia. rewrite H, take_app_length. done.
Qed.

(** The fields of a type-length byte. *)
Lemma tl_fields t l :
  0 <= t < 8 -> 0 <= l < 16 ->
  Z.land (Z.shiftr (t * 16 + l) 4) 0x07 = t /\ Z.land (t * 16 + l) 0x0F = l.
Proof.
  intros Ht Hl. rewrite Z.shiftr_div_pow2 by lia.
  change 0x07 with (Z.ones 3). change 0x0F with (Z.ones 4).
  rewrite !Z.land_ones by lia.
  replace ((t * 16 + l) / 2 ^ 4) with t by (apply Z.div_unique_pos with l; simpl; lia).
  split; [apply Z.mod_small; simpl; lia|].
  symmetry. apply Z.mod_unique_pos with t; simpl; lia.
Qed.

Lemma u8v_tl t l : 0 <= t < 8 -> 0 <= l < 16 -> u8v (byte_of_Z (t * 16 + l)) = t * 16 + l.
Proof. intros. rewrite u8v_byte_of_Z. apply Z.mod_small. lia. Qed.

(** [parse_type_length] reads back [encode_tl]. *)
Lemma parse_type_length_encode p t n rest :
  0 <= t < 8 -> (n < 256)%nat -> drop (pos p) (data p) = encode_tl t n ++ rest ->
  parse_type_length p =
    ROk ((t, n), mkSmlParser (data p) (pos p + List.length (encode_tl t n))).
Proof.
  intros Ht Hn Hd. unfold encode_tl in *. unfold parse_type_length, pbind. cbv beta.
  case_decide as Hs; simpl in Hd;
    destruct (drop_cons_inv _ _ _ _ Hd) as [H0 Hd1];
    assert (Hlt := lookup_lt_Some _ _ _ H0);
    rewrite check_avail_ok by lia; rewrite (read_byte_run _ _ H0); cbv beta iota zeta.
  - rewrite u8v_tl by lia. destruct (tl_fields t (Z.of_nat n)) as [-> ->]; [lia|lia|].
    rewrite (proj2 (Z.eqb_neq _ _)) by lia. unfold pret. rewrite Nat2Z.id. simpl.
    rewrite Nat.add_1_r. done.
  - rewrite u8v_tl by lia. destruct (tl_fields t 15) as [-> ->]; [lia|lia|]. rewrite Z.eqb_refl. cbv beta iota.
    destruct (drop_cons_inv (data p) (S (pos p)) _ _ Hd1) as [H1 _].
    assert (Hlt1 := lookup_lt_Some _ _ _ H1).
    rewrite check_avail_ok by (simpl; lia). cbv beta iota.
    rewrite (read_byte_run (mkSmlParser (data p) (S (pos p))) _ H1). unfold pret. simpl.
    rewrite u8v_byte_of_Z, Z.mod_small, Nat2Z.id by lia. do 3 f_equal. lia.
Qed.

Lemma length_encode_tl t n : (1 <= List.length (encode_tl t n) <= 2)%nat.
Proof. unfold encode_tl. case_decide; simpl; lia. Qed.

Lemma length_be_bytes n v : List.length (be_bytes n v) = n.
Proof. revert v. induction n; intros; simpl; [done|]. rewrite length_app, IHn. simpl. lia. Qed.

Lemma be_value_be_bytes n v : 0 <= v < 2 ^ (8 * Z.of_nat n) -> be_value (be_bytes n v) = v.
Proof.
  revert v. induction n as [|n IH]; intros v Hv; [change (8 * Z.of_nat 0) with 0 in Hv; rewrite Z.pow_0_r in Hv; unfold be_value; simpl; lia|].
  cbn [be_bytes]. unfold be_value. rewrite fold_left_app. fold (be_value (be_bytes n (v / 256))).
  rewrite IH.
  - simpl. rewrite u8v_byte_of_Z, Z.mod_mod by lia. pose proof (Z.div_mod v 256). lia.
  - rewrite Nat2Z.inj_succ, Z.mul_succ_r, Z.pow_add_r in Hv by lia.
    split; [apply Z.div_pos; lia|]. apply Z.div_lt_upper_bound; lia.
Qed.

(** The cursor after a prefix that [drop] exposes. *)
Lemma drop_after (l pre rest : list byte) n :
  drop n l = pre ++ rest -> drop (n + List.length pre) l = rest.
Proof. intros H. rewrite <- drop_drop, H, drop_app_length. done. Qed.

Lemma drop_bound (l pre rest : list byte) n :
  (n <= List.length l)%nat -> drop n l = pre ++ rest -> (n + List.length pre <= List.length l)%nat.
Proof. intros Hn H. apply (f_equal List.length) in H. rewrite length_drop, length_app in H. lia. Qed.

Lemma parse_fixed_encode p t n bs rest msg :
  0 <= t < 8 -> (n < 256)%nat -> List.length bs = n -> (pos p <= List.length (data p))%nat ->
  drop (pos p) (data p) = encode_tl t n ++ bs ++ rest ->
  parse_fixed n msg p =
    ROk (bs, mkSmlParser (data p) (pos p + List.length (encode_tl t n) + n)).
Proof.
  intros Ht Hn Hl Hp Hd. subst n. unfold parse_fixed, pbind. cbv beta.
  rewrite (parse_type_length_encode p t (List.length bs) (bs ++ rest)) by done. cbv beta iota.
  rewrite Nat.eqb_refl. cbn [negb]. cbv beta iota.
  pose proof (drop_after _ _ _ _ Hd) as Hd1.
  assert (Hd' : drop (pos p) (data p) = (encode_tl t (List.length bs) ++ bs) ++ rest) by (rewrite <- app_assoc; done).
  pose proof (drop_bound _ _ _ _ Hp Hd') as Hb. rewrite length_app in Hb.
  rewrite check_avail_ok by (cbn [pos data]; lia). cbv beta iota.
  rewrite (take_bytes_run _ bs rest); cbn [pos data]; [done|lia|done].
Qed.

(** ** The file loop *)

Lemma advances_parser_parse_sml_message : advances parser_parse_sml_message.
Proof. apply advances_message_parsers. Qed.

Lemma parse_sml_file_loop_fuel_stable f1 f2 msgs p :
  (pos p <= List.length (data p))%nat ->
  (List.length (data p) - pos p < f1)%nat -> (List.length (data p) - pos p < f2)%nat ->
  parse_sml_file_loop f1 msgs p = parse_sml_file_loop f2 msgs p.
Proof.
  revert f2 msgs p. induction f1 as [|f1 IH]; intros [|f2] msgs p Hp H1 H2; try lia.
  cbn [parse_sml_file_loop]. destruct (data p !! pos p) as [b|] eqn:Hb; [|done].
  destruct (u8v b =? 0); [done|].
  destruct (parser_parse_sml_message p) as [[m p']| |] eqn:E; try done.
  destruct (advances_parser_parse_sml_message _ _ _ Hp E) as [Hd Hl].
  apply IH; rewrite Hd; lia.
Qed.

(** With more rounds than bytes left, the loop never reaches its
    out-of-fuel branch: each message that parses moves the cursor
    forward ([advances]) and no message parser reports [NoFuel]. *)
Lemma parse_sml_file_loop_no_fuel_out f msgs p :
  (pos p <= List.length (data p))%nat -> (List.length (data p) - pos p < f)%nat ->
  parse_sml_file_loop f msgs p <> RPanic NoFuel.
Proof.
  revert msgs p. induction f as [|f IH]; intros msgs p Hp Hf; [lia|].
  cbn [parse_sml_file_loop]. destruct (data p !! pos p) as [b|] eqn:Hb; [|discriminate].
  destruct (u8v b =? 0); [discriminate|].
  destruct (parser_parse_sml_message p) as [[m p']|e|q] eqn:E; [|discriminate|].
  - destruct (advances_parser_parse_sml_message _ _ _ Hp E) as [Hd Hl].
    apply IH; rewrite Hd; lia.
  - intros [= ->]. exact (nf_parser_parse_sml_message p E).
Qed.

(** ** Properties of the parser *)

(** C13: an octet string of 1 to 255 bytes behind a type-length byte of
    non-zero type is read back, and the cursor moves past it. *)
Theorem parse_octet_string_roundtrip p t bs rest :
  0 < t < 8 -> (0 < List.length bs < 256)%nat -> (pos p <= List.length (data p))%nat ->
  drop (pos p) (data p) = encode_octet_string t bs ++ rest ->
  parse_octet_string p =
    ROk (Some bs, mkSmlParser (data p) (pos p + List.length (encode_octet_string t bs))).
Proof.
  intros Ht Hl Hp Hd. unfold encode_octet_string in *. rewrite <- app_assoc in Hd.
  pose proof (drop_after _ _ _ _ Hd) as Hd1.
  assert (Hd' : drop (pos p) (data p) = (encode_tl t (List.length bs) ++ bs) ++ rest)
    by (rewrite <- app_assoc; done).
  pose proof (drop_bound _ _ _ _ Hp Hd') as Hb. rewrite length_app in Hb.
  unfold parse_octet_string, pbind. cbv beta.
  rewrite (parse_type_length_encode p t (List.length bs) (bs ++ rest)) by (done || lia).
  cbv beta iota. rewrite (proj2 (Z.eqb_neq t 0)) by lia.
  rewrite (proj2 (Nat.ltb_lt 0 (List.length bs))) by lia. cbn [negb andb]. cbv beta iota.
  rewrite check_avail_ok by (cbn [pos data]; lia). cbv beta iota.
  rewrite (take_bytes_run _ bs rest); cbn [pos data]; [|lia|done].
  unfold pret. rewrite length_app. do 3 f_equal. lia.
Qed.

(** C14: the integer readers read back a big-endian value of their
    width, whatever the type nibble: unsigned as is, signed in two's
    complement. *)
Theorem parse_integers_roundtrip p t n v rest :
  0 <= t < 8 -> 0 <= v < 2 ^ (8 * Z.of_nat n) -> (pos p <= List.length (data p))%nat ->
  drop (pos p) (data p) = encode_tl t n ++ be_bytes n v ++ rest ->
  let p' := mkSmlParser (data p) (pos p + List.length (encode_tl t n) + n) in
  (n = 1%nat -> parse_unsigned8 p = ROk (v, p') /\ parse_signed8 p = ROk (to_signed 8 v, p')) /\
  (n = 2%nat -> parse_unsigned16 p = ROk (v, p') /\ parse_signed16 p = ROk (to_signed 16 v, p')) /\
  (n = 4%nat -> parse_unsigned32 p = ROk (v, p') /\ parse_signed32 p = ROk (to_signed 32 v, p')) /\
  (n = 8%nat -> parse_unsigned64 p = ROk (v, p') /\ parse_signed64 p = ROk (to_signed 64 v, p')).
Proof.
  intros Ht Hv Hp Hd p'.
  assert (Hf : forall msg, (n < 256)%nat -> parse_fixed n msg p = ROk (be_bytes n v, p')).
  { intros msg Hn. apply (parse_fixed_encode _ t _ _ rest); auto using length_be_bytes. }
  unfold parse_unsigned8, parse_signed8, parse_unsigned16, parse_signed16, parse_unsigned32,
    parse_signed32, parse_unsigned64, parse_signed64, pbind.
  repeat apply conj; intros ->; split; cbv beta; rewrite Hf by lia; unfold pret;
    rewrite be_value_be_bytes by done; done.
Qed.

(** a type-length byte of type 0 (below [0x0F]), the octet-string
    tag of SML, is read as an absent value: the octet string [05 01 02 03
    04] of scenario S3 yields [None], not [[01 02 03 04]]. *)
Theorem parse_octet_string_type0 p b :
  data p !! pos p = Some b -> u8v b < 15 ->
  parse_octet_string p = ROk (None, mkSmlParser (data p) (S (pos p))).
Proof.
  intros Hb Hlt. pose proof (lookup_lt_Some _ _ _ Hb) as Hl. pose proof (u8v_range b).
  unfold parse_octet_string, parse_type_length, pbind. cbv beta.
  rewrite check_avail_ok by lia. cbv beta iota. rewrite (read_byte_run _ _ Hb). cbv beta iota zeta.
  destruct (tl_fields 0 (u8v b)) as [E1 E2]; [lia|lia|]. rewrite Z.mul_0_l, Z.add_0_l in E1, E2.
  rewrite E1, E2.
  rewrite (proj2 (Z.eqb_neq (u8v b) 15)) by lia. done.
Qed.

(** [parse_optional_value] never yields an unsigned value: type 0
    has returned [None] before the unsigned arm, so SML's unsigned
    integers are not read as numbers. *)
Theorem parse_optional_value_never_unsigned p v p' :
  parse_optional_value p = ROk (Some v, p') ->
  match v with UInt8 _ | UInt16 _ | UInt32 _ | UInt64 _ => False | _ => True end.
Proof.
  unfold parse_optional_value, pbind at 1.
  destruct (parse_type_length p) as [[[t l] p1]| |]; try discriminate. cbv beta iota.
  destruct (Z.eqb_spec t 0) as [->|Ht]; [discriminate|].
  unfold pbind at 1, rewind. case_decide; [discriminate|]. cbv beta iota.
  destruct t as [|t|t]; [done| |]; unfold pbind, pret, perr, advance;
    repeat (case_match; simplify_eq/=; try done).
Qed.

(** an end escape that starts before the eighth byte after the
    start escape makes [parse_sml_message] slice [data[8..4]] and panic,
    instead of returning [InvalidMessage]. *)
Theorem parse_sml_message_adjacent_panic rest :
  parse_sml_message (SML_START_SEQUENCE ++ SML_END_SEQUENCE ++ rest) = RPanic IndexOutOfBounds.
Proof.
  unfold parse_sml_message, find_sml_start, find_sml_end. simpl. reflexivity.
Qed.

(** a frame laid out as the specification describes (messages and
    bodies as SML lists, octet strings with type 0 and a length that
    counts the type-length byte) is rejected: no message parses. *)
Example parse_sml_message_spec_frame :
  parse_sml_message spec_sample_frame = RErr (ParseError "No valid SML messages found").
Proof. vm_compute. reflexivity. Qed.

(** scenario S3: [72 05] is type 7, length 2, as specified. *)
Example parse_type_length_s3 :
  parse_type_length (mkSmlParser (bytes_of_Zs [0x72; 0x05]) 0) =
    ROk ((7, 2%nat), mkSmlParser (bytes_of_Zs [0x72; 0x05]) 1).
Proof. reflexivity. Qed.

(** C39: termination of the message loop of [parse_sml_file]: from a
    cursor within the data, any number of rounds above the bytes left
    never runs out ([NoFuel] is not a possible outcome) and gives the
    same result as the [len + 1] rounds [parse_sml_file] uses; every
    message that parses consumes at least one byte. *)
Theorem parse_sml_file_fuel p fuel :
  (pos p <= List.length (data p))%nat -> (List.length (data p) - pos p < fuel)%nat ->
  parse_sml_file_loop fuel [] p <> RPanic NoFuel /\
  parse_sml_file_loop fuel [] p = parse_sml_file_loop (S (List.length (data p))) [] p.
Proof.
  intros Hp Hf. split; [by apply parse_sml_file_loop_no_fuel_out|].
  apply parse_sml_file_loop_fuel_stable; lia.
Qed.

(** ** Witnesses *)

Lemma parse_octet_string_roundtrip_witness :
  parse_octet_string (mkSmlParser (bytes_of_Zs [0x12; 0xaa; 0xbb; 0x00]) 0) =
    ROk (Some (bytes_of_Zs [0xaa; 0xbb]), mkSmlParser (bytes_of_Zs [0x12; 0xaa; 0xbb; 0x00]) 3).
Proof.
  rewrite (parse_octet_string_roundtrip _ 1 (bytes_of_Zs [0xaa; 0xbb]) [Byte.x00]);
    first [reflexivity | lia | simpl; lia | vm_compute; reflexivity].
Defined.

Lemma parse_integers_roundtrip_witness :
  parse_unsigned16 (mkSmlParser (bytes_of_Zs [0x62; 0x01; 0x02]) 0) =
    ROk (258, mkSmlParser (bytes_of_Zs [0x62; 0x01; 0x02]) 3).
Proof.
  destruct (parse_integers_roundtrip (mkSmlParser (bytes_of_Zs [0x62; 0x01; 0x02]) 0) 6 2 258 []
              ltac:(lia) ltac:(split; [lia|reflexivity]) ltac:(simpl; lia)
              ltac:(vm_compute; reflexivity)) as (_ & H & _).
  apply H. reflexivity.
Defined.

Lemma parse_octet_string_type0_witness :
  parse_octet_string (mkSmlParser (bytes_of_Zs [0x05; 0x01; 0x02; 0x03; 0x04]) 0) =
    ROk (None, mkSmlParser (bytes_of_Zs [0x05; 0x01; 0x02; 0x03; 0x04]) 1).
Proof.
  rewrite (parse_octet_string_type0 _ Byte.x05); [reflexivity | reflexivity | vm_compute; reflexivity].
Defined.

Lemma parse_optional_value_never_unsigned_witness :
  parse_optional_value (mkSmlParser (bytes_of_Zs [0x51; 0x01]) 0) =
    ROk (Some (Bool true), mkSmlParser (bytes_of_Zs [0x51; 0x01]) 2) /\ True.
Proof.
  split; [reflexivity|].
  exact (parse_optional_value_never_unsigned (mkSmlParser (bytes_of_Zs [0x51; 0x01]) 0) (Bool true)
           (mkSmlParser (bytes_of_Zs [0x51; 0x01]) 2) ltac:(reflexivity)).
Defined.

Lemma parse_sml_file_fuel_witness :
  parse_sml_file_loop 200 [] (mkSmlParser spec_sample_frame 8) <> RPanic NoFuel /\
  parse_sml_file_loop 200 [] (mkSmlParser spec_sample_frame 8) =
  parse_sml_file_loop (S (List.length spec_sample_frame)) [] (mkSmlParser spec_sample_frame 8).
Proof. apply parse_sml_file_fuel; vm_compute; lia. Defined.

End Sml.
