(* ===== verification/SmlValues.v ===== *)
(** The SML value processing (metering_sml/mod.rs, utils.rs,
    structs.rs, meter_definitions.rs): the GetListResponse entries of a
    parsed SML file become one [MeteringData] per response, keyed by
    the OBIS code or a mapped field name, with the scaled value and its
    unit rendered into a string.  Floating-point arithmetic is the type
    class [F64] (parsing, [powi], the two [format!] precisions); the
    iteration order of the [HashMap] of meter definitions is a
    parameter, any permutation of the insertion order. *)

From S2P Require Import Prelude.
From S2P Require Import Models.
From S2P Require Import Obis.
From S2P Require Import Sml.

Module SmlValues.

Import Models Obis Sml.

(** ** Meter definitions (structs.rs, meter_definitions.rs) *)

Inductive MeterType : Type := EMH | Iskraemeco | EasyMeter | Itron | Generic.

#[global] Instance MeterType_eq_dec : EqDecision MeterType.
Proof. solve_decision. Defined.

Record MeterDefinition : Type := mkMeterDefinition {
  meter_type : MeterType;
  manufacturer_codes : list string;
  supported_obis_codes : list string;
  obis_mapping : list (string * string);
  description : string
}.

(** [get_emh_obis_mapping] (meter_definitions.rs). *)
Definition get_emh_obis_mapping : list (string * string) := [
  ("1-0:1.8.0", "total_energy_consumed"); ("1-0:2.8.0", "total_energy_delivered");
  ("1-0:16.7.0", "current_power"); ("1-0:21.7.0", "active_power_l1");
  ("1-0:41.7.0", "active_power_l2"); ("1-0:61.7.0", "active_power_l3");
  ("1-0:32.7.0", "voltage_l1"); ("1-0:52.7.0", "voltage_l2");
  ("1-0:72.7.0", "voltage_l3"); ("1-0:31.7.0", "current_l1");
  ("1-0:51.7.0", "current_l2"); ("1-0:71.7.0", "current_l3");
  ("1-0:14.7.0", "frequency"); ("129-129:199.130.3", "manufacturer");
  ("1-0:0.0.0", "device_id"); ("1-0:0.0.9", "timestamp")]%string.

(** [get_iskraemeco_obis_mapping] (meter_definitions.rs). *)
Definition get_iskraemeco_obis_mapping : list (string * string) := [
  ("1-0:1.8.0", "total_energy_consumed"); ("1-0:1.8.1", "energy_consumed_t1");
  ("1-0:1.8.2", "energy_consumed_t2"); ("1-0:2.8.0", "total_energy_delivered");
  ("1-0:2.8.1", "energy_delivered_t1"); ("1-0:2.8.2", "energy_delivered_t2");
  ("1-0:16.7.0", "current_power"); ("1-0:36.7.0", "reactive_power");
  ("1-0:21.7.0", "active_power_l1"); ("1-0:41.7.0", "active_power_l2");
  ("1-0:61.7.0", "active_power_l3"); ("1-0:32.7.0", "voltage_l1");
  ("1-0:52.7.0", "voltage_l2"); ("1-0:72.7.0", "voltage_l3");
  ("1-0:31.7.0", "current_l1"); ("1-0:51.7.0", "current_l2");
  ("1-0:71.7.0", "current_l3"); ("1-0:13.7.0", "power_factor");
  ("1-0:14.7.0", "frequency"); ("1-0:0.0.0", "device_id");
  ("1-0:0.0.9", "timestamp")]%string.

(** [get_itron_obis_mapping] (meter_definitions.rs). *)
Definition get_itron_obis_mapping : list (string * string) := [
  ("1-0:1.8.0", "total_energy_consumed"); ("1-0:2.8.0", "total_energy_delivered");
  ("1-0:3.8.0", "reactive_energy_consumed"); ("1-0:4.8.0", "reactive_energy_delivered");
  ("1-0:9.8.0", "apparent_energy_consumed"); ("1-0:10.8.0", "apparent_energy_delivered");
  ("1-0:16.7.0", "current_power"); ("1-0:36.7.0", "reactive_power");
  ("1-0:21.7.0", "active_power_l1"); ("1-0:41.7.0", "active_power_l2");
  ("1-0:61.7.0", "active_power_l3"); ("1-0:32.7.0", "voltage_l1");
  ("1-0:52.7.0", "voltage_l2"); ("1-0:72.7.0", "voltage_l3");
  ("1-0:31.7.0", "current_l1"); ("1-0:51.7.0", "current_l2");
  ("1-0:71.7.0", "current_l3"); ("1-0:14.7.0", "frequency");
  ("1-0:0.0.0", "device_id")]%string.

(** [get_easymeter_obis_mapping] (meter_definitions.rs). *)
Definition get_easymeter_obis_mapping : list (string * string) := [
  ("1-0:1.8.0", "total_energy_consumed"); ("1-0:2.8.0", "total_energy_delivered");
  ("1-0:16.7.0", "current_power"); ("1-0:32.7.0", "voltage_l1");
  ("1-0:52.7.0", "voltage_l2"); ("1-0:72.7.0", "voltage_l3");
  ("1-0:31.7.0", "current_l1"); ("1-0:51.7.0", "current_l2");
  ("1-0:71.7.0", "current_l3"); ("1-0:14.7.0", "frequency");
  ("1-0:0.0.0", "device_id"); ("1-0:0.0.9", "timestamp")]%string.

(** [get_generic_obis_mapping] (meter_definitions.rs). *)
Definition get_generic_obis_mapping : list (string * string) := [
  ("1-0:1.8.0", "total_energy_consumed"); ("1-0:2.8.0", "total_energy_delivered");
  ("1-0:16.7.0", "current_power"); ("1-0:0.0.0", "device_id")]%string.

(** [get_supported_meters]: the entries of the map, in insertion order. *)
Definition get_supported_meters : list (string * MeterDefinition) := [
  ("EMH", {| meter_type := EMH; manufacturer_codes := ["EMH"; "1E"];
      supported_obis_codes := [
        "1-0:1.8.0"; "1-0:2.8.0"; "1-0:16.7.0"; "1-0:32.7.0"; "1-0:52.7.0"; "1-0:72.7.0";
        "1-0:31.7.0"; "1-0:51.7.0"; "1-0:71.7.0"; "1-0:14.7.0"; "129-129:199.130.3"; "1-0:0.0.0";
        "1-0:0.0.9"];
      obis_mapping := get_emh_obis_mapping; description := "EMH ED300L Smart Meter" |});
  ("Iskraemeco", {| meter_type := Iskraemeco; manufacturer_codes := ["ISK"; "1I"];
      supported_obis_codes := [
        "1-0:1.8.0"; "1-0:1.8.1"; "1-0:1.8.2"; "1-0:2.8.0"; "1-0:2.8.1"; "1-0:2.8.2";
        "1-0:16.7.0"; "1-0:36.7.0"; "1-0:32.7.0"; "1-0:52.7.0"; "1-0:72.7.0"; "1-0:31.7.0";
        "1-0:51.7.0"; "1-0:71.7.0"; "1-0:13.7.0"; "1-0:14.7.0"; "1-0:0.0.0"; "1-0:0.0.9"];
      obis_mapping := get_iskraemeco_obis_mapping; description := "Iskraemeco MT175/MT631 Smart Meter" |});
  ("Itron", {| meter_type := Itron; manufacturer_codes := ["ITR"; "ITO"];
      supported_obis_codes := [
        "1-0:1.8.0"; "1-0:2.8.0"; "1-0:3.8.0"; "1-0:4.8.0"; "1-0:9.8.0"; "1-0:10.8.0";
        "1-0:16.7.0"; "1-0:36.7.0"; "1-0:21.7.0"; "1-0:41.7.0"; "1-0:61.7.0"; "1-0:32.7.0";
        "1-0:52.7.0"; "1-0:72.7.0"; "1-0:31.7.0"; "1-0:51.7.0"; "1-0:71.7.0"; "1-0:14.7.0";
        "1-0:0.0.0"];
      obis_mapping := get_itron_obis_mapping; description := "Itron OpenWay 3.HZ Smart Meter" |});
  ("EasyMeter", {| meter_type := EasyMeter; manufacturer_codes := ["EAS"; "ESY"];
      supported_obis_codes := [
        "1-0:1.8.0"; "1-0:2.8.0"; "1-0:16.7.0"; "1-0:32.7.0"; "1-0:52.7.0"; "1-0:72.7.0";
        "1-0:31.7.0"; "1-0:51.7.0"; "1-0:71.7.0"; "1-0:14.7.0"; "1-0:0.0.0"; "1-0:0.0.9"];
      obis_mapping := get_easymeter_obis_mapping; description := "EasyMeter Smart Meter (SML variant)" |});
  ("Generic", {| meter_type := Generic; manufacturer_codes := ["UNK"; "GEN"];
      supported_obis_codes := [
        "1-0:1.8.0"; "1-0:2.8.0"; "1-0:16.7.0"; "1-0:0.0.0"];
      obis_mapping := get_generic_obis_mapping; description := "Generic SML Smart Meter" |})]%string.

(** [get_meter_by_manufacturer], over the map's values in [order]. *)
Definition get_meter_by_manufacturer (order : list (string * MeterDefinition))
    (manufacturer_code : string) : option MeterDefinition :=
  option_map snd (List.find (fun kv => existsb (String.eqb manufacturer_code) (manufacturer_codes (snd kv))) order).

(** ** SML OBIS codes and units (structs.rs) *)

Record SmlObisCode : Type := mkSmlObisCode {
  medium : Z; channel : Z; indicator : Z; obis_mode : Z; tariff : Z; previous : Z
}.

Definition SmlObisCode_from_bytes (bytes : list byte) : option SmlObisCode :=
  match bytes with
  | [b0; b1; b2; b3; b4; b5] =>
      Some {| medium := u8v b0; channel := u8v b1; indicator := u8v b2;
              obis_mode := u8v b3; tariff := u8v b4; previous := u8v b5 |}
  | _ => None
  end.

Definition SmlObisCode_to_string (o : SmlObisCode) : string :=
  (fmt_dec (medium o) ++ "-" ++ fmt_dec (channel o) ++ ":" ++ fmt_dec (indicator o) ++ "." ++
   fmt_dec (obis_mode o) ++ "." ++ fmt_dec (tariff o) ++ "." ++ fmt_dec (previous o))%string.

Definition get_sml_unit_name (unit_code : Z) : option string :=
  match unit_code with
  | 1 => Some "a" | 2 => Some "mo" | 3 => Some "wk" | 4 => Some "d" | 5 => Some "h" | 6 => Some "min"
  | 7 => Some "s" | 8 => Some "°" | 9 => Some "°C" | 10 => Some "K" | 11 => Some "m" | 12 => Some "dm"
  | 13 => Some "cm" | 14 => Some "mm" | 15 => Some "km" | 16 => Some "m²" | 17 => Some "m³" | 18 => Some "l"
  | 19 => Some "kg" | 20 => Some "g" | 21 => Some "t" | 22 => Some "N" | 23 => Some "Pa" | 24 => Some "bar"
  | 25 => Some "J" | 26 => Some "kJ" | 27 => Some "Wh" | 28 => Some "kWh" | 29 => Some "MWh" | 30 => Some "W"
  | 31 => Some "kW" | 32 => Some "MW" | 33 => Some "var" | 34 => Some "kvar" | 35 => Some "VA" | 36 => Some "kVA"
  | 37 => Some "V" | 38 => Some "mV" | 39 => Some "kV" | 40 => Some "A" | 41 => Some "mA" | 42 => Some "kA"
  | 43 => Some "Ω" | 44 => Some "mΩ" | 45 => Some "kΩ" | 46 => Some "F" | 47 => Some "C" | 48 => Some "Hz"
  | 49 => Some "kHz" | 50 => Some "MHz" | 51 => Some "1/h" | 52 => Some "1/d" | 53 => Some "1/wk" | 54 => Some "1/mo"
  | 55 => Some "1/a"
  | _ => None
  end%string.

(** ** utils.rs *)

(** [format_obis_code]. *)
Definition format_obis_code (obis_bytes : list byte) : string :=
  match SmlObisCode_from_bytes obis_bytes with
  | Some obis => SmlObisCode_to_string obis
  | None => hex_encode obis_bytes
  end.

(** [String::from_utf8(bytes)] succeeds and every character is ASCII
    graphic or Unicode whitespace: exactly when the bytes are a
    sequence of printable ASCII bytes and UTF-8 encodings of White_Space
    characters (UTF-8 is prefix-free, so reading greedily decides it;
    such a sequence is valid UTF-8).  Each step consumes a byte, so the
    length is enough fuel. *)
Fixpoint graphic_or_ws (fuel : nat) (l : list ascii) : bool :=
  match l, fuel with
  | [], _ => true
  | _ :: _, O => false
  | c :: r, S f =>
      if ascii_graphic c then graphic_or_ws f r
      else match ws_prefix whitespace_utf8 l with
           | Some k => graphic_or_ws f (drop k l)
           | None => false
           end
  end.

Definition string_of_bytes (bs : list byte) : string :=
  string_of_list_ascii (map ascii_of_byte bs).

(** [parse_sml_value]. *)
Fixpoint parse_sml_value (v : SmlValue) : string * option string :=
  match v with
  | Bool b => (if b then "true" else "false", None)
  | Int8 i | Int16 i | Int32 i | Int64 i => (fmt_int i, None)
  | UInt8 u | UInt16 u | UInt32 u | UInt64 u => (fmt_dec u, None)
  | OctetString bytes =>
      if graphic_or_ws (List.length bytes) (map ascii_of_byte bytes)
      then (string_of_bytes bytes, None)
      else (hex_encode bytes, None)
  | List values =>
      ("[" ++ String.concat ", " (map (fun v => fst (parse_sml_value v)) values) ++ "]", None)%string
  end.

Definition get_common_sml_obis_mappings : list (string * string) := [
  ("1-0:1.8.0", "total_energy_consumed"); ("1-0:1.8.1", "energy_consumed_t1");
  ("1-0:1.8.2", "energy_consumed_t2"); ("1-0:2.8.0", "total_energy_delivered");
  ("1-0:2.8.1", "energy_delivered_t1"); ("1-0:2.8.2", "energy_delivered_t2");
  ("1-0:16.7.0", "current_power"); ("1-0:36.7.0", "reactive_power");
  ("1-0:21.7.0", "active_power_l1"); ("1-0:41.7.0", "active_power_l2");
  ("1-0:61.7.0", "active_power_l3"); ("1-0:32.7.0", "voltage_l1");
  ("1-0:52.7.0", "voltage_l2"); ("1-0:72.7.0", "voltage_l3");
  ("1-0:31.7.0", "current_l1"); ("1-0:51.7.0", "current_l2");
  ("1-0:71.7.0", "current_l3"); ("1-0:14.7.0", "frequency");
  ("1-0:13.7.0", "power_factor"); ("129-129:199.130.3", "manufacturer");
  ("1-0:0.0.0", "device_id"); ("1-0:0.0.9", "timestamp")]%string.

Fixpoint count_while_eq (c : ascii) (l : list ascii) : nat :=
  match l with x :: r => if Ascii.eqb x c then S (count_while_eq c r) else O | [] => O end.

Definition is_Some_b {A} (o : option A) : bool := match o with Some _ => true | None => false end.

(** [str::starts_with] and [str::contains] with a string pattern. *)
Definition str_starts_with (s p : string) : bool := String.prefix p s.

Fixpoint str_contains (s p : string) : bool :=
  String.prefix p s || match s with String _ s' => str_contains s' p | EmptyString => false end.

(** [str::to_uppercase] on ASCII; other bytes are kept (the only caller
    passes the output of [hex::encode], which is ASCII). *)
Definition ascii_upper (c : ascii) : ascii :=
  if (97 <=? az c) && (az c <=? 122) then ascii_of_nat (nat_of_ascii c - 32) else c.

Definition str_to_upper (s : string) : string :=
  string_of_list_ascii (map ascii_upper (list_ascii_of_string s)).

(** [identify_manufacturer_from_server_id]. *)
Definition identify_manufacturer_from_server_id (server_id : string) : string :=
  let id_upper := str_to_upper server_id in
  if str_starts_with id_upper "EMH" || str_contains id_upper "EMH" then "EMH"
  else if str_starts_with id_upper "ISK" || str_contains id_upper "ISK" then "Iskraemeco"
  else if str_starts_with id_upper "EAS" || str_contains id_upper "EAS" then "EasyMeter"
  else if str_starts_with id_upper "ITR" || str_contains id_upper "ITR" then "Itron"
  else if (10 <=? String.length server_id)%nat then
    if str_starts_with id_upper "1E" then "EMH"
    else if str_starts_with id_upper "1I" then "Iskraemeco"
    else if str_starts_with id_upper "1S" then "Siemens"
    else if str_starts_with id_upper "1L" then "Landis+Gyr"
    else "Unknown"
  else "Unknown".

Record ServerIdInfo : Type := mkServerIdInfo {
  hex_id : string; manufacturer : string; raw_bytes : list byte
}.

(** [extract_server_id_info]. *)
Definition extract_server_id_info (server_id : list byte) : ServerIdInfo :=
  let hex_id := hex_encode server_id in
  {| hex_id := hex_id; manufacturer := identify_manufacturer_from_server_id hex_id;
     raw_bytes := server_id |}.

(** [calculate_crc16]: CRC-16/CCITT, polynomial 0x1021, initial value
    0xFFFF, MSB first, with the [u16] shifts wrapping. *)
Definition crc16_bit (crc : Z) : Z :=
  if negb (Z.land crc 0x8000 =? 0) then Z.land (Z.lxor (Z.shiftl crc 1) 0x1021) 0xFFFF
  else Z.land (Z.shiftl crc 1) 0xFFFF.

Definition crc16_byte (crc : Z) (b : byte) : Z :=
  Nat.iter 8 crc16_bit (Z.lxor crc (Z.shiftl (u8v b) 8)).

Definition calculate_crc16 (data : list byte) : Z := fold_left crc16_byte data 0xFFFF.

(** [validate_sml_checksum]: the two bytes before the last four are the
    big-endian CRC of everything before them.  Both indices are below
    the length, so [nth] never takes its default. *)
Definition validate_sml_checksum (data : list byte) : bool :=
  if (List.length data <? 4)%nat then false else
  let end_pos := (List.length data - 4)%nat in
  if (end_pos <? 2)%nat then false else
  let checksum_pos := (end_pos - 2)%nat in
  let expected_crc := u8v (nth checksum_pos data Byte.x00) * 256 + u8v (nth (S checksum_pos) data Byte.x00) in
  expected_crc =? calculate_crc16 (take checksum_pos data).

(** ** Floating point *)

(** What the value processing uses of [f64]: [str::parse], [powi] on 10,
    multiplication, the test [fract() == 0.0 && abs() < 1e15], and the
    two formats [{:.0}] and [{:.6}]. *)
Class F64 : Type := {
  f64 : Type;
  f64_parse : string -> option f64;
  f64_powi10 : Z -> f64;
  f64_mul : f64 -> f64 -> f64;
  f64_whole_small : f64 -> bool;
  f64_fmt0 : f64 -> string;
  f64_fmt6 : f64 -> string
}.

(** [trim_end_matches(c)]. *)
Definition trim_end_matches (c : ascii) (s : string) : string :=
  string_of_list_ascii (rev (List.skipn (count_while_eq c (rev (list_ascii_of_string s)))
                                        (rev (list_ascii_of_string s)))).

(** ** The SML manager (mod.rs) *)

(** The fallback of [get_field_mapping]: a [match] on the code, with
    distinct literal arms, is a lookup in the table of its arms. *)
Definition standard_field_mappings : list (string * string) := [
  ("1-0:1.8.0", "total_energy_consumed"); ("1-0:2.8.0", "total_energy_delivered");
  ("1-0:16.7.0", "current_power"); ("1-0:32.7.0", "voltage_l1"); ("1-0:52.7.0", "voltage_l2");
  ("1-0:72.7.0", "voltage_l3"); ("1-0:31.7.0", "current_l1"); ("1-0:51.7.0", "current_l2");
  ("1-0:71.7.0", "current_l3")]%string.

Definition standard_field_mapping (obis_code : string) : option string :=
  lookup_table obis_code standard_field_mappings.

Section Manager.

Context `{F64}.

(** [self.device_definitions] in the iteration order of the [HashMap]:
    the theorems hold for every permutation of the insertion order. *)
Variable order : list (string * MeterDefinition).

(** [apply_scaler_and_unit]. *)
Definition apply_scaler_and_unit (value_str : string) (scaler : option Z) (unit : option Z)
    : string * option string :=
  let unit_name := match unit with Some u => get_sml_unit_name u | None => None end in
  match f64_parse value_str with
  | Some v =>
      let value := match scaler with Some s => f64_mul v (f64_powi10 s) | None => v end in
      let formatted_value :=
        if f64_whole_small value then f64_fmt0 value
        else trim_end_matches "." (trim_end_matches "0" (f64_fmt6 value)) in
      (formatted_value, unit_name)
  | None => (value_str, unit_name)
  end.

(** [identify_meter_type]. *)
Definition identify_meter_type (server_id : string) (val_list : list SmlListEntry) : MeterType :=
  match List.find (fun kv => str_contains server_id (fst kv)) order with
  | Some (_, meter_def) => meter_type meter_def
  | None =>
      let obis_codes := map format_obis_code (omap obis_code val_list) in
      if existsb (fun code => str_starts_with code "129-129:") obis_codes then EMH
      else if existsb (fun code => str_starts_with code "1-0:0.0.0") obis_codes then Iskraemeco
      else Generic
  end.

(** [get_field_mapping]: the first definition of the right type whose
    mapping has the code, else the fixed fallback. *)
Definition get_field_mapping (mt : MeterType) (obis_code : string) : option string :=
  match List.find (fun meter_def => bool_decide (meter_type meter_def = mt) &&
                                    bool_decide (is_Some (lookup_table obis_code (obis_mapping meter_def))))
                  (map snd order) with
  | Some meter_def => lookup_table obis_code (obis_mapping meter_def)
  | None => standard_field_mapping obis_code
  end.

(** The value string of an entry: [parse_sml_value], then the scaler
    and unit, or the unit of [parse_sml_value], written after a space. *)
Definition entry_value_string (v : SmlValue) (scaler unit : option Z) : string :=
  let '(value_str0, unit0) := parse_sml_value v in
  if is_Some_b scaler || is_Some_b unit then
    let '(scaled_value, final_unit) := apply_scaler_and_unit value_str0 scaler unit in
    match final_unit with Some u => (scaled_value ++ " " ++ u)%string | None => scaled_value end
  else match unit0 with Some u => (value_str0 ++ " " ++ u)%string | None => value_str0 end.

(** The body of the loop of [process_get_list_response]. *)
Definition process_entry (mt : MeterType) (metered_values : jmap) (entry : SmlListEntry) : jmap :=
  match obis_code entry with
  | None => metered_values
  | Some oc =>
      let obis_str := format_obis_code oc in
      match value entry with
      | None => metered_values
      | Some v =>
          let value_str := entry_value_string v (scaler entry) (unit entry) in
          let field_name := match get_field_mapping mt obis_str with Some f => f | None => obis_str end in
          <[field_name := JStr value_str]> metered_values
      end
  end.

Definition sml_server_id (response : SmlGetListResponse) : string :=
  match server_id response with Some sid => hex_encode sid | None => "unknown" end.

(** [process_get_list_response]: the record it sends, [current_time]
    being [get_unix_ts()]. *)
Definition process_get_list_response (current_time : Z) (response : SmlGetListResponse) : MeteringData :=
  let sid := sml_server_id response in
  let mt := identify_meter_type sid (val_list response) in
  let metered_values := fold_left (process_entry mt) (val_list response) ∅ in
  {| id := "sml-" ++ sid; meter_name := "SML-" ++ sid; tenant := "default"; protocol := SML;
     transmission_time := current_time; transmission_type := Now; metered_time := current_time;
     metered_values := metered_values |}%string.

(** [handle_sml_message]: the records sent, in order; [clock k] is the
    time read for the [k]-th response.  A parse error is logged and
    nothing is sent. *)
Definition handle_sml_message (clock : nat -> Z) (payload : list byte) : res SmlError (list MeteringData) :=
  match parse_sml_message payload with
  | ROk sml_file =>
      let responses := omap (fun message => get_list_response (message_body message)) (messages sml_file) in
      ROk (imap (fun k r => process_get_list_response (clock k) r) responses)
  | RErr _ => ROk []
  | RPanic p => RPanic p
  end.

(** One round of the loop of [start_thread]: a payload that is not hex
    is logged and skipped. *)
Definition sml_input_step (clock : nat -> Z) (payload_hex : string) : res SmlError (list MeteringData) :=
  match hex_decode payload_hex with
  | None => ROk []
  | Some payload => handle_sml_message clock payload
  end.

End Manager.

Definition is_hex_upper (c : ascii) : bool := ((48 <=? az c) && (az c <=? 57)) || ((65 <=? az c) && (az c <=? 70)).

(** ** Reference: a decimal instance of [F64]

    A number is [(m, e)] for m * 10^e.  It is exact on the integer
    strings [parse_sml_value] produces for integer values (up to
    2^53, where [f64] is exact too) and on their products with powers
    of ten; it does not round as binary [f64] does. *)
Fixpoint digits_value (acc : Z) (s : string) : option Z :=
  match s with
  | EmptyString => Some acc
  | String c s' => if is_digit c then digits_value (acc * 10 + (az c - 48)) s' else None
  end.

Definition dec_parse (s : string) : option (Z * Z) :=
  match s with
  | EmptyString => None
  | String "-" EmptyString => None
  | String "-" r => option_map (fun z => (- z, 0)) (digits_value 0 r)
  | _ => option_map (fun z => (z, 0)) (digits_value 0 s)
  end.

(** [{:.n}]: the value times 10^n, truncated, with [n] decimals. *)
Definition dec_fmt (n : nat) (v : Z * Z) : string :=
  let '(m, e) := v in
  let k := e + Z.of_nat n in
  let a := if 0 <=? k then m * 10 ^ k else Z.quot m (10 ^ (- k)) in
  let sign := if a <? 0 then "-" else "" in
  let q := Z.abs a / 10 ^ Z.of_nat n in
  let r := Z.abs a mod 10 ^ Z.of_nat n in
  (sign ++ fmt_dec q ++ (if (n =? 0)%nat then "" else "." ++ fmt_dec_w n r))%string.

Definition dec_whole_small (v : Z * Z) : bool :=
  let '(m, e) := v in
  if 0 <=? e then Z.abs m * 10 ^ e <? 10 ^ 15
  else (m mod 10 ^ (- e) =? 0) && (Z.abs m <? 10 ^ (15 - e)).

Definition decimal_f64 : F64 := {|
  f64 := Z * Z;
  f64_parse := dec_parse;
  f64_powi10 := fun s => (1, s);
  f64_mul := fun x y => (fst x * fst y, snd x + snd y);
  f64_whole_small := dec_whole_small;
  f64_fmt0 := dec_fmt 0;
  f64_fmt6 := dec_fmt 6
|}.

(** ** Reference: the reading of a GetListResponse *)

(** The value stored under [k]: the value string of the last entry
    whose OBIS code is rendered as [k]. *)
Definition last_entry_value `{F64} (k : string) (entries : list SmlListEntry) : option json :=
  fold_left (fun acc e =>
    match obis_code e, value e with
    | Some oc, Some v =>
        if String.eqb (format_obis_code oc) k
        then Some (JStr (entry_value_string v (scaler e) (unit e))) else acc
    | _, _ => acc
    end) entries None.

(** ** Lemmas *)


Lemma hex_encode_cons b l : hex_encode (b :: l) = (fmt_hex 2 (u8v b) ++ hex_encode l)%string.
Proof.
  unfold hex_encode. destruct l as [|b' l]; cbn [map String.concat].
  - rewrite str_app_nil. done.
  - rewrite str_nil_app. done.
Qed.

(** A property of the characters of every [{:02x}] byte holds of the
    characters of [hex::encode]. *)
Lemma hex_encode_forallb (P : ascii -> bool) l :
  forallb (fun k => forallb P (list_ascii_of_string (fmt_hex 2 (Z.of_nat k)))) (seq 0 256) = true ->
  forallb P (list_ascii_of_string (hex_encode l)) = true.
Proof.
  intros H. rewrite forallb_forall in H. induction l as [|b l IH]; [done|].
  rewrite hex_encode_cons, list_ascii_of_string_app, forallb_app, IH, andb_true_r.
  pose proof (u8v_range b). rewrite <- (Z2Nat.id (u8v b)) by lia. apply H, in_seq. lia.
Qed.

Lemma hex_encode_no_colon l : contains_char ":" (hex_encode l) = false.
Proof.
  rewrite contains_char_forallb, hex_encode_forallb; [done|]. vm_compute. reflexivity.
Qed.

Lemma u8v_digits b : all_digits (fmt_dec (u8v b)) = true.
Proof. apply (fmt_u8_facts (u8v b)). pose proof (u8v_range b). lia. Qed.

(** The rendering of a six-byte code: [A-B], a colon, four fields. *)
Lemma SmlObisCode_to_string_split b0 b1 b2 b3 b4 b5 :
  format_obis_code [b0; b1; b2; b3; b4; b5] =
  ((fmt_dec (u8v b0) ++ String "-" (fmt_dec (u8v b1))) ++
   String ":" (String.concat "." [fmt_dec (u8v b2); fmt_dec (u8v b3); fmt_dec (u8v b4); fmt_dec (u8v b5)]))%string.
Proof. rewrite str_app_assoc. reflexivity. Qed.

(** No SML OBIS rendering passes [validate_obis_code]: six bytes give
    four dot-separated fields, any other length gives hex without a
    colon. *)
Lemma format_obis_code_not_valid oc : validate_obis_code (format_obis_code oc) = false.
Proof.
  destruct oc as [|b0 [|b1 [|b2 [|b3 [|b4 [|b5 [|b6 l]]]]]]];
    try (unfold validate_obis_code; rewrite (split_char_nochar ":" (format_obis_code _))
         by apply hex_encode_no_colon; reflexivity).
  pose proof (u8v_digits b0). pose proof (u8v_digits b1). pose proof (u8v_digits b2).
  pose proof (u8v_digits b3). pose proof (u8v_digits b4). pose proof (u8v_digits b5).
  rewrite SmlObisCode_to_string_split. unfold validate_obis_code.
  rewrite split_char_app by nochar. rewrite split_char_nochar by (cbn [String.concat]; nochar).
  rewrite split_char_app, split_char_nochar by nochar.
  assert (Hs : contains_char "*" (String.concat "." [fmt_dec (u8v b2); fmt_dec (u8v b3);
                 fmt_dec (u8v b4); fmt_dec (u8v b5)]) = false) by (cbn [String.concat]; nochar).
  rewrite Hs.
  rewrite split_char_concat by (repeat constructor; done). reflexivity.
Qed.

Lemma lookup_table_In k t v : lookup_table k t = Some v -> In (k, v) t.
Proof.
  unfold lookup_table. destruct (List.find _ t) as [[k' v']|] eqn:E; [|done]. intros [= <-].
  apply find_some in E as [Hin Hk]. apply String.eqb_eq in Hk. subst. done.
Qed.

(** Every key of the mapping tables is a valid OBIS code [A-B:C.D.E]. *)
Lemma mapping_keys_valid name d k v :
  In (name, d) get_supported_meters -> In (k, v) (obis_mapping d) -> validate_obis_code k = true.
Proof.
  assert (H : forallb (fun nd => forallb (fun kv => validate_obis_code (fst kv)) (obis_mapping (snd nd)))
                get_supported_meters = true) by (vm_compute; reflexivity).
  intros Hd Hk. rewrite forallb_forall in H. specialize (H _ Hd).
  rewrite forallb_forall in H. apply (H _ Hk).
Qed.

Lemma standard_keys_valid k v : In (k, v) standard_field_mappings -> validate_obis_code k = true.
Proof.
  assert (H : forallb (fun kv => validate_obis_code (fst kv)) standard_field_mappings = true)
    by (vm_compute; reflexivity).
  intros Hk. rewrite forallb_forall in H. apply (H _ Hk).
Qed.

Section Mapping.

Context `{F64}.
Variable order : list (string * MeterDefinition).
Hypothesis order_perm : Permutation order get_supported_meters.

(** No field mapping applies to an SML OBIS rendering. *)
Lemma get_field_mapping_format mt oc : get_field_mapping order mt (format_obis_code oc) = None.
Proof.
  pose proof (format_obis_code_not_valid oc) as Hnv. unfold get_field_mapping.
  destruct (List.find _ (map snd order)) as [d|] eqn:E.
  - apply find_some in E as [Hin Hd]. apply andb_prop in Hd as [_ Hd].
    apply bool_decide_eq_true in Hd as [v Hv].
    apply in_map_iff in Hin as ([name d'] & <- & Hin).
    apply (Permutation_in _ order_perm) in Hin.
    rewrite (mapping_keys_valid _ _ _ _ Hin (lookup_table_In _ _ _ Hv)) in Hnv. done.
  - unfold standard_field_mapping. destruct (lookup_table _ _) as [v|] eqn:Hv; [|done].
    rewrite (standard_keys_valid _ _ (lookup_table_In _ _ _ Hv)) in Hnv. done.
Qed.

Lemma process_entries_lookup mt entries (m : jmap) k :
  fold_left (process_entry order mt) entries m !! k =
  fold_left (fun acc e =>
    match obis_code e, value e with
    | Some oc, Some v =>
        if String.eqb (format_obis_code oc) k
        then Some (JStr (entry_value_string v (scaler e) (unit e))) else acc
    | _, _ => acc
    end) entries (m !! k).
Proof.
  revert m. induction entries as [|e entries IH]; intros m; [done|]. cbn [fold_left].
  rewrite IH. f_equal. unfold process_entry.
  destruct (obis_code e) as [oc|], (value e) as [v|]; try done.
  rewrite get_field_mapping_format.
  destruct (String.eqb_spec (format_obis_code oc) k) as [<-|Hne].
  - apply lookup_insert_eq.
  - apply lookup_insert_ne. done.
Qed.

End Mapping.

Lemma crc16_bit_range c : 0 <= crc16_bit c < 65536.
Proof.
  unfold crc16_bit. destruct (negb _); rewrite (Z.land_ones _ 16) by lia; apply Z.mod_pos_bound; lia.
Qed.

Lemma crc16_fold_range data c : 0 <= c < 65536 -> 0 <= fold_left crc16_byte data c < 65536.
Proof.
  revert c. induction data as [|b data IH]; intros c Hc; [exact Hc|]. cbn [fold_left].
  apply IH, crc16_bit_range.
Qed.

Lemma calculate_crc16_range data : 0 <= calculate_crc16 data < 65536.
Proof. apply crc16_fold_range. lia. Qed.

Lemma prefix_In p t c : String.prefix p t = true -> In c (list_ascii_of_string p) -> In c (list_ascii_of_string t).
Proof.
  revert t. induction p as [|a p IH]; intros [|b t]; cbn; try done.
  destruct (ascii_dec a b) as [<-|]; [|done]. intros Hp [->|Hc]; [left; done|right; eauto].
Qed.

(** Every character of a pattern that [str_contains] finds is in the string. *)
Lemma str_contains_In s p c :
  str_contains s p = true -> In c (list_ascii_of_string p) -> In c (list_ascii_of_string s).
Proof.
  induction s as [|x s IH]; cbn [str_contains]; intros Hs Hc.
  - rewrite orb_false_r in Hs. eapply prefix_In; eauto.
  - apply orb_prop in Hs as [Hs|Hs]; [eapply prefix_In; eauto|right; eauto].
Qed.

Lemma forallb_map_comp {A B} (f : A -> B) (P : B -> bool) l :
  forallb P (map f l) = forallb (fun x => P (f x)) l.
Proof. induction l as [|x l IH]; [done|]. cbn. rewrite IH. done. Qed.

Lemma hex_upper_chars l : forallb is_hex_upper (list_ascii_of_string (str_to_upper (hex_encode l))) = true.
Proof.
  unfold str_to_upper. rewrite list_ascii_of_string_of_list_ascii, forallb_map_comp.
  apply hex_encode_forallb. vm_compute. reflexivity.
Qed.

(** A pattern with a character that is not an upper-case hex digit is
    found neither inside nor at the start of an upper-cased hex string. *)
Lemma hex_upper_no_pattern l p c :
  In c (list_ascii_of_string p) -> is_hex_upper c = false ->
  str_contains (str_to_upper (hex_encode l)) p = false /\
  str_starts_with (str_to_upper (hex_encode l)) p = false.
Proof.
  intros Hc Hx. pose proof (hex_upper_chars l) as H. rewrite forallb_forall in H.
  split; apply not_true_iff_false; intros Hs.
  - pose proof (H c (str_contains_In _ _ _ Hs Hc)). congruence.
  - pose proof (H c (prefix_In _ _ _ Hs Hc)). congruence.
Qed.

(** * Properties *)

(** C38: [process_get_list_response] stores each entry under its raw
    OBIS rendering: for every iteration order of the meter definitions,
    the value under [k] is the value string of the last entry whose
    code is rendered as [k]; no field mapping ever applies, since the
    tables are keyed by [A-B:C.D.E] and the rendering has six fields. *)
Theorem process_get_list_response_values `{F64} order current_time response k :
  Permutation order get_supported_meters ->
  metered_values (process_get_list_response order current_time response) !! k =
  last_entry_value k (val_list response).
Proof.
  intros Hp. unfold process_get_list_response. cbn [metered_values].
  rewrite (process_entries_lookup order Hp), lookup_empty. done.
Qed.

(** [validate_sml_checksum] accepts any data followed by its
    big-endian CRC-16/CCITT and four more bytes (the end sequence). *)
Theorem validate_sml_checksum_roundtrip data x1 x2 x3 x4 :
  validate_sml_checksum
    (data ++ [byte_of_Z (calculate_crc16 data / 256); byte_of_Z (calculate_crc16 data mod 256);
              x1; x2; x3; x4]) = true.
Proof.
  pose proof (calculate_crc16_range data) as Hr. unfold validate_sml_checksum.
  rewrite length_app. cbn [List.length].
  destruct (Nat.ltb_spec (List.length data + 6) 4); [lia|].
  destruct (Nat.ltb_spec (List.length data + 6 - 4) 2); [lia|].
  replace (List.length data + 6 - 4 - 2)%nat with (List.length data) by lia.
  rewrite nth_middle, app_nth2, Nat.sub_succ_l, Nat.sub_diag by lia. cbn [nth].
  rewrite take_app_length, !u8v_byte_of_Z, Z.mod_mod, (Z.mod_small (_ / 256)) by (try split; try apply Z.div_pos; try apply Z.div_lt_upper_bound; lia).
  apply Z.eqb_eq. rewrite Z.mul_comm, <- Z.div_mod by lia. done.
Qed.

(** The OBIS bytes of scenario S3 render as [1-0:1.8.0.255], and no
    SML OBIS rendering is a valid OBIS code for [validate_obis_code]:
    six bytes give four fields after the colon, other lengths hex. *)
Theorem format_obis_code_not_obis :
  format_obis_code (bytes_of_Zs [1; 0; 1; 8; 0; 255]) = "1-0:1.8.0.255" /\
  forall oc, validate_obis_code (format_obis_code oc) = false.
Proof. split; [vm_compute; reflexivity|apply format_obis_code_not_valid]. Qed.

(** [extract_server_id_info] reports [EMH] or [Unknown] and nothing
    else: it matches the upper-cased hex of the id against patterns
    whose letters (H, I, K, L, M, R, S, T) are not hex digits; the only
    pattern that can match is the prefix [1E], which gives [EMH]. *)
Theorem extract_server_id_info_manufacturer sid :
  manufacturer (extract_server_id_info sid) = "EMH" \/
  manufacturer (extract_server_id_info sid) = "Unknown".
Proof.
  unfold extract_server_id_info, identify_manufacturer_from_server_id. cbn [manufacturer].
  set (U := str_to_upper (hex_encode sid)).
  destruct (hex_upper_no_pattern sid "ISK" "I" (or_introl eq_refl) eq_refl) as [I1 I2].
  destruct (hex_upper_no_pattern sid "EAS" "S" (or_intror (or_intror (or_introl eq_refl))) eq_refl) as [E1 E2].
  destruct (hex_upper_no_pattern sid "ITR" "I" (or_introl eq_refl) eq_refl) as [T1 T2].
  destruct (hex_upper_no_pattern sid "1I" "I" (or_intror (or_introl eq_refl)) eq_refl) as [_ J1].
  destruct (hex_upper_no_pattern sid "1S" "S" (or_intror (or_introl eq_refl)) eq_refl) as [_ J2].
  destruct (hex_upper_no_pattern sid "1L" "L" (or_intror (or_introl eq_refl)) eq_refl) as [_ J3].
  fold U in I1, I2, E1, E2, T1, T2, J1, J2, J3.
  destruct (_ || _); [left; done|]. rewrite I1, I2, E1, E2, T1, T2, J1, J2, J3. cbn [orb].
  destruct (_ <=? _)%nat; [|right; done]. destruct (str_starts_with U "1E"); [left|right]; done.
Qed.

(** Witness of [process_get_list_response_values]: an energy entry of
    12345 with scaler -1 and unit 30 is stored as [1234.5 W] under
    [1-0:1.8.0.255]. *)
Lemma process_get_list_response_values_witness :
  let entry := {| obis_code := Some (bytes_of_Zs [1; 0; 1; 8; 0; 255]); status := None; val_time := None;
                  unit := Some 30; scaler := Some (-1); value := Some (Int64 12345);
                  value_signature := None |} in
  let response := {| client_id := None; server_id := None; list_name := None; act_sensor_time := None;
                     val_list := [entry]; list_signature := None; act_gateway_time := None |} in
  Permutation get_supported_meters get_supported_meters /\
  metered_values (@process_get_list_response decimal_f64 get_supported_meters 0 response) !! "1-0:1.8.0.255" =
    Some (JStr "1234.5 W").
Proof.
  cbv zeta. split; [reflexivity|].
  rewrite (@process_get_list_response_values decimal_f64 get_supported_meters 0 _ _ (Permutation_refl _)).
  vm_compute. reflexivity.
Defined.

End SmlValues.
