(* ===== verification/IecMeters.v ===== *)
(** The IEC 62056-21 meter definitions (metering_62056/structs.rs,
    meter_definitions.rs, utils.rs [get_meter_type_from_manufacturer]):
    the EasyMeter and EBZ tables from OBIS code to field name, the lookup
    of a definition by the manufacturer code of a telegram, and the
    example telegrams, and [extract_numeric_value].  The theorem is that
    the two lookups by manufacturer agree; the example telegrams are
    run through the telegram parser of [Iec62056] to read their
    protocol mode. *)

From S2P Require Import Prelude.
From S2P Require Import Models.
From S2P Require Import Obis.
From S2P Require Import Iec62056.
From S2P Require Import SmlValues.

Module IecMeters.

Import Models Obis Iec62056.

(** structs.rs [MeterType]. *)
Inductive IecMeterType : Type := EasyMeter | EBZ | Generic.

#[global] Instance IecMeterType_eq_dec : EqDecision IecMeterType.
Proof. solve_decision. Qed.

(** structs.rs [MeterDefinition]; [obis_mapping] is the [HashMap]. *)
Record IecMeterDefinition : Type := mkIecMeterDefinition {
  meter_type : IecMeterType;
  manufacturer_code : string;
  supported_modes : list ProtocolMode;
  default_baud_rate : Z;
  obis_mapping : gmap string string
}.

(** A [HashMap] filled by [insert] calls in order: a later insert of
    the same key overwrites. *)
Definition hashmap_of_inserts (l : list (string * string)) : gmap string string :=
  foldl (fun m '(k, v) => <[k := v]> m) ∅ l.

Definition easymeter_inserts : list (string * string) := [
  ("1-0:1.8.0", "total_energy_consumed"); ("1-0:2.8.0", "total_energy_delivered");
  ("1-0:1.8.1", "energy_consumed_t1"); ("1-0:1.8.2", "energy_consumed_t2");
  ("1-0:2.8.1", "energy_delivered_t1"); ("1-0:2.8.2", "energy_delivered_t2");
  ("1-0:15.7.0", "current_power"); ("1-0:32.7.0", "voltage_l1");
  ("1-0:52.7.0", "voltage_l2"); ("1-0:72.7.0", "voltage_l3");
  ("1-0:31.7.0", "current_l1"); ("1-0:51.7.0", "current_l2");
  ("1-0:71.7.0", "current_l3"); ("1-0:14.7.0", "frequency");
  ("0-0:1.0.0", "timestamp"); ("1-0:0.0.0", "equipment_identifier");
  ("1-0:32.32.0", "voltage_sags_l1"); ("1-0:52.32.0", "voltage_sags_l2");
  ("1-0:72.32.0", "voltage_sags_l3")]%string.

(** [get_easymeter_definition]. *)
Definition get_easymeter_definition : IecMeterDefinition := {|
  meter_type := EasyMeter; manufacturer_code := "ESY";
  supported_modes := [ModeC; ModeD]; default_baud_rate := 9600;
  obis_mapping := hashmap_of_inserts easymeter_inserts |}.

Definition ebz_inserts : list (string * string) := [
  ("1-0:1.8.1", "energy_consumed_t1"); ("1-0:1.8.2", "energy_consumed_t2");
  ("1-0:2.8.1", "energy_delivered_t1"); ("1-0:2.8.2", "energy_delivered_t2");
  ("1-0:15.8.0", "absolute_energy_total");
  ("1-0:16.7.0", "sum_active_power"); ("1-0:36.7.0", "sum_reactive_power");
  ("1-0:21.7.0", "active_power_l1"); ("1-0:41.7.0", "active_power_l2");
  ("1-0:61.7.0", "active_power_l3");
  ("1-0:32.7.0", "voltage_l1"); ("1-0:52.7.0", "voltage_l2"); ("1-0:72.7.0", "voltage_l3");
  ("1-0:31.7.0", "current_l1"); ("1-0:51.7.0", "current_l2"); ("1-0:71.7.0", "current_l3");
  ("1-0:13.7.0", "power_factor"); ("1-0:14.7.0", "frequency");
  ("0-0:1.0.0", "timestamp"); ("0-0:0.0.0", "device_id")]%string.

(** [get_ebz_definition]. *)
Definition get_ebz_definition : IecMeterDefinition := {|
  meter_type := EBZ; manufacturer_code := "EBZ";
  supported_modes := [ModeC; ModeD]; default_baud_rate := 9600;
  obis_mapping := hashmap_of_inserts ebz_inserts |}.

(** [get_meter_definition_by_manufacturer]: [to_uppercase] and a match
    on the three codes. *)
Definition get_meter_definition_by_manufacturer (manufacturer : string) : option IecMeterDefinition :=
  let u := SmlValues.str_to_upper manufacturer in
  if String.eqb u "ESY" || String.eqb u "EAS" then Some get_easymeter_definition
  else if String.eqb u "EBZ" then Some get_ebz_definition
  else None.

(** utils.rs [get_meter_type_from_manufacturer]. *)
Definition get_meter_type_from_manufacturer (manufacturer : string) : IecMeterType :=
  let u := SmlValues.str_to_upper manufacturer in
  if String.eqb u "ESY" || String.eqb u "EAS" then EasyMeter
  else if String.eqb u "EBZ" then EBZ
  else Generic.

(** The lines of a raw string literal, joined by its newlines. *)
Fixpoint join_lines (ls : list string) : string :=
  match ls with
  | [] => EmptyString
  | [l] => l
  | l :: rest => (l ++ String "010" (join_lines rest))%string
  end.

(** The raw literals of [create_example_telegrams] ([\@] is a backslash
    and an at sign in a raw string, and in a Rocq string). *)
Definition easymeter_telegram : string := join_lines [
  "/ESY5Q3D\@V5.3"; "0-0:1.0.0(210101120000W)"; "1-0:1.8.0(000123.456*kWh)";
  "1-0:2.8.0(000012.345*kWh)"; "1-0:15.7.0(001.234*kW)"; "1-0:32.7.0(230.5*V)";
  "1-0:52.7.0(231.2*V)"; "1-0:72.7.0(229.8*V)"; "1-0:31.7.0(05.34*A)";
  "1-0:51.7.0(04.89*A)"; "1-0:71.7.0(05.12*A)"; "1-0:14.7.0(50.0*Hz)"; "!"]%string.

Definition ebz_telegram : string := join_lines [
  "/EBZ5DD3BL10-112"; "0-0:1.0.0(210101120000W)"; "1-0:1.8.1(000234.567*kWh)";
  "1-0:1.8.2(000123.456*kWh)"; "1-0:2.8.1(000012.345*kWh)"; "1-0:2.8.2(000001.234*kWh)";
  "1-0:16.7.0(001.500*kW)"; "1-0:36.7.0(000.250*kvar)"; "1-0:21.7.0(000.500*kW)";
  "1-0:41.7.0(000.480*kW)"; "1-0:61.7.0(000.520*kW)"; "1-0:32.7.0(230.1*V)";
  "1-0:52.7.0(231.5*V)"; "1-0:72.7.0(229.3*V)"; "1-0:31.7.0(02.17*A)";
  "1-0:51.7.0(02.09*A)"; "1-0:71.7.0(02.24*A)"; "1-0:13.7.0(0.95)";
  "1-0:14.7.0(50.0*Hz)"; "!"]%string.

(** [create_example_telegrams]. *)
Definition create_example_telegrams : gmap string string :=
  hashmap_of_inserts [("EasyMeter_Q3D", easymeter_telegram); ("EBZ_DD3", ebz_telegram)]%string.

(** ** utils.rs [extract_numeric_value] *)

Section Numeric.

Context `{SmlValues.F64}.

(** The characters [take_while] keeps: ASCII digits, [.], [-], [+]. *)
Definition numeric_char (c : ascii) : bool :=
  ((48 <=? az c) && (az c <=? 57)) || Ascii.eqb c "." || Ascii.eqb c "-" || Ascii.eqb c "+".

Fixpoint take_while_str (p : ascii -> bool) (s : string) : string :=
  match s with
  | EmptyString => EmptyString
  | String c s' => if p c then String c (take_while_str p s') else EmptyString
  end.

(** [extract_numeric_value]: the leading run of numeric characters,
    parsed as [f64].  The kept characters are ASCII, so reading bytes
    instead of [chars()] keeps the same prefix. *)
Definition extract_numeric_value (value_str : string) : option SmlValues.f64 :=
  SmlValues.f64_parse (take_while_str numeric_char value_str).

End Numeric.

(** ** Reading back a parsed telegram *)

(** The [proto] object the parser stores, and one of its string fields. *)
Definition proto_field (md : MeteringData) (f : string) : option string :=
  match metered_values md !! "proto"%string with
  | Some (JObj kv) => match assoc_lookup f kv with Some (JStr s) => Some s | _ => None end
  | _ => None
  end.

(** The number of a value [NUMBER*UNIT] is the [f64] of [NUMBER]. *)
Lemma extract_numeric_value_unit `{SmlValues.F64} v u :
  forallb numeric_char (list_ascii_of_string v) = true ->
  extract_numeric_value (v ++ String "*" u) = SmlValues.f64_parse v.
Proof.
  intros Hv. unfold extract_numeric_value. f_equal.
  induction v as [|c v IH]; [reflexivity|]. rewrite str_cons_app.
  cbn [list_ascii_of_string forallb] in Hv. apply andb_true_iff in Hv as [Hc Hv].
  cbn [take_while_str]. by rewrite Hc, IH.
Qed.

(** ** Properties *)

(** C32: The two lookups by manufacturer agree: the definition found for
    a manufacturer code has the meter type [get_meter_type_from_manufacturer]
    gives it, and there is none exactly when that type is [Generic]. *)
Theorem manufacturer_lookups_agree m :
  option_map meter_type (get_meter_definition_by_manufacturer m) =
  match get_meter_type_from_manufacturer m with Generic => None | t => Some t end.
Proof.
  unfold get_meter_definition_by_manufacturer, get_meter_type_from_manufacturer.
  destruct (_ || _); [done|]. by destruct (String.eqb _ _).
Qed.

(** The protocol mode the parser reports for the example telegrams: the
    EasyMeter one, commented as mode D, is reported as mode C (its
    identification holds an [@]); the EBZ one, commented as mode C, is
    reported as mode D (its identification is longer than ten bytes). *)
Lemma example_telegram_modes :
  (md <- parse_iec62056_telegram easymeter_telegram ;; ROk (proto_field md "mode")) = ROk (Some "C"%string) /\
  (md <- parse_iec62056_telegram ebz_telegram ;; ROk (proto_field md "mode")) = ROk (Some "D"%string).
Proof. split; vm_compute; reflexivity. Qed.

End IecMeters.
