(* ===== verification/Oms.v ===== *)
(** The OMS (wireless M-Bus) frame decoder: metering_oms/mod.rs
    ([parse_oms_telegram]) and the helpers of metering_oms/utils.rs that
    it calls.  The configured sensors ([config.oms]) are an explicit
    argument instead of the global [CONFIG]; the AES-128 block cipher of
    the [aes] crate is the interface [Aes128], and CBC decryption without
    padding (the [cbc] crate) is written out on top of it. *)

From S2P Require Import Prelude Models Crc DifVif.

Module Oms.

(** config/mod.rs: [struct OmsConfig]. *)
Record OmsConfig : Type := mkOmsConfig { name : string; id : string; key : string }.

(** ** AES-128-CBC *)

(** What the decoder needs of AES: a decryption of 16-byte blocks under
    a key, which maps blocks to blocks. *)
Class Aes128 : Type := {
  aes128_decrypt_block : list byte -> list byte -> list byte;
  aes128_decrypt_block_length :
    forall k b, List.length b = 16%nat -> List.length (aes128_decrypt_block k b) = 16%nat
}.

Definition xor_bytes (a b : list byte) : list byte :=
  zip_with (fun x y => byte_of_Z (Z.lxor (u8v x) (u8v y))) a b.

Section Cbc.
Context `{Aes128}.

(** CBC: [P_i = D_k(C_i) xor C_(i-1)], [C_0 = iv]. *)
Fixpoint cbc_decrypt_blocks (key prev : list byte) (n : nat) (ct : list byte) : list byte :=
  match n with
  | O => []
  | S n' =>
      let c := take 16 ct in
      xor_bytes (aes128_decrypt_block key c) prev ++ cbc_decrypt_blocks key c n' (drop 16 ct)
  end.

(** [decrypt_padded_vec_mut::<NoPadding>]: an error unless the
    ciphertext is a whole number of blocks. *)
Definition cbc_decrypt_nopad (key iv ct : list byte) : option (list byte) :=
  if Nat.eqb (List.length ct mod 16) 0
  then Some (cbc_decrypt_blocks key iv (List.length ct / 16) ct) else None.

(** [decrypt_mode5]: the IV is the M- and A-fields followed by the
    access number eight times; [GenericArray::clone_from_slice] panics
    unless the key has 16 bytes; a decryption error gives the empty
    vector ([unwrap_or_default]). *)
Definition decrypt_mode5 {E} (telegram : list byte) (access_no : byte) (start_encryption : nat)
    (key : list byte) : res E (list byte) :=
  iv_head <- at_idxs telegram [2; 3; 4; 5; 6; 7; 8; 9]%nat ;;
  let iv := iv_head ++ repeat access_no 8 in
  intermed <- slice_from telegram start_encryption ;;
  if negb (Nat.eqb (List.length key) 16) then RPanic LengthMismatch else
  ROk (default [] (cbc_decrypt_nopad key iv intermed)).

End Cbc.

(** ** utils.rs *)

Definition ascii_of_Z (z : Z) : ascii := ascii_of_nat (Z.to_nat z).

(** [get_manufacturer]: three letters of five bits each, offset by 64,
    from the little-endian M-field [telegram[2..4]]. *)
Definition get_manufacturer {E} (telegram : list byte) : res E string :=
  t3 <- at_idx telegram 3 ;;
  t2 <- at_idx telegram 2 ;;
  let m := Z.shiftl (u8v t3) 8 + u8v t2 in
  ROk (String (ascii_of_Z (Z.land (Z.shiftr m 10) 0x1F + 64))
        (String (ascii_of_Z (Z.land (Z.shiftr m 5) 0x1F + 64))
          (String (ascii_of_Z (Z.land m 0x1F + 64)) EmptyString))).

(** [get_ident_no]: the A-field bytes 7, 6, 5, 4 as [{:02x}]. *)
Definition get_ident_no {E} (telegram : list byte) : res E string :=
  bs <- at_idxs telegram [7; 6; 5; 4]%nat ;;
  ROk (String.concat "" (map (fun b => fmt_hex 2 (u8v b)) bs)).

(** [get_meter_config]: the first configured sensor with that id. *)
Definition get_meter_config (sensors : list OmsConfig) (din_addr : string) : option OmsConfig :=
  List.find (fun s => String.eqb (id s) din_addr) sensors.

(** The length of the longest suffix of 0x2F bytes. *)
Fixpoint count_while (p : byte -> bool) (l : list byte) : nat :=
  match l with
  | [] => O
  | x :: l' => if p x then S (count_while p l') else O
  end.

(** [remove_oms_filler]: drop the two 0x2F check bytes and the trailing
    0x2F fill. *)
Definition remove_oms_filler {E} (original : list byte) : res E (list byte) :=
  ret <- slice_from original 2 ;;
  let element_to_remove := (count_while (fun x => bool_decide (x = Byte.x2f)) (rev ret) + 2)%nat in
  n <- usize_sub (List.length original) element_to_remove ;;
  slice_to ret n.

(** [get_device_medium], on the device type printed with [{:x}]. *)
Definition get_device_medium (device_type : string) : string :=
  match device_type with
  | "2" => "Electricity"
  | "3" => "Gas"
  | "4" => "Heat"
  | "6" => "Water (hot)"
  | "7" => "Water (cold)"
  | "8" => "Heat Cost Allocator"
  | "A" => "Cooling"
  | "B" => "Cooling"
  | "C" => "Heat"
  | "D" => "Heat / Cooling Combined"
  | "15" => "Water (hot)"
  | "16" => "Water (cold)"
  | "20" => "Breaker / Valve"
  | "21" => "Breaker / Valve"
  | _ => "unknown"
  end%string.

(** ** [parse_oms_telegram] *)

Definition tpl_no_header_ids : list Z := [0x66; 0x70; 0x71].
Definition tpl_short_header_ids : list Z := [0x67; 0x6E; 0x74; 0x7A; 0x7D; 0x7F; 0x88; 0x9E; 0xC1; 0xC4].
Definition tpl_long_header_ids : list Z := [0x68; 0x6F; 0x72; 0x75; 0x7C; 0x7E; 0x9F; 0xC2; 0xC5].

Definition zmem (x : Z) (l : list Z) : bool := existsb (Z.eqb x) l.

(** The transport-layer header: CI classification and, for a short
    header, access number, status and configuration field. *)
Definition parse_tpl_header (telegram : list byte) (protocol_map : jmap) :
    res OmsParseError (Z * Z * Z * jmap) :=
  ci <- at_idx telegram 10 ;;
  if zmem (u8v ci) tpl_short_header_ids then
    let protocol_map := <["ci_field" := JStr "short"]> protocol_map in
    access_no <- at_idx telegram 11 ;;
    status <- at_idx telegram 12 ;;
    c14 <- at_idx telegram 14 ;;
    c13 <- at_idx telegram 13 ;;
    ROk (u8v access_no, u8v status, Z.lor (Z.shiftl (u8v c14) 8) (u8v c13), protocol_map)
  else if zmem (u8v ci) tpl_long_header_ids then RPanic Unimplemented
  else if zmem (u8v ci) tpl_no_header_ids then RErr WiredProtocolNotSupported
  else RErr SecurityCiTypeNotSupported.

Definition status_text (status : Z) : string :=
  match Z.land status 3 with
  | 0 => "ok"
  | 1 => "application busy"
  | 2 => "application error"
  | _ => "alarm"
  end.

Section Decoder.
Context `{Aes128}.

(** The security-mode arm: the decrypted payload and the meter name. *)
Definition decrypt_payload (telegram : list byte) (config : OmsConfig) (access_no security_mode : Z)
    (mr : Models.MeteringData) (protocol_map : jmap) :
    res OmsParseError (list byte * Models.MeteringData * jmap) :=
  match security_mode with
  | 5 =>
      let protocol_map := <["security_mode" := JInt security_mode]> protocol_map in
      let key := default [] (hex_decode (key config)) in
      dec_data <- decrypt_mode5 telegram (byte_of_Z access_no) 15 key ;;
      match dec_data with
      | b0 :: b1 :: _ =>
          if negb (u8v b0 =? 0x2F) || negb (u8v b1 =? 0x2F) then RErr DecryptionFailed else
          dec_data <- remove_oms_filler dec_data ;;
          ROk (dec_data, Models.set_meter_name (name config) mr, protocol_map)
      | _ => RErr DecryptionFailed
      end
  | 7 => ROk ([], mr, protocol_map)
  | _ => RErr SecurityModeNotSupported
  end.

Definition parse_oms_telegram (sensors : list OmsConfig) (telegram : list byte) (with_crc : bool) :
    res OmsParseError Models.MeteringData :=
  telegram <- (if with_crc then Crc.verifiy_crc telegram else ROk telegram) ;;
  let telegram_len := List.length telegram in
  if decide (telegram_len < 10)%nat then RErr TelegramTooShort else
  if decide (255 < telegram_len)%nat then RErr TelegramTooLong else
  len <- at_idx telegram 0 ;;
  if decide (telegram_len < Z.to_nat (u8v len))%nat then RErr TelegramTooShort else
  let mr := Models.set_protocol Models.OMS Models.MeteringData_new in
  let protocol_map := <["crc_verified" := JBool with_crc]> (<["type" := JStr "oms"]> ∅) in
  c_field <- at_idx telegram 1 ;;
  if negb (u8v c_field =? 0x44) then RErr UnsupportedTelegramType else
  let protocol_map := <["c_field" := JStr "SND_NR"]> protocol_map in
  manfucturer <- get_manufacturer telegram ;;
  let protocol_map := <["manufacturer" := JStr manfucturer]> protocol_map in
  ident_no <- get_ident_no telegram ;;
  let protocol_map := <["device_number" := JStr ident_no]> protocol_map in
  v8 <- at_idx telegram 8 ;;
  let version := fmt_hex 2 (u8v v8) in
  let protocol_map := <["version_number" := JStr version]> protocol_map in
  v9 <- at_idx telegram 9 ;;
  let device_type := fmt_hex 0 (u8v v9) in
  let protocol_map := <["device_medium" := JStr (get_device_medium device_type)]> protocol_map in
  let din_addr := String.concat "" [device_type; manfucturer; version; ident_no] in
  let protocol_map := <["din_addr_meter" := JStr din_addr]> (<["din_addr_sender" := JStr din_addr]> protocol_map) in
  match get_meter_config sensors din_addr with
  | None => RErr SensorNotConfigured
  | Some config =>
      '(access_no, status, config_field, protocol_map) <- parse_tpl_header telegram protocol_map ;;
      let protocol_map := <["status" := JStr (status_text status)]> protocol_map in
      let protocol_map := <["transmission_counter" := JInt access_no]> protocol_map in
      let security_mode := Z.land (Z.shiftr config_field 8) 0x1F in
      '(dec_data, mr, protocol_map) <- decrypt_payload telegram config access_no security_mode mr protocol_map ;;
      let values := <["payload" := JStr (hex_encode_upper dec_data)]> (Models.metered_values mr) in
      parsed_data <- res_never (DifVif.parse_payload dec_data) ;;
      let values := <["proto" := jobj protocol_map]> (parsed_data ∪ values) in
      ROk (Models.set_values values mr)
  end.

(** One message of the loop of [OmsManager::start_thread]: a non-hex
    message or a telegram that fails to decode is logged and dropped; a
    decoded one is forwarded as [Transmission::Metering]; a panic ends
    the task. *)
Definition oms_handle_message (sensors : list OmsConfig) (c : string) :
    res Empty_set (option Models.MeteringData) :=
  match hex_decode c with
  | None => ROk None
  | Some dec =>
      match parse_oms_telegram sensors dec true with
      | ROk doc => ROk (Some doc)
      | RErr _ => ROk None
      | RPanic q => RPanic q
      end
  end.

End Decoder.

(** ** Reference definitions *)

(** The M-field a sender writes for three letters [c1 c2 c3] (codes 64
    to 95), as the bytes [telegram[2]], [telegram[3]]. *)
Definition encode_manufacturer (c1 c2 c3 : Z) : list byte :=
  let m := (c1 - 64) * 1024 + (c2 - 64) * 32 + (c3 - 64) in
  [byte_of_Z (m mod 256); byte_of_Z (m / 256)].

Definition letters (c1 c2 c3 : Z) : string :=
  String (ascii_of_Z c1) (String (ascii_of_Z c2) (String (ascii_of_Z c3) EmptyString)).

(** The meter of the Annex-N example (OMS Vol. 2, N.2.1) as a configured
    sensor: its DIN address is [3ELS3312345678]. *)
Definition annex_n_sensor (k : string) : OmsConfig := mkOmsConfig "annex_n_meter" "3ELS3312345678" k.

(** A stand-in block cipher, the identity, used only to run the decoder
    on concrete telegrams in the witnesses below; it is not AES. *)
Definition identity_cipher : Aes128 :=
  {| aes128_decrypt_block := fun _ b => b; aes128_decrypt_block_length := fun _ _ Hb => Hb |}.

(** The Annex-N telegram without CRCs, switched to security mode 7. *)
Definition annex_n_mode7 : list byte := <[14%nat := Byte.x27]> Crc.annex_n_body.

Section Spec.
Context `{Aes128}.

(** §7 of the specification: the plaintext of a mode-5 telegram is the
    AES-128-CBC decryption, without padding, of the bytes from 15 on,
    under the configured key, with the M- and A-fields and eight copies
    of the access number as IV. *)
Definition mode5_plaintext (telegram key : list byte) : option (list byte) :=
  match telegram !! 11%nat with
  | Some access_no => cbc_decrypt_nopad key (take 8 (drop 2 telegram) ++ repeat access_no 8) (drop 15 telegram)
  | None => None
  end.

End Spec.

(** ** Lemmas *)

Lemma land31 x : Z.land x 0x1F = x mod 32.
Proof. change 0x1F with (Z.ones 5). rewrite Z.land_ones by lia. done. Qed.

(** The three 5-bit fields of an encoded M-field. *)
Lemma manufacturer_fields c1 c2 c3 :
  64 <= c1 < 96 -> 64 <= c2 < 96 -> 64 <= c3 < 96 ->
  let m := (c1 - 64) * 1024 + (c2 - 64) * 32 + (c3 - 64) in
  Z.shiftl (u8v (byte_of_Z (m / 256))) 8 + u8v (byte_of_Z (m mod 256)) = m /\
  Z.land (Z.shiftr m 10) 0x1F = c1 - 64 /\ Z.land (Z.shiftr m 5) 0x1F = c2 - 64 /\
  Z.land m 0x1F = c3 - 64.
Proof.
  intros H1 H2 H3 m.
  assert (Hd : m / 256 = (c1 - 64) * 4 + (c2 - 64) / 8).
  { symmetry. apply Z.div_unique with ((c2 - 64) mod 8 * 32 + (c3 - 64)); [left|];
      pose proof (Z.mod_pos_bound (c2 - 64) 8); pose proof (Z.div_mod (c2 - 64) 8); lia. }
  rewrite !u8v_byte_of_Z, Z.mod_mod by lia.
  rewrite (Z.mod_small (m / 256)) by (pose proof (Z.div_pos (c2 - 64) 8); pose proof (Z.div_lt_upper_bound (c2 - 64) 8 4); lia).
  rewrite Z.shiftl_mul_pow2, !Z.shiftr_div_pow2, !land31 by lia.
  change (2 ^ 8) with 256. change (2 ^ 10) with 1024. change (2 ^ 5) with 32.
  split; [pose proof (Z.div_mod m 256); lia|].
  replace (m / 1024) with (c1 - 64) by (apply Z.div_unique with ((c2 - 64) * 32 + (c3 - 64)); [left|]; lia).
  replace (m / 32) with ((c1 - 64) * 32 + (c2 - 64)) by (apply Z.div_unique with (c3 - 64); [left|]; lia).
  split; [apply Z.mod_small; lia|]. split.
  - symmetry. apply Z.mod_unique with (c1 - 64); [left|]; lia.
  - symmetry. apply Z.mod_unique with ((c1 - 64) * 32 + (c2 - 64)); [left|]; lia.
Qed.

Lemma count_while_app_true p x k l :
  p x = true -> count_while p (repeat x k ++ l) = (k + count_while p l)%nat.
Proof. intros Hp. induction k as [|k IH]; [done|]. simpl. rewrite Hp, IH. done. Qed.

Lemma count_while_rev_last (body : list byte) :
  (forall x, last body = Some x -> x <> Byte.x2f) ->
  count_while (fun x => bool_decide (x = Byte.x2f)) (rev body) = 0%nat.
Proof.
  intros Hl. destruct (rev body) as [|y r] eqn:Er; [done|]. simpl.
  rewrite bool_decide_false; [done|]. apply Hl.
  rewrite <- (rev_involutive body), Er. simpl. apply last_snoc.
Qed.

Section DecoderLemmas.
Context `{Aes128}.

Lemma decrypt_mode5_ok {E} (t key : list byte) a :
  (15 <= List.length t)%nat -> t !! 11%nat = Some a ->
  @decrypt_mode5 _ E t a 15 key =
    if Nat.eqb (List.length key) 16 then ROk (default [] (mode5_plaintext t key))
    else RPanic LengthMismatch.
Proof.
  intros Hl Ha. unfold decrypt_mode5.
  change [2; 3; 4; 5; 6; 7; 8; 9]%nat with (seq 2 8).
  rewrite at_idxs_seq by lia. rewrite res_bind_ok. cbv zeta.
  unfold slice_from. rewrite decide_True by lia. rewrite res_bind_ok.
  destruct (Nat.eqb (List.length key) 16); [|done]. simpl.
  unfold mode5_plaintext. rewrite Ha. done.
Qed.

(** The header fields a successful [parse_tpl_header] read. *)
Lemma parse_tpl_header_ok t pm a st cf pm' :
  parse_tpl_header t pm = ROk (a, st, cf, pm') ->
  exists b11 b14, t !! 11%nat = Some b11 /\ t !! 14%nat = Some b14 /\ a = u8v b11 /\
    Z.land (Z.shiftr cf 8) 0x1F = Z.land (u8v b14) 0x1F.
Proof.
  unfold parse_tpl_header. intros E. inv_ok E. injection E as <- <- <- <-.
  apply at_idx_Some in Ha0, Ha2, Ha3.
  exists a1, a3. do 3 (split; [done|]).
  pose proof (u8v_range a4). pose proof (u8v_range a3).
  rewrite Z.lor_comm, (lor_shiftl_add _ _ 8) by lia.
  rewrite Z.shiftr_div_pow2, Z.div_add by lia. rewrite Z.div_small by lia. done.
Qed.

(** What a successful security-mode arm did. *)
Lemma decrypt_payload_ok t config access_no mode mr pm dec mr' pm' :
  decrypt_payload t config access_no mode mr pm = ROk (dec, mr', pm') ->
  (mode = 5 /\ mr' = Models.set_meter_name (name config) mr /\
   exists dd, @decrypt_mode5 _ OmsParseError t (byte_of_Z access_no) 15 (default [] (hex_decode (key config))) = ROk dd /\
              take 2 dd = [Byte.x2f; Byte.x2f])
  \/ (mode = 7 /\ dec = [] /\ mr' = mr).
Proof.
  unfold decrypt_payload. intros E.
  destruct (Z.eq_dec mode 5) as [->|H5]; [|destruct (Z.eq_dec mode 7) as [->|H7]].
  - left. inv_ok E. apply orb_false_iff in Hb as [Hb0 Hb1].
    apply negb_false_iff, Z.eqb_eq in Hb0, Hb1.
    injection E as <- <- <-. split; [done|]. split; [done|]. eexists; split; [done|].
    simpl. f_equal; [|f_equal]; apply u8v_inj; done.
  - right. injection E as <- <- <-. done.
  - exfalso. destruct mode as [|m|m]; try discriminate E.
    repeat (destruct m as [m|m|]; try discriminate E); lia.
Qed.

(** ** Properties of the decoder *)

(** C4: a telegram that [parse_oms_telegram] accepts passed the CRC
    check (when asked), has 10 to 255 bytes and the SND_NR C-field, is
    recorded as OMS, and either is mode 5, its meter named after a
    configured sensor whose key decrypts it (AES-128-CBC, IV from the M-
    and A-fields and the access number, §7) to a plaintext starting with
    [2F 2F], or is mode 7 and stays unnamed. *)
Theorem parse_oms_telegram_sound sensors t wc m :
  parse_oms_telegram sensors t wc = ROk m ->
  exists t', (if wc then Crc.verifiy_crc t else ROk t) = ROk t' /\
    (10 <= List.length t' <= 255)%nat /\ t' !! 1%nat = Some Byte.x44 /\
    Models.protocol m = Models.OMS /\
    ((exists config pt, In config sensors /\ Models.meter_name m = name config /\
        mode5_plaintext t' (default [] (hex_decode (key config))) = Some pt /\
        take 2 pt = [Byte.x2f; Byte.x2f]) \/
     (exists b14, t' !! 14%nat = Some b14 /\ Z.land (u8v b14) 0x1F = 7 /\
        Models.meter_name m = ""%string)).
Proof.
  unfold parse_oms_telegram. intros E. inv_ok E. injection E as <-.
  exists a. split; [done|]. split; [lia|].
  apply at_idx_Some in Ha1. apply negb_false_iff, Z.eqb_eq in Hb.
  split; [rewrite Ha1; f_equal; apply u8v_inj; done|].
  destruct (parse_tpl_header_ok _ _ _ _ _ _ Ha6) as (b11 & b14 & H11 & H14 & -> & Hmode).
  unfold get_meter_config in Hx. apply List.find_some in Hx as [Hin _].
  rewrite Hmode in Ha7. pose proof (lookup_lt_Some _ _ _ H14) as Hlen.
  destruct (decrypt_payload_ok _ _ _ _ _ _ _ _ _ Ha7) as [(_ & -> & dd & Hdd & Htake)|(H7 & _ & ->)].
  - split; [done|]. left. exists o.
    rewrite byte_of_Z_u8v, decrypt_mode5_ok in Hdd by (done || lia).
    destruct (Nat.eqb _ 16); [|discriminate]. injection Hdd as <-.
    destruct (mode5_plaintext a _) as [pt|]; [|discriminate]. exists pt. done.
  - split; [done|]. right. exists b14. done.
Qed.


(** C23: [get_manufacturer] reads back the three letters a sender
    encodes in the M-field (codes 64 to 95, [A] to [Z] among them). *)
Theorem get_manufacturer_roundtrip {E} c1 c2 c3 b0 b1 rest :
  64 <= c1 < 96 -> 64 <= c2 < 96 -> 64 <= c3 < 96 ->
  @get_manufacturer E (b0 :: b1 :: encode_manufacturer c1 c2 c3 ++ rest) = ROk (letters c1 c2 c3).
Proof.
  intros H1 H2 H3. destruct (manufacturer_fields c1 c2 c3 H1 H2 H3) as (Hm & F1 & F2 & F3).
  unfold get_manufacturer, encode_manufacturer. simpl. rewrite Hm, F1, F2, F3.
  replace (c1 - 64 + 64) with c1 by lia. replace (c2 - 64 + 64) with c2 by lia.
  replace (c3 - 64 + 64) with c3 by lia. done.
Qed.

(** [remove_oms_filler] drops the two check bytes and exactly the
    trailing run of 0x2F fill: a body that does not end in 0x2F comes
    back whole. *)
Theorem remove_oms_filler_spec {E} b0 b1 body k :
  (forall x, last body = Some x -> x <> Byte.x2f) ->
  @remove_oms_filler E (b0 :: b1 :: body ++ repeat Byte.x2f k) = ROk body.
Proof.
  intros Hl. unfold remove_oms_filler, slice_from. rewrite decide_True by (simpl; lia).
  rewrite res_bind_ok. cbn [drop]. cbv beta zeta. rewrite drop_0.
  rewrite rev_app_distr, rev_repeat, count_while_app_true, count_while_rev_last by (done || apply bool_decide_eq_true_2; done).
  unfold usize_sub. rewrite decide_True by (simpl; rewrite length_app, repeat_length; lia).
  rewrite res_bind_ok. unfold slice_to. simpl. rewrite length_app, repeat_length.
  rewrite decide_True by lia. replace (S (S (List.length body + k)) - (k + 0 + 2))%nat with (List.length body) by lia.
  rewrite take_app_length. done.
Qed.

(** [get_device_medium] is called with the device type printed by
    [{:x}], in lower case, so its upper-case arms never match: no device
    type is classified as cooling, and 0x0C (heat, flow) is unknown. *)
Theorem get_device_medium_lowercase (b : byte) :
  get_device_medium (fmt_hex 0 (u8v b)) <> "Cooling"%string /\
  get_device_medium (fmt_hex 0 (u8v b)) <> "Heat / Cooling Combined"%string /\
  (u8v b = 0x0C -> get_device_medium (fmt_hex 0 (u8v b)) = "unknown"%string).
Proof. destruct b; vm_compute; repeat split; (discriminate || intros; first [reflexivity | discriminate]). Qed.

(** a configured key that does not decode to 16 bytes makes
    [clone_from_slice] panic: with a key that is not hex, or 15 bytes
    long, the Annex-N telegram crashes the decoder instead of being
    rejected. *)
Example parse_oms_telegram_bad_key :
  parse_oms_telegram [annex_n_sensor "not a hex key"] Crc.annex_n_telegram true = RPanic LengthMismatch /\
  parse_oms_telegram [annex_n_sensor "0102030405060708090A0B0C0D0E0F"] Crc.annex_n_telegram true =
    RPanic LengthMismatch.
Proof. split; vm_compute; reflexivity. Qed.

(** a long transport header (CI 0x72) reaches [todo!]: the decoder
    panics. *)
Example parse_oms_telegram_long_header :
  parse_oms_telegram [annex_n_sensor "0102030405060708090A0B0C0D0E0F11"]
    (<[10%nat := Byte.x72]> Crc.annex_n_body) false = RPanic Unimplemented.
Proof. vm_compute. reflexivity. Qed.

(** the length checks stop at 10 bytes while the short header reads
    up to byte 14: a configured meter's telegram of 11 to 14 bytes whose
    L-field fits panics on an index. *)
Example parse_oms_telegram_short_header_panic :
  parse_oms_telegram [annex_n_sensor "0102030405060708090A0B0C0D0E0F11"]
    (<[0%nat := Byte.x0b]> (take 12 Crc.annex_n_body)) false = RPanic IndexOutOfBounds.
Proof. vm_compute. reflexivity. Qed.

End DecoderLemmas.

(** ** Witnesses *)

Lemma parse_oms_telegram_sound_witness :
  let m := match @parse_oms_telegram identity_cipher [annex_n_sensor ""] annex_n_mode7 false with
           | ROk m => m | _ => Models.MeteringData_new end in
  @parse_oms_telegram identity_cipher [annex_n_sensor ""] annex_n_mode7 false = ROk m /\
  Models.protocol m = Models.OMS.
Proof.
  intros m. assert (E : @parse_oms_telegram identity_cipher [annex_n_sensor ""] annex_n_mode7 false = ROk m)
    by (vm_compute; reflexivity).
  split; [exact E|].
  destruct (@parse_oms_telegram_sound identity_cipher _ _ _ _ E) as (t' & _ & _ & _ & Hp & _). exact Hp.
Defined.

Lemma get_manufacturer_roundtrip_witness :
  @get_manufacturer OmsParseError (Byte.x2e :: Byte.x44 :: encode_manufacturer 69 76 83 ++ []) =
    ROk "ELS"%string.
Proof. rewrite get_manufacturer_roundtrip by lia. reflexivity. Defined.

Lemma remove_oms_filler_spec_witness :
  @remove_oms_filler OmsParseError
    (Byte.x2f :: Byte.x2f :: [Byte.x04; Byte.x13] ++ repeat Byte.x2f 3) = ROk [Byte.x04; Byte.x13].
Proof. apply remove_oms_filler_spec. intros x Hx. injection Hx as <-. discriminate. Defined.

Lemma get_device_medium_lowercase_witness :
  get_device_medium (fmt_hex 0 (u8v Byte.x0c)) = "unknown"%string.
Proof. apply (get_device_medium_lowercase Byte.x0c). reflexivity. Defined.

End Oms.
