(* ===== verification/Modbus.v ===== *)
(** The Modbus poller (metering_modbus/mod.rs, registers.rs): the
    register descriptions, the hub set-up that derives the hub tick and
    each device's tick count, the per-tick device schedule, the read of
    one device (register words, scaling, value mappings, templates) and
    the retry loop around it.  The network is an oracle: the outcome of
    each connection attempt and of each register exchange is an input.
    [f32]/[f64] arithmetic is the type class [F32], the expression
    evaluator of [evalexpr] the type class [ExprEval]. *)

From S2P Require Import Prelude.
From S2P Require Import Models.
From S2P Require Import HaInterface.

Module Modbus.

Import HaInterface(HAPlatform(..)).

(** ** Floating point and expressions *)

(** What the poller uses of [f32] and [f64]: [v as f32], [*], [round],
    [format!("{:?}")], [serde_json::Value::from], [as f64], the scaler
    default [1.0] and the template fallback [0.0]. *)
Class F32 : Type := {
  f32 : Type;
  f32_one : f32;
  f32_of_u32 : Z -> f32;
  f32_mul : f32 -> f32 -> f32;
  f32_round : f32 -> f32;
  f32_debug : f32 -> string;
  f32_json : f32 -> json;
  f64 : Type;
  f32_to_f64 : f32 -> f64;
  f64_zero : f64;
  f64_json : f64 -> json
}.

(** Two facts of IEEE single precision and of Rust's [Debug] for
    floats: an integer below 2^24 is exact, multiplying it by [1.0] and
    rounding leaves it, and it prints with a trailing [.0]. *)
Class F32Laws `{F32} : Prop := {
  f32_exact_int : forall n, 0 <= n < 2 ^ 24 -> f32_round (f32_mul (f32_of_u32 n) f32_one) = f32_of_u32 n;
  f32_debug_int : forall n, 0 <= n < 2 ^ 24 -> f32_debug (f32_of_u32 n) = (fmt_dec n ++ ".0")%string
}.

(** [evalexpr::eval_float_with_context] over a context of float
    variables (most recent binding first). *)
Class ExprEval `{F32} : Type := {
  eval_float_with_context : string -> list (string * f64) -> option f64
}.

(** ** Configuration (config/mod.rs) *)

Record ModbusDeviceConfig : Type := mkModbusDeviceConfig {
  dev_name : string; meter : string; slave_id : Z; read_interval : Z
}.

Inductive ModbusProtoConfig : Type := TCP | RTU | RTUoverTCP.

Record ModbusHubConfig : Type := mkModbusHubConfig {
  hub_name : string; host : string; port : Z; proto : ModbusProtoConfig;
  devices : list ModbusDeviceConfig
}.

(** [rmodbus::ModbusProto]. *)
Inductive ModbusProto : Type := TcpUdp | Rtu.

(** ** Registers (registers.rs) *)

Inductive ModbusRegisterType : Type := Holding | Input | Coil.
Inductive ModbusRegisterFormat : Type := Int16 | Int32.

Record Mapping : Type := mkMapping { data : string; mapping : json }.

Section Registers.

Context `{F32}.

Record ModbusRegister : Type := mkModbusRegister {
  name : string;
  input_type : ModbusRegisterType;
  register : Z;
  length : Z;
  format : ModbusRegisterFormat;
  scaler : f32;
  unit_of_measurement : string;
  device_class : string;
  state_class : string;
  platform : HAPlatform;
  mappings : list Mapping
}.

Record TemplateRegister : Type := mkTemplateRegister {
  tpl_name : string;
  tpl_value : string;
  tpl_unit_of_measurement : string;
  tpl_device_class : string;
  tpl_state_class : string;
  tpl_platform : HAPlatform
}.

Inductive Register : Type :=
| Template (t : TemplateRegister)
| Modbus (r : ModbusRegister).

Record ModbusRegisterFile : Type := mkModbusRegisterFile {
  file_manufacturer : string;
  file_model : string;
  file_registers : list ModbusRegister;
  file_templates : list TemplateRegister
}.

(** [parse_registers], the YAML parser [serde_yml::from_str] being
    [parse_yaml]: a file that does not parse is the empty file of
    manufacturer [fault], model [0.0.0]; physical registers come first,
    templates after them. *)
Definition parse_registers (parse_yaml : string -> option ModbusRegisterFile) (contents : string)
    : list Register * string * string :=
  let whole_file :=
    match parse_yaml contents with
    | Some d => d
    | None => {| file_registers := []; file_templates := []; file_manufacturer := "fault";
                 file_model := "0.0.0" |}
    end in
  (map Modbus (file_registers whole_file) ++ map Template (file_templates whole_file),
   file_manufacturer whole_file, file_model whole_file).

(** [get_registers], [read_file] giving the contents of a file that
    opens: the user's [config/modbus] first, then the bundled
    [defs/modbus]. *)
Definition get_registers (read_file : string -> option string)
    (parse_yaml : string -> option ModbusRegisterFile) (model : string) : list Register * string * string :=
  match read_file ("config/modbus/" ++ model ++ ".yaml")%string with
  | Some contents => parse_registers parse_yaml contents
  | None =>
      match read_file ("defs/modbus/" ++ model ++ ".yaml")%string with
      | Some contents => parse_registers parse_yaml contents
      | None => ([], "", "")
      end
  end.

End Registers.

Arguments Register {_}.

(** ** The hub (mod.rs, [start_thread]) *)

Section Hub.

Context `{F32}.

Record ModbusDevice : Type := mkModbusDevice {
  config : ModbusDeviceConfig;
  waits_till_read : Z;
  cur_waits : Z;
  registers : list Register
}.

Record ModbusHub : Type := mkModbusHub {
  hub_config : ModbusHubConfig;
  hub_devices : list ModbusDevice
}.

(** The hub tick: [60] lowered to every device's [read_interval]. *)
Definition hub_interval (devs : list ModbusDevice) : Z :=
  fold_left (fun acc d => Z.min acc (read_interval (config d))) devs 60.

(** [u32] division, which panics on a zero divisor. *)
Definition u32_div {E} (a b : Z) : res E Z :=
  if b =? 0 then RPanic DivideByZero else ROk (a / b).

(** The second loop of the set-up: [waits_till_read] is the device's
    interval divided by the hub tick. *)
Fixpoint set_waits {E} (hub_inveral_sec : Z) (devs : list ModbusDevice) : res E (list ModbusDevice) :=
  match devs with
  | [] => ROk []
  | d :: rest =>
      w <- u32_div (read_interval (config d)) hub_inveral_sec ;;
      rest' <- set_waits hub_inveral_sec rest ;;
      ROk ({| config := config d; waits_till_read := w; cur_waits := cur_waits d;
              registers := registers d |} :: rest')
  end.

(** The devices of a hub as [start_thread] builds them, [regs_of] being
    [registers::get_registers] of the device's meter; the result is the
    hub and its tick. *)
Definition setup_hub {E} (regs_of : string -> list Register) (config_hub : ModbusHubConfig)
    : res E (ModbusHub * Z) :=
  let devs := map (fun dev => {| config := dev; waits_till_read := 1; cur_waits := 0;
                                 registers := regs_of (meter dev) |}) (devices config_hub) in
  let hub_inveral_sec := hub_interval devs in
  devs' <- set_waits hub_inveral_sec devs ;;
  ROk ({| hub_config := config_hub; hub_devices := devs' |}, hub_inveral_sec).

(** The framing: RTU framing for [RTUoverTCP] only. *)
Definition hub_proto (c : ModbusHubConfig) : ModbusProto :=
  match proto c with RTUoverTCP => Rtu | _ => TcpUdp end.

(** One device in one tick of the hub loop: count, and read when the
    count reaches [waits_till_read] (the count is then reset). *)
Definition tick_device (d : ModbusDevice) : ModbusDevice * bool :=
  let c := cur_waits d + 1 in
  if c =? waits_till_read d
  then ({| config := config d; waits_till_read := waits_till_read d; cur_waits := 0; registers := registers d |}, true)
  else ({| config := config d; waits_till_read := waits_till_read d; cur_waits := c; registers := registers d |}, false).

(** [n] ticks of one device: the device after them and the ticks
    (numbered from 1) at which it was read. *)
Fixpoint run_ticks (n : nat) (d : ModbusDevice) : ModbusDevice * list nat :=
  match n with
  | O => (d, [])
  | S k =>
      let '(d', reads) := run_ticks k d in
      let '(d'', r) := tick_device d' in
      (d'', if r then reads ++ [S k] else reads)
  end.

End Hub.

(** ** Reading a device ([read_device_registers], [read_device_with_retry]) *)

(** What the network gives for one physical register: a failed write
    or read ([?] leaves the function with the message), or the frame,
    decoded by [ModbusRequest::parse_u16] into words or an error. *)
Inductive RegResponse : Type :=
| IoFailure (msg : string)
| Parsed (words : option (list Z)).

(** One attempt: the connection fails, or it is made and each physical
    register gets a response, in order. *)
Inductive Attempt : Type :=
| ConnectFailure (msg : string)
| Connected (responses : list RegResponse).

Section Read.

Context `{F32} `{!ExprEval}.

(** The value of a register of [format] from its words: [Int32] is
    [data[0] << 16 | data[1]], [Int16] is [data[0]]; an index past the
    words panics. *)
Definition compose_value {E} (fmt : ModbusRegisterFormat) (words : list Z) : res E Z :=
  match fmt with
  | Int32 =>
      w0 <- match words !! 0%nat with Some w => ROk w | None => RPanic IndexOutOfBounds end ;;
      w1 <- match words !! 1%nat with Some w => ROk w | None => RPanic IndexOutOfBounds end ;;
      ROk (Z.lor (Z.shiftl w0 16) w1)
  | Int16 =>
      match words !! 0%nat with Some w => ROk w | None => RPanic IndexOutOfBounds end
  end.

(** The first loop over the mappings: the first whose [data] is the
    [Debug] form of the value. *)
Fixpoint find_exact (key : string) (ms : list Mapping) : option json :=
  match ms with
  | [] => None
  | m :: rest => if String.eqb (data m) key then Some (mapping m) else find_exact key rest
  end.

(** The second loop, run when the first found nothing: the first [_]. *)
Fixpoint find_wildcard (ms : list Mapping) : option json :=
  match ms with
  | [] => None
  | m :: rest => if String.eqb (data m) "_" then Some (mapping m) else find_wildcard rest
  end.

(** The JSON value stored for a scaled reading [v]. *)
Definition map_value (ms : list Mapping) (v : f32) : json :=
  match find_exact (f32_debug v) ms with
  | Some j => j
  | None => match find_wildcard ms with Some j => j | None => f32_json v end
  end.

(** The scaled reading: [(v as f32 * reg.scaler).round()]. *)
Definition scale_value (reg : ModbusRegister) (raw : Z) : f32 :=
  f32_round (f32_mul (f32_of_u32 raw) (scaler reg)).

(** The state of the first loop: the values so far and the context of
    the templates. *)
Definition read_state : Type := jmap * list (string * f64).

(** One physical register: its response is consumed; a failed exchange
    ends the read, a frame that does not decode skips the register. *)
Definition read_register (reg : ModbusRegister) (resp : RegResponse) (st : read_state)
    : res string read_state :=
  let '(vals, context) := st in
  match resp with
  | IoFailure msg => RErr msg
  | Parsed None => ROk st
  | Parsed (Some words) =>
      raw <- compose_value (format reg) words ;;
      let v := scale_value reg raw in
      ROk (<[name reg := map_value (mappings reg) v]> vals, (name reg, f32_to_f64 v) :: context)
  end.

(** The first loop: templates are skipped; each physical register takes
    the next response (a missing one is a closed connection). *)
Fixpoint read_physical (regs : list Register) (responses : list RegResponse) (st : read_state)
    : res string read_state :=
  match regs with
  | [] => ROk st
  | Template _ :: rest => read_physical rest responses st
  | Modbus reg :: rest =>
      let '(resp, responses') :=
        match responses with
        | r :: rs => (r, rs)
        | [] => (IoFailure "Connection closed", [])
        end in
      st' <- read_register reg resp st ;;
      read_physical rest responses' st'
  end.

(** The second loop: every template is evaluated against the context of
    the physical registers, [0.0] when it fails. *)
Fixpoint eval_templates (regs : list Register) (context : list (string * f64)) (vals : jmap) : jmap :=
  match regs with
  | [] => vals
  | Modbus _ :: rest => eval_templates rest context vals
  | Template t :: rest =>
      let value := match eval_float_with_context (tpl_value t) context with
                   | Some r => r | None => f64_zero end in
      eval_templates rest context (<[tpl_name t := f64_json value]> vals)
  end.

(** [get_id]. *)
Definition get_id (protocol meter_name : string) (ts : Z) : string :=
  (protocol ++ "-" ++ meter_name ++ "-" ++ fmt_dec ts)%string.

(** [read_device_registers] on one attempt: the record it sends.
    [ts_id] and [ts] are the two readings of the clock (for [get_id]
    and for the transmission time). *)
Definition read_device_registers (ts_id ts : Z) (device : ModbusDevice) (a : Attempt)
    : res string Models.MeteringData :=
  match a with
  | ConnectFailure msg => RErr msg
  | Connected responses =>
      '(vals, context) <- read_physical (registers device) responses (∅, []) ;;
      let vals := eval_templates (registers device) context vals in
      ROk {| Models.id := get_id "modbus" (dev_name (config device)) ts_id;
             Models.meter_name := dev_name (config device); Models.tenant := "";
             Models.protocol := Models.ModbusTCP; Models.transmission_time := ts;
             Models.transmission_type := Models.Now; Models.metered_time := ts;
             Models.metered_values := vals |}
  end.

Definition MAX_RETRIES : nat := 3.

(** [read_device_with_retry]: attempt [k] is [attempt k]; with
    [retries] failures so far, a failure is retried while
    [retries < MAX_RETRIES]. *)
Fixpoint retry_loop (attempt : nat -> Attempt) (clock : nat -> Z * Z) (device : ModbusDevice)
    (k budget : nat) : res string Models.MeteringData :=
  let r := read_device_registers (fst (clock k)) (snd (clock k)) device (attempt k) in
  match budget, r with
  | _, ROk md => ROk md
  | _, RPanic p => RPanic p
  | O, RErr e => RErr e
  | S b, RErr _ => retry_loop attempt clock device (S k) b
  end.

Definition read_device_with_retry (attempt : nat -> Attempt) (clock : nat -> Z * Z) (device : ModbusDevice)
    : res string Models.MeteringData :=
  retry_loop attempt clock device 0 MAX_RETRIES.

End Read.

(** ** Reference instances, for examples

    [decimal_f32] computes exactly on decimals [(m, e)] = m * 10^e
    (it does not round to 24 bits as [f32] does, which the laws
    [F32Laws] do not see); [round] is half away from zero, [Debug]
    prints integers with [.0].  [var_eval] evaluates an expression that
    is a variable name. *)
Definition dec_round (v : Z * Z) : Z * Z :=
  let '(m, e) := v in
  if 0 <=? e then (m * 10 ^ e, 0)
  else let d := 10 ^ (- e) in (Z.sgn m * ((Z.abs m + d / 2) / d), 0).

Definition dec_debug (v : Z * Z) : string :=
  let '(m, e) := v in
  if 0 <=? e then (fmt_int (m * 10 ^ e) ++ ".0")%string
  else let d := 10 ^ (- e) in
       ((if (m <? 0)%Z then "-" else "") ++ fmt_dec (Z.abs m / d)%Z ++ "." ++
        fmt_dec_w (Z.to_nat (- e)) (Z.abs m mod d)%Z)%string.

Definition decimal_f32 : F32 := {|
  f32 := Z * Z;
  f32_one := (1, 0);
  f32_of_u32 := fun n => (n, 0);
  f32_mul := fun x y => (fst x * fst y, snd x + snd y);
  f32_round := dec_round;
  f32_debug := dec_debug;
  f32_json := fun v => JFloat (fst v) (snd v);
  f64 := Z * Z;
  f32_to_f64 := fun v => v;
  f64_zero := (0, 0);
  f64_json := fun v => JFloat (fst v) (snd v)
|}.

Definition var_eval : @ExprEval decimal_f32 := {|
  eval_float_with_context := fun e ctx => option_map snd (List.find (fun kv => String.eqb (fst kv) e) ctx)
|}.

#[local] Existing Instance decimal_f32.
#[local] Existing Instance var_eval.

(** A hub of two devices read every 60 s and every 90 s. *)
Definition cadence_example_hub : ModbusHubConfig := {|
  hub_name := "hub"; host := "10.0.0.1"; port := 502; proto := TCP;
  devices := [{| dev_name := "a"; meter := "m"; slave_id := 1; read_interval := 60 |};
              {| dev_name := "b"; meter := "m"; slave_id := 2; read_interval := 90 |}] |}.

(** A device with a physical register [p] and a template [t] = [p]. *)
Definition template_example_device : @ModbusDevice decimal_f32 := {|
  config := {| dev_name := "m"; meter := "x"; slave_id := 1; read_interval := 60 |};
  waits_till_read := 1; cur_waits := 0;
  registers := [Template {| tpl_name := "t"; tpl_value := "p"; tpl_unit_of_measurement := "W";
                            tpl_device_class := "power"; tpl_state_class := "measurement";
                            tpl_platform := Sensor |};
                Modbus {| name := "p"; input_type := Input; register := 0; length := 1; format := Int16;
                          scaler := (1, 0); unit_of_measurement := "W"; device_class := "power";
                          state_class := "measurement"; platform := Sensor; mappings := [] |}] |}.

(** The mappings of scenario S5. *)
Definition s5_mappings : list Mapping :=
  [{| data := "1"; mapping := JStr "on" |}; {| data := "_"; mapping := JStr "unknown" |}].

(** ** Lemmas *)

Section HubLemmas.

Context `{F32}.

Lemma hub_interval_fold (devs : list ModbusDevice) acc :
  let t := fold_left (fun acc d => Z.min acc (read_interval (config d))) devs acc in
  t <= acc /\ Forall (fun d => t <= read_interval (config d)) devs /\
  (t = acc \/ Exists (fun d => read_interval (config d) = t) devs).
Proof.
  revert acc. induction devs as [|d devs IH]; intros acc; cbn [fold_left].
  - split; [lia|split; [constructor|left; done]].
  - destruct (IH (Z.min acc (read_interval (config d)))) as (H1 & H2 & H3).
    set (t := fold_left _ devs _) in *. split; [lia|split].
    + constructor; [lia|done].
    + destruct H3 as [H3|H3]; [|right; right; done].
      destruct (Z.min_spec acc (read_interval (config d))) as [[_ E]|[_ E]]; rewrite E in H3;
        [left; done|right; left; done].
Qed.

Lemma hub_interval_pos (devs : list ModbusDevice) :
  Forall (fun d => 0 < read_interval (config d)) devs -> 0 < hub_interval devs.
Proof.
  intros Hpos. destruct (hub_interval_fold devs 60) as (_ & _ & [E|E]); unfold hub_interval; [lia|].
  apply Exists_exists in E as (d & Hd & E). rewrite Forall_forall in Hpos. specialize (Hpos d Hd). lia.
Qed.

(** With a positive tick, [set_waits] divides every interval by it. *)
Lemma set_waits_ok {E} tick (devs : list ModbusDevice) :
  0 < tick ->
  @set_waits _ E tick devs =
  ROk (map (fun d => {| config := config d; waits_till_read := read_interval (config d) / tick;
                        cur_waits := cur_waits d; registers := registers d |}) devs).
Proof.
  intros Ht. induction devs as [|d devs IH]; [done|]. cbn [set_waits map].
  unfold u32_div. rewrite (proj2 (Z.eqb_neq tick 0)) by lia. rewrite res_bind_ok, IH, res_bind_ok. done.
Qed.

(** The floor of a division. *)
Lemma div_floor_bounds a b : 0 < b -> a / b * b <= a < (a / b + 1) * b.
Proof.
  intros Hb. pose proof (Z.mul_div_le a b Hb). pose proof (Z.mod_pos_bound a b Hb).
  pose proof (Z.div_mod a b ltac:(lia)). nia.
Qed.

(** One tick from a count below [w]: the next count is the tick number
    modulo [w], and the device is read when it is 0. *)
Lemma tick_mod k w :
  0 < w -> let c := Z.of_nat k mod w + 1 in
  (c = w <-> Z.of_nat (S k) mod w = 0) /\ (c <> w -> Z.of_nat (S k) mod w = c).
Proof.
  intros Hw c. pose proof (Z.mod_pos_bound (Z.of_nat k) w Hw) as Hr.
  pose proof (Z.div_mod (Z.of_nat k) w ltac:(lia)) as Hk. rewrite Nat2Z.inj_succ.
  set (q := Z.of_nat k / w) in *. set (r := Z.of_nat k mod w) in *. subst c. split.
  - split; intros E.
    + symmetry. apply (Z.mod_unique _ _ (q + 1) 0); lia.
    + destruct (Z.eq_dec (r + 1) w) as [|Hne]; [done|].
      rewrite <- (Z.mod_unique (Z.succ (Z.of_nat k)) w q (r + 1)) in E by lia. lia.
  - intros Hne. symmetry. apply (Z.mod_unique _ _ q); lia.
Qed.

End HubLemmas.

Section ReadLemmas.

Context `{F32} `{!ExprEval}.

Lemma read_register_context reg resp (st st' : jmap * list (string * f64)) :
  read_register reg resp st = ROk st' -> forall x, In x (snd st') -> In x (snd st) \/ fst x = name reg.
Proof.
  destruct st as [v0 c0]. unfold read_register. intros E x Hx. cbv beta iota zeta in E.
  destruct resp as [msg|[words|]]; try discriminate.
  - destruct (compose_value (format reg) words) as [raw| |]; cbn in E; try discriminate.
    injection E as <-. destruct Hx as [<-|Hx]; [right|left]; done.
  - injection E as <-. left. done.
Qed.

(** The context of the templates only binds physical registers. *)
Lemma read_physical_context_names regs responses (st : jmap * list (string * f64)) vals context :
  read_physical regs responses st = ROk (vals, context) ->
  forall x, In x context -> In x (snd st) \/ exists reg, In (Modbus reg) regs /\ fst x = name reg.
Proof.
  revert responses st. induction regs as [|r regs IH]; intros responses st Hr x Hx.
  - injection Hr as Hst. subst st. left. done.
  - destruct r as [t|reg]; cbn [read_physical] in Hr.
    + destruct (IH _ _ Hr x Hx) as [?|(reg & ? & ?)]; [left; done|right; exists reg; split; [right|]; done].
    + assert (Hstep : forall resp responses',
                rbind (read_register reg resp st) (fun st' => read_physical regs responses' st') =
                  ROk (vals, context) -> In x (snd st) \/ exists reg', In (Modbus reg') (Modbus reg :: regs) /\ fst x = name reg').
      { intros resp responses' Hb.
        destruct (read_register reg resp st) as [st'| |] eqn:E; cbn in Hb; try discriminate.
        destruct (IH _ _ Hb x Hx) as [Hc|(reg' & ? & ?)]; [|right; exists reg'; split; [right|]; done].
        destruct (read_register_context _ _ _ _ E x Hc) as [?|?]; [left; done|right; exists reg; split; [left|]; done]. }
      destruct responses as [|resp responses']; apply (Hstep _ _ Hr).
Qed.

End ReadLemmas.

Section RetryLemmas.

Context `{F32} `{!ExprEval}.
Variables (attempt : nat -> Attempt) (clock : nat -> Z * Z) (device : ModbusDevice).

Lemma retry_loop_ext attempt' clock' k b :
  (forall j, (k <= j <= k + b)%nat -> attempt j = attempt' j /\ clock j = clock' j) ->
  retry_loop attempt clock device k b = retry_loop attempt' clock' device k b.
Proof.
  revert k. induction b as [|b IH]; intros k Hj; cbn [retry_loop];
    destruct (Hj k ltac:(lia)) as [-> ->]; [done|].
  destruct (read_device_registers _ _ _ _); [done| |done]. apply IH. intros j Hj'. apply Hj. lia.
Qed.

Lemma retry_loop_err k b e :
  read_device_registers (fst (clock k)) (snd (clock k)) device (attempt k) = RErr e ->
  retry_loop attempt clock device k (S b) = retry_loop attempt clock device (S k) b.
Proof. intros E. cbn [retry_loop]. rewrite E. done. Qed.

Lemma retry_loop_last k :
  retry_loop attempt clock device k 0 = read_device_registers (fst (clock k)) (snd (clock k)) device (attempt k).
Proof. cbn [retry_loop]. destruct (read_device_registers _ _ _ _); done. Qed.

End RetryLemmas.

Lemma decimal_f32_laws : @F32Laws decimal_f32.
Proof.
  split; intros n Hn; cbn.
  - f_equal. lia.
  - rewrite Z.mul_1_r. unfold fmt_int. rewrite (proj2 (Z.ltb_ge n 0)) by lia. done.
Qed.

(** * Properties *)

(** C36: The hub set-up on devices with positive intervals: the tick is
    at most 60 s, at most every device's interval, and 60 or one of
    them; every device gets [waits_till_read] = its interval divided by
    the tick, rounded down, so it is read every [waits * tick <= interval]
    seconds (the specification rounds up). *)
Theorem setup_hub_cadence `{F32} {E} regs_of (cfg : ModbusHubConfig) :
  Forall (fun dev => 0 < read_interval dev) (devices cfg) ->
  exists hub tick, @setup_hub _ E regs_of cfg = ROk (hub, tick) /\ hub_config hub = cfg /\
    map config (hub_devices hub) = devices cfg /\ 0 < tick <= 60 /\
    (tick = 60 \/ Exists (fun dev => read_interval dev = tick) (devices cfg)) /\
    Forall (fun d => tick <= read_interval (config d) /\ cur_waits d = 0 /\ 1 <= waits_till_read d /\
             waits_till_read d * tick <= read_interval (config d) < (waits_till_read d + 1) * tick)
      (hub_devices hub).
Proof.
  intros Hpos.
  set (devs := map (fun dev => {| config := dev; waits_till_read := 1; cur_waits := 0;
                                  registers := regs_of (meter dev) |}) (devices cfg)).
  assert (Hp : Forall (fun d => 0 < read_interval (config d)) devs)
    by (subst devs; apply Forall_map; done).
  pose proof (hub_interval_pos devs Hp) as Ht.
  destruct (hub_interval_fold devs 60) as (H60 & Hle & Hex).
  unfold setup_hub. fold devs. rewrite set_waits_ok, res_bind_ok by done.
  eexists _, _. split; [reflexivity|]. cbn [hub_config hub_devices].
  split; [done|]. split; [subst devs; rewrite !map_map; apply map_id|].
  split; [unfold hub_interval in *; lia|]. split.
  - destruct Hex as [E60|Hex]; [left; done|right].
    apply Exists_exists in Hex as (d & Hd & Ed). apply list_elem_of_In, in_map_iff in Hd as (dev & <- & Hdev).
    apply Exists_exists. exists dev. split; [apply list_elem_of_In; done|]. exact Ed.
  - assert (H0 : Forall (fun d => cur_waits d = 0) devs)
      by (subst devs; apply Forall_map, Forall_forall; done).
    apply Forall_map. eapply Forall_impl; [apply Forall_and; split; [exact Hle|apply Forall_and; split; [exact Hp|exact H0]]|].
    intros d (Hd & Hd0 & Hc). cbn.
    unfold hub_interval in *. set (t := fold_left _ devs 60) in *.
    pose proof (div_floor_bounds (read_interval (config d)) t Ht).
    repeat split; lia.
Qed.

(** C29: A device's schedule: from a count of 0 with [waits_till_read]
    = w > 0, after n ticks of the hub the count is n mod w (so it never
    reaches w and never overflows) and the device has been read exactly
    at the ticks that are multiples of w. *)
Theorem run_ticks_schedule `{F32} (d : ModbusDevice) n :
  0 < waits_till_read d -> cur_waits d = 0 ->
  waits_till_read (fst (run_ticks n d)) = waits_till_read d /\
  cur_waits (fst (run_ticks n d)) = Z.of_nat n mod waits_till_read d /\
  snd (run_ticks n d) = List.filter (fun k => Z.of_nat k mod waits_till_read d =? 0) (seq 1 n).
Proof.
  intros Hw H0. induction n as [|k IH].
  - cbn. rewrite H0, Z.mod_0_l by lia. done.
  - cbn [run_ticks]. destruct (run_ticks k d) as [d' reads]. cbn [fst snd] in IH |- *.
    destruct IH as (Hw' & Hc & Hr). set (w := waits_till_read d) in *.
    destruct (tick_mod k w Hw) as [Hiff Hne]. unfold tick_device. rewrite Hc, Hw'.
    rewrite seq_S, List.filter_app, <- Hr. cbn [List.filter Nat.add].
    destruct (Z.eqb_spec (Z.of_nat k mod w + 1) w) as [Heq|Hneq]; cbn [fst snd waits_till_read cur_waits].
    + rewrite (proj1 Hiff Heq). done.
    + rewrite (Hne Hneq). rewrite (proj2 (Z.eqb_neq _ 0)) by lia. rewrite app_nil_r. done.
Qed.

(** C40: [Int32] registers are composed big-endian, first word high:
    two [u16] words give [w0 * 65536 + w1]; a response of one word makes
    the read panic on [data[1]]. *)
Theorem compose_value_int32 {E} w0 w1 rest :
  0 <= w0 < 65536 -> 0 <= w1 < 65536 ->
  @compose_value E Int32 (w0 :: w1 :: rest) = ROk (w0 * 65536 + w1) /\
  @compose_value E Int32 [w0] = RPanic IndexOutOfBounds.
Proof.
  intros H0 H1. split; [|done]. cbn. f_equal.
  rewrite Z.lor_comm, lor_shiftl_add by (cbn; lia). cbn. lia.
Qed.

(** C37: Scenario S5 with any lawful [f32]: with the mappings [1 -> on],
    [_ -> unknown] and scaler 1.0, every reading below 2^24 is stored as
    [unknown], 1 included: the exact match compares [data] with the
    [Debug] form [1.0] of the reading, which ["1"] never equals. *)
Theorem read_register_s5 `{F32} `{!F32Laws} reg raw :
  scaler reg = f32_one -> format reg = Int16 -> mappings reg = s5_mappings -> 0 <= raw < 2 ^ 24 ->
  read_register reg (Parsed (Some [raw])) (∅, []) =
  ROk (<[name reg := JStr "unknown"]> ∅, [(name reg, f32_to_f64 (f32_of_u32 raw))]).
Proof.
  intros Hs Hf Hm Hr. unfold read_register. rewrite Hf. cbn [compose_value lookup_total].
  cbn -[scale_value map_value]. unfold scale_value. rewrite Hs, f32_exact_int by done.
  unfold map_value. rewrite f32_debug_int, Hm by done.
  assert (Hlen : forall x, String.length x = 1%nat -> String.eqb x (fmt_dec raw ++ ".0") = false).
  { intros x Hx. apply String.eqb_neq. intros E. apply (f_equal String.length) in E.
    rewrite str_length_app in E. cbn in E. lia. }
  cbn [s5_mappings find_exact data mapping]. rewrite !Hlen by reflexivity. reflexivity.
Qed.

(** [read_device_with_retry] consults the first four attempts and
    no other; when the first three fail, the result is the fourth
    attempt's: a device is skipped after four consecutive failures. *)
Theorem read_device_with_retry_spec `{F32} `{!ExprEval} attempt attempt' clock clock' device :
  (forall k, (k < 4)%nat -> attempt k = attempt' k /\ clock k = clock' k) ->
  read_device_with_retry attempt clock device = read_device_with_retry attempt' clock' device /\
  ((forall k, (k < 3)%nat -> exists e,
      read_device_registers (fst (clock k)) (snd (clock k)) device (attempt k) = RErr e) ->
   read_device_with_retry attempt clock device =
   read_device_registers (fst (clock 3%nat)) (snd (clock 3%nat)) device (attempt 3%nat)).
Proof.
  intros Hext. split.
  - apply retry_loop_ext. intros j Hj. apply Hext. unfold MAX_RETRIES in Hj. lia.
  - intros Hfail. unfold read_device_with_retry, MAX_RETRIES.
    destruct (Hfail 0%nat ltac:(lia)) as [e0 E0], (Hfail 1%nat ltac:(lia)) as [e1 E1],
      (Hfail 2%nat ltac:(lia)) as [e2 E2].
    rewrite (retry_loop_err _ _ _ _ _ _ E0), (retry_loop_err _ _ _ _ _ _ E1),
      (retry_loop_err _ _ _ _ _ _ E2), retry_loop_last. done.
Qed.

(** Templates see only physical registers: the record of a
    successful read holds the templates evaluated against a context
    whose every binding is a physical register's name (a template
    naming another template finds no binding). *)
Theorem read_device_templates `{F32} `{!ExprEval} ts_id ts device a md :
  read_device_registers ts_id ts device a = ROk md ->
  exists vals context, Models.metered_values md = eval_templates (registers device) context vals /\
    forall x, In x context -> exists reg, In (Modbus reg) (registers device) /\ fst x = name reg.
Proof.
  destruct a as [msg|responses]; [discriminate|]. unfold read_device_registers.
  destruct (read_physical (registers device) responses (∅, [])) as [[vals context]| |] eqn:E;
    cbn; intros Hmd; try discriminate.
  injection Hmd as <-. exists vals, context. split; [done|].
  intros x Hx. destruct (read_physical_context_names _ _ _ _ _ E x Hx) as [[]|?]; done.
Qed.

(** A device with a read interval of 0 makes the hub set-up divide
    by zero and panic. *)
Example setup_hub_zero_interval :
  @setup_hub decimal_f32 Empty_set (fun _ => [])
    {| hub_name := "hub"; host := "10.0.0.1"; port := 502; proto := TCP;
       devices := [{| dev_name := "meter"; meter := "model"; slave_id := 1; read_interval := 0 |}] |} =
  RPanic DivideByZero.
Proof. vm_compute. reflexivity. Qed.

(** Witness of [setup_hub_cadence]: devices read every 60 s and 90 s
    give a tick of 60 s and one tick each, so the second device is read
    every 60 s. *)
Lemma setup_hub_cadence_witness :
  exists hub tick,
    @setup_hub decimal_f32 Empty_set (fun _ => []) cadence_example_hub = ROk (hub, tick) /\
    tick = 60 /\ map waits_till_read (hub_devices hub) = [1; 1].
Proof.
  destruct (@setup_hub_cadence decimal_f32 Empty_set (fun _ => []) cadence_example_hub
              ltac:(repeat constructor; cbn; lia)) as (hub & tick & Hs & _).
  exists hub, tick. split; [exact Hs|].
  assert (Hc : match @setup_hub decimal_f32 Empty_set (fun _ => []) cadence_example_hub with
               | ROk (h, t) => t = 60 /\ map waits_till_read (hub_devices h) = [1; 1]
               | _ => False end) by (vm_compute; split; reflexivity).
  rewrite Hs in Hc. exact Hc.
Defined.

(** Witness of [run_ticks_schedule]: with three ticks per read, seven
    ticks read the device at ticks 3 and 6. *)
Lemma run_ticks_schedule_witness :
  let d := {| config := {| dev_name := "m"; meter := "x"; slave_id := 1; read_interval := 90 |};
              waits_till_read := 3; cur_waits := 0; registers := [] |} in
  snd (@run_ticks decimal_f32 7 d) = [3%nat; 6%nat].
Proof.
  intros d. destruct (@run_ticks_schedule decimal_f32 d 7 ltac:(cbn; lia) eq_refl) as (_ & _ & ->).
  reflexivity.
Defined.

(** Witness of [compose_value_int32]: property 6 of the specification,
    [{0x0001, 0x2345}] is [0x00012345]. *)
Lemma compose_value_int32_witness :
  @compose_value Empty_set Int32 [0x0001; 0x2345] = ROk 0x00012345.
Proof. rewrite (proj1 (compose_value_int32 0x0001 0x2345 [] ltac:(lia) ltac:(lia))). reflexivity. Defined.

(** Witness of [read_register_s5]: the reading 1 is stored as unknown. *)
Lemma read_register_s5_witness :
  let reg := {| name := "state"; input_type := Holding; register := 0; length := 1; format := Int16;
                scaler := (1, 0); unit_of_measurement := "NONE"; device_class := "NONE";
                state_class := "NONE"; platform := Sensor; mappings := s5_mappings |} in
  @read_register decimal_f32 reg (Parsed (Some [1])) (∅, []) =
  ROk (<["state" := JStr "unknown"]> ∅, [("state", (1, 0))]).
Proof.
  intros reg. apply (@read_register_s5 decimal_f32 decimal_f32_laws reg 1 eq_refl eq_refl eq_refl). lia.
Defined.

(** Witness of [read_device_with_retry_spec]: three refused connections
    and a fourth that succeeds give the fourth attempt's record. *)
Lemma read_device_with_retry_spec_witness :
  let device := {| config := {| dev_name := "m"; meter := "x"; slave_id := 1; read_interval := 60 |};
                   waits_till_read := 1; cur_waits := 0; registers := [] |} in
  let attempt := fun k : nat => if (k <? 3)%nat then ConnectFailure "refused" else Connected [] in
  @read_device_with_retry decimal_f32 var_eval attempt (fun k => (Z.of_nat k, Z.of_nat k)) device =
  @read_device_registers decimal_f32 var_eval 3 3 device (Connected []).
Proof.
  intros device attempt.
  apply (proj2 (@read_device_with_retry_spec decimal_f32 var_eval attempt attempt
                  (fun k => (Z.of_nat k, Z.of_nat k)) (fun k => (Z.of_nat k, Z.of_nat k)) device
                  (fun k _ => conj eq_refl eq_refl))).
  intros k Hk. destruct k as [|[|[|k]]]; [eexists; reflexivity..|lia].
Defined.

(** Witness of [read_device_templates]: a template [t] reading the
    physical register [p]. *)
Lemma read_device_templates_witness :
  exists md, @read_device_registers decimal_f32 var_eval 1 2 template_example_device
               (Connected [Parsed (Some [7])]) = ROk md /\
  exists vals context, Models.metered_values md = eval_templates (registers template_example_device) context vals /\
    forall x, In x context -> exists reg, In (Modbus reg) (registers template_example_device) /\ fst x = name reg.
Proof.
  eexists. split; [vm_compute; reflexivity|].
  apply (@read_device_templates decimal_f32 var_eval 1 2 template_example_device (Connected [Parsed (Some [7])]) _ eq_refl).
Defined.

End Modbus.
