(* ===== verification/Config.v ===== *)
(** The configuration holder (config/mod.rs): the configuration
    document and its sections, the defaults that [serde] fills in, the
    holder [ConfigHolder] with [load], [save], [update_config],
    [get_copy] and the macro [get_config_or_panic!], and the broadcast
    channel of [ConfigChange]s with tokio's lagging receivers.  The file
    system is a map from paths to contents; YAML parsing and printing
    are parameters ([parse_yaml], [to_yaml]). *)

From S2P Require Import Prelude.
From S2P Require Import Oms.
From S2P Require Import Modbus.

Module Config.

Import Oms(OmsConfig) Modbus(ModbusHubConfig).

(** ** The document *)

Record HttpdConfig : Type := mkHttpdConfig { httpd_enabled : bool; httpd_port : Z }.

Record MqttConfig : Type := mkMqttConfig {
  mqtt_host : string; mqtt_port : Z; user : string; pass : string; ha_enabled : bool;
  client_name : string
}.

Record DatabaseConfig : Type := mkDatabaseConfig { dbtype : string; uri : string }.

Record ModbusConfig : Type := mkModbusConfig { hubs : list ModbusHubConfig }.

Record TibberConfig : Type := mkTibberConfig { tibber_name : string; account_token : string }.

Record VictronConfig : Type := mkVictronConfig {
  victron_name : string; victron_client_name : string; broker_host : string;
  broker_port : Z; update_interval : Z; victron_enabled : bool
}.

Inductive KnxConnectionType : Type := TcpDirect | UdpTunneling.

Inductive KnxDatapointType : Type :=
| ActiveEnergyWh | ActiveEnergyKwh | ReactiveEnergyVah | ReactiveEnergyKvarh
| ApparentEnergyKvah | VoltageV | CurrentA | PowerW | PowerKw | PowerDensityWm2 | Switch.

Record KnxPhaseConfig : Type := mkKnxPhaseConfig {
  phase_name : string; voltage_ga : option string; current_ga : option string;
  power_ga : option string; energy_ga : option string; energy_type : KnxDatapointType;
  power_type : KnxDatapointType; voltage_type : KnxDatapointType; current_type : KnxDatapointType
}.

Record KnxMeterConfig : Type := mkKnxMeterConfig {
  meter_name : string; meter_enabled : bool; read_interval : Z; phases : list KnxPhaseConfig;
  total_energy_ga : option string; total_power_ga : option string
}.

Record KnxSwitchConfig : Type := mkKnxSwitchConfig {
  switch_name : string; switch_enabled : bool; group_address : string;
  state_address : option string; expose_to_ha : bool
}.

Record KnxAdapterConfig : Type := mkKnxAdapterConfig {
  adapter_name : string; adapter_host : string; adapter_port : Z; adapter_enabled : bool;
  connection_type : KnxConnectionType; connection_timeout : Z; read_timeout : Z;
  meters : list KnxMeterConfig; switches : list KnxSwitchConfig
}.

Record Config : Type := mkConfig {
  httpd : HttpdConfig;
  mqtt : MqttConfig;
  db : DatabaseConfig;
  modbus : ModbusConfig;
  tibber : list TibberConfig;
  oms : list OmsConfig;
  victron : list VictronConfig;
  knx : list KnxAdapterConfig
}.

(** ** Defaults *)

Definition httpd_enabled_default : bool := true.
Definition httpd_port_default : Z := 8240.
Definition mqtt_client_name_default : string := "energy2mqtt".
Definition db_dbtype_default : string := "sqlite".
Definition db_uri_default : string := "devices.db".
Definition httpd_default : HttpdConfig :=
  {| httpd_enabled := httpd_enabled_default; httpd_port := httpd_port_default |}.
Definition db_default : DatabaseConfig := {| dbtype := db_dbtype_default; uri := db_uri_default |}.
Definition modbus_default : ModbusConfig := {| hubs := [] |}.

(** ** Deserialization with [#[serde(default)]]

    What [serde_yml::from_str] found in the document: [None] for a key
    that is absent.  Integers are read as [Z] and must fit the field's
    width ([u16] ports).  The sections [modbus], [tibber], [oms],
    [victron] and [knx] are taken as deserialized values. *)











(** ** The holder *)

Inductive ConfigOperation : Type := ADD | DELETE | CHANGE.

#[global] Instance ConfigOperation_eq_dec : EqDecision ConfigOperation.
Proof. solve_decision. Defined.

Record ConfigChange : Type := mkConfigChange { operation : ConfigOperation; base : string }.

Inductive ConfigBases : Type :=
| Httpd (c : HttpdConfig)
| Mqtt (c : MqttConfig)
| Modbus (c : ModbusConfig)
| Tibber (c : list TibberConfig)
| Oms (c : list OmsConfig)
| Victron (c : list VictronConfig)
| Knx (c : list KnxAdapterConfig).

(** [ConfigHolder]: [sent] is every change sent on the broadcast
    channel [callbacks.sender], oldest first. *)
Record ConfigHolder : Type := mkConfigHolder {
  config : Config; dirty : bool; base_path : string; sent : list ConfigChange
}.

(** The file system: the contents of the files that exist, and which
    paths may be written. *)
Record FileSystem : Type := mkFileSystem { files : gmap string string; writable : string -> bool }.


(** [format!("{:?}", s)] of a [String]: quoted, with backslash and
    double quote escaped (strings without control characters). *)
Definition dquote : ascii := ascii_of_nat 34.
Definition backslash : ascii := ascii_of_nat 92.

Fixpoint escape_debug (s : string) : string :=
  match s with
  | EmptyString => EmptyString
  | String c rest =>
      if ascii_dec c backslash then String backslash (String backslash (escape_debug rest))
      else if ascii_dec c dquote then String backslash (String dquote (escape_debug rest))
      else String c (escape_debug rest)
  end.

Definition string_debug (s : string) : string := String dquote (escape_debug s ++ String dquote EmptyString).

(** [fs::copy(from, to)]: fails when [from] does not exist or [to]
    cannot be written. *)
Definition fs_copy (fs : FileSystem) (src dst : string) : option FileSystem :=
  match files fs !! src with
  | Some c => if writable fs dst then Some {| files := <[dst := c]> (files fs); writable := writable fs |}
              else None
  | None => None
  end.

Definition fs_write (fs : FileSystem) (path contents : string) : option FileSystem :=
  if writable fs path then Some {| files := <[path := contents]> (files fs); writable := writable fs |}
  else None.

(** [ConfigHolder::save]: nothing when not dirty; the paths are built
    with [{:?}] of [base_path]; the backup copy first, the document
    after it, and [dirty] is cleared only when both succeed. *)
Definition save (to_yaml : Config -> string) (fs : FileSystem) (h : ConfigHolder)
    : FileSystem * ConfigHolder :=
  if negb (dirty h) then (fs, h) else
  let config_path := (string_debug (base_path h) ++ "/e2m.yaml")%string in
  let backup_path := (string_debug (base_path h) ++ "/backup.yaml")%string in
  match fs_copy fs config_path backup_path with
  | None => (fs, h)
  | Some fs1 =>
      match fs_write fs1 config_path (to_yaml (config h)) with
      | Some fs2 => (fs2, {| config := config h; dirty := false; base_path := base_path h; sent := sent h |})
      | None => (fs1, h)
      end
  end.

Definition is_dirty (h : ConfigHolder) : bool := dirty h.

(** [update_config]: replace one section, mark dirty, broadcast the
    change under the section's name. *)
Definition update_config (op : ConfigOperation) (new_data : ConfigBases) (h : ConfigHolder) : ConfigHolder :=
  let c := config h in
  let '(c', b) :=
    match new_data with
    | Httpd x => ({| httpd := x; mqtt := mqtt c; db := db c; modbus := modbus c; tibber := tibber c;
                     oms := oms c; victron := victron c; knx := knx c |}, "httpd")
    | Mqtt x => ({| httpd := httpd c; mqtt := x; db := db c; modbus := modbus c; tibber := tibber c;
                    oms := oms c; victron := victron c; knx := knx c |}, "mqtt")
    | Modbus x => ({| httpd := httpd c; mqtt := mqtt c; db := db c; modbus := x; tibber := tibber c;
                      oms := oms c; victron := victron c; knx := knx c |}, "modbus")
    | Tibber x => ({| httpd := httpd c; mqtt := mqtt c; db := db c; modbus := modbus c; tibber := x;
                      oms := oms c; victron := victron c; knx := knx c |}, "tibber")
    | Oms x => ({| httpd := httpd c; mqtt := mqtt c; db := db c; modbus := modbus c; tibber := tibber c;
                   oms := x; victron := victron c; knx := knx c |}, "oms")
    | Victron x => ({| httpd := httpd c; mqtt := mqtt c; db := db c; modbus := modbus c; tibber := tibber c;
                       oms := oms c; victron := x; knx := knx c |}, "victron")
    | Knx x => ({| httpd := httpd c; mqtt := mqtt c; db := db c; modbus := modbus c; tibber := tibber c;
                   oms := oms c; victron := victron c; knx := x |}, "knx")
    end%string in
  {| config := c'; dirty := true; base_path := base_path h;
     sent := app (sent h) [{| operation := op; base := b |}] |}.

(** [get_copy]. *)
Definition get_copy (b : string) (h : ConfigHolder) : res string ConfigBases :=
  let c := config h in
  if String.eqb b "httpd" then ROk (Httpd (httpd c))
  else if String.eqb b "mqtt" then ROk (Mqtt (mqtt c))
  else if String.eqb b "modbus" then ROk (Modbus (modbus c))
  else if String.eqb b "tibber" then ROk (Tibber (tibber c))
  else if String.eqb b "oms" then ROk (Oms (oms c))
  else if String.eqb b "victron" then ROk (Victron (victron c))
  else if String.eqb b "knx" then ROk (Knx (knx c))
  else RErr "Type not known"%string.

Definition get_complete_config (h : ConfigHolder) : Config := config h.

(** [get_config_or_panic!(base, pat)]: [unwrap] of [get_copy], then a
    [panic!] when the variant is not [pat] ([sel] extracts it). *)
Definition get_config_or_panic {A} (b : string) (sel : ConfigBases -> option A) (h : ConfigHolder)
    : res Empty_set A :=
  match get_copy b h with
  | ROk c => match sel c with Some a => ROk a | None => RPanic ExplicitPanic end
  | _ => RPanic UnwrapFailed
  end.

Definition sel_httpd (c : ConfigBases) : option HttpdConfig := match c with Httpd x => Some x | _ => None end.
Definition sel_mqtt (c : ConfigBases) : option MqttConfig := match c with Mqtt x => Some x | _ => None end.
Definition sel_modbus (c : ConfigBases) : option ModbusConfig := match c with Modbus x => Some x | _ => None end.
Definition sel_victron (c : ConfigBases) : option (list VictronConfig) :=
  match c with Victron x => Some x | _ => None end.

(** The name under which [update_config] broadcasts a section, and
    under which [get_copy] returns it. *)
Definition section_name (c : ConfigBases) : string :=
  match c with
  | Httpd _ => "httpd" | Mqtt _ => "mqtt" | Modbus _ => "modbus" | Tibber _ => "tibber"
  | Oms _ => "oms" | Victron _ => "victron" | Knx _ => "knx"
  end.

(** ** The broadcast channel (tokio::sync::broadcast)

    A receiver is the index in [sent] of the next change it will see;
    [get_change_receiver] starts at the end.  The channel holds the
    last [next_power_of_two 100] changes: a receiver further behind
    gets [Err(Lagged)] and is moved to the oldest change kept. *)

Definition CONFIG_CHANNEL_CAPACITY : nat := 100.

(** [usize::next_power_of_two], which tokio applies to the capacity. *)
Definition next_power_of_two (n : nat) : nat := 2 ^ Nat.log2_up n.

Definition get_change_receiver (h : ConfigHolder) : nat := List.length (sent h).

Inductive RecvError : Type := Lagged (n : nat).

(** [Receiver::recv]: [None] while no change is pending (the task
    waits); otherwise the change or the lag error, with the new
    position. *)
Definition recv (h : ConfigHolder) (rx : nat) : option (res RecvError ConfigChange * nat) :=
  let n := List.length (sent h) in
  let cap := next_power_of_two CONFIG_CHANNEL_CAPACITY in
  if (n <=? rx)%nat then None
  else if (cap <? n - rx)%nat then Some (RErr (Lagged (n - rx - cap)), (n - cap)%nat)
  else match sent h !! rx with
       | Some c => Some (ROk c, S rx)
       | None => None
       end.

(** ** Lemmas *)

Lemma next_power_of_two_100 : next_power_of_two CONFIG_CHANNEL_CAPACITY = 128%nat.
Proof. reflexivity. Qed.

Lemma update_config_sent op nd h :
  sent (update_config op nd h) = sent h ++ [{| operation := op; base := section_name nd |}].
Proof. destruct nd; reflexivity. Qed.

Ltac case_eqb :=
  repeat match goal with
  | |- context [String.eqb ?a ?b] => destruct (String.eqb_spec a b); subst
  | H : context [String.eqb ?a ?b] |- _ => destruct (String.eqb_spec a b); subst
  end.

Lemma get_copy_name b h c : get_copy b h = ROk c -> section_name c = b.
Proof. unfold get_copy. case_eqb; intros [= <-]; reflexivity. Qed.





Lemma recv_pending h rx :
  (rx < List.length (sent h))%nat ->
  recv h rx = if (128 <? List.length (sent h) - rx)%nat
              then Some (RErr (Lagged (List.length (sent h) - rx - 128)), (List.length (sent h) - 128)%nat)
              else (c ← sent h !! rx; Some (ROk c, S rx)).
Proof.
  intros Hlt. unfold recv. rewrite next_power_of_two_100.
  destruct (List.length (sent h) <=? rx)%nat eqn:E; [apply Nat.leb_le in E; lia|].
  destruct (128 <? _)%nat; [done|]. by destruct (sent h !! rx).
Qed.

Lemma recv_next h r c :
  (List.length (sent h) - r <= 128)%nat -> sent h !! r = Some c -> recv h r = Some (ROk c, S r).
Proof.
  intros Hk Hc. assert (Hlt : (r < List.length (sent h))%nat) by (apply lookup_lt_Some in Hc; done).
  rewrite (recv_pending _ _ Hlt). destruct (Nat.ltb_spec 128 (List.length (sent h) - r)); [lia|].
  by rewrite Hc.
Qed.

Lemma recv_end h : recv h (List.length (sent h)) = None.
Proof. unfold recv. by rewrite Nat.leb_refl. Qed.

Lemma recv_lag h r :
  (r < List.length (sent h))%nat -> (128 < List.length (sent h) - r)%nat ->
  exists e r', recv h r = Some (RErr e, r').
Proof.
  intros Hlt Hk. rewrite (recv_pending _ _ Hlt).
  destruct (Nat.ltb_spec 128 (List.length (sent h) - r)); [eauto|lia].
Qed.

Lemma escape_debug_app s1 s2 : escape_debug (s1 ++ s2) = (escape_debug s1 ++ escape_debug s2)%string.
Proof.
  induction s1 as [|c s1 IH]; [done|]. rewrite str_cons_app. cbn.
  destruct ascii_dec; [rewrite IH; done|]. destruct ascii_dec; rewrite IH; done.
Qed.

(** Every path [save] touches begins with a double quote. *)
Lemma fs_copy_quoted fs b s :
  (forall path c, files fs !! path = Some c -> String.get 0 path <> Some dquote) ->
  fs_copy fs (string_debug b ++ s)%string (string_debug b ++ "/backup.yaml")%string = None.
Proof.
  intros Hq. unfold fs_copy.
  destruct (files fs !! _) as [c|] eqn:E; [|done].
  exfalso. apply (Hq _ _ E). reflexivity.
Qed.

(** ** Properties *)

(** C7: [update_config] then [get_copy]: after an update with a section
    of any kind, the change broadcast last carries the operation and the
    section's name, [get_copy] of that name returns exactly the new
    section, every other name returns what it returned before, and the
    holder is dirty. *)
Theorem update_config_get_copy op nd h :
  let h' := update_config op nd h in
  last (sent h') = Some {| operation := op; base := section_name nd |} /\
  get_copy (section_name nd) h' = ROk nd /\
  (forall b, b <> section_name nd -> get_copy b h' = get_copy b h) /\
  dirty h' = true.
Proof.
  cbv zeta. rewrite update_config_sent, last_snoc.
  split; [done|]. split; [destruct nd; reflexivity|]. split; [|destruct nd; reflexivity].
  intros b Hb. destruct nd; unfold get_copy; cbn in *; case_eqb; done.
Qed.

(** C35: [get_copy] is well typed: a name it accepts gives the section
    variant of that name (so each [get_config_or_panic!] used with
    matching name and pattern cannot panic), and every other name is
    the error ["Type not known"]. *)
Theorem get_copy_typed b h :
  (forall c, get_copy b h = ROk c -> section_name c = b) /\
  ((forall c, section_name c <> b) -> get_copy b h = RErr "Type not known"%string).
Proof.
  split; [apply get_copy_name|]. intros Hn.
  destruct (get_copy b h) eqn:E.
  - exfalso. exact (Hn _ (get_copy_name _ _ _ E)).
  - revert E. unfold get_copy. case_eqb; try discriminate. by intros [= <-].
  - revert E. unfold get_copy. case_eqb; discriminate.
Qed.


(** C15: [save] never writes: its paths are built with [{:?}] of the
    base path, so they begin with a double quote ([""config/"/e2m.yaml"]);
    on a file system where no existing path begins with one, the backup
    copy fails, nothing is written and the holder stays dirty. *)
Theorem save_never_persists to_yaml fs h :
  (forall path c, files fs !! path = Some c -> String.get 0 path <> Some dquote) ->
  save to_yaml fs h = (fs, h).
Proof.
  intros Hq. unfold save. destruct (dirty h); [|done]. cbn.
  rewrite fs_copy_quoted by exact Hq. done.
Qed.

(** C33: A configuration-change receiver lags exactly when more than
    [next_power_of_two 100 = 128] changes are pending for it: then
    [recv] returns [Err(Lagged)], otherwise the next change in the
    order they were sent. *)
Theorem recv_lagged h rx :
  (rx < List.length (sent h))%nat ->
  ((exists n rx', recv h rx = Some (RErr (Lagged n), rx')) <-> (128 < List.length (sent h) - rx)%nat) /\
  ((List.length (sent h) - rx <= 128)%nat -> exists c, sent h !! rx = Some c /\ recv h rx = Some (ROk c, S rx)).
Proof.
  intros Hlt. rewrite (recv_pending _ _ Hlt).
  destruct (sent h !! rx) as [c|] eqn:Hc; [|apply lookup_ge_None in Hc; lia].
  destruct (128 <? List.length (sent h) - rx)%nat eqn:E; [apply Nat.ltb_lt in E|apply Nat.ltb_ge in E]; cbn.
  - split; [split; [intros _; lia|eauto]|intros; lia].
  - split; [split; [intros (n & rx' & Hr); discriminate Hr|lia]|eauto].
Qed.

(** ** Examples *)


Definition example_fs : FileSystem :=
  {| files := {[ "e2m.yaml" := "mqtt: {host: broker, port: 1883}" ]}; writable := fun _ => true |}%string.

Definition example_holder : ConfigHolder :=
  {| config := {| httpd := httpd_default;
                  mqtt := {| mqtt_host := "broker"; mqtt_port := 1883; user := "user"; pass := "secret";
                             ha_enabled := true; client_name := mqtt_client_name_default |};
                  db := db_default; modbus := modbus_default; tibber := []; oms := []; victron := [];
                  knx := [] |};
     dirty := false; base_path := ""; sent := [] |}.

Lemma example_fs_unquoted path c : files example_fs !! path = Some c -> String.get 0 path <> Some dquote.
Proof. cbn. intros Hp. apply lookup_singleton_Some in Hp as [<- _]. discriminate. Qed.

(** Witness of [update_config_get_copy]: adding a hub broadcasts
    [ADD "modbus"], and the Modbus section reads back. *)
Lemma update_config_get_copy_witness :
  let h' := update_config ADD (Modbus {| hubs := [] |}) example_holder in
  last (sent h') = Some {| operation := ADD; base := "modbus" |} /\
  get_copy "modbus" h' = ROk (Modbus {| hubs := [] |}) /\ get_copy "mqtt" h' = get_copy "mqtt" example_holder.
Proof.
  destruct (update_config_get_copy ADD (Modbus {| hubs := [] |}) example_holder) as (H1 & H2 & H3 & _).
  split; [exact H1|]. split; [exact H2|]. apply H3. discriminate.
Defined.

(** Witness of [get_copy_typed]: ["mqtt"] gives the [Mqtt] variant,
    ["db"] is not a section name of [get_copy]. *)
Lemma get_copy_typed_witness :
  section_name (Mqtt (mqtt (config example_holder))) = "mqtt"%string /\
  get_copy "db" example_holder = RErr "Type not known"%string.
Proof.
  destruct (get_copy_typed "mqtt" example_holder) as [H1 _].
  destruct (get_copy_typed "db" example_holder) as [_ H2].
  split; [apply H1; reflexivity|]. apply H2. intros []; discriminate.
Defined.


(** Witness of [save_never_persists]: after an update the holder is
    dirty, and saving it leaves the file system and the holder as they
    were. *)
Lemma save_never_persists_witness :
  let h := update_config CHANGE (Httpd httpd_default) example_holder in
  dirty h = true /\ save (fun _ => "") example_fs h = (example_fs, h).
Proof.
  split; [reflexivity|]. apply save_never_persists. exact example_fs_unquoted.
Defined.

(** Witness of [recv_lagged]: a receiver 130 changes behind lags. *)
Lemma recv_lagged_witness :
  let h := {| config := config example_holder; dirty := true; base_path := "";
              sent := repeat {| operation := ADD; base := "modbus" |} 130 |} in
  exists n rx', recv h 0 = Some (RErr (Lagged n), rx').
Proof.
  cbv zeta. apply (recv_lagged _ 0); cbn; lia.
Defined.

End Config.
