(* ===== verification/Bridge.v ===== *)
(** The dispatch bridge (mqtt/mod.rs) and the command handler
    (mqtt/internal_commands.rs).  Workers send [Transmission]s over one
    channel; [MqttManager::start_thread] turns each into requests to
    the broker client and registers subscription callbacks in the
    shared table [CALLBACKS]; the event loop of [MqttManager::new]
    forwards inbound publishes to the callbacks of their topic and
    resubscribes every topic on a reconnect.  Delivery channels are
    numbered; a channel whose receiver is gone makes [send] fail, and
    the bridge [unwrap]s that failure.  The broker client is a log of
    requests, whether a request succeeds an input; [Instant::now()] is
    a clock input. *)

From S2P Require Import Prelude.
From S2P Require Import Models.
From S2P Require Import HaInterface.
From S2P Require Import Iec62056.

Module Bridge.

Import Models HaInterface.

(** ** Messages *)

(** [rumqttc::QoS]. *)
Inductive QoS : Type := AtMostOnce | AtLeastOnce | ExactlyOnce.

(** The QoS of a [PublishData]: [0], [1], [2], anything else at most once. *)
Definition qos_of_u8 (q : Z) : QoS :=
  if q =? 1 then AtLeastOnce else if q =? 2 then ExactlyOnce else AtMostOnce.

Record CommandData : Type := mkCommandData { cmd_topic : string; cmd_value : string; cmd_retain : bool }.

Record PublishData : Type := mkPublishData {
  pub_topic : string; pub_payload : string; pub_qos : Z; pub_retain : bool
}.

(** A delivery channel [tokio::sync::mpsc::Sender<String>], by number. *)
Definition chan := nat.

Record SubscribeData : Type := mkSubscribeData { sub_topic : string; sub_sender : chan }.

Inductive Transmission : Type :=
| Metering (data : MeteringData)
| AutoDiscovery (disc : HaDiscover)
| Command (command : CommandData)
| Subscribe (subscribe_data : SubscribeData)
| Publish (publish_data : PublishData).

(** A payload handed to the client: text, or a value that
    [serde_json::to_string] prints. *)
Inductive Payload : Type := PText (s : string) | PJson (v : json).

(** A request of the broker client: [client.publish] or [client.subscribe]. *)
Inductive Request : Type :=
| ReqPublish (topic : string) (qos : QoS) (retain : bool) (payload : Payload)
| ReqSubscribe (topic : string) (qos : QoS).

(** ** Serialization of a record ([#[derive(Serialize)]]) *)

Definition TranmissionValueType_name (t : TranmissionValueType) : string :=
  match t with
  | Now => "Now" | Daily => "Daily" | Hourly => "Hourly" | Monthly => "Monthly" | KeyValue => "KeyValue"
  end.

Definition MeteringData_to_value (m : MeteringData) : json :=
  JObj [("id", JStr (id m)); ("meter_name", JStr (meter_name m)); ("tenant", JStr (tenant m));
        ("protocol", JStr (DeviceProtocol_debug (protocol m)));
        ("transmission_time", JInt (transmission_time m));
        ("transmission_type", JStr (TranmissionValueType_name (transmission_type m)));
        ("metered_time", JInt (metered_time m)); ("metered_values", jobj (metered_values m))].

(** ** Health status *)

Inductive MqttConnectionStatus : Type := Connected | Disconnected | Reconnecting | Error (e : string).

Record MqttHealthStatus : Type := mkMqttHealthStatus {
  status : MqttConnectionStatus;
  last_connected : option Z;
  last_message_sent : option Z;
  last_message_received : option Z;
  connection_attempts : Z
}.

Definition MqttHealthStatus_new : MqttHealthStatus :=
  {| status := Disconnected; last_connected := None; last_message_sent := None;
     last_message_received := None; connection_attempts := 0 |}.

Definition set_last_message_sent (t : Z) (h : MqttHealthStatus) : MqttHealthStatus :=
  {| status := status h; last_connected := last_connected h; last_message_sent := Some t;
     last_message_received := last_message_received h; connection_attempts := connection_attempts h |}.

(** ** The callback table ([Callbacks]) *)

Definition Callbacks := gmap string (list chan).

(** [Callbacks::insert]: a new topic gets [vec![callback]], a known one
    a [push]. *)
Definition Callbacks_insert (topic : string) (callback : chan) (calls : Callbacks) : Callbacks :=
  match calls !! topic with
  | None => <[topic := [callback]]> calls
  | Some v => <[topic := v ++ [callback]]> calls
  end.

(** [Callbacks::get_topics]: the keys, in the table's iteration order. *)
Definition get_topics (calls : Callbacks) : list string := map fst (map_to_list calls).

(** The receiving ends: what each channel holds, and which receivers
    have been dropped. *)
Record Mailboxes : Type := mkMailboxes { queues : gmap chan (list string); dropped : gset chan }.

(** [call.send(payload).await.unwrap()]: a dropped receiver panics.
    The tokio channels are bounded (capacity 10 for the subscribers'
    channels, mqtt/mod.rs and internal_commands.rs): on a full channel
    [send().await] waits until the receiver takes a message.  The
    mailbox here is unbounded and the payload is appended at once; the
    sequence a receiver takes out is the same, but the back-pressure on
    the sender (the event loop waiting) is not modelled. *)
Definition chan_send (c : chan) (payload : string) (mb : Mailboxes) : res Empty_set Mailboxes :=
  if decide (c ∈ dropped mb) then RPanic UnwrapFailed
  else ROk {| queues := <[c := default [] (queues mb !! c) ++ [payload]]> (queues mb);
              dropped := dropped mb |}.

Fixpoint send_all (cs : list chan) (payload : string) (mb : Mailboxes) : res Empty_set Mailboxes :=
  match cs with
  | [] => ROk mb
  | c :: rest => mb' <- chan_send c payload mb ;; send_all rest payload mb'
  end.

(** [Callbacks::send]: nothing for an unknown topic, otherwise every
    callback of the topic in registration order. *)
Definition Callbacks_send (calls : Callbacks) (topic payload : string) (mb : Mailboxes)
    : res Empty_set Mailboxes :=
  match calls !! topic with
  | None => ROk mb
  | Some v => send_all v payload mb
  end.

(** ** The bridge ([MqttManager]) *)

(** The state the bridge task and the event loop share: the callback
    table ([CALLBACKS]), the health record ([APP_STATUS]), the requests
    given to the client, the messages sent on the broadcast channel to
    the HTTP layer, and [exit_thread]. *)
Record Bridge : Type := mkBridge {
  callbacks : Callbacks;
  health : MqttHealthStatus;
  requests : list Request;
  broadcast : list json;
  exit_thread : bool
}.

Definition Bridge_init : Bridge :=
  {| callbacks := ∅; health := MqttHealthStatus_new; requests := []; broadcast := []; exit_thread := false |}.

Definition with_requests (b : Bridge) (rs : list Request) : Bridge :=
  {| callbacks := callbacks b; health := health b; requests := requests b ++ rs;
     broadcast := broadcast b; exit_thread := exit_thread b |}.

(** One arm of the [match] of [start_thread]: [ok] is whether the
    client call whose result the arm inspects succeeded (the first
    publish of a record, the subscription), [now] the clock. *)
Definition handle_transmission (ok : bool) (now : Z) (t : Transmission) (b : Bridge) : Bridge :=
  match t with
  | Metering data =>
      let raw := ReqPublish "energy2mqtt/raw" AtLeastOnce false (PJson (MeteringData_to_value data)) in
      let dev := ReqPublish ("energy2mqtt/devs/" ++ DeviceProtocol_debug (protocol data) ++ "/" ++ meter_name data)
                   AtLeastOnce false (PJson (jobj (metered_values data))) in
      {| callbacks := callbacks b;
         health := if ok then set_last_message_sent now (health b) else health b;
         requests := requests b ++ [raw; dev];
         broadcast := broadcast b ++ [MeteringData_to_value data];
         exit_thread := exit_thread b |}
  | Command command =>
      with_requests b [ReqPublish (cmd_topic command) AtLeastOnce (cmd_retain command) (PText (cmd_value command))]
  | AutoDiscovery disc =>
      with_requests b [ReqPublish (discover_topic disc) AtLeastOnce true (PJson (HaDiscover_to_value disc))]
  | Subscribe sd =>
      let topic := ("energy2mqtt/" ++ sub_topic sd)%string in
      let b' := with_requests b [ReqSubscribe topic AtLeastOnce] in
      if ok then
        {| callbacks := Callbacks_insert topic (sub_sender sd) (callbacks b'); health := health b';
           requests := requests b'; broadcast := broadcast b'; exit_thread := exit_thread b' |}
      else b'
  | Publish pd =>
      with_requests b [ReqPublish (pub_topic pd) (qos_of_u8 (pub_qos pd)) (pub_retain pd) (PText (pub_payload pd))]
  end.

(** [start_thread]: the loop over what [rx.recv()] returns, [None] once
    every sender is gone; each element carries its client outcome and
    time. *)
Fixpoint start_thread (inbox : list (option Transmission * bool * Z)) (b : Bridge) : Bridge :=
  match inbox with
  | [] => b
  | (msg, ok, now) :: rest =>
      if exit_thread b then b
      else match msg with
           | None => {| callbacks := callbacks b; health := health b; requests := requests b;
                        broadcast := broadcast b; exit_thread := true |}
           | Some t => start_thread rest (handle_transmission ok now t b)
           end
  end.

(** ** The event loop of [MqttManager::new] *)

Inductive Event : Type :=
| IncomingPublish (topic : string) (payload : string)
| ConnAck
| OtherEvent
| PollError.

Section EventLoop.

(** [String::from_utf8]: which byte strings Rust accepts; at least
    every string it accepts has the structure [utf8_valid] checks. *)
Context (from_utf8_ok : string -> bool).
Context (from_utf8_sound : forall s, from_utf8_ok s = true -> Iec62056.utf8_valid s = true).

(** One event: an inbound publish goes to the callbacks of its topic
    (the payload must be UTF-8: [unwrap]); a [ConnAck] resubscribes
    every known topic. *)
Definition handle_event (e : Event) (b : Bridge) (mb : Mailboxes) : res Empty_set (Bridge * Mailboxes) :=
  match e with
  | IncomingPublish topic payload =>
      if from_utf8_ok payload then
        mb' <- Callbacks_send (callbacks b) topic payload mb ;; ROk (b, mb')
      else RPanic UnwrapFailed
  | ConnAck =>
      ROk (with_requests b (map (fun t => ReqSubscribe t AtLeastOnce) (get_topics (callbacks b))), mb)
  | OtherEvent | PollError => ROk (b, mb)
  end.

End EventLoop.

(** ** Management publications *)

(** [publish_uptime]. *)
Definition publish_uptime (uptime_seconds : Z) : Transmission :=
  Publish {| pub_topic := "energy2mqtt/mgt/uptime"; pub_payload := fmt_dec uptime_seconds;
             pub_qos := 1; pub_retain := true |}.

(** [publish_protocol_count]. *)
Definition publish_protocol_count (protocol : string) (count : Z) : Transmission :=
  Publish {| pub_topic := "energy2mqtt/mgt/" ++ protocol ++ "/count"; pub_payload := fmt_dec count;
             pub_qos := 1; pub_retain := true |}.

(** ** The command handler (internal_commands.rs) *)

Definition dq : string := String (ascii_of_nat 34) EmptyString.

(** The discovery document of the bridge device, the raw string literal
    of [CommandHandler::start_thread] (a double quote is [dq]). *)
Definition bridge_discovery_json : string :=
  ("
        {
          " ++ dq ++ "dev" ++ dq ++ ": {
            " ++ dq ++ "ids" ++ dq ++ ":" ++ dq ++ "e2m_management" ++ dq ++ ",
            " ++ dq ++ "name" ++ dq ++ ":" ++ dq ++ "energy2mqtt Bridge" ++ dq ++ ",
            " ++ dq ++ "manufacturer" ++ dq ++ ":" ++ dq ++ "energy2mqtt" ++ dq ++ ",
            " ++ dq ++ "model" ++ dq ++ ":" ++ dq ++ "Bridge" ++ dq ++ "
          },
          " ++ dq ++ "o" ++ dq ++ ": {
            " ++ dq ++ "name" ++ dq ++ ":" ++ dq ++ "energy2mqtt" ++ dq ++ ",
            " ++ dq ++ "sw_version" ++ dq ++ ":" ++ dq ++ "0.1.1" ++ dq ++ ",
            " ++ dq ++ "support_url" ++ dq ++ ":" ++ dq ++ "https://energy2mqtt.org" ++ dq ++ "
          },
          " ++ dq ++ "cmps" ++ dq ++ ":{
            " ++ dq ++ "restart" ++ dq ++ ": {
              " ++ dq ++ "p" ++ dq ++ ":" ++ dq ++ "button" ++ dq ++ ",
              " ++ dq ++ "device_class" ++ dq ++ ":" ++ dq ++ "restart" ++ dq ++ ",
              " ++ dq ++ "name" ++ dq ++ ":" ++ dq ++ "restart" ++ dq ++ ",
              " ++ dq ++ "object_id" ++ dq ++ ":" ++ dq ++ "bridge_restart" ++ dq ++ ",
              " ++ dq ++ "payload_press" ++ dq ++ ":" ++ dq ++ "restart" ++ dq ++ ",
              " ++ dq ++ "unique_id" ++ dq ++ ":" ++ dq ++ "e2m_management_bridge_restart" ++ dq ++ ",
              " ++ dq ++ "command_topic" ++ dq ++ ": " ++ dq ++ "energy2mqtt/mgt/command" ++ dq ++ "
            },
            " ++ dq ++ "uptime" ++ dq ++ ": {
              " ++ dq ++ "p" ++ dq ++ ":" ++ dq ++ "sensor" ++ dq ++ ",
              " ++ dq ++ "name" ++ dq ++ ":" ++ dq ++ "uptime" ++ dq ++ ",
              " ++ dq ++ "object_id" ++ dq ++ ":" ++ dq ++ "uptime" ++ dq ++ ",
              " ++ dq ++ "unique_id" ++ dq ++ ":" ++ dq ++ "e2m_management_uptime" ++ dq ++ ",
              " ++ dq ++ "state_topic" ++ dq ++ ": " ++ dq ++ "energy2mqtt/mgt/uptime" ++ dq ++ ",
              " ++ dq ++ "state_class" ++ dq ++ ": " ++ dq ++ "measurement" ++ dq ++ ",
              " ++ dq ++ "unit_of_measurement" ++ dq ++ ": " ++ dq ++ "s" ++ dq ++ "
            }
          }
        }")%string.

(** The two transmissions the handler sends on start, [c] being the
    sending end of its own channel. *)
Definition cmd_start (c : chan) : list Transmission :=
  [Subscribe {| sub_topic := "mgt/command"; sub_sender := c |};
   Publish {| pub_topic := "homeassistant/device/e2m_bridge/config"; pub_payload := bridge_discovery_json;
              pub_qos := 0; pub_retain := true |}].

Inductive CmdState : Type := CmdInit | CmdWaiting | CmdExited.

(** ** The system: bridge, event loop, command handler and workers *)

(** [inbox] is the transmission channel, [cmd_chan] the handler's
    channel. *)
Record Sys : Type := mkSys {
  br : Bridge; mb : Mailboxes; inbox : list Transmission; cmd : CmdState; cmd_chan : chan
}.

(** The handler's loop body: take the oldest command; ["restart"]
    returns, which drops the receiver. *)
Definition cmd_recv (s : Sys) : option Sys :=
  match cmd s, queues (mb s) !! cmd_chan s with
  | CmdWaiting, Some (m :: rest) =>
      let q := <[cmd_chan s := rest]> (queues (mb s)) in
      if String.eqb m "restart" then
        Some {| br := br s; mb := {| queues := q; dropped := {[cmd_chan s]} ∪ dropped (mb s) |};
                inbox := inbox s; cmd := CmdExited; cmd_chan := cmd_chan s |}
      else Some {| br := br s; mb := {| queues := q; dropped := dropped (mb s) |};
                   inbox := inbox s; cmd := CmdWaiting; cmd_chan := cmd_chan s |}
  | _, _ => None
  end.

Section System.

Context (from_utf8_ok : string -> bool).

(** The tasks interleave: the handler starts, a worker sends, the
    bridge takes the oldest transmission (its client call succeeding
    or not), the event loop handles an event without panicking, the
    handler receives. *)
Inductive sys_step : Sys -> Sys -> Prop :=
| SCmdStart s :
    cmd s = CmdInit ->
    sys_step s {| br := br s; mb := mb s; inbox := inbox s ++ cmd_start (cmd_chan s); cmd := CmdWaiting;
                  cmd_chan := cmd_chan s |}
| SWorker s t :
    sys_step s {| br := br s; mb := mb s; inbox := inbox s ++ [t]; cmd := cmd s; cmd_chan := cmd_chan s |}
| SBridge s t rest ok now :
    inbox s = t :: rest -> exit_thread (br s) = false ->
    sys_step s {| br := handle_transmission ok now t (br s); mb := mb s; inbox := rest; cmd := cmd s;
                  cmd_chan := cmd_chan s |}
| SEvent s e b' mb' :
    handle_event from_utf8_ok e (br s) (mb s) = ROk (b', mb') ->
    sys_step s {| br := b'; mb := mb'; inbox := inbox s; cmd := cmd s; cmd_chan := cmd_chan s |}
| SCmdRecv s s' :
    cmd_recv s = Some s' -> sys_step s s'.

Definition Sys_init (c : chan) : Sys :=
  {| br := Bridge_init; mb := {| queues := ∅; dropped := ∅ |}; inbox := []; cmd := CmdInit; cmd_chan := c |}.

End System.

(** ** Invariants *)

(** The table as the specification describes it: every topic carries
    the application prefix and a non-empty list of channels. *)
Definition registry_wf (calls : Callbacks) : Prop :=
  map_Forall (fun t v => v <> [] /\ String.prefix "energy2mqtt/" t = true) calls.

(** What holds in every reachable state: the table is well formed, the
    connection status is never written, and the only dropped receiver
    is the command handler's, once it has returned. *)
Definition Sys_inv (s : Sys) : Prop :=
  registry_wf (callbacks (br s)) /\ status (health (br s)) = Disconnected /\
  dropped (mb s) = (if cmd s is CmdExited then {[cmd_chan s]} else ∅) /\
  exit_thread (br s) = false.

(** ** Lemmas *)

Lemma prefix_app p x : String.prefix p (p ++ x) = true.
Proof.
  induction p as [|a p IH]; [by destruct x|]. rewrite str_cons_app. cbn.
  destruct ascii_dec; [exact IH|congruence].
Qed.

Lemma Callbacks_insert_lookup t c calls :
  Callbacks_insert t c calls !! t = Some (default [] (calls !! t) ++ [c]).
Proof. unfold Callbacks_insert. destruct (calls !! t); apply lookup_insert_eq. Qed.

Lemma Callbacks_insert_lookup_ne t t' c calls :
  t <> t' -> Callbacks_insert t c calls !! t' = calls !! t'.
Proof. intros Hne. unfold Callbacks_insert. destruct (calls !! t); by apply lookup_insert_ne. Qed.

Lemma Callbacks_insert_wf t c calls :
  registry_wf calls -> String.prefix "energy2mqtt/" t = true -> registry_wf (Callbacks_insert t c calls).
Proof.
  intros Hwf Hp. unfold Callbacks_insert.
  destruct (calls !! t); apply map_Forall_insert_2; auto; split; auto;
  intros Hn; first [apply app_eq_nil in Hn as [_ Hn] | idtac]; discriminate.
Qed.

Lemma handle_transmission_inv ok now t b :
  registry_wf (callbacks b) -> status (health b) = Disconnected ->
  registry_wf (callbacks (handle_transmission ok now t b)) /\
  status (health (handle_transmission ok now t b)) = Disconnected /\
  exit_thread (handle_transmission ok now t b) = exit_thread b.
Proof.
  intros Hwf Hst. destruct t; cbn; [destruct ok| | | destruct ok|]; cbn; auto.
  split; [|auto]. apply Callbacks_insert_wf; [exact Hwf|apply prefix_app].
Qed.

Lemma chan_send_dropped c p mb mb' : chan_send c p mb = ROk mb' -> dropped mb' = dropped mb.
Proof. unfold chan_send. case_decide; [discriminate|]. by intros [= <-]. Qed.

Lemma send_all_dropped cs p mb mb' : send_all cs p mb = ROk mb' -> dropped mb' = dropped mb.
Proof.
  revert mb. induction cs as [|c cs IH]; cbn; intros mb; [by intros [= <-]|].
  destruct (chan_send c p mb) as [m1| |] eqn:E; cbn; try discriminate.
  intros H. rewrite (IH _ H). exact (chan_send_dropped _ _ _ _ E).
Qed.

(** One dropped receiver among the callbacks makes the send panic. *)
Lemma send_all_panic cs p mb c :
  c ∈ cs -> c ∈ dropped mb -> send_all cs p mb = RPanic UnwrapFailed.
Proof.
  revert mb. induction cs as [|c' cs IH]; intros mb Hin Hd; [set_solver|]. cbn.
  unfold chan_send at 1. case_decide as Hc; [done|]. cbn.
  apply IH; [|done]. apply elem_of_cons in Hin as [->|]; [done|done].
Qed.

(** Without dropped receivers, every channel of the list gets the
    payload once per occurrence, in order, and nothing else changes. *)
Lemma send_all_queues cs p mb :
  (forall c, c ∈ cs -> c ∉ dropped mb) ->
  exists mb', send_all cs p mb = ROk mb' /\ dropped mb' = dropped mb /\
    forall c, queues mb' !! c =
      if decide (c ∈ cs) then Some (default [] (queues mb !! c) ++ replicate (count_occ Nat.eq_dec cs c) p)
      else queues mb !! c.
Proof.
  revert mb. induction cs as [|c cs IH]; intros mb Hnot; cbn.
  - exists mb. split_and!; [done|done|]. intros c'. case_decide; [set_solver|done].
  - unfold chan_send at 1. case_decide as Hd; [exfalso; apply (Hnot c); set_solver|]. cbn.
    destruct (IH {| queues := <[c := default [] (queues mb !! c) ++ [p]]> (queues mb); dropped := dropped mb |})
      as (mb' & E & Hdr & Hq); [set_solver|].
    exists mb'. split_and!; [done|done|]. intros c'. rewrite Hq. cbn.
    destruct (decide (c = c')) as [->|Hne].
    + rewrite lookup_insert_eq. destruct (Nat.eq_dec c' c') as [_|]; [|done].
      assert (Hin : c' ∈ c' :: cs) by set_solver.
      do 2 case_decide; try contradiction; cbn; [by rewrite <- app_assoc|].
      rewrite (proj1 (count_occ_not_In _ _ _)); [done|]. by rewrite <- list_elem_of_In.
    + rewrite lookup_insert_ne by done. destruct (Nat.eq_dec c c') as [|_]; [done|].
      destruct (decide (c' ∈ cs)), (decide (c' ∈ c :: cs)); set_solver.
Qed.

Lemma handle_event_effect f e b mb b' mb' :
  handle_event f e b mb = ROk (b', mb') ->
  callbacks b' = callbacks b /\ health b' = health b /\ exit_thread b' = exit_thread b /\
  dropped mb' = dropped mb.
Proof.
  destruct e as [topic payload| | |]; cbn; try (intros [= <- <-]; done).
  destruct (f payload); [|discriminate]. unfold Callbacks_send.
  destruct (callbacks b !! topic); cbn; [|intros [= <- <-]; done].
  destruct (send_all _ _ _) eqn:E; cbn; try discriminate.
  intros [= <- <-]. split_and!; try done. exact (send_all_dropped _ _ _ _ E).
Qed.

Lemma cmd_recv_effect s s' :
  cmd_recv s = Some s' ->
  br s' = br s /\ cmd_chan s' = cmd_chan s /\ cmd s = CmdWaiting /\
  dropped (mb s') = (if cmd s' is CmdExited then {[cmd_chan s]} ∪ dropped (mb s) else dropped (mb s)).
Proof.
  unfold cmd_recv. destruct (cmd s); try discriminate.
  destruct (queues (mb s) !! cmd_chan s) as [[|m rest]|]; try discriminate.
  destruct (String.eqb m "restart"); intros [= <-]; cbn; auto.
Qed.

Lemma sys_step_inv f s s' : Sys_inv s -> sys_step f s s' -> Sys_inv s'.
Proof.
  intros (Hwf & Hst & Hdr & Hex) Hstep. unfold Sys_inv.
  destruct Hstep as [s Hc|s t|s t rest ok now Hi He|s e b' mb' E|s s' E]; cbn [br mb cmd cmd_chan].
  - rewrite Hc in Hdr. split_and!; auto.
  - split_and!; auto.
  - destruct (handle_transmission_inv ok now t (br s) Hwf Hst) as (H1 & H2 & H3). split_and!; try done; congruence.
  - destruct (handle_event_effect _ _ _ _ _ _ E) as (H1 & H2 & H3 & H4).
    rewrite H1, H2, H3, H4. split_and!; auto.
  - destruct (cmd_recv_effect _ _ E) as (H1 & H2 & Hw & H4). rewrite Hw in Hdr.
    rewrite H1, H2, H4, Hdr. split_and!; auto. destruct (cmd s'); set_solver.
Qed.

(** The receive loop skips the commands before the first ["restart"]. *)
Lemma cmd_recv_until_restart pre post s :
  cmd s = CmdWaiting -> queues (mb s) !! cmd_chan s = Some (pre ++ "restart" :: post) ->
  ~ In "restart"%string pre ->
  exists s', iter_opt (S (List.length pre)) cmd_recv s = Some s' /\ cmd s' = CmdExited /\
    cmd_chan s' = cmd_chan s /\ br s' = br s /\ cmd_chan s ∈ dropped (mb s') /\
    queues (mb s') !! cmd_chan s = Some post.
Proof.
  revert s. induction pre as [|m pre IH]; intros s Hw Hq Hnin; cbn [iter_opt List.length app].
  - unfold cmd_recv at 1. rewrite Hw, Hq. cbn. eexists. split_and!; try reflexivity.
    + set_solver.
    + cbn. apply lookup_insert_eq.
  - cbn [app] in Hq. unfold cmd_recv at 1. rewrite Hw, Hq.
    assert (Hm : String.eqb m "restart" = false) by (apply String.eqb_neq; intros ->; apply Hnin; left; done).
    rewrite Hm.
    edestruct (IH {| br := br s; mb := {| queues := <[cmd_chan s := pre ++ "restart" :: post]> (queues (mb s));
                                          dropped := dropped (mb s) |};
                     inbox := inbox s; cmd := CmdWaiting; cmd_chan := cmd_chan s |})
      as (s' & E & Hx & Hc & Hb & Hd & Hq'); cbn; [done|apply lookup_insert_eq|intros ?; apply Hnin; right; done|].
    exists s'. cbn in *. rewrite E. split_and!; congruence.
Qed.

Lemma sys_inv_reachable f c s : star (sys_step f) (Sys_init c) s -> Sys_inv s.
Proof.
  intros Hst. apply (star_invariant _ Sys_inv (sys_step_inv f) _ _ Hst).
  split_and!; try reflexivity. apply map_Forall_empty.
Qed.

(** The transmissions by which [cs] subscribe to [t], each
    subscription accepted by the broker. *)
Definition subscriptions (t : string) (cs : list chan) : list (option Transmission * bool * Z) :=
  map (fun c => (Some (Subscribe {| sub_topic := t; sub_sender := c |}), true, 0)) cs.

Lemma start_thread_subscriptions t cs b :
  exit_thread b = false ->
  callbacks (start_thread (subscriptions t cs) b) !! ("energy2mqtt/" ++ t)%string =
    match callbacks b !! ("energy2mqtt/" ++ t)%string, cs with
    | None, [] => None
    | o, _ => Some (default [] o ++ cs)
    end /\ exit_thread (start_thread (subscriptions t cs) b) = false.
Proof.
  revert b. induction cs as [|c cs IH]; intros b Hx; cbn [subscriptions map start_thread].
  - split; [|done]. destruct (callbacks b !! _); [rewrite app_nil_r|]; done.
  - rewrite Hx. fold (subscriptions t cs). destruct (IH (handle_transmission true 0 (Subscribe {| sub_topic := t; sub_sender := c |}) b))
      as [-> Hx']; [exact Hx|]. split; [|exact Hx'].
    cbn. rewrite Callbacks_insert_lookup. destruct (callbacks b !! _); cbn; [by rewrite <- app_assoc|done].
Qed.

(** A list of strings with ["restart"] in it, cut at its first
    occurrence. *)
Lemma split_first_restart (l : list string) :
  In "restart"%string l -> exists pre post, l = pre ++ "restart" :: post /\ ~ In "restart"%string pre.
Proof.
  induction l as [|m l IH]; [done|]. intros [->|Hin].
  - exists [], l. split; [done|]. intros [].
  - destruct (String.eqb_spec m "restart") as [->|Hne].
    + exists [], l. split; [done|]. intros [].
    + destruct (IH Hin) as (pre & post & -> & Hn). exists (m :: pre), post. split; [done|].
      intros [->|]; [congruence|done].
Qed.

Lemma sys_step_chan f s s' : sys_step f s s' -> cmd_chan s' = cmd_chan s.
Proof. destruct 1 as [| | | |s s' E]; try done. apply (cmd_recv_effect _ _ E). Qed.

Lemma cmd_chan_reachable f c s : star (sys_step f) (Sys_init c) s -> cmd_chan s = c.
Proof.
  intros Hst. refine (star_invariant (sys_step f) (fun s => cmd_chan s = c) _ _ _ Hst eq_refl).
  intros s1 s2 H1 H12. rewrite (sys_step_chan _ _ _ H12). exact H1.
Qed.

(** Appending copies of ["restart"] to a queue: the first ["restart"]
    is at most as far in as the end of the old queue. *)
Lemma replicate_restart (old : list string) k :
  (0 < k)%nat ->
  exists pre post, old ++ replicate k "restart"%string = pre ++ "restart" :: post /\
    ~ In "restart"%string pre /\ (List.length pre <= List.length old)%nat.
Proof.
  intros Hk. destruct (in_dec string_dec "restart" old) as [Hin|Hnin].
  - destruct (split_first_restart old Hin) as (pre & post & -> & Hn).
    exists pre, (post ++ replicate k "restart"%string). rewrite <- app_assoc. split_and!; [done|done|].
    rewrite length_app. cbn. lia.
  - destruct k as [|k]; [lia|]. exists old, (replicate k "restart"%string). split_and!; [done|done|lia].
Qed.

(** ** Properties *)

(** C5: In every state the tasks can reach from the start, the callback
    table is what the specification describes: every registered topic
    carries the prefix [energy2mqtt/] and a non-empty list of delivery
    channels. *)
Corollary registry_wf_reachable f c s :
  star (sys_step f) (Sys_init c) s -> registry_wf (callbacks (br s)).
Proof. intros Hst. apply (sys_inv_reachable f c s Hst). Qed.

(** C6: Subscriptions and delivery: when channels [cs] (distinct, none
    dropped) subscribe to [t] one after the other, the table lists them
    under [energy2mqtt/t] in that order, and an inbound UTF-8 publish
    on that topic appends its payload to the queue of each of them and
    to no other queue. *)
Theorem dispatch_registration_order f b mb t cs payload :
  callbacks b !! ("energy2mqtt/" ++ t)%string = None -> exit_thread b = false ->
  cs <> [] -> NoDup cs -> (forall c, c ∈ cs -> c ∉ dropped mb) -> f payload = true ->
  let b' := start_thread (subscriptions t cs) b in
  callbacks b' !! ("energy2mqtt/" ++ t)%string = Some cs /\
  exists mb', handle_event f (IncomingPublish ("energy2mqtt/" ++ t) payload) b' mb = ROk (b', mb') /\
    forall c, queues mb' !! c =
      if decide (c ∈ cs) then Some (default [] (queues mb !! c) ++ [payload]) else queues mb !! c.
Proof.
  intros Hnone Hx Hne Hnd Hnot Hf. cbv zeta.
  destruct (start_thread_subscriptions t cs b Hx) as [Hl _]. rewrite Hnone in Hl.
  set (b' := start_thread (subscriptions t cs) b) in *.
  assert (Hcs : callbacks b' !! ("energy2mqtt/" ++ t)%string = Some cs) by (rewrite Hl; by destruct cs).
  split; [exact Hcs|].
  destruct (send_all_queues cs payload mb Hnot) as (mb' & E & _ & Hq).
  exists mb'. split; [cbn; rewrite Hf; unfold Callbacks_send; rewrite Hcs, E; done|].
  intros c. rewrite Hq. repeat case_decide; try contradiction; [|done].
  rewrite (proj1 (NoDup_count_occ' Nat.eq_dec cs) (proj1 (NoDup_ListNoDup _) Hnd) c); [done|].
  by apply list_elem_of_In.
Qed.

(** C26: Liveness of the restart command: in any reachable state where
    the command handler waits and its channel is registered under
    [energy2mqtt/mgt/command], an inbound ["restart"] on that topic is
    delivered, and the handler has returned after at most one receive
    per command queued before it. *)
Theorem restart_command_exits f c s :
  star (sys_step f) (Sys_init c) s -> cmd s = CmdWaiting -> f "restart"%string = true ->
  (exists v, callbacks (br s) !! "energy2mqtt/mgt/command"%string = Some v /\ c ∈ v) ->
  exists b' mb', handle_event f (IncomingPublish "energy2mqtt/mgt/command" "restart") (br s) (mb s) = ROk (b', mb') /\
  exists n s', (n <= S (List.length (default [] (queues (mb s) !! c))))%nat /\
    iter_opt n cmd_recv {| br := b'; mb := mb'; inbox := inbox s; cmd := cmd s; cmd_chan := cmd_chan s |} = Some s' /\
    cmd s' = CmdExited.
Proof.
  intros Hst Hw Hf (v & Hv & Hc).
  destruct (sys_inv_reachable f c s Hst) as (_ & _ & Hdr & _).
  pose proof (cmd_chan_reachable f c s Hst) as Hcc. rewrite Hw in Hdr.
  destruct (send_all_queues v "restart" (mb s)) as (mb' & E & _ & Hq); [rewrite Hdr; set_solver|].
  exists (br s), mb'. split; [cbn; rewrite Hf; unfold Callbacks_send; rewrite Hv, E; done|].
  assert (Hk : (0 < count_occ Nat.eq_dec v c)%nat)
    by (apply count_occ_In; by apply list_elem_of_In).
  destruct (replicate_restart (default [] (queues (mb s) !! c)) _ Hk) as (pre & post & Hsplit & Hnin & Hlen).
  destruct (cmd_recv_until_restart pre post
              {| br := br s; mb := mb'; inbox := inbox s; cmd := cmd s; cmd_chan := cmd_chan s |})
    as (s' & Hit & Hx & _); cbn; [done| |done|].
  - rewrite Hcc, Hq. repeat case_decide; [f_equal; exact Hsplit|set_solver].
  - exists (S (List.length pre)), s'. split_and!; [lia|done|done].
Qed.

(** C19: After the command handler has returned, its receiver is gone
    but its channel stays in the table: a second ["restart"] on
    [energy2mqtt/mgt/command] makes the event loop's [unwrap] panic. *)
Theorem restart_after_exit_panics f c s :
  star (sys_step f) (Sys_init c) s -> cmd s = CmdExited -> f "restart"%string = true ->
  (exists v, callbacks (br s) !! "energy2mqtt/mgt/command"%string = Some v /\ c ∈ v) ->
  handle_event f (IncomingPublish "energy2mqtt/mgt/command" "restart") (br s) (mb s) = RPanic UnwrapFailed.
Proof.
  intros Hst Hx Hf (v & Hv & Hc).
  destruct (sys_inv_reachable f c s Hst) as (_ & _ & Hdr & _).
  pose proof (cmd_chan_reachable f c s Hst) as Hcc. rewrite Hx, Hcc in Hdr.
  cbn. rewrite Hf. unfold Callbacks_send. rewrite Hv.
  rewrite (send_all_panic _ _ _ c Hc); [done|]. rewrite Hdr. set_solver.
Qed.

(** ** Examples *)

(** The handler on channel 7 has started and the bridge has taken its
    subscription. *)
Lemma example_run_subscribed :
  star (sys_step Iec62056.utf8_valid) (Sys_init 7%nat)
    {| br := handle_transmission true 0 (Subscribe {| sub_topic := "mgt/command"; sub_sender := 7%nat |}) Bridge_init;
       mb := {| queues := ∅; dropped := ∅ |}; inbox := [List.nth 1 (cmd_start 7%nat) (Publish {| pub_topic := ""; pub_payload := ""; pub_qos := 0; pub_retain := false |})];
       cmd := CmdWaiting; cmd_chan := 7%nat |}.
Proof.
  eapply star_step; [apply SCmdStart; reflexivity|].
  eapply star_step; [eapply (SBridge _ _ _ _ true 0); reflexivity|]. apply star_refl.
Qed.

Lemma example_subscribed_table :
  callbacks (handle_transmission true 0 (Subscribe {| sub_topic := "mgt/command"; sub_sender := 7%nat |}) Bridge_init)
    !! "energy2mqtt/mgt/command"%string = Some [7%nat].
Proof. reflexivity. Qed.

(** Witness of [registry_wf_reachable]. *)
Lemma registry_wf_reachable_witness :
  registry_wf (callbacks (handle_transmission true 0 (Subscribe {| sub_topic := "mgt/command"; sub_sender := 7%nat |})
                            Bridge_init)).
Proof. exact (registry_wf_reachable _ _ _ example_run_subscribed). Defined.

(** Witness of [dispatch_registration_order]: channels 1 then 2 on
    topic [x]; a publish reaches both. *)
Lemma dispatch_registration_order_witness :
  callbacks (start_thread (subscriptions "x" [1%nat; 2%nat]) Bridge_init) !! "energy2mqtt/x"%string = Some [1%nat; 2%nat].
Proof.
  apply (dispatch_registration_order (fun _ => true) Bridge_init {| queues := ∅; dropped := ∅ |} "x" [1%nat; 2%nat] "on");
    try reflexivity.
  - discriminate.
  - repeat constructor; set_solver.
  - intros c _. cbn. set_solver.
Defined.

(** Witness of [restart_command_exits]: after the subscription, a
    ["restart"] is delivered and one receive ends the handler. *)
Lemma restart_command_exits_witness :
  exists b' mb', handle_event Iec62056.utf8_valid (IncomingPublish "energy2mqtt/mgt/command" "restart")
      (handle_transmission true 0 (Subscribe {| sub_topic := "mgt/command"; sub_sender := 7%nat |}) Bridge_init)
      {| queues := ∅; dropped := ∅ |} = ROk (b', mb').
Proof.
  destruct (restart_command_exits _ _ _ example_run_subscribed) as (b' & mb' & E & _);
    [reflexivity|reflexivity|exists [7%nat]; split; [reflexivity|set_solver]|].
  exists b', mb'. exact E.
Defined.

(** The run goes on: the ["restart"] is delivered and received. *)
Lemma example_run_exited :
  exists s, star (sys_step Iec62056.utf8_valid) (Sys_init 7%nat) s /\ cmd s = CmdExited /\
    callbacks (br s) !! "energy2mqtt/mgt/command"%string = Some [7%nat].
Proof.
  eexists. split.
  - eapply star_snoc; [eapply star_snoc; [exact example_run_subscribed|]|].
    + eapply (SEvent _ _ (IncomingPublish "energy2mqtt/mgt/command" "restart")). vm_compute. reflexivity.
    + apply SCmdRecv. vm_compute. reflexivity.
  - split; reflexivity.
Qed.

(** Witness of [restart_after_exit_panics]. *)
Lemma restart_after_exit_panics_witness :
  exists s, star (sys_step Iec62056.utf8_valid) (Sys_init 7%nat) s /\
    handle_event Iec62056.utf8_valid (IncomingPublish "energy2mqtt/mgt/command" "restart") (br s) (mb s)
    = RPanic UnwrapFailed.
Proof.
  destruct example_run_exited as (s & Hst & Hx & Hv). exists s. split; [exact Hst|].
  apply (restart_after_exit_panics _ 7%nat s Hst Hx); [reflexivity|]. exists [7%nat]. split; [exact Hv|set_solver].
Defined.

End Bridge.
