(* ===== verification/Inputs.v ===== *)
(** The input managers of the three telegram decoders
    (metering_62056/mod.rs [Iec62056Manager], metering_oms/mod.rs
    [OmsManager], metering_sml/mod.rs [SmlManager]).  Each
    [start_thread] sends one [Transmission::Subscribe] for its input
    topic and then handles the messages of its channel in order,
    forwarding records as [Transmission::Metering]; an error is logged
    and the message dropped; a panic ends the task.  The common shape is
    the record [InputManager]; the theorems about the loop are proved
    once against it, and the IEC instance is shown never to panic on
    ASCII telegrams. *)

From S2P Require Import Prelude.
From S2P Require Import Models.
From S2P Require Import Obis.
From S2P Require Import Iec62056.
From S2P Require Import SmlValues.
From S2P Require Import Oms.
From S2P Require Import Bridge.

Module Inputs.

Import Models Obis Iec62056 Bridge.

(** ** The managers *)

(** What a manager does with one message: the records it sends, an
    error it logs, or a panic. *)
Record InputManager (E : Type) : Type := mkInputManager {
  im_topic : string;
  im_handle : string -> res E (list MeteringData)
}.

Arguments mkInputManager {E} _ _.
Arguments im_topic {E} _.
Arguments im_handle {E} _ _.

Section Loop.

Context {E : Type} (im : InputManager E).

(** [while let Some(message) = receiver.recv().await]: the
    transmissions sent for the messages, and whether a panic ended the
    task. *)
Fixpoint input_loop (msgs : list string) : list Transmission * bool :=
  match msgs with
  | [] => ([], false)
  | m :: rest =>
      match im_handle im m with
      | ROk ds => let '(out, p) := input_loop rest in (map Metering ds ++ out, p)
      | RErr _ => input_loop rest
      | RPanic _ => ([], true)
      end
  end.

(** [start_thread]: the subscription with the manager's channel, then
    the loop. *)
Definition input_run (ch : chan) (msgs : list string) : list Transmission * bool :=
  let '(out, p) := input_loop msgs in
  (Subscribe {| sub_topic := im_topic im; sub_sender := ch |} :: out, p).

End Loop.

(** [Iec62056Manager]: [parse_iec62056_telegram], a parse error logged. *)
Definition iec62056_manager : InputManager Iec62056ParseError :=
  mkInputManager "iec62056_input" (fun message => md <- parse_iec62056_telegram message ;; ROk [md]).

(** [OmsManager]: [hex::decode] and [parse_oms_telegram], as
    [oms_handle_message] does them for one message. *)
Definition oms_manager `{Oms.Aes128} (sensors : list Oms.OmsConfig) : InputManager Empty_set :=
  mkInputManager "oms_input"
    (fun c => r <- Oms.oms_handle_message sensors c ;; ROk (option_list r)).

(** [SmlManager]: [hex::decode] and [handle_sml_message]; [order] is the
    iteration order of its meter definitions and [clock] the times it
    reads. *)
Definition sml_manager `{SmlValues.F64} (order : list (string * SmlValues.MeterDefinition))
    (clock : nat -> Z) : InputManager Sml.Sml.SmlError :=
  mkInputManager "sml_input" (SmlValues.sml_input_step order clock).

(** ** Reference definitions *)

(** The messages handled before the first that panics. *)
Fixpoint until_panic {E} (im : InputManager E) (msgs : list string) : list string :=
  match msgs with
  | [] => []
  | m :: rest => match im_handle im m with RPanic _ => [] | _ => m :: until_panic im rest end
  end.

Definition panics {E} (im : InputManager E) (m : string) : bool :=
  match im_handle im m with RPanic _ => true | _ => false end.

(** The records of the messages, in order. *)
Definition records {E} (im : InputManager E) (msgs : list string) : list MeteringData :=
  flat_map (fun m => match im_handle im m with ROk ds => ds | _ => [] end) msgs.

(** Text made of ASCII bytes only. *)
Definition ascii_str (s : string) : bool := forallb (fun c => az c <? 128) (list_ascii_of_string s).

(** ** Lemmas *)

Lemma input_loop_until_panic {E} (im : InputManager E) msgs :
  input_loop im msgs = (map Metering (records im (until_panic im msgs)), existsb (panics im) msgs).
Proof.
  induction msgs as [|m rest IH]; [done|]. cbn [input_loop until_panic existsb].
  unfold panics at 1. destruct (im_handle im m) as [ds|e|q] eqn:Eh; cbn [records flat_map].
  - rewrite IH, Eh. cbn. by rewrite map_app.
  - rewrite IH, Eh. done.
  - done.
Qed.

Lemma ascii_str_cons c s : ascii_str (String c s) = (az c <? 128) && ascii_str s.
Proof. done. Qed.

Lemma ascii_utf8_ok n l :
  (List.length l <= n)%nat -> forallb (fun c => az c <? 128) l = true -> utf8_ok n l = true.
Proof.
  revert n. induction l as [|c l IH]; intros n Hn Ha; [by destruct n|].
  destruct n as [|n]; [cbn in Hn; lia|]. apply andb_true_iff in Ha as [Hc Ha].
  cbn [utf8_ok]. unfold lead_len. rewrite Hc. cbn [conts]. apply IH; [cbn in Hn; lia|done].
Qed.

Lemma length_list_ascii_of_string s : List.length (list_ascii_of_string s) = String.length s.
Proof. induction s as [|c s IH]; cbn; lia. Qed.

Lemma ascii_utf8_valid s : ascii_str s = true -> utf8_valid s = true.
Proof. intros Ha. apply ascii_utf8_ok; [by rewrite length_list_ascii_of_string|done]. Qed.

Lemma ascii_split_inclusive_nl t : ascii_str t = true -> Forall (fun p => ascii_str p = true) (split_inclusive_nl t).
Proof.
  induction t as [|c t IH]; intros Ha; [constructor|].
  rewrite ascii_str_cons in Ha. apply andb_true_iff in Ha as [Hc Ha]. cbn [split_inclusive_nl].
  destruct (Ascii.eqb c "010"%char).
  - constructor; [by rewrite ascii_str_cons, Hc|auto].
  - specialize (IH Ha). destruct (split_inclusive_nl t) as [|p ps];
      [constructor; [by rewrite ascii_str_cons, Hc|constructor]|].
    inversion IH as [|? ? Hp Hps]; subst. constructor; [by rewrite ascii_str_cons, Hc, Hp|done].
Qed.

Lemma ascii_strip_suffix_char c p l :
  ascii_str p = true -> strip_suffix_char c p = Some l -> ascii_str l = true.
Proof.
  unfold strip_suffix_char, ascii_str. intros Ha.
  destruct (rev (list_ascii_of_string p)) as [|x r] eqn:Er; [done|].
  destruct (Ascii.eqb x c); intros Hl; simplify_eq.
  rewrite list_ascii_of_string_of_list_ascii. apply forallb_forall. intros d Hd.
  rewrite forallb_forall in Ha. apply Ha. apply in_rev in Hd.
  rewrite <- (rev_involutive (list_ascii_of_string p)), Er. rewrite <- in_rev. by right.
Qed.

Lemma ascii_line_of_piece p : ascii_str p = true -> ascii_str (line_of_piece p) = true.
Proof.
  intros Ha. unfold line_of_piece.
  destruct (strip_suffix_char _ p) as [l|] eqn:E1; [|done].
  pose proof (ascii_strip_suffix_char _ _ _ Ha E1) as Hl.
  destruct (strip_suffix_char _ l) as [l'|] eqn:E2; [|done].
  exact (ascii_strip_suffix_char _ _ _ Hl E2).
Qed.

Lemma get_none_length n s : String.get n s = None -> (String.length s <= n)%nat.
Proof. revert n. induction s as [|c s IH]; intros [|n] H; cbn in *; try done; [lia|]. apply IH in H. lia. Qed.

Lemma get_some_in n s c : String.get n s = Some c -> In c (list_ascii_of_string s).
Proof. revert n. induction s as [|d s IH]; intros [|n] H; cbn in *; try done; [left; congruence|]. right. eauto. Qed.

Lemma ascii_char_boundary s n :
  ascii_str s = true -> (n <= String.length s)%nat -> is_char_boundary s n = true.
Proof.
  intros Ha Hn. unfold is_char_boundary. apply orb_true_iff. right.
  destruct (String.get n s) as [c|] eqn:Eg.
  - apply get_some_in in Eg. unfold ascii_str in Ha. rewrite forallb_forall in Ha.
    specialize (Ha c Eg). apply Z.ltb_lt in Ha. apply negb_true_iff, andb_false_iff. left.
    apply Z.leb_gt. lia.
  - apply get_none_length in Eg. apply Nat.eqb_eq. lia.
Qed.

(** The IEC 62056-21 decoder panics only inside a multi-byte
    character: never on ASCII text. *)
Lemma parse_iec62056_telegram_ascii t q :
  ascii_str t = true -> parse_iec62056_telegram t <> RPanic q.
Proof.
  intros Ha. unfold parse_iec62056_telegram, str_lines.
  pose proof (ascii_split_inclusive_nl t Ha) as Hp.
  destruct (split_inclusive_nl t) as [|p ps]; [done|]. cbn [map].
  inversion Hp as [|? ? Hp0 _]; subst. pose proof (ascii_line_of_piece p Hp0) as Hl.
  destruct (line_of_piece p) as [|c content]; [done|].
  unfold starts_with_char. destruct (Ascii.eqb c "/") eqn:Ec; [|done].
  apply Ascii.eqb_eq in Ec as ->. cbn [negb].
  unfold parse_identification_line. cbn [starts_with_char negb]. rewrite Ascii.eqb_refl. cbn [negb].
  rewrite (str_slice_after_ascii "/" content) by (done || by apply ascii_utf8_valid).
  rewrite res_bind_ok. rewrite ascii_str_cons in Hl. apply andb_true_iff in Hl as [_ Hl].
  destruct (Nat.leb_spec 3 (String.length content)); [|done].
  unfold str_slice. change (is_char_boundary content 0) with true.
  rewrite ascii_char_boundary by (done || lia). done.
Qed.

Lemma until_panic_none {E} (im : InputManager E) msgs :
  Forall (fun m => panics im m = false) msgs ->
  until_panic im msgs = msgs /\ existsb (panics im) msgs = false.
Proof.
  induction 1 as [|m msgs Hm _ [IH1 IH2]]; [done|]. cbn [until_panic existsb].
  rewrite Hm, IH2. unfold panics in Hm. destruct (im_handle im m); by rewrite ?IH1.
Qed.

Lemma iec62056_records msgs :
  records iec62056_manager msgs =
  omap (fun m => match parse_iec62056_telegram m with ROk md => Some md | _ => None end) msgs.
Proof.
  unfold records. induction msgs as [|m msgs IH]; [done|]. cbn [flat_map omap list_omap].
  rewrite IH. cbn [im_handle iec62056_manager]. destruct (parse_iec62056_telegram m); reflexivity.
Qed.

(** ** Properties *)

(** C20: Every input manager subscribes to its topic with its channel
    and then sends, in order, the records of the messages before the
    first one that panics (a message that fails is dropped); the task
    ends exactly when some message panics. *)
Theorem input_run_spec {E} (im : InputManager E) ch msgs :
  input_run im ch msgs =
    (Subscribe {| sub_topic := im_topic im; sub_sender := ch |} :: map Metering (records im (until_panic im msgs)),
     existsb (panics im) msgs).
Proof. unfold input_run. by rewrite input_loop_until_panic. Qed.

(** C21: The IEC 62056-21 manager never stops on ASCII telegrams: it
    subscribes to [iec62056_input] and forwards the record of every
    telegram that parses, in order, and nothing else. *)
Theorem iec62056_manager_ascii ch msgs :
  Forall (fun m => ascii_str m = true) msgs ->
  input_run iec62056_manager ch msgs =
    (Subscribe {| sub_topic := "iec62056_input"; sub_sender := ch |} ::
       map Metering (omap (fun m => match parse_iec62056_telegram m with ROk md => Some md | _ => None end) msgs),
     false).
Proof.
  intros Ha. unfold input_run. rewrite input_loop_until_panic, iec62056_records.
  destruct (until_panic_none iec62056_manager msgs) as [-> ->]; [|done].
  eapply Forall_impl; [exact Ha|]. intros m Hm. unfold panics. cbn [im_handle iec62056_manager].
  destruct (parse_iec62056_telegram m) as [| |q] eqn:E; [done|done|].
  by apply (parse_iec62056_telegram_ascii m q) in Hm.
Qed.

(** ** Witnesses *)

(** Witness of [iec62056_manager_ascii]: the telegram of scenario S2
    and a line of text; only the first is forwarded. *)
Lemma iec62056_manager_ascii_witness :
  Forall (fun m => ascii_str m = true) [iec_s2_telegram; "invalid telegram format"%string] /\
  input_run iec62056_manager 7%nat [iec_s2_telegram; "invalid telegram format"%string] =
    (Subscribe {| sub_topic := "iec62056_input"; sub_sender := 7%nat |} ::
       map Metering (omap (fun m => match parse_iec62056_telegram m with ROk md => Some md | _ => None end)
                          [iec_s2_telegram; "invalid telegram format"%string]), false).
Proof.
  assert (H : Forall (fun m => ascii_str m = true) [iec_s2_telegram; "invalid telegram format"%string])
    by (repeat constructor).
  split; [exact H | exact (iec62056_manager_ascii 7%nat _ H)].
Defined.

End Inputs.
