(* ===== verification/Supervisor.v ===== *)
(** The Modbus supervisor ([ModbusManger::start_thread],
    metering_modbus/mod.rs) and the wait loop the Victron manager copies
    from it (metering_victron/mod.rs).  The supervisor parks until a
    configuration change wakes it, reads the [modbus] section, sends one
    discovery record per device through the bridge, sets up and spawns
    one task per hub, publishes the device count, and restarts
    everything on the next change of its section.  It is a step
    function on its own state: each step is one [recv] on the
    configuration-change channel or one spawn round; the hub tasks it
    spawns are the [Modbus] hubs, kept until they are aborted. *)

From S2P Require Import Prelude.
From S2P Require Import Models.
From S2P Require Import HaInterface.
From S2P Require Import Modbus.
From S2P Require Import Config.
From S2P Require Import Bridge.

Module Supervisor.

Import Models HaInterface Config Bridge.

Section Supervisor.

Context `{Modbus.F32} `{!Modbus.ExprEval}.

(** [registers::get_registers] of a meter model: registers,
    manufacturer, model. *)
Context (get_registers : string -> list Modbus.Register * string * string).

Definition regs_of (model : string) : list Modbus.Register := fst (fst (get_registers model)).

(** The descriptor fields a register gives its discovery component:
    platform, name, device class, unit, state class. *)
Definition reg_fields (reg : Modbus.Register) : HAPlatform * string * string * string * string :=
  match reg with
  | Modbus.Template r => (Modbus.tpl_platform r, Modbus.tpl_name r, Modbus.tpl_device_class r,
                          Modbus.tpl_unit_of_measurement r, Modbus.tpl_state_class r)
  | Modbus.Modbus r => (Modbus.platform r, Modbus.name r, Modbus.device_class r,
                        Modbus.unit_of_measurement r, Modbus.state_class r)
  end.

(** [format!("{:?}", DeviceProtocol::ModbusTCP)], the protocol tag of
    every Modbus discovery record. *)
Definition modbus_tag : string := DeviceProtocol_debug ModbusTCP.

(** The discovery record of one device: one component per register,
    inserted under the register's name. *)
Definition device_discovery (dev : Modbus.ModbusDeviceConfig) : HaDiscover :=
  let '(regs, manu, model) := get_registers (Modbus.meter dev) in
  fold_left (fun d reg =>
      let '(platform, nm, device_class, unit_of_measurement, state_class) := reg_fields reg in
      let cmp := HaComponent_new platform (Modbus.dev_name dev) device_class unit_of_measurement
                   modbus_tag nm state_class in
      insert_cmp nm (jobj (HaComponent_to_value cmp)) d)
    regs (HaDiscover_new (Modbus.dev_name dev) manu model modbus_tag).

(** [u32] addition as a release build does it. *)
Definition u32_add (a b : Z) : Z := (a + b) mod 2 ^ 32.

(** One round of the outer loop up to the wait: for every hub, the
    discovery records of its devices (sent while its devices are
    built), then its set-up, which panics on a zero interval; at the
    end the device count. *)
Fixpoint spawn_hubs (hs : list Modbus.ModbusHubConfig) (count : Z)
    : res Empty_set (list (Modbus.ModbusHub * Z) * list Transmission * Z) :=
  match hs with
  | [] => ROk ([], [], count)
  | hc :: rest =>
      let count' := u32_add count (Z.of_nat (List.length (Modbus.devices hc))) in
      let discs := map (fun dev => AutoDiscovery (device_discovery dev)) (Modbus.devices hc) in
      hub <- Modbus.setup_hub regs_of hc ;;
      '(hubs, out, n) <- spawn_hubs rest count' ;;
      ROk (hub :: hubs, discs ++ out, n)
  end.

Definition spawn_round (h : ConfigHolder) : res Empty_set (list (Modbus.ModbusHub * Z) * list Transmission) :=
  cfg <- get_config_or_panic "modbus" sel_modbus h ;;
  '(hs, out, n) <- spawn_hubs (hubs cfg) 0 ;;
  ROk (hs, out ++ [publish_protocol_count "modbus" n]).

Inductive SupPhase : Type := WaitFirst | Spawn | Running.

(** The supervisor: its phase, its receiver, the hub tasks alive, and
    the transmissions it has sent. *)
Record SupState : Type := mkSupState {
  phase : SupPhase;
  rx : nat;
  threads : list (Modbus.ModbusHub * Z);
  sent_out : list Transmission
}.

(** [ModbusManger::new] and the test at the top of [start_thread]: with
    no hub configured it parks first. *)
Definition sup_init (h : ConfigHolder) : res Empty_set SupState :=
  cfg <- get_config_or_panic "modbus" sel_modbus h ;;
  ROk {| phase := if hubs cfg is [] then WaitFirst else Spawn; rx := get_change_receiver h;
         threads := []; sent_out := [] |}.

(** The first wait: only [ADD] of [base] wakes it.  The Modbus manager
    waits for ["modbus"]; the Victron manager waits for ["modbus"] as
    well. *)
Definition wakes_first (wanted : string) (c : ConfigChange) : bool :=
  bool_decide (operation c = ADD) && String.eqb (base c) wanted.

(** The wait loop of [VictronManager::start_thread], copied from the
    Modbus manager with its section name. *)
Definition victron_wakes (c : ConfigChange) : bool := wakes_first "modbus" c.

(** One step of [start_thread]: [None] while it waits for a change. *)
Definition sup_step (h : ConfigHolder) (s : SupState) : option (res Empty_set SupState) :=
  match phase s with
  | WaitFirst =>
      match recv h (rx s) with
      | None => None
      | Some (RErr _, _) => Some (RPanic UnwrapFailed)
      | Some (ROk c, rx') =>
          Some (ROk {| phase := if wakes_first "modbus" c then Spawn else WaitFirst; rx := rx';
                       threads := threads s; sent_out := sent_out s |})
      | Some (RPanic p, _) => Some (RPanic p)
      end
  | Spawn =>
      Some ('(hubs, out) <- spawn_round h ;;
            ROk {| phase := Running; rx := rx s; threads := hubs; sent_out := sent_out s ++ out |})
  | Running =>
      match recv h (rx s) with
      | None => None
      | Some (RErr _, _) => Some (RPanic UnwrapFailed)
      | Some (ROk c, rx') =>
          if String.eqb (base c) "modbus"
          then Some (ROk {| phase := Spawn; rx := rx'; threads := []; sent_out := sent_out s |})
          else Some (ROk {| phase := Running; rx := rx'; threads := threads s; sent_out := sent_out s |})
      | Some (RPanic p, _) => Some (RPanic p)
      end
  end.

(** [n] steps, stopping when the supervisor waits or panics. *)
Fixpoint sup_run (n : nat) (h : ConfigHolder) (s : SupState) : res Empty_set SupState :=
  match n with
  | O => ROk s
  | S n' =>
      match sup_step h s with
      | None => ROk s
      | Some (ROk s') => sup_run n' h s'
      | Some r => r
      end
  end.

(** ** Lemmas *)

Definition is_modbus_change (c : ConfigChange) : bool := String.eqb (base c) "modbus".

Section Converge.

Context (h : ConfigHolder) (hs : list (Modbus.ModbusHub * Z)) (out : list Transmission).
Hypothesis Hspawn : spawn_round h = ROk (hs, out).

(** From the running phase with [k] pending changes, [2k] steps read
    them all; every change of ["modbus"] restarts the hubs from the
    configuration. *)
Lemma sup_run_running k :
  forall s f, phase s = Running -> (rx s + k = List.length (sent h))%nat -> (k <= 128)%nat -> (2 * k <= f)%nat ->
  exists s', sup_run f h s = ROk s' /\ phase s' = Running /\ rx s' = List.length (sent h) /\
    threads s' = if existsb is_modbus_change (drop (rx s) (sent h)) then hs else threads s.
Proof.
  induction k as [|k IH]; intros s f Hp Hr Hk Hf.
  - rewrite Nat.add_0_r in Hr. exists s. rewrite Hr, drop_all. split_and!; try done.
    destruct f; [done|]. cbn [sup_run]. unfold sup_step. rewrite Hp, Hr, recv_end. done.
  - destruct (lookup_lt_is_Some_2 (sent h) (rx s)) as [c Hc]; [lia|].
    rewrite (drop_S _ _ _ Hc). cbn [existsb].
    destruct f as [|f]; [lia|]. cbn [sup_run]. unfold sup_step at 1. rewrite Hp, (recv_next h (rx s) c); [|lia|done].
    unfold is_modbus_change at 1. destruct (String.eqb (base c) "modbus").
    + destruct f as [|f]; [lia|]. cbn [sup_run]. unfold sup_step at 1. cbn [phase]. rewrite Hspawn. cbn.
      edestruct (IH {| phase := Running; rx := S (rx s); threads := hs; sent_out := sent_out s ++ out |} f)
        as (s' & E & ? & ? & Ht); cbn; [done|lia|lia|lia|].
      exists s'. split_and!; [done|done|done|]. rewrite Ht. by destruct existsb.
    + edestruct (IH {| phase := Running; rx := S (rx s); threads := threads s; sent_out := sent_out s |} f)
        as (s' & E & ? & ? & Ht); cbn; [done|lia|lia|lia|].
      exists s'. split_and!; done.
Qed.

End Converge.

Lemma device_discovery_topics dev :
  discover_topic (device_discovery dev) =
    ("homeassistant/device/e2m_ModbusTCP-" ++ Modbus.dev_name dev ++ "/config")%string /\
  state_topic (device_discovery dev) = ("energy2mqtt/devs/ModbusTCP/" ++ Modbus.dev_name dev)%string.
Proof.
  unfold device_discovery. destruct (get_registers (Modbus.meter dev)) as [[regs manu] model].
  assert (Hinv : forall d, discover_topic (fold_left (fun d reg =>
      let '(platform, nm, device_class, unit_of_measurement, state_class) := reg_fields reg in
      insert_cmp nm (jobj (HaComponent_to_value (HaComponent_new platform (Modbus.dev_name dev) device_class
        unit_of_measurement modbus_tag nm state_class))) d) regs d) = discover_topic d /\
      state_topic (fold_left (fun d reg =>
      let '(platform, nm, device_class, unit_of_measurement, state_class) := reg_fields reg in
      insert_cmp nm (jobj (HaComponent_to_value (HaComponent_new platform (Modbus.dev_name dev) device_class
        unit_of_measurement modbus_tag nm state_class))) d) regs d) = state_topic d).
  { induction regs as [|r regs IH]; intros d; [done|]. cbn [fold_left].
    destruct (reg_fields r) as [[[[? ?] ?] ?] ?]. rewrite !(proj1 (IH _)), !(proj2 (IH _)). done. }
  rewrite !(proj1 (Hinv _)), !(proj2 (Hinv _)). split; reflexivity.
Qed.

Lemma read_device_registers_ids ts_id ts d a md :
  Modbus.read_device_registers ts_id ts d a = ROk md ->
  Models.meter_name md = Modbus.dev_name (Modbus.config d) /\ Models.protocol md = ModbusTCP.
Proof.
  unfold Modbus.read_device_registers. destruct a as [msg|responses]; [discriminate|].
  destruct (Modbus.read_physical _ _ _) as [[vals context]| |]; cbn; try discriminate.
  intros [= <-]. split; reflexivity.
Qed.

(** ** Properties *)

(** C8: The supervisor refines the restart policy of the specification:
    from its running phase, with at most 128 changes pending, it reads
    them all in [2k] steps and ends running again, with the hub tasks
    set up from the current [modbus] section when one of the changes
    was about ["modbus"], and with its hub tasks untouched otherwise. *)
Theorem supervisor_restarts h hs out s :
  spawn_round h = ROk (hs, out) -> phase s = Running ->
  (rx s <= List.length (sent h))%nat -> (List.length (sent h) - rx s <= 128)%nat ->
  exists s', sup_run (2 * (List.length (sent h) - rx s)) h s = ROk s' /\ phase s' = Running /\
    rx s' = List.length (sent h) /\
    threads s' = if existsb is_modbus_change (drop (rx s) (sent h)) then hs else threads s.
Proof. intros Hsp Hp Hr Hk. apply (sup_run_running h hs out Hsp (List.length (sent h) - rx s)); first [exact Hp | lia]. Qed.

(** A supervisor more than 128 changes behind panics: tokio reports
    the lag as [Err(Lagged)] and [recv().await.unwrap()] aborts, where
    the specification has the receiver observe a gap. *)
Theorem supervisor_lag_panics h s :
  phase s <> Spawn -> (rx s < List.length (sent h))%nat -> (128 < List.length (sent h) - rx s)%nat ->
  sup_step h s = Some (RPanic UnwrapFailed).
Proof.
  intros Hp Hlt Hk. destruct (recv_lag h (rx s) Hlt Hk) as (e & r & E).
  unfold sup_step. destruct (phase s); [| done |]; rewrite E; reflexivity.
Qed.

(** C28: The first wait wakes the supervisor only for [ADD] on
    ["modbus"] (a [CHANGE] or [DELETE] of the section leaves it
    parked), and the Victron manager's copy of the loop waits for
    ["modbus"] too, so an [ADD] of ["victron"] never wakes it. *)
Theorem wait_first_wakes h s c :
  phase s = WaitFirst -> (List.length (sent h) - rx s <= 128)%nat -> sent h !! rx s = Some c ->
  (exists s', sup_step h s = Some (ROk s') /\ rx s' = S (rx s) /\
     (phase s' = Spawn <-> operation c = ADD /\ base c = "modbus"%string)) /\
  (base c = "victron"%string -> victron_wakes c = false).
Proof.
  intros Hp Hk Hc. split.
  - unfold sup_step. rewrite Hp, (recv_next h (rx s) c Hk Hc). eexists. split_and!; [done|done|]. cbn.
    unfold wakes_first.
    destruct (bool_decide_reflect (operation c = ADD)) as [Ha|Ha], (String.eqb_spec (base c) "modbus") as [Hb|Hb];
      cbn; split; intros H'; try done; destruct H'; contradiction.
  - intros Hb. unfold victron_wakes, wakes_first. rewrite Hb. by rewrite andb_false_r.
Qed.

(** Discovery and data agree: the discovery record the supervisor
    builds for a device is published retained on
    [homeassistant/device/e2m_ModbusTCP-<name>/config], and the values
    of every record read from that device are published on the state
    topic the discovery record names. *)
Theorem discovery_matches_data_topic ts_id ts d a md ok ok' now now' b :
  Modbus.read_device_registers ts_id ts d a = ROk md ->
  let disc := device_discovery (Modbus.config d) in
  let b2 := handle_transmission ok' now' (Metering md) (handle_transmission ok now (AutoDiscovery disc) b) in
  In (ReqPublish ("homeassistant/device/e2m_ModbusTCP-" ++ Modbus.dev_name (Modbus.config d) ++ "/config")
        AtLeastOnce true (PJson (HaDiscover_to_value disc))) (requests b2) /\
  In (ReqPublish (state_topic disc) AtLeastOnce false (PJson (jobj (metered_values md)))) (requests b2).
Proof.
  intros E disc b2. destruct (read_device_registers_ids _ _ _ _ _ E) as [Hn Hp].
  destruct (device_discovery_topics (Modbus.config d)) as [Hd Hs]. subst disc b2. cbn.
  rewrite Hd, Hs, Hn, Hp. split; apply in_app_iff; [left; apply in_app_iff; right; left; done|].
  right. right. left. reflexivity.
Qed.

End Supervisor.

(** ** Examples *)

#[local] Existing Instance Modbus.decimal_f32.
#[local] Existing Instance Modbus.var_eval.

(** Every meter model has no register file: no registers, the
    manufacturer [acme], the model [m1]. *)
Definition example_registers (model : string) : list Modbus.Register * string * string := ([], "acme", "m1").

(** The example holder after the HTTP API added the two-device hub. *)
Definition example_supervised : ConfigHolder :=
  update_config ADD (Modbus {| hubs := [Modbus.cadence_example_hub] |}) example_holder.

Definition example_running : SupState := {| phase := Running; rx := 0; threads := []; sent_out := [] |}.

(** Witness of [supervisor_restarts]: the [ADD] of the hub restarts
    the hub tasks in two steps. *)
Lemma supervisor_restarts_witness :
  exists hs out, spawn_round example_registers example_supervised = ROk (hs, out) /\
  exists s', sup_run example_registers 2 example_supervised example_running = ROk s' /\ threads s' = hs.
Proof.
  assert (Hc : match spawn_round example_registers example_supervised with ROk _ => True | _ => False end)
    by (vm_compute; exact I).
  destruct (spawn_round example_registers example_supervised) as [[hs out]| |] eqn:E;
    [|contradiction|contradiction].
  exists hs, out. split; [reflexivity|].
  destruct (supervisor_restarts example_registers example_supervised hs out example_running E)
    as (s' & Hr & _ & _ & Ht); [reflexivity|cbn; lia|cbn; lia|].
  exists s'. split; [exact Hr|]. rewrite Ht. reflexivity.
Defined.

(** Witness of [supervisor_lag_panics]: 130 pending changes. *)
Lemma supervisor_lag_panics_witness :
  let h := {| config := config example_holder; dirty := true; base_path := "";
              sent := repeat {| operation := CHANGE; base := "mqtt" |} 130 |} in
  sup_step example_registers h example_running = Some (RPanic UnwrapFailed).
Proof. apply supervisor_lag_panics; cbn; [discriminate|lia|lia]. Defined.

(** Witness of [wait_first_wakes]: the [ADD] of ["modbus"] wakes the
    parked supervisor. *)
Lemma wait_first_wakes_witness :
  exists s', sup_step example_registers example_supervised
               {| phase := WaitFirst; rx := 0; threads := []; sent_out := [] |} = Some (ROk s') /\
             phase s' = Spawn.
Proof.
  destruct (wait_first_wakes example_registers example_supervised
              {| phase := WaitFirst; rx := 0; threads := []; sent_out := [] |}
              {| operation := ADD; base := "modbus" |}) as [(s' & E & _ & Hs) _];
    [reflexivity|cbn; lia|reflexivity|].
  exists s'. split; [exact E|]. apply Hs. split; reflexivity.
Defined.

Definition example_device : Modbus.ModbusDevice :=
  {| Modbus.config := {| Modbus.dev_name := "meter1"; Modbus.meter := "m1"; Modbus.slave_id := 1;
                         Modbus.read_interval := 60 |};
     Modbus.waits_till_read := 1; Modbus.cur_waits := 0; Modbus.registers := [] |}.

(** Witness of [discovery_matches_data_topic]: a device without
    registers, read once. *)
Lemma discovery_matches_data_topic_witness :
  exists md, Modbus.read_device_registers 0 0 example_device (Modbus.Connected []) = ROk md /\
  In (ReqPublish "energy2mqtt/devs/ModbusTCP/meter1" AtLeastOnce false (PJson (jobj (metered_values md))))
     (requests (handle_transmission true 0 (Metering md)
        (handle_transmission true 0 (AutoDiscovery (device_discovery example_registers (Modbus.config example_device)))
           Bridge_init))).
Proof.
  eexists. split; [reflexivity|].
  apply (discovery_matches_data_topic example_registers 0 0 example_device (Modbus.Connected [])); reflexivity.
Defined.

End Supervisor.
