(* ===== verification/Victron.v ===== *)
(** The Victron integration (metering_victron/mod.rs and utils.rs): the
    shared state [VictronData] of one GX connection (its portal id, the
    topics to re-read, and the map from subscribed topics to their last
    payload), the helpers of utils.rs that subscribe, request and poll
    a topic, the event loop that stores incoming payloads, the data
    task that turns the stored payloads into a [MeteringData], and the
    configuration-change loop of [VictronManager::start_thread].

    [serde_json::from_str] is the parameter [parse_json]; the clock
    [get_unix_ts()] is the parameter [now]; the broker client is the
    log of its [Request]s, as in [Bridge]. *)

From S2P Require Import Prelude.
From S2P Require Import Models.
From S2P Require Import HaInterface.
From S2P Require Import Obis.
From S2P Require Import Modbus.
From S2P Require Import Config.
From S2P Require Import Bridge.
From S2P Require Import Supervisor.

Module Victron.

Import Models HaInterface Config Bridge.
Import Obis(split_char, contains_char, split_char_app, split_char_nochar).

(** ** String helpers *)

Fixpoint str_drop (n : nat) (s : string) : string :=
  match n, s with
  | O, _ => s
  | S n', String _ s' => str_drop n' s'
  | S _, EmptyString => EmptyString
  end.

(** [str::replacen(pat, to, 1)]: the first occurrence replaced. *)
Fixpoint replace_first (pat rep s : string) : string :=
  if String.prefix pat s then (rep ++ str_drop (String.length pat) s)%string
  else match s with
       | EmptyString => EmptyString
       | String c s' => String c (replace_first pat rep s')
       end.

(** [str::ends_with]. *)
Definition str_ends_with (s suf : string) : bool :=
  let n := String.length s in let m := String.length suf in
  (m <=? n)%nat && String.eqb (substring (n - m) m s) suf.

(** ** [Topic] and [VictronData] (mod.rs) *)

Record Topic : Type := mkTopic { payload : string; updated : Z; json_key : string; need_read : bool }.

Definition Topic_new (now : Z) (p : string) : Topic :=
  {| payload := p; updated := now; json_key := ""; need_read := true |}.
Definition Topic_new_with_key (now : Z) (p key : string) : Topic :=
  {| payload := p; updated := now; json_key := key; need_read := true |}.
Definition Topic_create_from (now : Z) (old : Topic) (p : string) : Topic :=
  {| payload := p; updated := now; json_key := json_key old; need_read := true |}.
Definition Topic_empty : Topic := {| payload := ""; updated := 0; json_key := ""; need_read := true |}.

Record VictronData : Type := mkVictronData {
  portal_id : string; read_topics : list string; topic_mapping : gmap string (option Topic);
  vconf : VictronConfig
}.

Definition VictronData_new (c : VictronConfig) : VictronData :=
  {| portal_id := ""; read_topics := []; topic_mapping := ∅; vconf := c |}.

Definition set_portal (p : string) (d : VictronData) : VictronData :=
  {| portal_id := p; read_topics := read_topics d; topic_mapping := topic_mapping d; vconf := vconf d |}.

Definition with_mapping (m : gmap string (option Topic)) (d : VictronData) : VictronData :=
  {| portal_id := portal_id d; read_topics := read_topics d; topic_mapping := m; vconf := vconf d |}.

(** [add_read_topic]: [N/] becomes [R/] once; a topic already listed is
    not added again. *)
Definition add_read_topic (topic : string) (d : VictronData) : VictronData :=
  let t := replace_first "N/" "R/" topic in
  if existsb (String.eqb t) (read_topics d) then d
  else {| portal_id := portal_id d; read_topics := read_topics d ++ [t];
          topic_mapping := topic_mapping d; vconf := vconf d |}.

(** ** utils.rs *)

(** [set_topic]: subscribe to a key not yet in the map, then map it. *)
Definition set_topic (key : string) (t : option Topic) (d : VictronData) : VictronData * list Request :=
  let rq := match topic_mapping d !! key with
            | None => [ReqSubscribe key AtLeastOnce]
            | Some _ => []
            end in
  (with_mapping (<[key := t]> (topic_mapping d)) d, rq).

Definition get_topic (key : string) (d : VictronData) : option Topic :=
  match topic_mapping d !! key with Some (Some t) => Some t | _ => None end.

(** [Value::get("value")] on an object: serde keeps the last binding
    of a repeated key; any other value has no field. *)
Definition json_get (k : string) (v : json) : option json :=
  match v with JObj kv => assoc_lookup k (rev kv) | _ => None end.

(** [Value::as_u64] and [Value::as_str]. *)
Definition as_u64 (v : json) : option Z :=
  match v with JInt z => if (0 <=? z) && (z <? 2 ^ 64) then Some z else None | _ => None end.
Definition as_str (v : json) : option string := match v with JStr s => Some s | _ => None end.

Section Values.

Context (parse_json : string -> option json).

Definition victron_value_to_u64 (value : string) (dflt : Z) : Z :=
  match parse_json value with
  | None => dflt
  | Some v => match json_get "value" v with Some v => default dflt (as_u64 v) | None => dflt end
  end.

Definition victron_value_to_string (value : string) (dflt : string) : string :=
  match parse_json value with
  | None => dflt
  | Some v => match json_get "value" v with Some v => default dflt (as_str v) | None => dflt end
  end.

Definition victron_value_to_value (value : string) (dflt : json) : json :=
  match parse_json value with
  | None => dflt
  | Some v => match json_get "value" v with Some v => v | None => dflt end
  end.

End Values.

(** The wait of [read_topic_*]: each of the 501 polls ([0..=500])
    assigns [res] and stops at a topic with a payload; [polls] are the
    results of [get_topic] at each poll. *)
Fixpoint poll_loop (polls : list (option Topic)) (res : option Topic) : option Topic :=
  match polls with
  | [] => res
  | o :: polls' =>
      match o with
      | Some t => if String.eqb (payload t) "" then poll_loop polls' o else o
      | None => poll_loop polls' o
      end
  end.

Definition READ_POLLS : nat := 501.

(** [read_topic_u64]/[read_topic_string]/[read_topic_value], with the
    conversion [conv] as parameter: map the topic with an empty
    payload and the key, request it on [R/...] ([replacen("N", "R", 1)]),
    poll, and convert a non-empty payload. *)
Definition read_topic {A} (conv : string -> A) (now : Z) (topic key : string)
    (polls : list (option Topic)) (d : VictronData) : VictronData * list Request * option A :=
  let '(d1, rq) := set_topic topic (Some (Topic_new_with_key now "" key)) d in
  let rq' := rq ++ [ReqPublish (replace_first "N" "R" topic) AtLeastOnce false (PText "")] in
  let res := poll_loop (firstn READ_POLLS polls) None in
  (d1, rq', match res with
            | None => None
            | Some t => if String.eqb (payload t) "" then None else Some (conv (payload t))
            end).

(** ** The event loop (mod.rs, [start_thread], the task per connection) *)

Inductive VEvent : Type := VPublish (topic payload : string) | VConnAck | VSubAck | VOther.

(** An incoming publish: [from_utf8(..).unwrap()]; an empty payload is
    ignored; a [.../system/0/Serial] topic sets the portal id to its
    second segment; a mapped topic gets the payload. *)
Definition victron_on_publish (now : Z) (topic pl : string) (d : VictronData) : VictronData :=
  if String.eqb pl "" then d else
  let d1 := if str_ends_with topic "/system/0/Serial"
            then let parts := split_char "/" topic in
                 if (2 <? List.length parts)%nat then set_portal (nth 1 parts "") d else d
            else d in
  match topic_mapping d1 !! topic with
  | Some old =>
      let tdata := match old with Some o => Topic_create_from now o pl | None => Topic_new now pl end in
      with_mapping (<[topic := Some tdata]> (topic_mapping d1)) d1
  | None => d1
  end.

Definition SERIAL_WILDCARD : string := "N/+/system/0/Serial".

(** On [ConnAck]: the wildcard, then every mapped topic again. *)
Definition victron_on_connack (d : VictronData) : list Request :=
  ReqSubscribe SERIAL_WILDCARD AtLeastOnce :: map (fun k => ReqSubscribe k AtLeastOnce) (map fst (map_to_list (topic_mapping d))).

Definition victron_event (utf8_ok : string -> bool) (now : Z) (e : VEvent) (d : VictronData)
    : res Empty_set (VictronData * list Request) :=
  match e with
  | VPublish topic pl => if utf8_ok pl then ROk (victron_on_publish now topic pl d, []) else RPanic UnwrapFailed
  | VConnAck => ROk (d, victron_on_connack d)
  | VSubAck | VOther => ROk (d, [])
  end.

(** ** The data task: one reading (mod.rs 276-330) *)

Section Reading.

Context (parse_json : string -> option json).

(** The value an entry contributes: mapped, a key not starting with
    [_], a payload that parses and has a [value] field. *)
Definition entry_value (e : string * option Topic) : option (string * json) :=
  match snd e with
  | None => None
  | Some t =>
      if String.prefix "_" (json_key t) then None
      else match parse_json (payload t) with
           | None => None
           | Some v => option_map (fun x => (json_key t, x)) (json_get "value" v)
           end
  end.

(** The loop over the copied map, in the map's iteration order [es]. *)
Fixpoint reading_values (es : list (string * option Topic)) (acc : jmap) : jmap :=
  match es with
  | [] => acc
  | e :: es' =>
      match entry_value e with
      | Some (k, x) => reading_values es' (<[k := x]> acc)
      | None => reading_values es' acc
      end
  end.

(** The request of every topic to re-read, one second each. *)
Definition read_requests (d : VictronData) : list Request * Z :=
  (map (fun t => ReqPublish t AtLeastOnce false (PText "")) (read_topics d), Z.of_nat (List.length (read_topics d))).

(** The record sent: name, protocol, id, times, values; [es] is the
    iteration order of the [HashMap]. *)
Definition victron_reading (now : Z) (es : list (string * option Topic)) (d : VictronData) : MeteringData :=
  let c := vconf d in
  {| Models.id := Modbus.get_id "victron" (victron_name c) now; Models.meter_name := victron_name c;
     Models.tenant := ""; Models.protocol := Models.Victron; Models.transmission_time := now;
     Models.transmission_type := Now; Models.metered_time := now; Models.metered_values := reading_values es ∅ |}.

End Reading.

(** ** [VictronManager] (mod.rs 105-358) *)

(** The tasks a spawn round starts per enabled connection: the event
    loop and the data task, both on the configuration they were built
    from. *)
Inductive VTask : Type := VEventLoop (c : VictronConfig) | VDataTask (c : VictronConfig).

Definition task_conf (t : VTask) : VictronConfig := match t with VEventLoop c | VDataTask c => c end.

Inductive VicPhase : Type := VWaitFirst | VSpawn | VRunning.

(** The manager: its phase, its receiver, its tasks, the configuration
    it read in [new], the transmissions it sent and the requests of the
    clients it created (each with its broker). *)
Record VicState : Type := mkVicState {
  vphase : VicPhase; vrx : nat; vthreads : list VTask; vconfig : list VictronConfig;
  vout : list Transmission; vreqs : list (string * Z * Request)
}.

(** [VictronManager::new]: the [victron] section and a new receiver;
    [start_thread] begins with the empty-configuration wait. *)
Definition vic_new (h : ConfigHolder) : res Empty_set VicState :=
  cfg <- get_config_or_panic "victron" sel_victron h ;;
  ROk {| vphase := if bool_decide (cfg = []) then VWaitFirst else VSpawn; vrx := get_change_receiver h;
         vthreads := []; vconfig := cfg; vout := []; vreqs := [] |}.

(** One connection per enabled configuration, in order: the client's
    wildcard subscription and the two tasks. *)
Fixpoint vic_spawn (cs : list VictronConfig) : Z * list VTask * list (string * Z * Request) :=
  match cs with
  | [] => (0, [], [])
  | c :: cs' =>
      let '(n, ts, rqs) := vic_spawn cs' in
      if victron_enabled c
      then (n + 1, [VEventLoop c; VDataTask c] ++ ts,
            (broker_host c, broker_port c, ReqSubscribe SERIAL_WILDCARD AtLeastOnce) :: rqs)
      else (n, ts, rqs)
  end.

Definition vic_step (h : ConfigHolder) (s : VicState) : option (res Empty_set VicState) :=
  match vphase s with
  | VWaitFirst =>
      match recv h (vrx s) with
      | None => None
      | Some (ROk c, rx') =>
          Some (ROk {| vphase := if Supervisor.victron_wakes c then VSpawn else VWaitFirst; vrx := rx';
                       vthreads := vthreads s; vconfig := vconfig s; vout := vout s; vreqs := vreqs s |})
      | Some (_, _) => Some (RPanic UnwrapFailed)
      end
  | VSpawn =>
      let '(n, ts, rqs) := vic_spawn (vconfig s) in
      Some (ROk {| vphase := VRunning; vrx := vrx s; vthreads := vthreads s ++ ts; vconfig := vconfig s;
                   vout := vout s ++ [publish_protocol_count "victron" n]; vreqs := vreqs s ++ rqs |})
  | VRunning =>
      match recv h (vrx s) with
      | None => None
      | Some (ROk c, rx') =>
          if String.eqb (base c) "victron"
          then Some (ROk {| vphase := VSpawn; vrx := rx'; vthreads := []; vconfig := vconfig s;
                            vout := vout s; vreqs := vreqs s |})
          else Some (ROk {| vphase := VRunning; vrx := rx'; vthreads := vthreads s; vconfig := vconfig s;
                            vout := vout s; vreqs := vreqs s |})
      | Some (_, _) => Some (RPanic UnwrapFailed)
      end
  end.

(** The steps that succeed. *)
Definition vic_rel (h : ConfigHolder) (s s' : VicState) : Prop := vic_step h s = Some (ROk s').

(** ** Lemmas *)

Lemma get_config_or_panic_victron h : get_config_or_panic "victron" sel_victron h = ROk (victron (config h)).
Proof. reflexivity. Qed.

Lemma substring_app_len_r (s1 s2 : string) m :
  substring (String.length s1) m (s1 ++ s2) = substring 0 m s2.
Proof. induction s1 as [|c s1 IH]; [done|]. exact IH. Qed.

Lemma str_ends_with_app (s suf : string) : str_ends_with (s ++ suf) suf = true.
Proof.
  unfold str_ends_with. rewrite str_length_app, Nat.add_sub.
  rewrite substring_app_len_r, substring_0_length, String.eqb_refl, andb_true_r.
  apply Nat.leb_le. lia.
Qed.

(** The topic on which a GX device announces its serial number. *)
Lemma split_serial_topic p :
  contains_char "/" p = false ->
  split_char "/" ("N/" ++ p ++ "/system/0/Serial") = ["N"; p; "system"; "0"; "Serial"]%string.
Proof.
  intros Hp.
  change ("N/" ++ p ++ "/system/0/Serial")%string with
    ("N" ++ String "/" (p ++ String "/" ("system" ++ String "/" ("0" ++ String "/" "Serial"))))%string.
  rewrite !split_char_app, split_char_nochar by done. reflexivity.
Qed.

Lemma vic_spawn_tasks cs t :
  t ∈ snd (fst (vic_spawn cs)) -> task_conf t ∈ cs /\ victron_enabled (task_conf t) = true.
Proof.
  induction cs as [|c cs IH]; cbn; [set_solver|].
  destruct (vic_spawn cs) as [[n ts] rqs]. cbn in IH.
  destruct (victron_enabled c) eqn:E; cbn; intros Hin.
  - rewrite !elem_of_cons in Hin. destruct Hin as [->|[->|Hin]]; cbn; [set_solver|set_solver|].
    destruct (IH Hin). set_solver.
  - destruct (IH Hin). set_solver.
Qed.

Lemma vic_spawn_reqs cs x :
  x ∈ snd (vic_spawn cs) ->
  exists c, c ∈ cs /\ victron_enabled c = true /\ x = (broker_host c, broker_port c, ReqSubscribe SERIAL_WILDCARD AtLeastOnce).
Proof.
  induction cs as [|c cs IH]; cbn; [set_solver|].
  destruct (vic_spawn cs) as [[n ts] rqs]. cbn in IH.
  destruct (victron_enabled c) eqn:E; cbn; intros Hin.
  - apply elem_of_cons in Hin as [->|Hin]; [exists c; set_solver|].
    destruct (IH Hin) as (c' & ? & ? & ->). exists c'. set_solver.
  - destruct (IH Hin) as (c' & ? & ? & ->). exists c'. set_solver.
Qed.

(** What the manager holds is derived from the configuration [cfg] it
    read in [new]. *)
Definition vic_inv (cfg : list VictronConfig) (s : VicState) : Prop :=
  vconfig s = cfg /\
  (forall t, t ∈ vthreads s -> task_conf t ∈ cfg /\ victron_enabled (task_conf t) = true) /\
  (forall x, x ∈ vreqs s -> exists c, c ∈ cfg /\ victron_enabled c = true /\
                                x = (broker_host c, broker_port c, ReqSubscribe SERIAL_WILDCARD AtLeastOnce)).

Lemma vic_step_inv cfg h s s' : vic_inv cfg s -> vic_rel h s s' -> vic_inv cfg s'.
Proof.
  unfold vic_rel, vic_step. intros (Hc & Ht & Hr) Hs.
  destruct (vphase s).
  - destruct (recv h (vrx s)) as [[[c| |] rx']|]; inversion Hs; subst; cbn; done.
  - destruct (vic_spawn (vconfig s)) as [[n ts] rqs] eqn:E. inversion Hs; subst; cbn.
    split_and!; [done| |].
    + intros t Hin. apply elem_of_app in Hin as [Hin|Hin]; [auto|].
      pose proof (vic_spawn_tasks (vconfig s) t) as Hsp. rewrite E in Hsp. auto.
    + intros x Hin. apply elem_of_app in Hin as [Hin|Hin]; [auto|].
      pose proof (vic_spawn_reqs (vconfig s) x) as Hsp. rewrite E in Hsp. auto.
  - destruct (recv h (vrx s)) as [[[c| |] rx']|]; try discriminate.
    destruct (String.eqb (base c) "victron"); inversion Hs; subst; cbn; [|done].
    split_and!; [done|set_solver|done].
Qed.

Lemma vic_inv_reachable h0 h s0 s :
  vic_new h0 = ROk s0 -> star (vic_rel h) s0 s -> vic_inv (victron (config h0)) s.
Proof.
  unfold vic_new. rewrite get_config_or_panic_victron. cbn. intros [= <-] Hst.
  refine (star_invariant _ _ _ _ _ Hst _); [intros; eapply vic_step_inv; eauto|].
  cbn. split_and!; [done|set_solver|set_solver].
Qed.

(** The first non-empty payload among the polls. *)
Fixpoint first_nonempty (polls : list (option Topic)) : option string :=
  match polls with
  | [] => None
  | Some t :: ps => if String.eqb (payload t) "" then first_nonempty ps else Some (payload t)
  | None :: ps => first_nonempty ps
  end.

Lemma poll_loop_first polls r :
  (forall t, r = Some t -> payload t = ""%string) ->
  match poll_loop polls r with
  | None => None
  | Some t => if String.eqb (payload t) "" then None else Some (payload t)
  end = first_nonempty polls.
Proof.
  revert r. induction polls as [|[t|] ps IH]; intros r Hr; cbn.
  - destruct r as [t|]; [by rewrite (Hr t eq_refl)|done].
  - destruct (String.eqb_spec (payload t) "") as [He|He].
    + apply IH. by intros ? [= <-].
    + by destruct (String.eqb_spec (payload t) "").
  - apply IH. done.
Qed.

Section ReadingLemmas.

Context (parse_json : string -> option json).

Lemma reading_values_fold es acc :
  reading_values parse_json es acc =
    fold_left (fun m kx => <[kx.1 := kx.2]> m) (omap (entry_value parse_json) es) acc.
Proof.
  revert acc. induction es as [|e es IH]; intros acc; [done|]. cbn.
  destruct (entry_value parse_json e) as [[k x]|]; cbn; apply IH.
Qed.

(** The loop is [list_to_map] of the valid entries, the last one first. *)
Lemma reading_values_list_to_map es :
  reading_values parse_json es ∅ = list_to_map (rev (omap (entry_value parse_json) es)).
Proof. rewrite reading_values_fold. unfold list_to_map. by rewrite fold_left_rev_right. Qed.

Lemma entry_value_some e k x :
  entry_value parse_json e = Some (k, x) -> exists t, snd e = Some t /\ json_key t = k.
Proof.
  destruct e as [tp [t|]]; cbn; [|discriminate].
  destruct (String.prefix "_" (json_key t)); [discriminate|].
  destruct (parse_json (payload t)); [|discriminate].
  destruct (json_get "value" j); cbn; [intros [= <- _]; eauto|discriminate].
Qed.

(** What [entry_value] keeps, condition by condition (mod.rs 303-321). *)
Lemma entry_value_spec tp t k x :
  entry_value parse_json (tp, Some t) = Some (k, x) <->
  json_key t = k /\ String.prefix "_" k = false /\
  exists v, parse_json (payload t) = Some v /\ json_get "value" v = Some x.
Proof.
  unfold entry_value. cbn [snd]. destruct (String.prefix "_" (json_key t)) eqn:Ep.
  - split; [discriminate|]. intros (<- & Hp & _). congruence.
  - destruct (parse_json (payload t)) as [v|] eqn:Ev.
    + destruct (json_get "value" v) as [y|] eqn:Ey; cbn.
      * split; [intros [= <- <-]; eauto|]. intros (<- & _ & v' & [= <-] & Hy). congruence.
      * split; [discriminate|]. intros (_ & _ & v' & [= <-] & Hy). congruence.
    + split; [discriminate|]. intros (_ & _ & v' & H & _). discriminate.
Qed.

(** Distinct topics whose json keys are distinct give distinct keys
    to the valid entries. *)
Lemma entry_keys_nodup (l : list (string * option Topic)) :
  NoDup l.*1 ->
  (forall tp1 tp2 t1 t2, (tp1, Some t1) ∈ l -> (tp2, Some t2) ∈ l -> json_key t1 = json_key t2 -> tp1 = tp2) ->
  NoDup (omap (entry_value parse_json) l).*1.
Proof.
  induction l as [|[tp o] l IH]; intros Hnd Hinj; [constructor|].
  cbn [fmap list_fmap fst] in Hnd. apply NoDup_cons in Hnd as [Hnin Hnd].
  assert (IH' : NoDup (omap (entry_value parse_json) l).*1).
  { apply IH; [done|]. intros tp1 tp2 t1 t2 H1 H2. apply Hinj; set_solver. }
  cbn [omap list_omap]. destruct (entry_value parse_json (tp, o)) as [[k x]|] eqn:E; [|done].
  cbn [fmap list_fmap fst]. constructor; [|done].
  intros Hin. apply list_elem_of_fmap in Hin as ([k' x'] & Hk & Hin). cbn in Hk. subst k'.
  apply list_elem_of_omap in Hin as ([tp' o'] & Hin & E').
  destruct (entry_value_some _ _ _ E) as (t & Ho & Hkt). destruct (entry_value_some _ _ _ E') as (t' & Ho' & Hkt').
  cbn in Ho, Ho'. subst o o'. assert (tp = tp') as <- by (apply (Hinj tp tp' t t'); set_solver).
  apply Hnin. apply list_elem_of_fmap. by exists (tp, Some t').
Qed.

End ReadingLemmas.

(** Distinct json keys of a concrete map, checked by a boolean test. *)
Lemma mapping_keys_inj_check (m : gmap string (option Topic)) :
  forallb (fun e1 => forallb (fun e2 =>
      match e1.2, e2.2 with
      | Some t1, Some t2 => negb (String.eqb (json_key t1) (json_key t2)) || String.eqb e1.1 e2.1
      | _, _ => true
      end) (map_to_list m)) (map_to_list m) = true ->
  forall tp1 tp2 t1 t2, m !! tp1 = Some (Some t1) -> m !! tp2 = Some (Some t2) ->
    json_key t1 = json_key t2 -> tp1 = tp2.
Proof.
  intros Hb tp1 tp2 t1 t2 H1 H2 Hk. apply elem_of_map_to_list, list_elem_of_In in H1, H2.
  rewrite forallb_forall in Hb. specialize (Hb _ H1). rewrite forallb_forall in Hb.
  specialize (Hb _ H2). cbn in Hb. rewrite Hk, String.eqb_refl in Hb. cbn in Hb.
  by apply String.eqb_eq.
Qed.

(** The event loop changes the map only at the topic received. *)
Lemma victron_on_publish_mapping_ne now topic pl d k :
  k <> topic -> topic_mapping (victron_on_publish now topic pl d) !! k = topic_mapping d !! k.
Proof.
  intros Hk. unfold victron_on_publish. destruct (String.eqb pl ""); [done|].
  destruct (str_ends_with topic _); [destruct (_ <? _)%nat|]; cbn;
    (destruct (topic_mapping d !! topic); cbn; [by rewrite lookup_insert_ne|done]).
Qed.

(** A mapped topic gets the payload and keeps its key. *)
Lemma victron_on_publish_get now topic pl d o :
  pl <> ""%string -> topic_mapping d !! topic = Some (Some o) ->
  get_topic topic (victron_on_publish now topic pl d) = Some (Topic_create_from now o pl).
Proof.
  intros Hpl Ho. unfold victron_on_publish. rewrite (proj2 (String.eqb_neq pl "") Hpl).
  destruct (str_ends_with topic _); [destruct (_ <? _)%nat|]; cbn; rewrite Ho;
    unfold get_topic; cbn; by rewrite lookup_insert_eq.
Qed.

Lemma victron_on_publish_empty now topic d : victron_on_publish now topic "" d = d.
Proof. reflexivity. Qed.

Lemma first_nonempty_repeat_empty t n : payload t = ""%string -> first_nonempty (repeat (Some t) n) = None.
Proof. intros Ht. induction n as [|n IH]; cbn; [done|]. by rewrite Ht. Qed.

(** What [read_topic] returns, in terms of the first non-empty poll. *)
Lemma read_result {A} (conv : string -> A) polls :
  match poll_loop polls None with
  | None => None
  | Some t => if String.eqb (payload t) "" then None else Some (conv (payload t))
  end = option_map conv (first_nonempty polls).
Proof.
  pose proof (poll_loop_first polls None ltac:(discriminate)) as H.
  destruct (poll_loop polls None) as [t|]; rewrite <- H; [|done].
  by destruct (String.eqb (payload t) "").
Qed.

(** ** Properties *)

(** C9: The Victron manager never reloads its configuration: in every
    state reachable from [VictronManager::new], whatever changes are
    broadcast and whatever the holder's [victron] section has become,
    the configuration is the one read at start-up, and every task it
    runs and every broker connection it opened belongs to an enabled
    entry of that start-up configuration. *)
Theorem victron_config_never_reloaded h0 h s0 s :
  vic_new h0 = ROk s0 -> star (vic_rel h) s0 s ->
  vconfig s = victron (config h0) /\
  (forall t, t ∈ vthreads s -> task_conf t ∈ victron (config h0) /\ victron_enabled (task_conf t) = true) /\
  (forall x, x ∈ vreqs s -> exists c, c ∈ victron (config h0) /\ victron_enabled c = true /\ x.1.1 = broker_host c).
Proof.
  intros Hn Hst. destruct (vic_inv_reachable h0 h s0 s Hn Hst) as (Hc & Ht & Hr).
  split_and!; [done|done|]. intros x Hx. destruct (Hr x Hx) as (c & ? & ? & ->). eauto.
Qed.

(** C18: A serial-number publish [N/<id>/system/0/Serial] with a
    non-empty payload, [<id>] without [/], sets the portal id to [<id>];
    if the topic is mapped it then holds the payload with the key it
    had, and an unmapped topic leaves the map unchanged. *)
Theorem victron_serial_sets_portal now p pl d :
  pl <> ""%string -> contains_char "/" p = false ->
  let topic := ("N/" ++ p ++ "/system/0/Serial")%string in
  let d' := victron_on_publish now topic pl d in
  portal_id d' = p /\
  (forall old, topic_mapping d !! topic = Some (Some old) ->
     get_topic topic d' = Some (Topic_create_from now old pl) /\ json_key (Topic_create_from now old pl) = json_key old) /\
  (topic_mapping d !! topic = None -> topic_mapping d' = topic_mapping d).
Proof.
  intros Hpl Hp topic d'. subst d'. unfold victron_on_publish.
  rewrite (proj2 (String.eqb_neq pl "") Hpl).
  assert (He : str_ends_with topic "/system/0/Serial" = true).
  { subst topic. rewrite <- str_app_assoc. apply str_ends_with_app. }
  rewrite He. subst topic. rewrite (split_serial_topic p Hp). cbn [List.length nth Nat.ltb Nat.leb].
  split_and!.
  - destruct (topic_mapping (set_portal p d) !! _) as [[o|]|]; reflexivity.
  - intros old Hold. cbn. rewrite Hold. unfold get_topic. cbn. by rewrite lookup_insert_eq.
  - intros Hn. cbn. by rewrite Hn.
Qed.

(** C10: A reading holds, under key [k], the [value] field [x] of the
    payload of a mapped topic exactly when some topic is mapped to a
    [Topic] whose json key is [k], [k] does not start with [_], and the
    payload parses to JSON with [value] field [x]; this holds whatever
    order the [HashMap] iterates in, provided distinct mapped topics
    have distinct json keys.  Unmapped topics, [_] keys, payloads that
    do not parse and documents without [value] contribute nothing. *)
Theorem victron_reading_values parse_json now es d k x :
  es ≡ₚ map_to_list (topic_mapping d) ->
  (forall tp1 tp2 t1 t2, topic_mapping d !! tp1 = Some (Some t1) -> topic_mapping d !! tp2 = Some (Some t2) ->
     json_key t1 = json_key t2 -> tp1 = tp2) ->
  metered_values (victron_reading parse_json now es d) !! k = Some x <->
  exists topic t v, topic_mapping d !! topic = Some (Some t) /\ json_key t = k /\
    String.prefix "_" k = false /\ parse_json (payload t) = Some v /\ json_get "value" v = Some x.
Proof.
  intros Hperm Hinj. cbn [metered_values victron_reading].
  rewrite reading_values_list_to_map, <- elem_of_list_to_map.
  2:{ rewrite <- Permutation_rev, Hperm. apply entry_keys_nodup; [apply NoDup_fst_map_to_list|].
      intros tp1 tp2 t1 t2 H1 H2. apply elem_of_map_to_list in H1, H2. eauto. }
  rewrite list_elem_of_In, <- in_rev, <- list_elem_of_In, list_elem_of_omap.
  split.
  - intros ([tp o] & Hin & He). rewrite Hperm, elem_of_map_to_list in Hin.
    destruct (entry_value_some _ _ _ _ He) as (t & Ho & _). cbn in Ho. subst o.
    apply entry_value_spec in He as (Hk & Hp & v & Hv & Hx). eauto 10.
  - intros (tp & t & v & Hm & Hk & Hp & Hv & Hx). exists (tp, Some t). split.
    + by rewrite Hperm, elem_of_map_to_list.
    + apply entry_value_spec. eauto.
Qed.

(** C31: [read_topic_*] maps the topic to an empty payload under its
    key, subscribes when the topic was not mapped, requests it on its
    [R/] twin, and returns the conversion of the first non-empty
    payload among its first 501 polls (five seconds), [None] when none
    of them has one. *)
Theorem read_topic_spec {A} (conv : string -> A) now topic key polls d :
  let '(d', rq, r) := read_topic conv now topic key polls d in
  topic_mapping d' = <[topic := Some (Topic_new_with_key now "" key)]> (topic_mapping d) /\
  rq = match topic_mapping d !! topic with None => [ReqSubscribe topic AtLeastOnce] | Some _ => [] end ++
       [ReqPublish (replace_first "N" "R" topic) AtLeastOnce false (PText "")] /\
  r = option_map conv (first_nonempty (firstn READ_POLLS polls)).
Proof.
  unfold read_topic, set_topic. cbn [fst snd]. split_and!; [done|done|].
  apply read_result.
Qed.

(** ** Examples and witnesses *)

Definition example_vc : VictronConfig :=
  {| victron_name := "gx"; victron_client_name := "energy2mqtt"; broker_host := "10.0.0.5";
     broker_port := 1883; update_interval := 10; victron_enabled := true |}.

(** The example holder after a Victron connection was added. *)
Definition example_vholder : ConfigHolder := update_config ADD (Victron [example_vc]) example_holder.

(** The manager starts with that configuration and spawns its two tasks. *)
Lemma example_vic_run :
  exists s0 s1, vic_new example_vholder = ROk s0 /\ star (vic_rel example_vholder) s0 s1 /\
    vthreads s1 = [VEventLoop example_vc; VDataTask example_vc].
Proof.
  eexists _, _. split; [reflexivity|]. split.
  - eapply star_step; [reflexivity|apply star_refl].
  - reflexivity.
Qed.

(** Witness of [victron_config_never_reloaded]. *)
Lemma victron_config_never_reloaded_witness :
  example_vc ∈ victron (config example_vholder) /\ victron_enabled example_vc = true.
Proof.
  destruct example_vic_run as (s0 & s1 & Hn & Hst & Ht).
  destruct (victron_config_never_reloaded _ _ _ _ Hn Hst) as (_ & Htk & _).
  apply (Htk (VEventLoop example_vc)). rewrite Ht. left.
Defined.

Definition example_vdata : VictronData :=
  with_mapping {[ "N/abc/system/0/Serial" := Some (Topic_new_with_key 0 "" "portal_id") ]}
    (VictronData_new example_vc).

(** Witness of [victron_serial_sets_portal]: portal [abc]. *)
Lemma victron_serial_sets_portal_witness :
  portal_id (victron_on_publish 5 "N/abc/system/0/Serial" "serial" example_vdata) = "abc"%string.
Proof. exact (proj1 (victron_serial_sets_portal 5 "abc" "serial" example_vdata ltac:(discriminate) eq_refl)). Defined.

(** A JSON reader that knows one document, [{value: 87}]. *)
Definition example_parse (s : string) : option json :=
  if String.eqb s "soc87" then Some (JObj [("value", JInt 87)]) else None.

Definition example_mapping : gmap string (option Topic) :=
  {[ "N/abc/battery/1/Soc" := Some (Topic_new_with_key 0 "soc87" "battery_0_soc");
     "N/abc/system/0/VebusInstance" := Some (Topic_new_with_key 0 "soc87" "_vebus_instance");
     "N/abc/system/0/Serial" := None ]}.

(** Witness of [victron_reading_values]: only the state of charge is
    reported; the [_] key and the unmapped topic are not. *)
Lemma victron_reading_values_witness :
  metered_values (victron_reading example_parse 0 (map_to_list example_mapping)
                    (with_mapping example_mapping example_vdata)) !! "battery_0_soc"%string = Some (JInt 87).
Proof.
  apply (victron_reading_values example_parse 0 _ (with_mapping example_mapping example_vdata)); [done| |].
  - apply mapping_keys_inj_check. vm_compute. reflexivity.
  - exists "N/abc/battery/1/Soc"%string, (Topic_new_with_key 0 "soc87" "battery_0_soc"),
      (JObj [("value", JInt 87)]). split_and!; reflexivity.
Defined.

End Victron.
