(* ===== verification/VictronDetect.v ===== *)
(** The initial detection of a Victron GX installation
    (metering_victron/detect.rs, [run_initial_detection]): AC meters,
    batteries and the VE.Bus system are discovered by reading topics of
    the GX device, and one discovery record per device is sent to the
    bridge.

    The detection is a computation in the monad [Det]: the shared
    [VictronData], the requests of the broker client and the
    transmissions sent are its state, and a Rust panic is [RPanic].
    Each [read_topic_*] of utils.rs is [read_topic] of [Victron] with
    the GX device as the oracle [gx]: the payload it publishes on a
    topic after the [R/] request ([None]: no answer), which the event
    loop ([victron_on_publish]) stores while the read polls, within its
    five seconds.  The repeated blocks of detect.rs (read a value, build
    a component, insert it) are one [sensor_step] applied to tables
    that list, block by block, what the code writes. *)

From S2P Require Import Prelude.
From S2P Require Import Models.
From S2P Require Import HaInterface.
From S2P Require Import Config.
From S2P Require Import Bridge.
From S2P Require Import Victron.

Module VictronDetect.

Import Models HaInterface Config Bridge Victron.

(** ** The detection monad *)

Record DetState : Type := mkDetState { dd : VictronData; dreqs : list Request; dsent : list Transmission }.

Definition Det (A : Type) : Type := DetState -> res Empty_set (A * DetState).

Definition dret {A} (a : A) : Det A := fun st => ROk (a, st).

Definition dbind {A B} (m : Det A) (k : A -> Det B) : Det B :=
  fun st => match m st with
            | ROk (a, st') => k a st'
            | RErr e => RErr e
            | RPanic p => RPanic p
            end.

Declare Scope det_scope.
Delimit Scope det_scope with det.
Notation "x <~ m ;; k" := (dbind m (fun x => k))
  (at level 100, m at next level, right associativity) : det_scope.
Notation "m ;;~ k" := (dbind m (fun _ => k)) (at level 100, right associativity) : det_scope.
#[local] Open Scope det_scope.

Definition dget : Det DetState := fun st => ROk (st, st).
Definition dpanic {A} : Det A := fun _ => RPanic UnwrapFailed.
Definition dmodify (f : VictronData -> VictronData) : Det unit :=
  fun st => ROk (tt, {| dd := f (dd st); dreqs := dreqs st; dsent := dsent st |}).
Definition drequest (rq : list Request) : Det unit :=
  fun st => ROk (tt, {| dd := dd st; dreqs := dreqs st ++ rq; dsent := dsent st |}).
(** [sender.send(..).await]: the transmission is queued to the bridge. *)
Definition dsend (t : Transmission) : Det unit :=
  fun st => ROk (tt, {| dd := dd st; dreqs := dreqs st; dsent := dsent st ++ [t] |}).

(** [for x in l { body }]. *)
Fixpoint dfor {A} (l : list A) (body : A -> Det unit) : Det unit :=
  match l with
  | [] => dret tt
  | x :: l' => body x ;;~ dfor l' body
  end.

(** [Value != 0] for serde's [PartialEq<i32>]: [value.as_i64() ==
    Some(0)] fails for everything but an integer equal to zero; a float
    ([as_i64] is [None]), even [0.0], compares unequal. *)
Definition json_ne_zero (v : json) : bool :=
  match v with JInt z => negb (z =? 0) | _ => true end.

(** The UTF-8 encoding of the unit [°C]. *)
Definition deg_C : string := String (ascii_of_nat 194) (String (ascii_of_nat 176) "C").

(** One block of detect.rs: the topic read, its json key, the key of
    the component in [disc.cmps], and the component. *)
Record SensorSpec : Type := mkSensorSpec {
  s_topic : string; s_json_key : string; s_key : string; s_cmp : HaComponent
}.

Definition sensor_json (sp : SensorSpec) : json := jobj (HaComponent_to_value (s_cmp sp)).

(** [format!("e2m_victron_{devname}_{json_key}")]. *)
Definition victron_uid (devname jk : string) : string := "e2m_victron_" ++ devname ++ "_" ++ jk.

(** A block whose component is [new_full_sensor] with the usual id. *)
Definition full (devname topic jk dn name cls unit : string) : SensorSpec :=
  mkSensorSpec topic jk dn (new_full_sensor name cls unit jk dn (victron_uid devname jk)).

(** The four blocks of an AC meter (detect.rs 107-171); the reverse
    energy's id has [_meter] before its key. *)
Definition meter_sensors (devname meter_base serial : string) : list SensorSpec :=
  let jk x := ("meter_" ++ serial ++ "_" ++ x)%string in
  [full devname (meter_base ++ "/Ac/Energy/Forward") (jk "energy_positive") "energy_positive"
        "Total Energy positive" "energy" "kWh";
   mkSensorSpec (meter_base ++ "/Ac/Energy/Reverse") (jk "energy_negative") "energy_negative"
     (new_full_sensor "Total Energy negative" "energy" "kWh" (jk "energy_negative") "energy_negative"
        ("e2m_victron_" ++ devname ++ "_meter" ++ jk "energy_negative"));
   full devname (meter_base ++ "/Ac/Frequency") (jk "frequency") "frequency" "Grid Frequency" "frequency" "Hz";
   full devname (meter_base ++ "/Ac/Power") (jk "power") "power" "Grid Power" "power" "W"].

(** The five blocks of phase [p] (detect.rs 173-253). *)
Definition phase_sensors (devname meter_base serial : string) (p : Z) : list SensorSpec :=
  let ps := fmt_dec p in
  let jk x := ("meter_" ++ serial ++ "_p" ++ ps ++ "_" ++ x)%string in
  let tp x := (meter_base ++ "/Ac/L" ++ ps ++ x)%string in
  [full devname (tp "/Energy/Forward") (jk "energy_positive") ("energy_positive_p" ++ ps)
        ("P" ++ ps ++ " Energy positive") "energy" "kWh";
   full devname (tp "/Energy/Reverse") (jk "energy_negative") ("energy_negative_p" ++ ps)
        ("P" ++ ps ++ " Energy negative") "energy" "kWh";
   full devname (tp "/Voltage") (jk "voltage") ("voltage_p" ++ ps) ("P" ++ ps ++ " Voltage") "voltage" "V";
   full devname (tp "/Current") (jk "current") ("current_p" ++ ps) ("P" ++ ps ++ " Current") "current" "A";
   full devname (tp "/Power") (jk "power") ("power_p" ++ ps) ("P" ++ ps ++ " Power") "power" "W"].

(** The blocks of battery [b] (detect.rs 308-400). *)
Definition battery_sensors (devname base_topic : string) (b : Z) : list SensorSpec :=
  let bs := fmt_dec b in
  let jk x := ("battery_" ++ bs ++ "_" ++ x)%string in
  [mkSensorSpec (base_topic ++ "/Soc") (jk "soc") "soc"
     (new_percent "soc" "battery" "victron" "State of Charge" (jk "soc"));
   mkSensorSpec (base_topic ++ "/Soh") (jk "soh") "soh"
     (new_percent "soh" "battery" "victron" "State of Health" (jk "soh"));
   full devname (base_topic ++ "/Dc/0/Voltage") (jk "voltage") ("voltage_battery_" ++ bs) "Voltage" "voltage" "V";
   full devname (base_topic ++ "/Dc/0/Power") (jk "power") ("power_battery_" ++ bs) "Power" "power" "W";
   full devname (base_topic ++ "/Dc/0/Current") (jk "current") ("current_battery_" ++ bs) "Current" "current" "A";
   full devname (base_topic ++ "/Dc/0/Temperature") (jk "temp") ("temperature_battery_" ++ bs)
        "Temperature" "temperature" deg_C].

(** The extra blocks of a Pylontech battery (detect.rs 403-478). *)
Definition pylon_sensors (devname base_topic : string) (b : Z) : list SensorSpec :=
  let bs := fmt_dec b in
  let jk x := ("battery_" ++ bs ++ "_" ++ x)%string in
  [full devname (base_topic ++ "/System/MinCellTemperature") (jk "min_temp_cell")
        ("temperature_battery_" ++ bs ++ "_cell_min") "Minimal Cell Temperature" "temperature" deg_C;
   full devname (base_topic ++ "/System/MaxCellTemperature") (jk "max_temp_cell")
        ("temperature_battery_" ++ bs ++ "_cell_max") "Maximal Cell Temperature" "temperature" deg_C;
   full devname (base_topic ++ "/System/MinCellVoltage") (jk "min_voltage_cell")
        ("voltage_battery_" ++ bs ++ "_cell_min") "Minimal Cell Voltage" "voltage" "V";
   full devname (base_topic ++ "/System/MaxCellVoltage") (jk "max_voltage_cell")
        ("voltage_battery_" ++ bs ++ "_cell_max") "Maximal Cell Cell Voltage" "voltage" "V"].

(** The ten energy blocks of the VE.Bus system (detect.rs 526-695). *)
Definition vebus_sensors (devname base_topic : string) (di : Z) : list SensorSpec :=
  let ds := fmt_dec di in
  map (fun '(x, tp, name) =>
         full devname (base_topic ++ tp) ("vebus" ++ ds ++ "_energy_" ++ x) ("energy_vebus" ++ ds ++ "_" ++ x)
              name "energy" "kWh")
    [("inv_acin1", "/Energy/InverterToAcIn1", "Inverter to AC-IN 1");
     ("inv_acin2", "/Energy/InverterToAcIn2", "Inverter to AC-IN 2");
     ("out_inv", "/Energy/OutToInverter", "AC-Out to Inverter");
     ("inv_out", "/Energy/InverterToAcOut", "Inverter to AC-Out");
     ("acin1_inv", "/Energy/AcIn1ToInverter", "AC-IN1 to Inverter");
     ("acin2_inv", "/Energy/AcIn2ToInverter", "AC-IN2 to Inverter");
     ("acout_acin1", "/Energy/AcOutToAcIn1", "AC-Out to AC-IN1");
     ("acout_acin2", "/Energy/AcOutToAcIn2", "AC-Out to AC-IN2");
     ("acin1_acout", "/Energy/AcIn1ToAcOut", "AC-IN1 to AC-Out");
     ("acin2_acout", "/Energy/AcIn2ToAcOut", "AC-IN2 to AC-Out")]%string.

Section Detect.

Context (parse_json : string -> option json) (now : Z) (gx : string -> option string).

(** The GX device answers on [topic]; the event loop stores it. *)
Definition gx_deliver (topic : string) (d : VictronData) : VictronData :=
  match gx topic with Some p => victron_on_publish now topic p d | None => d end.

(** [read_topic_*] with the GX device answering within the polls. *)
Definition gx_read {A} (conv : string -> A) (topic key : string) : Det (option A) := fun st =>
  let d1 := fst (set_topic topic (Some (Topic_new_with_key now "" key)) (dd st)) in
  let d2 := gx_deliver topic d1 in
  let '(_, rq, r) := read_topic conv now topic key (repeat (get_topic topic d2) READ_POLLS) (dd st) in
  ROk (r, {| dd := d2; dreqs := dreqs st ++ rq; dsent := dsent st |}).

Definition read_u64 (topic key : string) : Det (option Z) :=
  gx_read (fun p => victron_value_to_u64 parse_json p 0) topic key.
Definition read_string (topic key : string) : Det (option string) :=
  gx_read (fun p => victron_value_to_string parse_json p "") topic key.
Definition read_value (topic key : string) : Det (option json) :=
  gx_read (fun p => victron_value_to_value parse_json p JNull) topic key.

(** Read the block's value (the result is dropped, [let _ =]) and
    insert its component. *)
Definition sensor_step (disc : HaDiscover) (sp : SensorSpec) : Det HaDiscover :=
  read_u64 (s_topic sp) (s_json_key sp) ;;~ dret (insert_cmp (s_key sp) (sensor_json sp) disc).

Fixpoint sensors (disc : HaDiscover) (sps : list SensorSpec) : Det HaDiscover :=
  match sps with
  | [] => dret disc
  | sp :: sps' => disc' <~ sensor_step disc sp ;; sensors disc' sps'
  end.

(** AC meter [i] (detect.rs 45-256): service, connection and instance
    guards, the re-read topic, serial, product, phases, the blocks and
    the discovery record. *)
Definition meter_step (devname portal : string) (i : Z) : Det unit :=
  let istr := fmt_dec i in
  let base_topic := ("N/" ++ portal ++ "/system/0/Ac/In/" ++ istr)%string in
  service <~ read_string (base_topic ++ "/ServiceType") ("meter_" ++ istr ++ "_service") ;;
  let service := default "" service in
  if String.eqb service "" then dret tt else
  connected <~ read_u64 (base_topic ++ "/Connected") ("meter_" ++ istr ++ "_connected") ;;
  if negb (default 0 connected =? 1) then dret tt else
  di <~ read_u64 (base_topic ++ "/DeviceInstance") ("meter_" ++ istr ++ "_deviceInstance") ;;
  if default 0 di =? 0 then dret tt else
  let meter_base := ("N/" ++ portal ++ "/" ++ service ++ "/" ++ fmt_dec (default 0 di))%string in
  dmodify (add_read_topic (meter_base ++ "/")) ;;~
  serial <~ read_string (meter_base ++ "/Serial") ("meter_" ++ istr ++ "_serial") ;;
  let serial := safe_name (to_lowercase (default ("Unknown Serial " ++ istr)%string serial)) in
  productname <~ read_string (meter_base ++ "/ProductName") ("meter_" ++ serial ++ "_productname") ;;
  read_string (meter_base ++ "/HardwareVersion") ("meter_" ++ serial ++ "_hardware_version") ;;~
  nr_phases <~ read_u64 (meter_base ++ "/NrOfPhases") ("meter_" ++ serial ++ "_nr_phases") ;;
  let disc := new_with_topic_from_name (devname ++ "_meter" ++ istr) "Victron" (default "unknown" productname)
                "Victron" devname in
  disc <~ sensors disc (meter_sensors devname meter_base serial) ;;
  disc <~ sensors disc (flat_map (fun p => phase_sensors devname meter_base serial (Z.of_nat p))
                                 (seq 1 (Z.to_nat (default 0 nr_phases)))) ;;
  dsend (AutoDiscovery disc).

(** Battery [b] of the [Batteries] array (detect.rs 273-481). *)
Definition battery_step (devname portal : string) (b : nat) (battery : json) : Det unit :=
  match battery with
  | JObj _ =>
      let bs := fmt_dec (Z.of_nat b) in
      let instance := match json_get "instance" battery with Some d => default 0 (as_u64 d) | None => 0 end in
      let base_topic := ("N/" ++ portal ++ "/battery/" ++ fmt_dec instance)%string in
      dmodify (add_read_topic (base_topic ++ "/")) ;;~
      productname <~ read_string (base_topic ++ "/ProductName") ("battery_" ++ bs ++ "_productname") ;;
      manufacturer <~ read_string (base_topic ++ "/Manufacturer") ("battery_" ++ bs ++ "_manufacturer") ;;
      let manufacturer := default "unknown" manufacturer in
      let disc := new_with_topic_from_name (devname ++ "_battery" ++ bs) manufacturer
                    (default "unknown" productname) "Victron" devname in
      disc <~ sensors disc (battery_sensors devname base_topic (Z.of_nat b)) ;;
      disc <~ (if String.eqb manufacturer "PYLON" then sensors disc (pylon_sensors devname base_topic (Z.of_nat b))
               else dret disc) ;;
      dsend (AutoDiscovery disc)
  | _ => dret tt
  end.

(** The VE.Bus system of instance [di] (detect.rs 489-710). *)
Definition vebus_step (devname portal : string) (di : Z) : Det unit :=
  let ds := fmt_dec di in
  let base_topic := ("N/" ++ portal ++ "/vebus/" ++ ds)%string in
  dmodify (add_read_topic (base_topic ++ "/")) ;;~
  productname <~ read_string (base_topic ++ "/ProductName") ("vebus_" ++ ds ++ "_productname") ;;
  let disc := new_with_topic_from_name (devname ++ "_vebus_" ++ ds) "Victron Energy"
                (default "unknown" productname) "Victron" devname in
  read_u64 (base_topic ++ "/Devices/NumberOfMultis") ("vebus_" ++ ds ++ "_nr_of_multis") ;;~
  disc <~ sensors disc (vebus_sensors devname base_topic di) ;;
  dsend (AutoDiscovery disc).

(** The battery part of the detection, from the [Batteries] read to the
    end: [d.as_array().unwrap()], the loop, the VE.Bus instance and the
    [d != 0] test. *)
Definition batteries_and_vebus (devname portal : string) : Det bool :=
  d <~ read_value ("N/" ++ portal ++ "/system/0/Batteries") "_system_batteries" ;;
  let d := default JNull d in
  arr <~ (match d with JArr l => dret l | _ => dpanic end) ;;
  dfor (seq 0 (List.length arr)) (fun b => battery_step devname portal b (nth b arr JNull)) ;;~
  device_instance <~ read_u64 ("N/" ++ portal ++ "/system/0/VebusInstance") "_vebus_instance" ;;
  (if json_ne_zero d then vebus_step devname portal (default 0 device_instance) else dret tt) ;;~
  dret true.

(** The start of the detection (detect.rs 17-263): the portal's serial
    topic is mapped to the portal id under [portal_id], then the AC
    meters are read. *)
Definition meters_part (devname portal : string) : Det unit :=
  let serial_topic := ("N/" ++ portal ++ "/system/0/Serial")%string in
  (fun st => let '(d', rq) := set_topic serial_topic (Some (Topic_new_with_key now portal "portal_id")) (dd st) in
             ROk (tt, {| dd := d'; dreqs := dreqs st ++ rq; dsent := dsent st |})) ;;~
  meter_c <~ read_u64 ("N/" ++ portal ++ "/system/0/Ac/In/NumberOfAcInputs") "ac_meter_count" ;;
  match meter_c with
  | Some meter_count => dfor (seq 0 (Z.to_nat meter_count)) (fun i => meter_step devname portal (Z.of_nat i))
  | None => dret tt
  end.

(** [run_initial_detection]: the name and portal are read once. *)
Definition run_initial_detection : Det bool :=
  st <~ dget ;;
  let devname := victron_name (vconf (dd st)) in
  let portal := portal_id (dd st) in
  meters_part devname portal ;;~ batteries_and_vebus devname portal.

End Detect.

(** The requests of one read of [topic] from the topic map [m] it
    starts with: [set_topic] subscribes when the topic is not mapped,
    then [read_topic_*] publishes the empty request on the [R/] twin. *)
Definition read_reqs (m : gmap string (option Topic)) (topic : string) : list Request :=
  match m !! topic with None => [ReqSubscribe topic AtLeastOnce] | Some _ => [] end ++
  [ReqPublish (replace_first "N" "R" topic) AtLeastOnce false (PText "")].

(** ** Lemmas *)

Lemma dbind_ok {A B} (m : Det A) (k : A -> Det B) st a st' :
  m st = ROk (a, st') -> dbind m k st = k a st'.
Proof. unfold dbind. by intros ->. Qed.

(** A computation that never panics. *)
Definition dsafe {A} (m : Det A) : Prop := forall st, exists a st', m st = ROk (a, st').

Lemma dsafe_ret {A} (a : A) : dsafe (dret a).
Proof. intros st. eauto. Qed.

Lemma dsafe_bind {A B} (m : Det A) (k : A -> Det B) : dsafe m -> (forall a, dsafe (k a)) -> dsafe (dbind m k).
Proof. intros Hm Hk st. destruct (Hm st) as (a & st' & E). rewrite (dbind_ok _ _ _ _ _ E). apply Hk. Qed.

Lemma dsafe_modify f : dsafe (dmodify f).
Proof. intros st. eauto. Qed.

Lemma dsafe_send t : dsafe (dsend t).
Proof. intros st. eauto. Qed.

Lemma dsafe_get : dsafe dget.
Proof. intros st. eauto. Qed.

Lemma dsafe_dfor {A} (l : list A) body : (forall x, dsafe (body x)) -> dsafe (dfor l body).
Proof. intros Hb. induction l as [|x l IH]; cbn; [apply dsafe_ret|]. apply dsafe_bind; auto. Qed.

Create HintDb det.
#[export] Hint Resolve dsafe_ret dsafe_bind dsafe_modify dsafe_send dsafe_get dsafe_dfor : det.

(** Case analysis and binds until the hints close the goal. *)
Ltac dsafe_t :=
  repeat match goal with
    | |- dsafe (dbind _ _) => apply dsafe_bind; [|intros]
    | |- dsafe (dfor _ _) => apply dsafe_dfor
    | |- dsafe (if ?b then _ else _) => destruct b
    | |- dsafe (match ?x with _ => _ end) => destruct x
    | |- forall _, _ => intros
    | |- _ => progress cbv zeta
    | |- _ => solve [eauto with det]
    end.

Lemma firstn_repeat_same {A} n (x : A) : firstn n (repeat x n) = repeat x n.
Proof. induction n as [|n IH]; cbn; [done|]. by rewrite IH. Qed.

Lemma first_nonempty_repeat_some t n :
  payload t <> ""%string -> first_nonempty (repeat (Some t) (S n)) = Some (payload t).
Proof. intros Ht. cbn [repeat first_nonempty]. by rewrite (proj2 (String.eqb_neq _ _) Ht). Qed.

Section ReadLemmas.

Context (now : Z) (gx : string -> option string).

(** A read with the GX device: the answer if it is not empty, the topic
    mapped under its key, the answer delivered. *)
Lemma gx_read_result {A} (conv : string -> A) topic key st :
  exists rq, gx_read now gx conv topic key st =
    ROk (match gx topic with Some p => if String.eqb p "" then None else Some (conv p) | None => None end,
         {| dd := gx_deliver now gx topic
                    (with_mapping (<[topic := Some (Topic_new_with_key now "" key)]> (topic_mapping (dd st))) (dd st));
            dreqs := dreqs st ++ rq; dsent := dsent st |}).
Proof.
  unfold gx_read, read_topic, set_topic. cbn [fst snd]. eexists. do 3 f_equal.
  rewrite read_result, firstn_repeat_same. unfold gx_deliver.
  destruct (gx topic) as [p|]; [destruct (String.eqb_spec p "") as [->|Hp]|].
  - rewrite victron_on_publish_empty. unfold get_topic. cbn [topic_mapping with_mapping]. rewrite lookup_insert_eq.
    by rewrite first_nonempty_repeat_empty.
  - rewrite (victron_on_publish_get now topic p _ (Topic_new_with_key now "" key) Hp) by (cbn [topic_mapping with_mapping]; apply lookup_insert_eq).
    change READ_POLLS with (S 500). by rewrite first_nonempty_repeat_some.
  - unfold get_topic. cbn [topic_mapping with_mapping]. rewrite lookup_insert_eq. by rewrite first_nonempty_repeat_empty.
Qed.

(** After a read, the topic is mapped under its key and no other topic
    has changed. *)
Lemma gx_read_mapping {A} (conv : string -> A) topic key st r st' :
  gx_read now gx conv topic key st = ROk (r, st') ->
  (exists t, topic_mapping (dd st') !! topic = Some (Some t) /\ json_key t = key) /\
  (forall k, k <> topic -> topic_mapping (dd st') !! k = topic_mapping (dd st) !! k) /\
  dsent st' = dsent st.
Proof.
  destruct (gx_read_result conv topic key st) as (rq & E). rewrite E. intros [= _ <-]. cbn [dd dsent].
  clear E. unfold gx_deliver. destruct (gx topic) as [pl|] eqn:Eg; [destruct (String.eqb_spec pl "") as [->|Hp]|].
  - rewrite victron_on_publish_empty. cbn [topic_mapping with_mapping]. rewrite lookup_insert_eq.
    split_and!; [eauto|intros; by rewrite lookup_insert_ne|done].
  - pose proof (victron_on_publish_get now topic pl
                  (with_mapping (<[topic:=Some (Topic_new_with_key now "" key)]> (topic_mapping (dd st))) (dd st))
                  (Topic_new_with_key now "" key) Hp ltac:(cbn [topic_mapping with_mapping]; apply lookup_insert_eq)) as Hg.
    unfold get_topic in Hg. split_and!.
    + destruct (topic_mapping _ !! topic) as [[t|]|]; [|discriminate|discriminate].
      injection Hg as Ht. exists t. split; [done|]. by rewrite Ht.
    + intros k Hk. rewrite victron_on_publish_mapping_ne by done. cbn [topic_mapping with_mapping]. by rewrite lookup_insert_ne.
    + done.
  - cbn [topic_mapping with_mapping]. rewrite lookup_insert_eq. split_and!; [eauto|intros; by rewrite lookup_insert_ne|done].
Qed.


(** The requests of [read_topic_*], whatever the polls see. *)
Lemma read_topic_reqs {A} (conv : string -> A) topic key polls d :
  (read_topic conv now topic key polls d).1.2 = read_reqs (topic_mapping d) topic.
Proof. unfold read_topic, set_topic, read_reqs. by destruct (topic_mapping d !! topic). Qed.

(** The requests of a read. *)
Lemma gx_read_reqs {A} (conv : string -> A) topic key st r st' :
  gx_read now gx conv topic key st = ROk (r, st') ->
  dreqs st' = dreqs st ++ read_reqs (topic_mapping (dd st)) topic.
Proof.
  unfold gx_read. set (polls := repeat _ READ_POLLS). cbv zeta.
  pose proof (read_topic_reqs conv topic key polls (dd st)) as Hr.
  destruct (read_topic conv now topic key polls (dd st)) as [[d1 rq] r0].
  intros [= _ <-]. cbn [dreqs]. cbn in Hr. by rewrite Hr.
Qed.

End ReadLemmas.

Section DetectLemmas.

Context (parse_json : string -> option json) (now : Z) (gx : string -> option string).

Lemma dsafe_gx_read {A} (conv : string -> A) topic key : dsafe (gx_read now gx conv topic key).
Proof.
  intros st. unfold gx_read.
  destruct (read_topic conv now topic key _ (dd st)) as [[? ?] ?]. eauto.
Qed.

Lemma dsafe_read_u64 topic key : dsafe (read_u64 parse_json now gx topic key).
Proof. apply dsafe_gx_read. Qed.
Lemma dsafe_read_string topic key : dsafe (read_string parse_json now gx topic key).
Proof. apply dsafe_gx_read. Qed.
Lemma dsafe_read_value topic key : dsafe (read_value parse_json now gx topic key).
Proof. apply dsafe_gx_read. Qed.

Lemma dsafe_sensors disc sps : dsafe (sensors parse_json now gx disc sps).
Proof.
  revert disc. induction sps as [|sp sps IH]; intros disc; cbn; [apply dsafe_ret|].
  apply dsafe_bind; [|exact IH]. unfold sensor_step. apply dsafe_bind; [apply dsafe_read_u64|]. intros. apply dsafe_ret.
Qed.


#[local] Hint Resolve dsafe_read_u64 dsafe_read_string dsafe_read_value dsafe_sensors : det.

Lemma dsafe_battery_step devname portal b v : dsafe (battery_step parse_json now gx devname portal b v).
Proof. unfold battery_step. dsafe_t. Qed.

Lemma dsafe_meters_part devname portal : dsafe (meters_part parse_json now gx devname portal).
Proof.
  unfold meters_part, meter_step. apply dsafe_bind.
  - intros st. destruct (set_topic _ _ (dd st)). eauto.
  - dsafe_t.
Qed.

End DetectLemmas.

#[export] Hint Resolve dsafe_gx_read dsafe_read_u64 dsafe_read_string dsafe_read_value dsafe_sensors
  dsafe_meters_part dsafe_battery_step : det.

(** Run the first computation of a bind, which cannot panic. *)
Ltac dstep :=
  match goal with
  | |- context [dbind ?m _ ?st] =>
      let Hs := fresh "Hs" in let E := fresh "E" in
      assert (Hs : dsafe m) by (dsafe_t; eauto with det);
      destruct (Hs st) as (? & ? & E); rewrite (dbind_ok _ _ _ _ _ E); clear Hs
  end.

Lemma dbind_inv {A B} (m : Det A) (k : A -> Det B) st b st'' :
  dbind m k st = ROk (b, st'') -> exists a st', m st = ROk (a, st') /\ k a st' = ROk (b, st'').
Proof. unfold dbind. destruct (m st) as [[a st']| |]; [eauto|discriminate|discriminate]. Qed.

Section SensorLemmas.

Context (parse_json : string -> option json) (now : Z) (gx : string -> option string).

(** What a run of blocks changes: the components at their keys, the
    map at their topics, nothing else. *)
Lemma sensors_frame disc sps st disc' st' :
  sensors parse_json now gx disc sps st = ROk (disc', st') ->
  dev disc' = dev disc /\ dsent st' = dsent st /\
  (forall k, k ∉ map s_key sps -> cmps disc' !! k = cmps disc !! k) /\
  (forall tp, tp ∉ map s_topic sps -> topic_mapping (dd st') !! tp = topic_mapping (dd st) !! tp) /\
  (NoDup (map s_key sps) -> forall sp, sp ∈ sps -> cmps disc' !! s_key sp = Some (sensor_json sp)) /\
  (NoDup (map s_topic sps) -> forall sp, sp ∈ sps ->
     exists t, topic_mapping (dd st') !! s_topic sp = Some (Some t) /\ json_key t = s_json_key sp).
Proof.
  revert disc st. induction sps as [|sp sps IH]; intros disc st.
  - intros [= <- <-]. split_and!; try done; intros ? ? ?; set_solver.
  - cbn [sensors]. intros E. apply dbind_inv in E as (d1 & st1 & E1 & E2).
    unfold sensor_step in E1. apply dbind_inv in E1 as (r & st0 & Er & [= <- <-]).
    destruct (gx_read_mapping now gx _ _ _ _ _ _ Er) as ((t & Ht & Hk) & Hfr & Hs).
    destruct (IH _ _ E2) as (Hd & Hs' & Hck & Htp & Hkeys & Htopics). cbn [map].
    split_and!.
    + done.
    + congruence.
    + intros k Hk'. rewrite Hck by set_solver. cbn. rewrite lookup_insert_ne; set_solver.
    + intros tp Htp'. rewrite Htp by set_solver. apply Hfr. set_solver.
    + intros Hnd sp' Hin. apply NoDup_cons in Hnd as [Hn Hnd].
      apply elem_of_cons in Hin as [->|Hin]; [|auto].
      rewrite Hck by done. cbn. apply lookup_insert_eq.
    + intros Hnd sp' Hin. apply NoDup_cons in Hnd as [Hn Hnd].
      apply elem_of_cons in Hin as [->|Hin]; [|auto].
      exists t. rewrite Htp by done. done.
Qed.

Lemma flat_map_ext_elem {A B} (f g : A -> list B) l :
  (forall x, In x l -> f x = g x) -> flat_map f l = flat_map g l.
Proof.
  induction l as [|a l IH]; intros H; cbn; [done|].
  rewrite (H a (or_introl eq_refl)), IH; [done|]. intros x Hx. apply H. by right.
Qed.

(** The requests of a run of blocks with distinct topics: each block's
    read, from the map the run starts with. *)
Lemma sensors_reqs disc sps st disc' st' :
  NoDup (map s_topic sps) ->
  sensors parse_json now gx disc sps st = ROk (disc', st') ->
  dreqs st' = dreqs st ++ flat_map (fun sp => read_reqs (topic_mapping (dd st)) (s_topic sp)) sps.
Proof.
  revert disc st. induction sps as [|sp sps IH]; intros disc st Hnd.
  - intros [= <- <-]. by rewrite app_nil_r.
  - cbn [sensors map] in *. apply NoDup_cons in Hnd as [Hn Hnd]. intros E.
    apply dbind_inv in E as (d1 & st1 & E1 & E2).
    unfold sensor_step in E1. apply dbind_inv in E1 as (r & st0 & Er & [= <- <-]).
    rewrite (IH _ _ Hnd E2), (gx_read_reqs now gx _ _ _ _ _ _ Er). cbn [flat_map]. rewrite <- app_assoc.
    f_equal. f_equal. apply flat_map_ext_elem. intros sp' Hin. unfold read_reqs.
    destruct (gx_read_mapping now gx _ _ _ _ _ _ Er) as (_ & Hfr & _).
    rewrite Hfr; [done|]. intros Heq. apply Hn. rewrite <- Heq. apply list_elem_of_fmap. exists sp'.
    split; [done|]. by apply list_elem_of_In.
Qed.

Lemma vebus_step_sends devname portal di st :
  exists st' disc, vebus_step parse_json now gx devname portal di st = ROk (tt, st') /\
    last (dsent st') = Some (AutoDiscovery disc) /\
    dev_name (dev disc) = (devname ++ "_vebus_" ++ fmt_dec di)%string.
Proof.
  unfold vebus_step. cbv zeta. do 4 dstep.
  match goal with E : sensors _ _ _ _ _ _ = ROk (?d, _) |- _ =>
    destruct (sensors_frame _ _ _ _ _ E) as (Hdev & _); eexists _, d end.
  split; [reflexivity|]. cbn [dsent]. rewrite last_snoc. split; [done|].
  rewrite Hdev. reflexivity.
Qed.

End SensorLemmas.

(** ** Properties *)

Section Claims.

Context (parse_json : string -> option json) (now : Z) (gx : string -> option string).

(** C11: When the GX device does not answer on [system/0/Batteries]
    within the polls, answers an empty payload, or answers a payload
    whose [value] is not a JSON array, the detection panics: the value
    defaults to [Value::Null] (or is that non-array) and
    [d.as_array().unwrap()] aborts the task, whatever the AC meters
    gave; no battery and no VE.Bus system is discovered. *)
Theorem detection_panics_without_batteries st :
  match gx ("N/" ++ portal_id (dd st) ++ "/system/0/Batteries")%string with
  | None => True
  | Some pb => pb <> ""%string -> forall l, victron_value_to_value parse_json pb JNull <> JArr l
  end ->
  run_initial_detection parse_json now gx st = RPanic UnwrapFailed.
Proof.
  intros Hb. unfold run_initial_detection. rewrite (dbind_ok _ _ st st st) by reflexivity. cbv zeta.
  destruct (dsafe_meters_part parse_json now gx (victron_name (vconf (dd st))) (portal_id (dd st)) st)
    as (u & st2 & E2).
  rewrite (dbind_ok _ _ _ _ _ E2). unfold batteries_and_vebus, read_value.
  destruct (gx_read_result now gx (fun p => victron_value_to_value parse_json p JNull)
              ("N/" ++ portal_id (dd st) ++ "/system/0/Batteries") "_system_batteries" st2) as (rq & E3).
  rewrite (dbind_ok _ _ _ _ _ E3). cbv beta zeta.
  destruct (gx _) as [pb|]; [|reflexivity].
  destruct (String.eqb_spec pb "") as [->|Hne]; [reflexivity|]. cbn [from_option Datatypes.id].
  specialize (Hb Hne). destruct (victron_value_to_value parse_json pb JNull); try reflexivity.
  by destruct (Hb l).
Qed.

(** C17: The VE.Bus system is probed whatever the GX device reports: once
    the battery list is an array, the test [d != 0] compares that array
    (not the VE.Bus instance) with zero and always holds, so without
    any [VebusInstance] answer a discovery record for the VE.Bus system
    of instance 0 is still sent, and it is the last one. *)
Theorem vebus_probed_without_instance st l :
  let portal := portal_id (dd st) in
  (exists pb, gx ("N/" ++ portal ++ "/system/0/Batteries")%string = Some pb /\ pb <> ""%string /\
              victron_value_to_value parse_json pb JNull = JArr l) ->
  gx ("N/" ++ portal ++ "/system/0/VebusInstance")%string = None ->
  exists st', run_initial_detection parse_json now gx st = ROk (true, st') /\
    exists disc, last (dsent st') = Some (AutoDiscovery disc) /\
      dev_name (dev disc) = (victron_name (vconf (dd st)) ++ "_vebus_0")%string.
Proof.
  intros portal (pb & Hb & Hpb & Hv) Hvi. subst portal. unfold run_initial_detection.
  rewrite (dbind_ok _ _ st st st) by reflexivity. cbv zeta.
  destruct (dsafe_meters_part parse_json now gx (victron_name (vconf (dd st))) (portal_id (dd st)) st)
    as (u & st2 & E2).
  rewrite (dbind_ok _ _ _ _ _ E2). unfold batteries_and_vebus, read_value.
  destruct (gx_read_result now gx (fun p => victron_value_to_value parse_json p JNull)
              ("N/" ++ portal_id (dd st) ++ "/system/0/Batteries") "_system_batteries" st2) as (rq & E3).
  rewrite Hb, (proj2 (String.eqb_neq _ _) Hpb), Hv in E3. rewrite (dbind_ok _ _ _ _ _ E3).
  cbv beta zeta. cbn [from_option id]. rewrite (dbind_ok _ _ _ l _) by reflexivity.
  dstep.
  unfold read_u64.
  match goal with |- context [dbind (gx_read now gx ?c ?t ?k) _ ?s] =>
    destruct (gx_read_result now gx c t k s) as (rq5 & E5) end.
  rewrite Hvi in E5. rewrite (dbind_ok _ _ _ _ _ E5). cbn [from_option Datatypes.id json_ne_zero negb].
  match goal with |- context [dbind (vebus_step _ _ _ ?dn ?pt ?di) _ ?s] =>
    destruct (vebus_step_sends parse_json now gx dn pt di s) as (st6 & disc & E6 & Hl & Hn) end.
  rewrite (dbind_ok _ _ _ _ _ E6). eexists. split; [reflexivity|]. exists disc. split; [exact Hl|].
  rewrite Hn. reflexivity.
Qed.

(** C30: Running a table of blocks with distinct topics and distinct
    component keys never panics, keeps the device of the record, puts
    each block's component under its key, leaves each block's topic
    mapped under the block's json key (the key under which the data
    task reports the topic's value), and sends, block after block, a
    subscription for each topic that was not mapped and one read
    request on the topic's [R/] twin ([replacen("N", "R", 1)]). *)
Theorem sensors_register_keys disc sps st :
  NoDup (map s_topic sps) -> NoDup (map s_key sps) ->
  exists disc' st', sensors parse_json now gx disc sps st = ROk (disc', st') /\ dev disc' = dev disc /\
    dreqs st' = dreqs st ++ flat_map (fun sp =>
      match topic_mapping (dd st) !! s_topic sp with None => [ReqSubscribe (s_topic sp) AtLeastOnce] | Some _ => [] end ++
      [ReqPublish (replace_first "N" "R" (s_topic sp)) AtLeastOnce false (PText "")]) sps /\
    forall sp, sp ∈ sps -> cmps disc' !! s_key sp = Some (sensor_json sp) /\
      exists t, topic_mapping (dd st') !! s_topic sp = Some (Some t) /\ json_key t = s_json_key sp.
Proof.
  intros Ht Hk. destruct (dsafe_sensors parse_json now gx disc sps st) as (disc' & st' & E).
  destruct (sensors_frame _ _ _ _ _ _ _ _ E) as (Hd & _ & _ & _ & Hks & Hts).
  exists disc', st'. split_and!; [done|done| |].
  - exact (sensors_reqs _ _ _ _ _ _ _ _ Ht E).
  - intros sp Hin. split; auto.
Qed.

End Claims.

(** The state-of-charge and state-of-health components of a battery
    get the same ids for every battery of every installation:
    [new_percent] builds them from the fixed device [soc]/[soh] and the
    fixed name, not from the battery or the installation, so Home
    Assistant merges them. *)
Theorem battery_percent_ids_fixed devname base_topic b :
  map (fun sp => (unique_id (s_cmp sp), object_id (s_cmp sp))) (firstn 2 (battery_sensors devname base_topic b)) =
    [("e2m_victron_soc_state_of_charge", "soc_state_of_charge");
     ("e2m_victron_soh_state_of_health", "soh_state_of_health")]%string.
Proof. reflexivity. Qed.

(** ** Examples and witnesses *)

(** A GX installation with portal [abc], seen before detection. *)
Definition example_det : DetState :=
  {| dd := set_portal "abc" (VictronData_new example_vc); dreqs := []; dsent := [] |}.

(** A JSON reader that knows the document [{value: []}]. *)
Definition example_parse_batts (s : string) : option json :=
  if String.eqb s "batts" then Some (JObj [("value", JArr [])]) else None.

(** A GX device that only answers the battery list, with no battery. *)
Definition example_gx (t : string) : option string :=
  if String.eqb t "N/abc/system/0/Batteries" then Some "batts" else None.

(** Witness of [detection_panics_without_batteries]: a GX device that
    answers the battery list with a payload that is not JSON. *)
Lemma detection_panics_without_batteries_witness :
  run_initial_detection example_parse_batts 0
    (fun t => if String.eqb t "N/abc/system/0/Batteries" then Some "junk"%string else None) example_det
  = RPanic UnwrapFailed.
Proof.
  apply (detection_panics_without_batteries example_parse_batts 0 _ example_det).
  cbn -[victron_value_to_value]. intros _ l. vm_compute. discriminate.
Defined.

(** Witness of [vebus_probed_without_instance]: an empty battery list
    and no VE.Bus instance still yield the record [gx_vebus_0]. *)
Lemma vebus_probed_without_instance_witness :
  exists st', run_initial_detection example_parse_batts 0 example_gx example_det = ROk (true, st') /\
    exists disc, last (dsent st') = Some (AutoDiscovery disc) /\ dev_name (dev disc) = "gx_vebus_0"%string.
Proof.
  apply (vebus_probed_without_instance example_parse_batts 0 example_gx example_det []).
  - exists "batts"%string. split_and!; [reflexivity|discriminate|reflexivity].
  - reflexivity.
Defined.

(** Witness of [sensors_register_keys]: the four blocks of a grid meter. *)
Lemma sensors_register_keys_witness :
  exists disc' st', sensors example_parse_batts 0 example_gx (HaDiscover_new "m" "Victron" "ET340" "Victron")
                      (meter_sensors "gx" "N/abc/grid/30" "sn1") example_det = ROk (disc', st') /\
    cmps disc' !! "power"%string =
      Some (sensor_json (full "gx" "N/abc/grid/30/Ac/Power" "meter_sn1_power" "power" "Grid Power" "power" "W")).
Proof.
  destruct (sensors_register_keys example_parse_batts 0 example_gx (HaDiscover_new "m" "Victron" "ET340" "Victron")
              (meter_sensors "gx" "N/abc/grid/30" "sn1") example_det) as (disc' & st' & E & _ & _ & Hk).
  - apply (bool_decide_unpack _). vm_compute. reflexivity.
  - apply (bool_decide_unpack _). vm_compute. reflexivity.
  - exists disc', st'. split; [exact E|].
    apply (Hk (full "gx" "N/abc/grid/30/Ac/Power" "meter_sn1_power" "power" "Grid Power" "power" "W")).
    do 3 right. left.
Defined.


End VictronDetect.
