(* ===== verification/Api.v ===== *)
(** The HTTP API handlers that read or change state (api/mod.rs): the
    health check over the bridge's health record, the Modbus hub
    handlers over the configuration holder, and the forced save.  A
    handler that reads the configuration and later writes it is split
    into its two critical sections, the snapshot ([get_config_or_panic!],
    under the read lock) and the write (under the write lock), so that
    two requests can interleave between them as actix-web runs them. *)

From S2P Require Import Prelude.
From S2P Require Import Modbus.
From S2P Require Import Config.
From S2P Require Import Obis.
From S2P Require Import Bridge.

Module Api.

Import Config Bridge.

(** The responses, with the bodies the handlers give. *)
Inductive HttpResponse : Type :=
| Ok200 (body : string)
| Created201 (body : string)
| BadRequest400 (body : string)
| NotFound404 (body : string)
| ServiceUnavailable503 (body : string)
| OkConfig (c : Config)
| OkModbus (c : ModbusConfig)
| SwitchingProtocols101.

(** ** [health_check] *)

(** [now.duration_since(t).as_secs()]: saturating at zero. *)
Definition secs_since (now t : Z) : Z := Z.max 0 (now - t).

(** The handler's verdict: connected, and a message sent within the
    last five minutes ([unwrap_or(3600) < 300]); the body's [status]. *)
Definition health_check (h : MqttHealthStatus) (now : Z) : HttpResponse :=
  let last_message_sent_ago := option_map (secs_since now) (last_message_sent h) in
  let connected := match status h with Connected => true | _ => false end in
  let overall_healthy := connected && (default 3600 last_message_sent_ago <? 300) in
  if overall_healthy then Ok200 "healthy" else ServiceUnavailable503 "unhealthy".

(** ** [add_modbus_hub] *)

Definition hub_named (n : string) (hc : Modbus.ModbusHubConfig) : bool := String.eqb (Modbus.hub_name hc) n.

(** The read section: the snapshot, the duplicate check, the [push]. *)
Definition add_hub_prepare (hub_req : Modbus.ModbusHubConfig) (h : ConfigHolder)
    : res Empty_set (option ModbusConfig) :=
  config <- get_config_or_panic "modbus" sel_modbus h ;;
  if existsb (hub_named (Modbus.hub_name hub_req)) (hubs config) then ROk None
  else ROk (Some {| hubs := hubs config ++ [hub_req] |}).

(** The write section. *)
Definition add_hub_commit (prepared : option ModbusConfig) (h : ConfigHolder) : ConfigHolder * HttpResponse :=
  match prepared with
  | None => (h, BadRequest400 "Hub with this name already exists")
  | Some config => (update_config ADD (Modbus config) h, Created201 "Created")
  end.

(** The handler run alone. *)
Definition add_modbus_hub (hub_req : Modbus.ModbusHubConfig) (h : ConfigHolder)
    : res Empty_set (ConfigHolder * HttpResponse) :=
  p <- add_hub_prepare hub_req h ;; ROk (add_hub_commit p h).

(** ** [delete_modbus_hub] *)

Definition delete_hub_prepare (hub_name : string) (h : ConfigHolder)
    : res Empty_set (nat * ModbusConfig) :=
  config <- get_config_or_panic "modbus" sel_modbus h ;;
  ROk (List.length (hubs config), {| hubs := List.filter (fun hc => negb (hub_named hub_name hc)) (hubs config) |}).

Definition delete_hub_commit (hub_name : string) (initial_len : nat) (config : ModbusConfig) (h : ConfigHolder)
    : ConfigHolder * HttpResponse :=
  if (List.length (hubs config) <? initial_len)%nat
  then (update_config DELETE (Modbus config) h, Ok200 ("Hub '" ++ hub_name ++ "' deleted"))
  else (h, NotFound404 ("Hub '" ++ hub_name ++ "' not found")).

Definition delete_modbus_hub (hub_name : string) (h : ConfigHolder)
    : res Empty_set (ConfigHolder * HttpResponse) :=
  '(n, config) <- delete_hub_prepare hub_name h ;; ROk (delete_hub_commit hub_name n config h).

(** ** [ha_save_config] *)

(** Mark dirty, [save], and answer success whatever [save] did. *)
Definition ha_save_config (to_yaml : Config -> string) (fs : FileSystem) (h : ConfigHolder)
    : FileSystem * ConfigHolder * HttpResponse :=
  let h1 := {| config := config h; dirty := true; base_path := base_path h; sent := sent h |} in
  let '(fs', h') := save to_yaml fs h1 in
  (fs', h', Ok200 "Configuration saved successfully").

(** ** The read-only and constant handlers *)

(** [get_config]: the whole configuration as JSON. *)
Definition get_config (h : ConfigHolder) : HttpResponse := OkConfig (get_complete_config h).

(** [get_modbus_config]: the Modbus section through [get_config_or_panic!]. *)
Definition get_modbus_config (h : ConfigHolder) : res Empty_set HttpResponse :=
  c <- get_config_or_panic "modbus" sel_modbus h ;; ROk (OkModbus c).

Definition ha_restart_service : HttpResponse :=
  Ok200 "Service restart has been requested. Implementation depends on container orchestration.".

Definition ha_reload_config : HttpResponse :=
  Ok200 "Configuration reload requested. Implementation depends on config management system.".

Definition e2m_prometheus_generic : HttpResponse := Ok200 "".
Definition e2m_prometheus_metering : HttpResponse := Ok200 "".

(** ** [ws_config_changes] *)

(** The forwarding task: [while let Ok(msg) = thread_receiver.recv()]
    sends each change as a text frame; the first [Err] (a lag) ends the
    loop and the session is closed.  [None] is a receiver with nothing
    pending, where the task waits. *)
Inductive WsState : Type := WsOpen (rx : nat) | WsClosed.

Definition ws_step (h : ConfigHolder) (w : WsState) : option (WsState * option ConfigChange) :=
  match w with
  | WsClosed => None
  | WsOpen rx =>
      match recv h rx with
      | Some (ROk c, rx') => Some (WsOpen rx', Some c)
      | Some (_, _) => Some (WsClosed, None)
      | None => None
      end
  end.

(** [n] rounds of the task: the frames sent, in order, and its state. *)
Fixpoint ws_run (n : nat) (h : ConfigHolder) (w : WsState) : list ConfigChange * WsState :=
  match n with
  | O => ([], w)
  | S n' =>
      match ws_step h w with
      | None => ([], w)
      | Some (w', m) => let '(ms, w'') := ws_run n' h w' in (option_list m ++ ms, w'')
      end
  end.

(** The handler: a receiver subscribed now, the task started. *)
Definition ws_config_changes (h : ConfigHolder) : HttpResponse * WsState :=
  (SwitchingProtocols101, WsOpen (get_change_receiver h)).

(** ** Routing ([ApiManager::start_thread]) *)

Inductive Method : Type := GET | POST | DELETE_.

#[global] Instance Method_eq_dec : EqDecision Method.
Proof. solve_decision. Defined.

Inductive Segment : Type := Lit (s : string) | Param.

Inductive Handler : Type :=
| HHealth | HGetConfig | HGetModbus | HAddHub | HDeleteHub | HWsConfig
| HRestart | HSave | HReload | HPromGeneric | HPromMetering.

(** A path pattern as its [/]-separated segments; [{name}] is [Param]. *)
Definition pattern (p : string) : list Segment :=
  map (fun seg => if String.eqb seg "{name}" then Param else Lit seg) (Obis.split_char "/" p).

(** The [.route(path, web::method().to(handler))] calls, in order. *)
Definition routes : list (Method * string * Handler) :=
  [(GET, "/health", HHealth);
   (GET, "/api/v1/config", HGetConfig);
   (GET, "/api/v1/modbus", HGetModbus);
   (POST, "/api/v1/modbus", HAddHub);
   (DELETE_, "/api/v1/modbus/{name}", HDeleteHub);
   (GET, "/api/v1/ws/configChanges", HWsConfig);
   (POST, "/api/v1/ha/restart", HRestart);
   (POST, "/api/v1/ha/config/save", HSave);
   (POST, "/api/v1/ha/config/reload", HReload);
   (POST, "/prometheus/metrics", HPromGeneric);
   (POST, "/prometheus/metering", HPromMetering)].

(** Matching a path against a pattern: a literal segment matches
    itself, a parameter one non-empty segment, which is captured. *)
Fixpoint match_segments (pat : list Segment) (segs : list string) : option (list string) :=
  match pat, segs with
  | [], [] => Some []
  | Lit l :: pat', s :: segs' => if String.eqb l s then match_segments pat' segs' else None
  | Param :: pat', s :: segs' =>
      if String.eqb s "" then None else option_map (cons s) (match_segments pat' segs')
  | _, _ => None
  end.

(** Each [App::route] is a resource guarded by its method: the first
    whose method and path match serves the request; no match is the
    default service, 404. *)
Fixpoint dispatch_in (rs : list (Method * string * Handler)) (m : Method) (path : string)
    : option (Handler * list string) :=
  match rs with
  | [] => None
  | (m', p, hd) :: rs' =>
      match (if decide (m = m') then match_segments (pattern p) (Obis.split_char "/" path) else None) with
      | Some args => Some (hd, args)
      | None => dispatch_in rs' m path
      end
  end.

Definition dispatch (m : Method) (path : string) : option (Handler * list string) := dispatch_in routes m path.

(** ** The server over the application state *)

(** What the handlers share: the [CONFIG] holder, the file system,
    the bridge's health record ([APP_STATUS]), the clock, and the
    websocket tasks started so far. *)
Record ApiState : Type := mkApiState {
  holder : ConfigHolder; fsys : FileSystem; mqtt_health : MqttHealthStatus; clock : Z;
  sockets : list WsState
}.

Definition with_holder (st : ApiState) (h : ConfigHolder) : ApiState :=
  {| holder := h; fsys := fsys st; mqtt_health := mqtt_health st; clock := clock st; sockets := sockets st |}.

(** One request, served to completion: the route, then its handler.
    [body] is the JSON body of a POST once deserialized ([None]: actix
    answers 400 before the handler runs). *)
Definition serve (to_yaml : Config -> string) (m : Method) (path : string)
    (body : option Modbus.ModbusHubConfig) (st : ApiState) : res Empty_set (ApiState * HttpResponse) :=
  match dispatch m path with
  | None => ROk (st, NotFound404 "")
  | Some (HHealth, _) => ROk (st, health_check (mqtt_health st) (clock st))
  | Some (HGetConfig, _) => ROk (st, get_config (holder st))
  | Some (HGetModbus, _) => r <- get_modbus_config (holder st) ;; ROk (st, r)
  | Some (HAddHub, _) =>
      match body with
      | None => ROk (st, BadRequest400 "Json deserialize error")
      | Some hb => '(h', r) <- add_modbus_hub hb (holder st) ;; ROk (with_holder st h', r)
      end
  | Some (HDeleteHub, args) =>
      '(h', r) <- delete_modbus_hub (default "" (head args)) (holder st) ;; ROk (with_holder st h', r)
  | Some (HWsConfig, _) =>
      let '(r, w) := ws_config_changes (holder st) in
      ROk ({| holder := holder st; fsys := fsys st; mqtt_health := mqtt_health st; clock := clock st;
              sockets := sockets st ++ [w] |}, r)
  | Some (HRestart, _) => ROk (st, ha_restart_service)
  | Some (HSave, _) =>
      let '(fs', h', r) := ha_save_config to_yaml (fsys st) (holder st) in
      ROk ({| holder := h'; fsys := fs'; mqtt_health := mqtt_health st; clock := clock st;
              sockets := sockets st |}, r)
  | Some (HReload, _) => ROk (st, ha_reload_config)
  | Some (HPromGeneric, _) => ROk (st, e2m_prometheus_generic)
  | Some (HPromMetering, _) => ROk (st, e2m_prometheus_metering)
  end.

(** ** Lemmas *)

Lemma get_config_or_panic_modbus h : get_config_or_panic "modbus" sel_modbus h = ROk (modbus (config h)).
Proof. reflexivity. Qed.


Lemma add_hub_prepare_fresh a h :
  existsb (hub_named (Modbus.hub_name a)) (hubs (modbus (config h))) = false ->
  add_hub_prepare a h = ROk (Some {| hubs := hubs (modbus (config h)) ++ [a] |}).
Proof. intros Hf. unfold add_hub_prepare. rewrite get_config_or_panic_modbus. cbn. by rewrite Hf. Qed.


Lemma add_modbus_hub_fresh a h :
  existsb (hub_named (Modbus.hub_name a)) (hubs (modbus (config h))) = false ->
  add_modbus_hub a h =
    ROk (update_config ADD (Modbus {| hubs := hubs (modbus (config h)) ++ [a] |}) h, Created201 "Created").
Proof. intros Hf. unfold add_modbus_hub. by rewrite (add_hub_prepare_fresh a h Hf). Qed.

(** The length test of [delete_modbus_hub] decides membership. *)
Lemma filter_shorter_existsb {A} (f : A -> bool) l :
  (List.length (List.filter (fun x => negb (f x)) l) <? List.length l)%nat = existsb f l.
Proof.
  induction l as [|x l IH]; [done|]. cbn.
  destruct (f x); cbn; [|exact IH].
  apply Nat.leb_le. pose proof (List.filter_length_le (fun x => negb (f x)) l). lia.
Qed.

Lemma split_delete_path n :
  Obis.contains_char "/" n = false ->
  Obis.split_char "/" ("/api/v1/modbus/" ++ n) = [""; "api"; "v1"; "modbus"; n].
Proof.
  intros Hn.
  change ("/api/v1/modbus/" ++ n)%string with
    (String "/" ("api" ++ String "/" ("v1" ++ String "/" ("modbus" ++ String "/" n))))%string.
  cbn [Obis.split_char]. rewrite Ascii.eqb_refl.
  rewrite !Obis.split_char_app, Obis.split_char_nochar by done. reflexivity.
Qed.

(** The websocket task with at most 128 changes pending forwards all of
    them, in order. *)
Lemma ws_run_drains h k rx :
  (rx + k = List.length (sent h))%nat -> (k <= 128)%nat ->
  ws_run k h (WsOpen rx) = (drop rx (sent h), WsOpen (List.length (sent h))).
Proof.
  revert rx. induction k as [|k IH]; intros rx Hk Hb.
  - rewrite Nat.add_0_r in Hk. subst rx. by rewrite drop_all.
  - destruct (lookup_lt_is_Some_2 (sent h) rx) as [c Hc]; [lia|].
    cbn [ws_run ws_step]. rewrite (recv_next h rx c) by (done || lia).
    rewrite IH by lia. cbn. by rewrite (drop_S _ _ _ Hc).
Qed.

(** ** Properties *)

(** C27: The health endpoint never reports healthy: the bridge never
    writes the connection status, which stays [Disconnected] in every
    reachable state, so [health_check] answers 503 ["unhealthy"] at
    every time. *)
Theorem health_always_unhealthy f c s now :
  star (sys_step f) (Sys_init c) s -> health_check (health (br s)) now = ServiceUnavailable503 "unhealthy".
Proof.
  intros Hst. destruct (sys_inv_reachable f c s Hst) as (_ & Hs & _).
  unfold health_check. rewrite Hs. reflexivity.
Qed.


(** Deleting a hub: when a hub of that name is configured, every
    hub of that name is removed, the others are kept in order, a
    [DELETE] of ["modbus"] is broadcast and the answer is 200;
    otherwise nothing changes and the answer is 404. *)
Theorem delete_modbus_hub_spec n h :
  let hs := hubs (modbus (config h)) in
  delete_modbus_hub n h =
    if existsb (hub_named n) hs
    then ROk (update_config DELETE (Modbus {| hubs := List.filter (fun hc => negb (hub_named n hc)) hs |}) h,
              Ok200 ("Hub '" ++ n ++ "' deleted"))
    else ROk (h, NotFound404 ("Hub '" ++ n ++ "' not found")).
Proof.
  cbv zeta. unfold delete_modbus_hub, delete_hub_prepare. rewrite get_config_or_panic_modbus. cbn.
  unfold delete_hub_commit. cbn [hubs]. rewrite filter_shorter_existsb.
  by destruct (existsb _ _).
Qed.

(** The forced save reports success even when nothing is written:
    on a file system whose paths never begin with a quote (any real
    one), [ha_save_config] leaves the files as they were, leaves the
    holder dirty, and still answers 200 ["Configuration saved
    successfully"]. *)
Theorem ha_save_config_reports_success to_yaml fs h :
  (forall path c, files fs !! path = Some c -> String.get 0 path <> Some dquote) ->
  ha_save_config to_yaml fs h =
    (fs, {| config := config h; dirty := true; base_path := base_path h; sent := sent h |},
     Ok200 "Configuration saved successfully").
Proof. intros Hq. unfold ha_save_config, save. cbn. by rewrite fs_copy_quoted. Qed.

(** The route [DELETE /api/v1/modbus/{name}] captures the hub name:
    a DELETE of [/api/v1/modbus/] followed by a non-empty name without
    [/] reaches [delete_modbus_hub] with that name, past the GET and
    POST routes registered before it. *)
Theorem delete_route_dispatch n :
  n <> ""%string -> Obis.contains_char "/" n = false ->
  dispatch DELETE_ ("/api/v1/modbus/" ++ n) = Some (HDeleteHub, [n]).
Proof.
  intros Hne Hn. unfold dispatch. cbn [routes dispatch_in].
  rewrite split_delete_path by exact Hn.
  do 4 (rewrite decide_False by discriminate). rewrite decide_True by reflexivity.
  cbn. rewrite (proj2 (String.eqb_neq n "") Hne). reflexivity.
Qed.

(** The Prometheus endpoints are documented as GET but routed as
    POST: a GET of [/prometheus/metrics] or [/prometheus/metering]
    matches no route and falls to 404, a POST reaches the handler. *)
Theorem prometheus_get_not_routed :
  dispatch GET "/prometheus/metrics" = None /\ dispatch GET "/prometheus/metering" = None /\
  dispatch POST "/prometheus/metrics" = Some (HPromGeneric, []) /\
  dispatch POST "/prometheus/metering" = Some (HPromMetering, []).
Proof. split_and!; reflexivity. Qed.

(** The configuration websocket forwards every change pending when
    at most 128 are, in the order they were made, and then waits; when
    more than 128 are pending, its first receive reports the lag, the
    loop ends and the session is closed with nothing sent. *)
Theorem ws_forwards_or_closes h rx :
  (rx <= List.length (sent h))%nat ->
  ((List.length (sent h) - rx <= 128)%nat ->
     ws_run (List.length (sent h) - rx) h (WsOpen rx) = (drop rx (sent h), WsOpen (List.length (sent h))) /\
     ws_step h (WsOpen (List.length (sent h))) = None) /\
  ((128 < List.length (sent h) - rx)%nat -> ws_run 1 h (WsOpen rx) = ([], WsClosed)).
Proof.
  intros Hr. split.
  - intros Hk. split; [apply ws_run_drains; lia|]. cbn. by rewrite recv_end.
  - intros Hk. destruct (recv_lag h rx) as (e & r' & E); [lia|lia|].
    cbn. by rewrite E.
Qed.

(** A POST of a hub with a new name to [/api/v1/modbus], served
    alone, answers 201, appends the hub to the Modbus section and
    broadcasts [ADD] of ["modbus"] to every receiver, the change that
    wakes the Modbus supervisor. *)
Theorem serve_add_hub to_yaml hb st :
  existsb (hub_named (Modbus.hub_name hb)) (hubs (modbus (config (holder st)))) = false ->
  exists st', serve to_yaml POST "/api/v1/modbus" (Some hb) st = ROk (st', Created201 "Created") /\
    hubs (modbus (config (holder st'))) = hubs (modbus (config (holder st))) ++ [hb] /\
    sent (holder st') = sent (holder st) ++ [{| operation := ADD; base := "modbus" |}] /\
    fsys st' = fsys st.
Proof.
  intros Hf. eexists. unfold serve. cbn [dispatch].
  change (dispatch_in routes POST "/api/v1/modbus") with (Some (HAddHub, @nil string)).
  cbn iota. rewrite (add_modbus_hub_fresh hb _ Hf).
  split_and!; [reflexivity|reflexivity| |reflexivity]. apply update_config_sent.
Qed.

(** ** Examples and witnesses *)

Definition example_hub (n : string) : Modbus.ModbusHubConfig :=
  {| Modbus.hub_name := n; Modbus.host := "10.0.0.1"; Modbus.port := 502; Modbus.proto := Modbus.TCP;
     Modbus.devices := [] |}.

(** Witness of [health_always_unhealthy]: the bridge with its command
    handler started on channel 7 and subscribed, a minute after start. *)
Lemma health_always_unhealthy_witness :
  health_check (health (handle_transmission true 0 (Subscribe {| sub_topic := "mgt/command"; sub_sender := 7%nat |})
                           Bridge_init)) 60 = ServiceUnavailable503 "unhealthy".
Proof. exact (health_always_unhealthy _ _ _ 60 example_run_subscribed). Defined.


(** Witness of [ha_save_config_reports_success]: the example file
    system and holder. *)
Lemma ha_save_config_reports_success_witness :
  snd (ha_save_config (fun _ => "") example_fs example_holder) = Ok200 "Configuration saved successfully" /\
  fst (fst (ha_save_config (fun _ => "") example_fs example_holder)) = example_fs.
Proof.
  rewrite (ha_save_config_reports_success _ example_fs example_holder example_fs_unquoted).
  split; reflexivity.
Defined.

(** Witness of [delete_route_dispatch]: the hub [hub1]. *)
Lemma delete_route_dispatch_witness :
  dispatch DELETE_ "/api/v1/modbus/hub1" = Some (HDeleteHub, ["hub1"%string]).
Proof. exact (delete_route_dispatch "hub1" ltac:(discriminate) eq_refl). Defined.

(** Witness of [ws_forwards_or_closes]: 130 pending changes close the
    socket; 3 are forwarded. *)
Lemma ws_forwards_or_closes_witness :
  let ch := {| operation := ADD; base := "modbus" |} in
  let h n := {| config := config example_holder; dirty := true; base_path := ""; sent := repeat ch n |} in
  ws_run 1 (h 130%nat) (WsOpen 0) = ([], WsClosed) /\
  ws_run 3 (h 3%nat) (WsOpen 0) = ([ch; ch; ch], WsOpen 3).
Proof.
  cbv zeta. split.
  - apply (ws_forwards_or_closes _ 0); cbn; lia.
  - destruct (ws_forwards_or_closes {| config := config example_holder; dirty := true; base_path := "";
                                       sent := repeat {| operation := ADD; base := "modbus" |} 3 |} 0)
      as [Hd _]; [cbn; lia|].
    destruct Hd as [Hd _]; [cbn; lia|]. exact Hd.
Defined.

Definition example_api : ApiState :=
  {| holder := example_holder; fsys := example_fs; mqtt_health := MqttHealthStatus_new; clock := 0;
     sockets := [] |}.

(** Witness of [serve_add_hub]: hub [a] posted to the example state. *)
Lemma serve_add_hub_witness :
  exists st', serve (fun _ => "") POST "/api/v1/modbus" (Some (example_hub "a")) example_api =
    ROk (st', Created201 "Created") /\ hubs (modbus (config (holder st'))) = [example_hub "a"].
Proof.
  destruct (serve_add_hub (fun _ => "") (example_hub "a") example_api) as (st' & E & Hh & _); [reflexivity|].
  exists st'. split; [exact E|exact Hh].
Defined.

End Api.
