(* ===== verification/Main.v ===== *)
(** The program's start-up and supervision (main.rs): the tasks [main]
    spawns, in order; the Victron managers it starts (one per enabled
    Victron configuration, each of which reads the whole [victron]
    section in [VictronManager::new]); the task that saves the
    configuration every minute when it is dirty; the uptime task; and
    the loop that aborts every task once one has finished. *)

From S2P Require Import Prelude.
From S2P Require Import Config.
From S2P Require Import Bridge.
From S2P Require Import Victron.

Module Main.

Import Config Bridge Victron.

(** The tasks of [main], by kind. *)
Inductive MainTask : Type :=
| TMqtt | TModbus | TOms | TIec62056 | TSml | TVictron (c : VictronConfig)
| TApi | TDirtySaver | TUptime | TCommand.

(** The tasks spawned, in the order of main.rs: one Victron manager per
    enabled entry of the [victron] section read at start-up. *)
Definition main_tasks (h : ConfigHolder) : list MainTask :=
  [TMqtt; TModbus; TOms; TIec62056; TSml] ++
  map TVictron (List.filter victron_enabled (victron (config h))) ++
  [TApi; TDirtySaver; TUptime; TCommand].

(** The Victron managers: each is [VictronManager::new] on the same
    holder, whatever entry it was started for. *)
Definition main_victron_managers (h : ConfigHolder) : list (res Empty_set VicState) :=
  map (fun _ => vic_new h) (List.filter victron_enabled (victron (config h))).

(** The broker connections a manager opens in its first spawn round. *)
Definition first_round_connections (h : ConfigHolder) (m : res Empty_set VicState) : nat :=
  match m with
  | ROk s0 => match vic_step h s0 with Some (ROk s1) => List.length (vreqs s1) | _ => 0 end
  | _ => 0
  end.

(** One round of the dirty-save task: [if c.is_dirty() { c.save() }]. *)
Definition main_save_tick (to_yaml : Config -> string) (st : FileSystem * ConfigHolder) : FileSystem * ConfigHolder :=
  let '(fs, h) := st in if is_dirty h then save to_yaml fs h else (fs, h).

(** The uptime task publishes at start and then at every tick of
    [interval(Duration::from_secs(10))]: the times, in seconds, of the
    first [n] ticks after the start. *)
Definition uptime_times (n : nat) : list Z := map (fun k => 10 * Z.of_nat k) (seq 0 (S n)).

(** mqtt/mod.rs [AppStatus], read by the uptime task: the start
    [Instant] (in seconds) and the health record. *)
Record AppStatus : Type := mkAppStatus { start_time : Z; app_mqtt_health : MqttHealthStatus }.

(** [AppStatus::new]: [Instant::now()] is [now]. *)
Definition AppStatus_new (now : Z) : AppStatus :=
  {| start_time := now; app_mqtt_health := MqttHealthStatus_new |}.

(** [uptime_seconds]: [start_time.elapsed().as_secs()]. *)
Definition uptime_seconds (now : Z) (a : AppStatus) : Z := now - start_time a.

(** The publications of the uptime task started at [t0]: one per time
    of [uptime_times], each [publish_uptime] of the uptime then. *)
Definition uptime_task (a : AppStatus) (t0 : Z) (n : nat) : list Transmission :=
  map (fun t => publish_uptime (uptime_seconds (t0 + t) a)) (uptime_times n).

(** The supervision loop: any finished task makes [main] abort all and
    return. *)
Definition main_monitor (finished : list bool) : bool := existsb (fun b => b) finished.

(** ** Lemmas *)

Lemma vic_spawn_reqs_length cs : List.length (snd (vic_spawn cs)) = List.length (List.filter victron_enabled cs).
Proof.
  induction cs as [|c cs IH]; [done|]. cbn.
  destruct (vic_spawn cs) as [[n ts] rqs]. cbn in IH.
  destruct (victron_enabled c); cbn; lia.
Qed.

Lemma first_round_connections_new h :
  List.filter victron_enabled (victron (config h)) <> [] ->
  first_round_connections h (vic_new h) = List.length (List.filter victron_enabled (victron (config h))).
Proof.
  intros Hne. unfold first_round_connections, vic_new. rewrite get_config_or_panic_victron. cbn.
  rewrite bool_decide_false.
  2:{ intros He. apply Hne. rewrite He. done. }
  cbn. destruct (vic_spawn (victron (config h))) as [[n ts] rqs] eqn:E. cbn.
  pose proof (vic_spawn_reqs_length (victron (config h))) as Hl. rewrite E in Hl. exact Hl.
Qed.

Lemma list_sum_map_const {A} (f : A -> nat) (l : list A) k :
  (forall x, x ∈ l -> f x = k) -> list_sum (map f l) = (List.length l * k)%nat.
Proof.
  induction l as [|x l IH]; intros Hf; [done|].
  change (list_sum (map f (x :: l))) with (f x + list_sum (map f l))%nat.
  rewrite (Hf x) by set_solver. rewrite IH by set_solver. cbn [List.length]. lia.
Qed.

(** The [k]-th uptime publication carries the uptime at [t0 + 10 k]. *)
Lemma uptime_task_nth a t0 n k :
  (k <= n)%nat ->
  nth k (uptime_task a t0 n) (publish_uptime 0) = publish_uptime (t0 - start_time a + 10 * Z.of_nat k).
Proof.
  intros Hk. unfold uptime_task, uptime_times. rewrite map_map.
  set (f := fun k : nat => publish_uptime (uptime_seconds (t0 + 10 * Z.of_nat k) a)).
  rewrite (nth_indep _ _ (f 0%nat)) by (rewrite length_map, length_seq; lia).
  rewrite map_nth, seq_nth by lia. subst f. cbn beta. unfold uptime_seconds. f_equal. lia.
Qed.

(** ** Properties *)

(** C12: With [k] enabled Victron configurations, [main] starts [k]
    Victron managers and each reads the whole [victron] section, so
    their first spawn rounds open [k * k] broker connections: every GX
    device is connected to, and read and reported, [k] times. *)
Theorem victron_connections_quadratic h :
  let k := List.length (List.filter victron_enabled (victron (config h))) in
  List.length (main_victron_managers h) = k /\
  list_sum (map (first_round_connections h) (main_victron_managers h)) = (k * k)%nat.
Proof.
  cbv zeta. unfold main_victron_managers. rewrite length_map. split; [done|].
  destruct (List.filter victron_enabled (victron (config h))) as [|c cs] eqn:E; [done|].
  rewrite map_map, <- E. apply list_sum_map_const. intros x _.
  apply first_round_connections_new. by rewrite E.
Qed.

(** The uptime is published at start and then every 10 seconds (the
    comment says every minute): the [k]-th publication is at [10 k] s. *)
Theorem uptime_every_ten_seconds n k :
  (k <= n)%nat -> List.length (uptime_times n) = S n /\ nth k (uptime_times n) 0 = 10 * Z.of_nat k.
Proof.
  intros Hk. unfold uptime_times. rewrite length_map, length_seq. split; [done|].
  rewrite (nth_indep _ 0 (10 * Z.of_nat 0)) by (rewrite length_map, length_seq; lia).
  change (10 * Z.of_nat 0) with ((fun k : nat => 10 * Z.of_nat k) 0%nat).
  rewrite map_nth, seq_nth by lia. reflexivity.
Qed.

(** ** Witnesses *)

(** Witness of [uptime_every_ten_seconds]: the 6th publication of the
    first minute is at 60 s. *)
Lemma uptime_every_ten_seconds_witness : nth 6 (uptime_times 6) 0 = 60.
Proof. exact (proj2 (uptime_every_ten_seconds 6 6 ltac:(lia))). Defined.

End Main.
